(** * couchdb_manager: a shallow embedding of [couchdb_manager.py]

    The program is a Tk desktop client for a CouchDB server.  Every button
    handler is a short synchronous script: read some widgets, perform one or
    two HTTP requests, update widgets, report through a message box and the
    status bar.  The embedding follows that shape:

    - Python strings are sequences of code points ([PyStr]);
    - JSON values, [json.dumps] and [json.loads] are modelled after CPython's
      [json] package ([Json]);
    - handlers are programs in a state-and-exception monad over the window's
      fields ([Py]), with the HTTP server and the operator as oracles whose
      exchanges are recorded in the state;
    - the two window classes are the modules [CouchDBManager] and
      [BrowseWindow]. *)

From Stdlib Require Import String Ascii.
From Stdlib Require Import List NArith ZArith Bool Lia.
Import ListNotations.

(** [length], [concat] and the like are the list functions throughout. *)
Abbreviation length := Datatypes.length.

Set Implicit Arguments.

(* ===================================================================== *)
(** * Python strings *)
(* ===================================================================== *)

Module PyStr.

(** A Python [str] is a sequence of code points. *)
Abbreviation pychar := N.
Abbreviation pystr := (list N).

(** String literals of the source. *)
Definition lit (s : string) : pystr := map N_of_ascii (list_ascii_of_string s).
Arguments lit s%_string.

Definition chr (a : ascii) : pychar := N_of_ascii a.
Arguments chr a%_char.

Fixpoint str_eqb (a b : pystr) : bool :=
  match a, b with
  | [], [] => true
  | x :: a', y :: b' => N.eqb x y && str_eqb a' b'
  | _, _ => false
  end.

(** [s.startswith(p)] *)
Fixpoint startswith (s p : pystr) {struct p} : bool :=
  match p, s with
  | [], _ => true
  | y :: p', x :: s' => N.eqb x y && startswith s' p'
  | _ :: _, [] => false
  end.

(** [sub in s] *)
Fixpoint contains (s sub : pystr) : bool :=
  startswith s sub ||
  match s with
  | [] => false
  | _ :: s' => contains s' sub
  end.

(** [s.replace(old, new)] for a non-empty [old]: every non-overlapping
    occurrence, leftmost first.  [skip] counts the characters of a matched
    occurrence that are still to be dropped. *)
Fixpoint replace_from (old new s : pystr) (skip : nat) : pystr :=
  match s with
  | [] => []
  | c :: s' =>
      match skip with
      | S k => replace_from old new s' k
      | O => if startswith s old
             then new ++ replace_from old new s' (length old - 1)
             else c :: replace_from old new s' 0
      end
  end.

Definition replace (s old new : pystr) : pystr := replace_from old new s 0.

(** [str.isspace] on one code point: the characters [str.strip()] removes. *)
Definition isspace (c : pychar) : bool :=
  ((9 <=? c) && (c <=? 13) || (28 <=? c) && (c <=? 32) ||
   (c =? 133) || (c =? 160) || (c =? 5760) ||
   (8192 <=? c) && (c <=? 8202) || (c =? 8232) || (c =? 8233) ||
   (c =? 8239) || (c =? 8287) || (c =? 12288))%N.

Fixpoint lstrip_by (p : pychar -> bool) (s : pystr) : pystr :=
  match s with
  | c :: s' => if p c then lstrip_by p s' else s
  | [] => []
  end.

Definition rstrip_by (p : pychar -> bool) (s : pystr) : pystr :=
  rev (lstrip_by p (rev s)).

(** [s.strip()] *)
Definition strip (s : pystr) : pystr := rstrip_by isspace (lstrip_by isspace s).

(** [s.rstrip('/')] *)
Definition rstrip_slash (s : pystr) : pystr := rstrip_by (N.eqb (chr "/")) s.

(** [s.split(sep)] for a one-character separator: never the empty list. *)
Fixpoint split (sep : pychar) (s : pystr) : list pystr :=
  match s with
  | [] => [[]]
  | c :: s' =>
      if N.eqb c sep then [] :: split sep s'
      else match split sep s' with
           | w :: ws => (c :: w) :: ws
           | [] => [[c]]
           end
  end.

(** [sep.join(parts)] *)
Fixpoint join (sep : pystr) (parts : list pystr) : pystr :=
  match parts with
  | [] => []
  | [p] => p
  | p :: ps => p ++ sep ++ join sep ps
  end.

(** [s[:n]] *)
Definition upto (n : nat) (s : pystr) : pystr := firstn n s.

(** Decimal digits of a natural number, most significant first.  [fuel]
    bounds the number of digits. *)
Fixpoint digits_fuel (fuel : nat) (n : N) (acc : pystr) : pystr :=
  match fuel with
  | O => acc
  | S f =>
      let acc' := (48 + n mod 10)%N :: acc in
      if (n <? 10)%N then acc' else digits_fuel f (n / 10)%N acc'
  end.

Definition str_of_N (n : N) : pystr := digits_fuel (S (N.to_nat (N.log2 n))) n [].

(** [str(i)] for an [int]. *)
Definition str_of_Z (z : Z) : pystr :=
  match z with
  | Zneg p => chr "-" :: str_of_N (Npos p)
  | _ => str_of_N (Z.to_N z)
  end.

Definition str_of_nat (n : nat) : pystr := str_of_N (N.of_nat n).

End PyStr.
Import PyStr.

Arguments lit : simpl never.
Arguments strip : simpl never.
Arguments rstrip_slash : simpl never.
Arguments str_of_N : simpl never.
Arguments str_of_Z : simpl never.
Arguments str_of_nat : simpl never.
Arguments upto : simpl never.

(** A literal with double quotes in it, written with apostrophes. *)
Definition lit_dq (s : string) : pystr :=
  map (fun c => if (c =? 39)%N then 34%N else c) (lit s).
Arguments lit_dq s%_string.

(* ===================================================================== *)
(** * The Python runtime that the program relies on *)
(* ===================================================================== *)

(** Binary floating point is not modelled.  A Python [float] is carried by
    the text [json.dumps] prints for it (the shortest [repr] that reads back
    as the same float, or one of [NaN], [Infinity], [-Infinity]);
    [float_canon l] is that text for the float denoted by the JSON number
    lexeme [l], that is [json.dumps(float(l))]. *)
Class PyFloat := { float_canon : pystr -> pystr }.

(* ===================================================================== *)
(** * JSON values, [json.dumps] and [json.loads] *)
(* ===================================================================== *)

Module Json.

(** The values [json.loads] builds, which are also the Python values the
    handlers pass around: [None], [bool], [int], [float], [str], [list] and
    [dict] with [str] keys.  A [dict] keeps its insertion order. *)
Unset Elimination Schemes.
Inductive json : Type :=
| JNull
| JBool (b : bool)
| JInt (z : Z)
| JFloat (r : pystr)
| JStr (s : pystr)
| JArr (items : list json)
| JObj (members : list (pystr * json)).
Set Elimination Schemes.

Section JsonInd.
Variable P : json -> Prop.
Hypothesis Hnull : P JNull.
Hypothesis Hbool : forall b, P (JBool b).
Hypothesis Hint : forall z, P (JInt z).
Hypothesis Hfloat : forall r, P (JFloat r).
Hypothesis Hstr : forall s, P (JStr s).
Hypothesis Harr : forall items, Forall P items -> P (JArr items).
Hypothesis Hobj : forall members,
      Forall (fun kv => P (snd kv)) members -> P (JObj members).

Fixpoint json_ind (v : json) : P v :=
    match v with
    | JNull => Hnull
    | JBool b => Hbool b
    | JInt z => Hint z
    | JFloat r => Hfloat r
    | JStr s => Hstr s
    | JArr items =>
        Harr ((fix all (l : list json) : Forall P l :=
                 match l with
                 | [] => Forall_nil _
                 | x :: l' => Forall_cons x (json_ind x) (all l')
                 end) items)
    | JObj members =>
        Hobj ((fix all (l : list (pystr * json)) :
                 Forall (fun kv => P (snd kv)) l :=
                 match l with
                 | [] => Forall_nil _
                 | kv :: l' => Forall_cons kv (json_ind (snd kv)) (all l')
                 end) members)
    end.
End JsonInd.

(** ** Dictionaries

    A [dict] is an association list in insertion order without repeated
    keys; [eqb] is the equality of its keys. *)
Section Dict.
Variables K V : Type.
Variable eqb : K -> K -> bool.

  (** [d.get(k)] *)
Fixpoint dict_get (k : K) (d : list (K * V)) : option V :=
    match d with
    | [] => None
    | (k', v) :: d' => if eqb k' k then Some v else dict_get k d'
    end.

  (** [d[k] = v]: an existing key keeps its place. *)
Fixpoint dict_set (k : K) (v : V) (d : list (K * V)) : list (K * V) :=
    match d with
    | [] => [(k, v)]
    | (k', v') :: d' =>
        if eqb k' k then (k', v) :: d' else (k', v') :: dict_set k v d'
    end.

  (** [del d[k]] *)
Fixpoint dict_del (k : K) (d : list (K * V)) : list (K * V) :=
    match d with
    | [] => []
    | (k', v') :: d' => if eqb k' k then d' else (k', v') :: dict_del k d'
    end.

  (** [dict(pairs)] *)
Definition dict_of_pairs (pairs : list (K * V)) : list (K * V) :=
    fold_left (fun d kv => dict_set (fst kv) (snd kv) d) pairs [].
End Dict.

(** [v.get(key, default)] on a value that is a [dict]. *)
Definition obj_get (key : pystr) (default : json) (members : list (pystr * json)) : json :=
  match dict_get str_eqb key members with
  | Some v => v
  | None => default
  end.

(** Structural equality of values. *)
Fixpoint json_eqb (a b : json) : bool :=
  match a, b with
  | JNull, JNull => true
  | JBool x, JBool y => Bool.eqb x y
  | JInt x, JInt y => Z.eqb x y
  | JFloat x, JFloat y => str_eqb x y
  | JStr x, JStr y => str_eqb x y
  | JArr xs, JArr ys =>
      (fix all (xs ys : list json) : bool :=
         match xs, ys with
         | [], [] => true
         | x :: xs', y :: ys' => json_eqb x y && all xs' ys'
         | _, _ => false
         end) xs ys
  | JObj xs, JObj ys =>
      (fix all (xs ys : list (pystr * json)) : bool :=
         match xs, ys with
         | [], [] => true
         | (k, x) :: xs', (k', y) :: ys' =>
             str_eqb k k' && json_eqb x y && all xs' ys'
         | _, _ => false
         end) xs ys
  | _, _ => false
  end.

(** Truth value of a Python object in a condition. *)
Definition truthy (v : json) : bool :=
  match v with
  | JNull => false
  | JBool b => b
  | JInt z => negb (Z.eqb z 0)
  | JFloat r => negb (str_eqb r (lit "0.0") || str_eqb r (lit "-0.0"))
  | JStr s => negb (str_eqb s [])
  | JArr items => match items with [] => false | _ => true end
  | JObj members => match members with [] => false | _ => true end
  end.

(** ** Encoding: [json.dumps] with [ensure_ascii] *)

Definition hexdigit (d : N) : pychar := (if d <? 10 then 48 + d else 87 + d)%N.

(** ['{0:04x}'.format(n)] for [n < 0x10000] *)
Definition hex4 (n : N) : pystr :=
  [hexdigit (n / 4096 mod 16); hexdigit (n / 256 mod 16);
   hexdigit (n / 16 mod 16); hexdigit (n mod 16)]%N.

Definition backslash : pychar := 92%N.
Definition dquote : pychar := 34%N.

(** ['\\u{0:04x}'.format(n)] *)
Definition u_escape (n : N) : pystr := backslash :: chr "u" :: hex4 n.

(** The replacement of one character by [encode_basestring_ascii]:
    [ESCAPE_DCT] first, printable ASCII unchanged, the rest as [\uXXXX],
    code points from [0x10000] on as a surrogate pair. *)
Definition encode_char (c : pychar) : pystr :=
  (if c =? dquote then [backslash; dquote]
   else if c =? backslash then [backslash; backslash]
   else if c =? 10 then [backslash; chr "n"]
   else if c =? 13 then [backslash; chr "r"]
   else if c =? 9 then [backslash; chr "t"]
   else if c =? 8 then [backslash; chr "b"]
   else if c =? 12 then [backslash; chr "f"]
   else if (32 <=? c) && (c <=? 126) then [c]
   else if c <? 65536 then u_escape c
   else
     let n := c - 65536 in
     let s1 := N.lor 55296 (N.land (N.shiftr n 10) 1023) in
     let s2 := N.lor 56320 (N.land n 1023) in
     u_escape s1 ++ u_escape s2)%N.

Definition encode_basestring_ascii (s : pystr) : pystr :=
  dquote :: flat_map encode_char s ++ [dquote].

(** ['\n' + ' ' * (indent * level)], or nothing without [indent]. *)
Definition newline_indent (indent : option nat) (level : nat) : pystr :=
  match indent with
  | Some k => 10%N :: repeat 32%N (k * level)
  | None => []
  end.

(** [item_separator]: [','] when [indent] is given, [', '] otherwise. *)
Definition item_separator (indent : option nat) : pystr :=
  match indent with
  | Some _ => lit ","
  | None => lit ", "
  end.

Definition key_separator : pystr := lit ": ".

(** [_iterencode] of [json.encoder], the chunks concatenated. *)
Fixpoint encode (indent : option nat) (level : nat) (v : json) : pystr :=
  match v with
  | JNull => lit "null"
  | JBool true => lit "true"
  | JBool false => lit "false"
  | JInt z => str_of_Z z
  | JFloat r => r
  | JStr s => encode_basestring_ascii s
  | JArr [] => lit "[]"
  | JArr items =>
      lit "[" ++ newline_indent indent (S level) ++
      join (item_separator indent ++ newline_indent indent (S level))
           (map (encode indent (S level)) items) ++
      newline_indent indent level ++ lit "]"
  | JObj [] => lit "{}"
  | JObj members =>
      lit "{" ++ newline_indent indent (S level) ++
      join (item_separator indent ++ newline_indent indent (S level))
           (map (fun kv => encode_basestring_ascii (fst kv) ++ key_separator ++
                           encode indent (S level) (snd kv)) members) ++
      newline_indent indent level ++ lit "}"
  end.

(** [json.dumps(v)] and [json.dumps(v, indent=k)] *)
Definition dumps (v : json) : pystr := encode None 0 v.
Definition dumps_indent (k : nat) (v : json) : pystr := encode (Some k) 0 v.

(** [allow_nan=False] refuses these. *)
Definition is_nonfinite (r : pystr) : bool :=
  str_eqb r (lit "NaN") || str_eqb r (lit "Infinity") || str_eqb r (lit "-Infinity").

Fixpoint has_nonfinite (v : json) : bool :=
  match v with
  | JFloat r => is_nonfinite r
  | JArr items => existsb has_nonfinite items
  | JObj members => existsb (fun kv => has_nonfinite (snd kv)) members
  | _ => false
  end.

(** ** Decoding: [json.loads] *)

(** [WHITESPACE = re.compile(r'[ \t\n\r]*')] *)
Definition is_ws (c : pychar) : bool :=
  ((c =? 32) || (c =? 9) || (c =? 10) || (c =? 13))%N.

Definition skip_ws (s : pystr) : pystr := lstrip_by is_ws s.

Definition is_digit (c : pychar) : bool := ((48 <=? c) && (c <=? 57))%N.

(** Value of a hexadecimal digit, of either case. *)
Definition hexval (c : pychar) : option N :=
  (if (48 <=? c) && (c <=? 57) then Some (c - 48)
   else if (97 <=? c) && (c <=? 102) then Some (c - 87)
   else if (65 <=? c) && (c <=? 70) then Some (c - 55)
   else None)%N.

(** [_decode_uXXXX]: exactly four hexadecimal digits. *)
Definition decode_hex4 (s : pystr) : option (N * pystr) :=
  match s with
  | a :: b :: c :: d :: rest =>
      match hexval a, hexval b, hexval c, hexval d with
      | Some x3, Some x2, Some x1, Some x0 =>
          Some (((x3 * 16 + x2) * 16 + x1) * 16 + x0, rest)%N
      | _, _, _, _ => None
      end
  | _ => None
  end.

(** The [BACKSLASH] table. *)
Definition simple_escape (e : pychar) : option pychar :=
  (if e =? dquote then Some dquote
   else if e =? backslash then Some backslash
   else if e =? 47 then Some 47
   else if e =? 98 then Some 8
   else if e =? 102 then Some 12
   else if e =? 110 then Some 10
   else if e =? 114 then Some 13
   else if e =? 116 then Some 9
   else None)%N.

Definition is_high_surrogate (u : N) : bool := ((55296 <=? u) && (u <=? 56319))%N.
Definition is_low_surrogate (u : N) : bool := ((56320 <=? u) && (u <=? 57343))%N.

(** [0x10000 + (((uni - 0xd800) << 10) | (uni2 - 0xdc00))] *)
Definition join_surrogates (u u2 : N) : N :=
  (65536 + N.lor (N.shiftl (u - 55296) 10) (u2 - 56320))%N.

Definition cons_char (c : pychar) (r : option (pystr * pystr)) : option (pystr * pystr) :=
  match r with
  | Some (chars, rest) => Some (c :: chars, rest)
  | None => None
  end.

(** [scanstring] in strict mode, started after the opening quote: the
    decoded string and the text after the closing quote.  Every step
    consumes input, so [fuel] above the length of the text is enough. *)
Fixpoint scanstring_fuel (fuel : nat) (s : pystr) : option (pystr * pystr) :=
  match fuel with
  | O => None
  | S f =>
      match s with
      | [] => None
      | c :: s1 =>
          if (c =? dquote)%N then Some ([], s1)
          else if (c =? backslash)%N then
            match s1 with
            | [] => None
            | e :: s2 =>
                if (e =? chr "u")%N then
                  match decode_hex4 s2 with
                  | None => None
                  | Some (uni, s3) =>
                      if is_high_surrogate uni && startswith s3 [backslash; chr "u"]
                      then
                        match decode_hex4 (skipn 2 s3) with
                        | None => None
                        | Some (uni2, s4) =>
                            if is_low_surrogate uni2
                            then cons_char (join_surrogates uni uni2) (scanstring_fuel f s4)
                            else cons_char uni (scanstring_fuel f s3)
                        end
                      else cons_char uni (scanstring_fuel f s3)
                  end
                else
                  match simple_escape e with
                  | None => None
                  | Some ch => cons_char ch (scanstring_fuel f s2)
                  end
            end
          else if (c <? 32)%N then None
          else cons_char c (scanstring_fuel f s1)
      end
  end.

Definition scanstring (s : pystr) : option (pystr * pystr) :=
  scanstring_fuel (S (length s)) s.

(** The longest run of decimal digits at the head of the text. *)
Fixpoint span_digits (s : pystr) : pystr * pystr :=
  match s with
  | c :: s' =>
      if is_digit c then let (ds, rest) := span_digits s' in (c :: ds, rest)
      else ([], s)
  | [] => ([], [])
  end.

(** [NUMBER_RE], group by group: an integer part (an optional minus sign,
    then a single zero or a non-zero digit and a run of digits), an optional
    fraction (a dot and at least one digit) and an optional exponent ([e]
    or [E], an optional sign and at least one digit). *)
Definition lex_digits1 (s : pystr) : option (pystr * pystr) :=
  match s with
  | c :: s' =>
      if (c =? 48)%N then Some ([c], s')
      else if is_digit c then let (ds, rest) := span_digits s' in Some (c :: ds, rest)
      else None
  | [] => None
  end.

Definition lex_int (s : pystr) : option (pystr * pystr) :=
  match s with
  | c :: s' =>
      if (c =? chr "-")%N then
        match lex_digits1 s' with
        | Some (ds, rest) => Some (c :: ds, rest)
        | None => None
        end
      else lex_digits1 s
  | [] => None
  end.

Definition lex_frac (s : pystr) : pystr * pystr :=
  match s with
  | c :: s' =>
      if (c =? chr ".")%N then
        match span_digits s' with
        | (d :: ds, rest) => (c :: d :: ds, rest)
        | ([], _) => ([], s)
        end
      else ([], s)
  | [] => ([], s)
  end.

Definition lex_exp (s : pystr) : pystr * pystr :=
  match s with
  | c :: s' =>
      if ((c =? chr "e") || (c =? chr "E"))%N then
        match s' with
        | g :: s'' =>
            if ((g =? chr "+") || (g =? chr "-"))%N then
              match span_digits s'' with
              | (d :: ds, rest) => (c :: g :: d :: ds, rest)
              | ([], _) => ([], s)
              end
            else
              match span_digits s' with
              | (d :: ds, rest) => (c :: d :: ds, rest)
              | ([], _) => ([], s)
              end
        | [] => ([], s)
        end
      else ([], s)
  | [] => ([], s)
  end.

(** The three groups of a match: integer part, fraction and exponent
    together, and the text after the match. *)
Definition lex_number (s : pystr) : option (pystr * pystr * pystr) :=
  match lex_int s with
  | None => None
  | Some (int_part, r1) =>
      let (frac, r2) := lex_frac r1 in
      let (exp, r3) := lex_exp r2 in
      Some (int_part, frac ++ exp, r3)
  end.

(** [int(digits)] for a run of decimal digits. *)
Definition N_of_digits (ds : pystr) : N :=
  fold_left (fun acc d => (acc * 10 + (d - 48))%N) ds 0%N.

(** [int(integer)] for the first group of [NUMBER_RE]. *)
Definition int_of_lexeme (l : pystr) : Z :=
  match l with
  | c :: ds => if (c =? chr "-")%N then (- Z.of_N (N_of_digits ds))%Z
               else Z.of_N (N_of_digits l)
  | [] => 0%Z
  end.

(** ** The limits of the interpreter

    [json.loads] does not only return a value or raise [JSONDecodeError].
    Its scanner calls itself for every list and dict it enters, and the
    interpreter raises [RecursionError] when these calls are too many; and
    [int] raises [ValueError] on more digits than the interpreter converts
    (4300 unless this is changed; no limit in older versions).  Both limits
    belong to the interpreter that runs the program.

    The program does not change the recursion limit of a thousand frames
    and its handlers run a few frames below the main loop of Tk, so the
    scanner can enter a hundred lists or dicts, and [spare_nesting] more.
    [max_int_digits] is [0] where the interpreter has no limit.  One bound
    stands for every call of [json.loads] in the program: the few frames by
    which the calls differ are not told apart.  [json.dumps], which the
    program applies to values that [json.loads] has read or that it has
    built itself, is not bounded. *)
Class PyLimits := {
  spare_nesting : nat;
  max_int_digits : nat
}.

Definition max_nesting {lim : PyLimits} : nat := 100 + spare_nesting.

(** Why [json.loads] raises: [JSONDecodeError], [RecursionError] or
    [ValueError]. *)
Inductive failure : Type :=
| NotJson
| TooDeep
| TooManyDigits.

(** What a scanner makes of the head of a text: a value and the text
    after it, or the reason for which it raises. *)
Inductive parsed (A : Type) : Type :=
| Parsed (a : A) (rest : pystr)
| Stops (f : failure).
Arguments Parsed {A} a rest.
Arguments Stops {A} f.

Definition found {A} (r : option (A * pystr)) : parsed A :=
  match r with
  | Some (a, rest) => Parsed a rest
  | None => Stops NotJson
  end.

(** The digits of the first group of [NUMBER_RE]. *)
Definition lexeme_digits (l : pystr) : pystr :=
  match l with
  | c :: ds => if (c =? chr "-")%N then ds else l
  | [] => []
  end.

Section Decoder.
Context {pf : PyFloat} {lim : PyLimits}.

  (** [int(s)] refuses [s]. *)
Definition too_many_digits (digits : pystr) : bool :=
    match max_int_digits with
    | O => false
    | S _ => max_int_digits <? length digits
    end.

  (** A number: [int] without fraction and exponent, [float] otherwise. *)
Definition scan_number (s : pystr) : parsed json :=
    match lex_number s with
    | None => Stops NotJson
    | Some (int_part, [], rest) =>
        if too_many_digits (lexeme_digits int_part) then Stops TooManyDigits
        else Parsed (JInt (int_of_lexeme int_part)) rest
    | Some (int_part, tail, rest) => Parsed (JFloat (float_canon (int_part ++ tail))) rest
    end.

  (** A literal keyword at the head of the text. *)
Definition keyword (k : pystr) (v : json) (s : pystr) : option (json * pystr) :=
    if startswith s k then Some (v, skipn (length k) s) else None.

  (** [scan_once], [JSONArray] and [JSONObject].  [parse_elements] starts at
      an element of an array, [parse_members] after the opening quote of a
      key; both run to the closing bracket.  [depth] is the number of lists
      and dicts that the scanner is inside of: it enters another one only
      below [max_nesting]. *)
Fixpoint parse_value (fuel depth : nat) (s : pystr) {struct fuel} : parsed json :=
    match fuel with
    | O => Stops NotJson
    | S f =>
        match s with
        | [] => Stops NotJson
        | c :: s1 =>
            if (c =? dquote)%N then
              match scanstring s1 with
              | Some (str, rest) => Parsed (JStr str) rest
              | None => Stops NotJson
              end
            else if (c =? chr "{")%N then
              if max_nesting <=? depth then Stops TooDeep
              else
                match skip_ws s1 with
                | c2 :: s2 =>
                    if (c2 =? chr "}")%N then Parsed (JObj []) s2
                    else if (c2 =? dquote)%N then
                      match parse_members f (S depth) s2 with
                      | Parsed pairs rest => Parsed (JObj (dict_of_pairs str_eqb pairs)) rest
                      | Stops e => Stops e
                      end
                    else Stops NotJson
                | [] => Stops NotJson
                end
            else if (c =? chr "[")%N then
              if max_nesting <=? depth then Stops TooDeep
              else
                match skip_ws s1 with
                | c2 :: s2 =>
                    if (c2 =? chr "]")%N then Parsed (JArr []) s2
                    else
                      match parse_elements f (S depth) (c2 :: s2) with
                      | Parsed items rest => Parsed (JArr items) rest
                      | Stops e => Stops e
                      end
                | [] => Stops NotJson
                end
            else if (c =? chr "n")%N then found (keyword (lit "null") JNull s)
            else if (c =? chr "t")%N then found (keyword (lit "true") (JBool true) s)
            else if (c =? chr "f")%N then found (keyword (lit "false") (JBool false) s)
            else
              match scan_number s with
              | Parsed v rest => Parsed v rest
              | Stops NotJson =>
                  if (c =? chr "N")%N then found (keyword (lit "NaN") (JFloat (lit "NaN")) s)
                  else if (c =? chr "I")%N
                  then found (keyword (lit "Infinity") (JFloat (lit "Infinity")) s)
                  else if (c =? chr "-")%N
                  then found (keyword (lit "-Infinity") (JFloat (lit "-Infinity")) s)
                  else Stops NotJson
              | Stops e => Stops e
              end
        end
    end
  with parse_elements (fuel depth : nat) (s : pystr) {struct fuel} : parsed (list json) :=
    match fuel with
    | O => Stops NotJson
    | S f =>
        match parse_value f depth s with
        | Stops e => Stops e
        | Parsed v r1 =>
            match skip_ws r1 with
            | c :: r2 =>
                if (c =? chr "]")%N then Parsed [v] r2
                else if (c =? chr ",")%N then
                  match parse_elements f depth (skip_ws r2) with
                  | Parsed vs rest => Parsed (v :: vs) rest
                  | Stops e => Stops e
                  end
                else Stops NotJson
            | [] => Stops NotJson
            end
        end
    end
  with parse_members (fuel depth : nat) (s : pystr) {struct fuel}
       : parsed (list (pystr * json)) :=
    match fuel with
    | O => Stops NotJson
    | S f =>
        match scanstring s with
        | None => Stops NotJson
        | Some (key, r1) =>
            match skip_ws r1 with
            | c :: r2 =>
                if (c =? chr ":")%N then
                  match parse_value f depth (skip_ws r2) with
                  | Stops e => Stops e
                  | Parsed v r3 =>
                      match skip_ws r3 with
                      | c2 :: r4 =>
                          if (c2 =? chr "}")%N then Parsed [(key, v)] r4
                          else if (c2 =? chr ",")%N then
                            match skip_ws r4 with
                            | c3 :: r5 =>
                                if (c3 =? dquote)%N then
                                  match parse_members f depth r5 with
                                  | Parsed kvs rest => Parsed ((key, v) :: kvs) rest
                                  | Stops e => Stops e
                                  end
                                else Stops NotJson
                            | [] => Stops NotJson
                            end
                          else Stops NotJson
                      | [] => Stops NotJson
                      end
                  end
                else Stops NotJson
            | [] => Stops NotJson
            end
        end
    end.

  (** [json.loads(s)] for a [str]: the value it returns, or why it raises.
      A leading byte-order mark is refused, white space around the value is
      skipped, and nothing may follow it.  The fuel only bounds the
      recursion: a list or a dict takes two calls and at least one
      character, so twice the length of the text is never used up. *)
Definition loads_outcome (s : pystr) : json + failure :=
    if startswith s [65279%N] then inr NotJson
    else
      match parse_value (S (2 * length s)) 0 (skip_ws s) with
      | Parsed v rest =>
          match skip_ws rest with
          | [] => inl v
          | _ :: _ => inr NotJson
          end
      | Stops e => inr e
      end.

  (** The value [json.loads(s)] returns; [None] when it raises. *)
Definition loads (s : pystr) : option json :=
    match loads_outcome s with
    | inl v => Some v
    | inr _ => None
    end.
End Decoder.

End Json.
Import Json.

(* ===================================================================== *)
(** * Exceptions, HTTP, message boxes and the handler monad *)
(* ===================================================================== *)

Module Py.

(** The exceptions the handlers can meet. *)
Inductive exn : Type :=
| JSONDecodeError (doc : pystr)       (* json.loads on text that is not JSON *)
| HTTPError (status : Z)              (* resp.raise_for_status() *)
| TransportError (detail : pystr)     (* requests.get/put/post/delete raised *)
| InvalidJSONError                    (* requests: a payload with NaN or Infinity *)
| ResponseDecodeError (body : pystr)  (* resp.json() on a body that is not JSON *)
| AttributeError (v : json) (attr : pystr)
| TypeError (v : json)
| IndexError
| TclError
| RecursionError                      (* json.loads on text nested too deep *)
| ValueError.                         (* json.loads on an integer of too many digits *)

(** [isinstance(e, requests.exceptions.RequestException)] *)
Definition is_RequestException (e : exn) : bool :=
  match e with
  | HTTPError _ | TransportError _ | InvalidJSONError | ResponseDecodeError _ => true
  | _ => false
  end.

(** [isinstance(e, json.JSONDecodeError)] *)
Definition is_JSONDecodeError (e : exn) : bool :=
  match e with
  | JSONDecodeError _ | ResponseDecodeError _ => true
  | _ => false
  end.

(** [type(e).__name__] *)
Definition exn_name (e : exn) : pystr :=
  match e with
  | JSONDecodeError _ => lit "JSONDecodeError"
  | HTTPError _ => lit "HTTPError"
  | TransportError _ => lit "ConnectionError"
  | InvalidJSONError => lit "InvalidJSONError"
  | ResponseDecodeError _ => lit "JSONDecodeError"
  | AttributeError _ _ => lit "AttributeError"
  | TypeError _ => lit "TypeError"
  | IndexError => lit "IndexError"
  | TclError => lit "TclError"
  | RecursionError => lit "RecursionError"
  | ValueError => lit "ValueError"
  end.

(** Text that the interpreter and its libraries produce and the program only
    passes on: [str(e)] of an exception, [str(v)] of a list or a dict,
    [s.lower()], [traceback.format_exc()]. *)
Class PyText := {
  exn_str : exn -> pystr;
  value_str : json -> pystr;
  str_lower : pystr -> pystr;
  format_exc : exn -> pystr
}.

(** [str(v)], and [v] inside an f-string. *)
Definition format_value {pt : PyText} (v : json) : pystr :=
  match v with
  | JNull => lit "None"
  | JBool true => lit "True"
  | JBool false => lit "False"
  | JInt z => str_of_Z z
  | JFloat r =>
      if str_eqb r (lit "NaN") then lit "nan"
      else if str_eqb r (lit "Infinity") then lit "inf"
      else if str_eqb r (lit "-Infinity") then lit "-inf"
      else r
  | JStr s => s
  | JArr _ | JObj _ => value_str v
  end.

(** ** HTTP *)

Inductive method : Type := GET | PUT | POST | DELETE.

(** [HTTPBasicAuth(user, password)] *)
Abbreviation credentials := (pystr * pystr)%type.

Record request : Type := {
  req_method : method;
  req_url : pystr;
  req_json : option json;
  req_auth : credentials
}.

Record response : Type := {
  status_code : Z;
  text : pystr
}.

(** What comes of a request: an answer, or an exception of [requests]. *)
Inductive outcome : Type :=
| Responds (r : response)
| Fails (detail : pystr).

(** The server and the network: the outcome of a request, given the
    requests made before it (latest last). *)
Class Network := { serve : list request -> request -> outcome }.

(** ** What the operator sees *)

Inductive ui_event : Type :=
| ShowInfo (title msg : pystr)
| ShowWarning (title msg : pystr)
| ShowError (title msg : pystr)
| AskYesNo (title msg : pystr) (answer : bool)
| Printed (msg : pystr).

Definition is_ShowError (e : ui_event) : bool :=
  match e with ShowError _ _ => true | _ => false end.

Definition is_Printed (e : ui_event) : bool :=
  match e with Printed _ => true | _ => false end.

(** ** State and exceptions

    A handler runs on the fields [W] of its window, the exchanges with the
    server so far and the messages shown so far (both oldest first). *)
Record gui (W : Type) : Type := {
  exchanges : list (request * outcome);
  shown : list ui_event;
  win : W
}.

Inductive result (A : Type) : Type :=
| Ok (a : A)
| Raised (e : exn).
Arguments Raised {A} e.

Definition M (W A : Type) : Type := gui W -> result A * gui W.

Definition ret {W A} (a : A) : M W A := fun g => (Ok a, g).

Definition bind {W A B} (m : M W A) (k : A -> M W B) : M W B :=
  fun g => match m g with
           | (Ok a, g') => k a g'
           | (Raised e, g') => (Raised e, g')
           end.

Definition raise {W A} (e : exn) : M W A := fun g => (Raised e, g).

(** [try: body / except Exception as e: handler e] *)
Definition try_except {W A} (body : M W A) (handler : exn -> M W A) : M W A :=
  fun g => match body g with
           | (Ok a, g') => (Ok a, g')
           | (Raised e, g') => handler e g'
           end.

(** The three ways a handler changes its state. *)
Definition with_win {W} (f : W -> W) (g : gui W) : gui W :=
  {| exchanges := exchanges g; shown := shown g; win := f (win g) |}.

Definition after_showing {W} (e : ui_event) (g : gui W) : gui W :=
  {| exchanges := exchanges g; shown := shown g ++ [e]; win := win g |}.

Definition after_exchange {W} (r : request) (o : outcome) (g : gui W) : gui W :=
  {| exchanges := exchanges g ++ [(r, o)]; shown := shown g; win := win g |}.

Definition gets {W A} (f : W -> A) : M W A := fun g => (Ok (f (win g)), g).

Definition modify {W} (f : W -> W) : M W unit := fun g => (Ok tt, with_win f g).

Definition emit {W} (e : ui_event) : M W unit := fun g => (Ok tt, after_showing e g).

Declare Scope py_scope.
Delimit Scope py_scope with py.
Notation "x <- m ;; k" := (bind m (fun x => k))
  (at level 61, m at next level, right associativity) : py_scope.
Notation "m ;; k" := (bind m (fun _ => k))
  (at level 61, right associativity) : py_scope.
Local Open Scope py_scope.

(** [for x in xs: body x], with a value carried from one round to the next
    (the local variables the loop updates). *)
Fixpoint for_fold {W X A} (xs : list X) (body : A -> X -> M W A) (a : A) : M W A :=
  match xs with
  | [] => ret a
  | x :: xs' => a' <- body a x ;; for_fold xs' body a'
  end.

Definition for_each {W X} (xs : list X) (body : X -> M W unit) : M W unit :=
  for_fold xs (fun _ x => body x) tt.

(** ** [tkinter.messagebox] and [print] *)

Definition showinfo {W} (title msg : pystr) : M W unit := emit (ShowInfo title msg).
Definition showwarning {W} (title msg : pystr) : M W unit := emit (ShowWarning title msg).
Definition showerror {W} (title msg : pystr) : M W unit := emit (ShowError title msg).
Definition print {W} (msg : pystr) : M W unit := emit (Printed msg).

(** [messagebox.askyesno]; [answer] is the button the operator presses. *)
Definition askyesno {W} (title msg : pystr) (answer : bool) : M W bool :=
  emit (AskYesNo title msg answer) ;; ret answer.

(** ** [requests] *)

(** [requests] serialises a payload with [allow_nan=False]. *)
Definition payload_refused (r : request) : bool :=
  match req_json r with
  | Some v => has_nonfinite v
  | None => false
  end.

(** One request.  A payload that is refused raises before anything is
    sent; otherwise the exchange is recorded. *)
Definition send {W} {net : Network} (r : request) : M W response :=
  fun g =>
    if payload_refused r
    then (Raised InvalidJSONError, g)
    else
      let o := serve (map fst (exchanges g)) r in
      match o with
      | Responds resp => (Ok resp, after_exchange r o g)
      | Fails detail => (Raised (TransportError detail), after_exchange r o g)
      end.

Definition requests_get {W} {net : Network} (url : pystr) (auth : credentials) : M W response :=
  send {| req_method := GET; req_url := url; req_json := None; req_auth := auth |}.
Definition requests_delete {W} {net : Network} (url : pystr) (auth : credentials) : M W response :=
  send {| req_method := DELETE; req_url := url; req_json := None; req_auth := auth |}.
Definition requests_put {W} {net : Network} (url : pystr) (payload : option json)
    (auth : credentials) : M W response :=
  send {| req_method := PUT; req_url := url; req_json := payload; req_auth := auth |}.
Definition requests_post {W} {net : Network} (url : pystr) (payload : option json)
    (auth : credentials) : M W response :=
  send {| req_method := POST; req_url := url; req_json := payload; req_auth := auth |}.

(** A status that [raise_for_status] raises for: [400 <= status < 600]. *)
Definition is_error_status (status : Z) : bool :=
  ((400 <=? status) && (status <? 600))%Z.

(** [resp.raise_for_status()] *)
Definition raise_for_status {W} (resp : response) : M W unit :=
  if is_error_status (status_code resp) then raise (HTTPError (status_code resp))
  else ret tt.

(** The exception that [json.loads(s)] raises when it returns no value. *)
Definition loads_error {pf : PyFloat} {lim : PyLimits} (s : pystr) : exn :=
  match loads_outcome s with
  | inr TooDeep => RecursionError
  | inr TooManyDigits => ValueError
  | _ => JSONDecodeError s
  end.

(** What [resp.json()] raises where [json.loads] raises: [requests] makes
    an exception of its own of a [JSONDecodeError] and lets any other pass. *)
Definition resp_json_error {pf : PyFloat} {lim : PyLimits} (body : pystr) : exn :=
  match loads_error body with
  | JSONDecodeError _ => ResponseDecodeError body
  | e => e
  end.

(** [resp.json()] *)
Definition resp_json {W} {pf : PyFloat} {lim : PyLimits} (resp : response) : M W json :=
  match loads (text resp) with
  | Some v => ret v
  | None => raise (resp_json_error (text resp))
  end.

(** ** Operations on Python values *)

(** [v.get(key, default)]: only a [dict] has [get]. *)
Definition py_get {W} (v : json) (key : pystr) (default : json) : M W json :=
  match v with
  | JObj members => ret (obj_get key default members)
  | _ => raise (AttributeError v (lit "get"))
  end.

(** [v.startswith(prefix)]: only a [str] has it. *)
Definition py_startswith {W} (v : json) (prefix : pystr) : M W bool :=
  match v with
  | JStr s => ret (startswith s prefix)
  | _ => raise (AttributeError v (lit "startswith"))
  end.

(** [v.lower()] *)
Definition py_lower {W} {pt : PyText} (v : json) : M W pystr :=
  match v with
  | JStr s => ret (str_lower s)
  | _ => raise (AttributeError v (lit "lower"))
  end.

(** [len(v)] *)
Definition py_len {W} (v : json) : M W nat :=
  match v with
  | JStr s => ret (length s)
  | JArr items => ret (length items)
  | JObj members => ret (length members)
  | _ => raise (TypeError v)
  end.

(** The values [for x in v] runs through: the elements of a list, the keys
    of a dict, the characters of a string. *)
Definition py_iter {W} (v : json) : M W (list json) :=
  match v with
  | JArr items => ret items
  | JObj members => ret (map (fun kv => JStr (fst kv)) members)
  | JStr s => ret (map (fun c => JStr [c]) s)
  | _ => raise (TypeError v)
  end.

(** [key in v] for a string [key]: a key of a dict, an element of a list,
    a substring of a string. *)
Definition py_in {W} (key : pystr) (v : json) : M W bool :=
  match v with
  | JObj members => ret (match dict_get str_eqb key members with Some _ => true | None => false end)
  | JArr items => ret (existsb (json_eqb (JStr key)) items)
  | JStr s => ret (contains s key)
  | _ => raise (TypeError v)
  end.

(** [v[key]] for a string [key] that is present. *)
Definition py_getitem {W} (v : json) (key : pystr) : M W json :=
  match v with
  | JObj members => ret (obj_get key JNull members)
  | _ => raise (TypeError v)
  end.

(** [v[key] = x] for a string [key] *)
Definition py_setitem {W} (v : json) (key : pystr) (x : json) : M W json :=
  match v with
  | JObj members => ret (JObj (dict_set str_eqb key x members))
  | _ => raise (TypeError v)
  end.

(** A value that can be the key of a dict. *)
Definition hashable (v : json) : bool :=
  match v with
  | JArr _ | JObj _ => false
  | _ => true
  end.

(** ** [ttk.Treeview]

    A flat list of rows, each with the item identifier Tk gave it, the
    values of its columns and whether it is selected. *)
Record item : Type := {
  iid : nat;
  values : list json;
  selected : bool
}.

Record treeview : Type := {
  items : list item;
  next_iid : nat
}.

Definition empty_tree : treeview := {| items := []; next_iid := 0 |}.

(** [tree.get_children()] *)
Definition get_children (t : treeview) : list nat := map iid (items t).

(** [tree.selection()] *)
Definition selection (t : treeview) : list nat :=
  map iid (filter selected (items t)).

(** [tree.item(i, "values")] *)
Definition item_values (i : nat) (t : treeview) : option (list json) :=
  match find (fun it => Nat.eqb (iid it) i) (items t) with
  | Some it => Some (values it)
  | None => None
  end.

(** [tree.delete(i)] *)
Definition tree_delete (i : nat) (t : treeview) : option treeview :=
  if existsb (fun it => Nat.eqb (iid it) i) (items t)
  then Some {| items := filter (fun it => negb (Nat.eqb (iid it) i)) (items t);
               next_iid := next_iid t |}
  else None.

(** [tree.insert("", "end", values=vals)] *)
Definition tree_insert (vals : list json) (t : treeview) : treeview :=
  {| items := items t ++ [{| iid := next_iid t; values := vals; selected := false |}];
     next_iid := S (next_iid t) |}.

(** [tree.item(i, values=vals)] *)
Definition tree_set_values (i : nat) (vals : list json) (t : treeview) : treeview :=
  {| items := map (fun it => if Nat.eqb (iid it) i
                             then {| iid := iid it; values := vals; selected := selected it |}
                             else it) (items t);
     next_iid := next_iid t |}.

(** The rows as the operator reads them. *)
Definition rows (t : treeview) : list (list json) := map values (items t).

(** [t[0]] of a tuple *)
Definition tuple_first {W} (vals : list json) : M W json :=
  match vals with
  | v :: _ => ret v
  | [] => raise IndexError
  end.

(** [t[1]] of a tuple *)
Definition tuple_second {W} (vals : list json) : M W json :=
  match vals with
  | _ :: v :: _ => ret v
  | _ => raise IndexError
  end.

(** [tree.selection_add(i)] *)
Definition tree_selection_add (i : nat) (t : treeview) : option treeview :=
  if existsb (fun it => Nat.eqb (iid it) i) (items t)
  then Some {| items := map (fun it => if Nat.eqb (iid it) i
                                       then {| iid := iid it; values := values it;
                                               selected := true |}
                                       else it) (items t);
               next_iid := next_iid t |}
  else None.

(** [for item in tree.get_children(): tree.delete(item)], in any window. *)
Definition delete_children {W} (t : treeview) : M W treeview :=
  for_fold (get_children t)
    (fun t' i => match tree_delete i t' with
                 | Some t'' => ret t''
                 | None => raise TclError
                 end)
    t.

End Py.
Import Py.
Local Open Scope py_scope.

(** A line feed, for the messages that span two lines. *)
Definition nl : pystr := [10%N].

(* ===================================================================== *)
(** * class CouchDBManager: the main window *)
(* ===================================================================== *)

Module CouchDBManager.

(** The fields of the window that the database and index handlers use. *)
Record window : Type := {
  url_var : pystr;
  user_var : pystr;
  pass_var : pystr;
  tree : treeview;
  status_var : pystr
}.

Definition set_status (s : pystr) (w : window) : window :=
  {| url_var := url_var w; user_var := user_var w; pass_var := pass_var w;
     tree := tree w; status_var := s |}.

Definition set_tree (t : treeview) (w : window) : window :=
  {| url_var := url_var w; user_var := user_var w; pass_var := pass_var w;
     tree := t; status_var := status_var w |}.

(** [self.url_var.get().rstrip('/')] *)
Definition base_url (w : window) : pystr := rstrip_slash (url_var w).

(** [HTTPBasicAuth(self.user_var.get().strip(), self.pass_var.get().strip())] *)
Definition basic_auth (w : window) : credentials :=
  (strip (user_var w), strip (pass_var w)).

(** [self.tree.item(item, "values")[0]] *)
Definition tree_first_value (i : nat) : M window json :=
  t <- gets tree ;;
  match item_values i t with
  | Some vals => tuple_first vals
  | None => raise TclError
  end.

(** [self.tree.delete(item)] *)
Definition tree_delete_item (i : nat) : M window unit :=
  t <- gets tree ;;
  match tree_delete i t with
  | Some t' => modify (set_tree t')
  | None => raise TclError
  end.

Section Handlers.
Context {pf : PyFloat} {lim : PyLimits} {pt : PyText} {net : Network}.

  (** The body of the loop of [delete_selected] and [delete_all]: one DELETE
      for the database of item [i]; [counts] are [success_count] and
      [fail_count]. *)
Definition delete_one (url : pystr) (auth : credentials) (counts : nat * nat) (i : nat)
    : M window (nat * nat) :=
    db <- tree_first_value i ;;
    try_except
      (resp <- requests_delete (url ++ lit "/" ++ format_value db) auth ;;
       raise_for_status resp ;;
       tree_delete_item i ;;
       ret (S (fst counts), snd counts))
      (fun e =>
         print (lit "Failed to delete '" ++ format_value db ++ lit "': " ++ exn_str e) ;;
         ret (fst counts, S (snd counts))).

  (** The loop itself, from [success_count = 0] and [fail_count = 0]. *)
Definition delete_loop (url : pystr) (auth : credentials) (chosen : list nat)
    : M window (nat * nat) :=
    for_fold chosen (delete_one url auth) (0, 0).

Definition report_deleted (counts : nat * nat) : M window unit :=
    let (success_count, fail_count) := counts in
    modify (set_status (lit "Deleted " ++ str_of_nat success_count ++
                        lit " database(s). Failed: " ++ str_of_nat fail_count)) ;;
    if Nat.ltb 0 fail_count then
      showwarning (lit "Delete Result")
        (lit "Successfully deleted " ++ str_of_nat success_count ++ lit " database(s)." ++ nl ++
         lit "Failed to delete " ++ str_of_nat fail_count ++ lit " database(s).")
    else ret tt.

  (** [delete_selected]; [confirm] is the operator's answer to the question. *)
Definition delete_selected (confirm : bool) : M window unit :=
    chosen <- gets (fun w => selection (tree w)) ;;
    match chosen with
    | [] => showinfo (lit "Info") (lit "No databases selected.")
    | _ :: _ =>
        yes <- askyesno (lit "Confirm")
                 (lit "Delete " ++ str_of_nat (length chosen) ++ lit " selected database(s)?" ++
                  nl ++ lit "This action cannot be undone.") confirm ;;
        if negb yes then ret tt
        else
          url <- gets base_url ;;
          auth <- gets basic_auth ;;
          modify (set_status (lit "Deleting " ++ str_of_nat (length chosen) ++
                              lit " database(s)...")) ;;
          counts <- delete_loop url auth chosen ;;
          report_deleted counts
    end.

  (** [delete_all] *)
Definition delete_all (confirm : bool) : M window unit :=
    all_items <- gets (fun w => get_children (tree w)) ;;
    match all_items with
    | [] => showinfo (lit "Info") (lit "No databases to delete.")
    | _ :: _ =>
        let count := length all_items in
        yes <- askyesno (lit "Confirm")
                 (lit "Delete ALL " ++ str_of_nat count ++
                  lit " databases? This action cannot be undone.") confirm ;;
        if negb yes then ret tt
        else
          url <- gets base_url ;;
          auth <- gets basic_auth ;;
          modify (set_status (lit "Deleting all " ++ str_of_nat count ++ lit " database(s)...")) ;;
          counts <- delete_loop url auth all_items ;;
          report_deleted counts
    end.

  (** The payload of the default index of a new database. *)
Definition default_index_payload (db : pystr) : json :=
    JObj [(lit "index", JObj [(lit "fields", JArr [JStr (lit "_id")])]);
          (lit "name", JStr (db ++ lit "_idx"))].

  (** [_create_index] *)
Definition _create_index (db : pystr) (auth : credentials) : M window unit :=
    let payload := default_index_payload db in
    try_except
      (url <- gets base_url ;;
       _ <- requests_post (url ++ lit "/" ++ db ++ lit "/_index") (Some payload) auth ;;
       ret tt)
      (fun e => print (lit "Failed to create default index for '" ++ db ++ lit "': " ++ exn_str e)).

  (** [add_db]; [dialog_result] is what the input dialog returns: [None]
      when it is cancelled, the text of the entry otherwise. *)
Definition add_db (dialog_result : option pystr) : M window unit :=
    match dialog_result with
    | None | Some [] => ret tt
    | Some name =>
        url <- gets base_url ;;
        auth <- gets basic_auth ;;
        modify (set_status (lit "Creating database '" ++ name ++ lit "'...")) ;;
        try_except
          (resp <- requests_put (url ++ lit "/" ++ name) None auth ;;
           raise_for_status resp ;;
           modify (fun w => set_tree (tree_insert [JStr name] (tree w)) w) ;;
           _create_index name auth ;;
           modify (set_status (lit "Created database '" ++ name ++ lit "' with default index")))
          (fun e =>
             modify (set_status (lit "Failed to create database '" ++ name ++ lit "'")) ;;
             showerror (lit "Error") (lit "Failed to create database:" ++ nl ++ exn_str e))
    end.

  (** The payload [create_index] and [add_index] build from the dialog:
      [{"index": {"fields": [f.strip() for f in fields.split(',')]}, "name": name}] *)
Definition index_payload (name fields : pystr) : json :=
    JObj [(lit "index",
           JObj [(lit "fields", JArr (map (fun f => JStr (strip f)) (split (chr ",") fields)))]);
          (lit "name", JStr name)].

  (** [create_index]; [name] and [fields] are the two entries of the dialog
      (both empty when it is cancelled). *)
Definition create_index (name fields : pystr) : M window unit :=
    chosen <- gets (fun w => selection (tree w)) ;;
    match chosen with
    | [i] =>
        db <- tree_first_value i ;;
        auth <- gets basic_auth ;;
        if str_eqb name [] || str_eqb fields [] then ret tt
        else
          modify (set_status (lit "Creating index '" ++ name ++ lit "' in '" ++
                              format_value db ++ lit "'...")) ;;
          try_except
            (let payload := index_payload name fields in
             url <- gets base_url ;;
             resp <- requests_post (url ++ lit "/" ++ format_value db ++ lit "/_index")
                       (Some payload) auth ;;
             raise_for_status resp ;;
             showinfo (lit "Index Created")
               (lit "Index '" ++ name ++ lit "' created in '" ++ format_value db ++ lit "'.") ;;
             modify (set_status (lit "Created index '" ++ name ++ lit "' in '" ++
                                 format_value db ++ lit "'")))
            (fun e =>
               modify (set_status (lit "Failed to create index '" ++ name ++ lit "'")) ;;
               showerror (lit "Error") (lit "Failed to create index:" ++ nl ++ exn_str e))
    | _ => showinfo (lit "Info") (lit "Select a single database to create an index.")
    end.

  (** [select_all] *)
Definition select_all : M window unit :=
    all_items <- gets (fun w => get_children (tree w)) ;;
    for_each all_items
      (fun i =>
         t <- gets tree ;;
         match tree_selection_add i t with
         | Some t' => modify (set_tree t')
         | None => raise TclError
         end).

  (** [rename_db]; [dialog_result] is what the input dialog returns. *)
Definition rename_db (dialog_result : option pystr) : M window unit :=
    chosen <- gets (fun w => selection (tree w)) ;;
    match chosen with
    | [i] =>
        old_name <- tree_first_value i ;;
        match dialog_result with
        | None | Some [] => ret tt
        | Some new_name =>
            if json_eqb (JStr new_name) old_name then ret tt
            else
              showinfo (lit "Not implemented")
                (lit "Database rename functionality is under development." ++ nl ++
                 lit "CouchDB does not natively support renaming databases." ++ nl ++
                 lit "You would need to replicate the old DB to a new one with the desired name," ++
                 nl ++ lit "then delete the old one.") ;;
              modify (set_status (lit "Rename operation not implemented"))
        end
    | _ => showinfo (lit "Info") (lit "Select a single database to rename.")
    end.
End Handlers.

End CouchDBManager.

(* ===================================================================== *)
(** * class BrowseWindow: indexes and documents of one database *)
(* ===================================================================== *)

Module BrowseWindow.

(** The fields of the window.  [docs] is the local document cache, a dict
    from document id to document; [text] is the content of the editor
    (without the line end that a Tk text widget adds on its own);
    [current_doc] is [None] or the id of the document in the editor.

    [status_var] is the attribute [self.status_var], the variable that the
    handlers set.  It is not what the status bar of this window displays:
    [_build_ui] binds the label to the variable it makes, and [__init__]
    then puts a new variable in the attribute, so the label stays on the
    first one, which no handler sets.  (In the main window the label and
    the attribute are one variable.) *)
Record window : Type := {
  db : pystr;
  base_url : pystr;
  auth : credentials;
  docs : list (json * json);
  current_doc : json;
  idx_tree : treeview;
  doc_tree : treeview;
  text : pystr;
  search_var : pystr;
  status_var : pystr
}.

Definition set_status (s : pystr) (w : window) : window :=
  {| db := db w; base_url := base_url w; auth := auth w; docs := docs w;
     current_doc := current_doc w; idx_tree := idx_tree w; doc_tree := doc_tree w;
     text := text w; search_var := search_var w; status_var := s |}.

Definition set_docs (d : list (json * json)) (w : window) : window :=
  {| db := db w; base_url := base_url w; auth := auth w; docs := d;
     current_doc := current_doc w; idx_tree := idx_tree w; doc_tree := doc_tree w;
     text := text w; search_var := search_var w; status_var := status_var w |}.

Definition set_current_doc (c : json) (w : window) : window :=
  {| db := db w; base_url := base_url w; auth := auth w; docs := docs w;
     current_doc := c; idx_tree := idx_tree w; doc_tree := doc_tree w;
     text := text w; search_var := search_var w; status_var := status_var w |}.

Definition set_idx_tree (t : treeview) (w : window) : window :=
  {| db := db w; base_url := base_url w; auth := auth w; docs := docs w;
     current_doc := current_doc w; idx_tree := t; doc_tree := doc_tree w;
     text := text w; search_var := search_var w; status_var := status_var w |}.

Definition set_doc_tree (t : treeview) (w : window) : window :=
  {| db := db w; base_url := base_url w; auth := auth w; docs := docs w;
     current_doc := current_doc w; idx_tree := idx_tree w; doc_tree := t;
     text := text w; search_var := search_var w; status_var := status_var w |}.

Definition set_text (s : pystr) (w : window) : window :=
  {| db := db w; base_url := base_url w; auth := auth w; docs := docs w;
     current_doc := current_doc w; idx_tree := idx_tree w; doc_tree := doc_tree w;
     text := s; search_var := search_var w; status_var := status_var w |}.

(** [self.text.get("1.0", "end")]: the content and the final line end. *)
Definition text_get (w : window) : pystr := text w ++ nl.

(** [for item in tree.get_children(): tree.delete(item)] *)
Definition clear_tree (t : treeview) : M window treeview :=
  for_fold (get_children t)
    (fun t' i => match tree_delete i t' with
                 | Some t'' => ret t''
                 | None => raise TclError
                 end)
    t.

Section Handlers.
Context {pf : PyFloat} {lim : PyLimits} {pt : PyText} {net : Network}.

  (** The text of the [fields] column for one index: [name:direction] for a
      field given as a dict, [str(f)] for any other. *)
Definition index_fields_list (idx : list (pystr * json)) : list pystr :=
    match obj_get (lit "def") (JObj []) idx with
    | JObj (m :: ms) =>
        match obj_get (lit "fields") (JArr []) (m :: ms) with
        | JArr (f :: fs) =>
            flat_map (fun f => match f with
                               | JObj kvs =>
                                   map (fun kv => fst kv ++ lit ":" ++ format_value (snd kv)) kvs
                               | _ => [format_value f]
                               end) (f :: fs)
        | _ => []
        end
    | _ => []
    end.

  (** The body of the loop of [load_indexes] for one entry of [indexes]. *)
Definition load_index_row (idx : json) : M window unit :=
    print (lit "Processing index: " ++ format_value idx) ;;
    ddoc <- py_get idx (lit "ddoc") (JStr []) ;;
    name <- py_get idx (lit "name") (JStr []) ;;
    let ddoc := match ddoc with
                | JNull => []
                | _ => replace (format_value ddoc) (lit "_design/") []
                end in
    let fields_list := match idx with
                       | JObj members => index_fields_list members
                       | _ => []
                       end in
    let fields_str := join (lit ", ") fields_list in
    print (lit "Inserting: ddoc='" ++ ddoc ++ lit "', name='" ++ format_value name ++
           lit "', fields='" ++ fields_str ++ lit "'") ;;
    modify (fun w => set_idx_tree (tree_insert [JStr ddoc; name; JStr fields_str] (idx_tree w)) w).

  (** What the three [except] clauses of [load_indexes] do with an error
      message: print it, put its first 50 characters in [status_var] and
      show the whole of it in a message box. *)
Definition report_error (title error_msg : pystr) : M window unit :=
    modify (set_status (upto 50 error_msg ++ lit "...")) ;;
    showerror title error_msg.

  (** [load_indexes] *)
Definition load_indexes : M window unit :=
    modify (set_status (lit "Loading indexes...")) ;;
    try_except
      (url <- gets (fun w => base_url w ++ lit "/" ++ db w ++ lit "/_index") ;;
       modify (set_status (lit "Fetching from: " ++ url)) ;;
       a <- gets auth ;;
       resp <- requests_get url a ;;
       raise_for_status resp ;;
       print (lit "Response status: " ++ str_of_Z (status_code resp)) ;;
       print (lit "Response text: " ++ upto 200 (Py.text resp) ++ lit "...") ;;
       data <- resp_json resp ;;
       indexes <- py_get data (lit "indexes") (JArr []) ;;
       n <- py_len indexes ;;
       print (lit "Found " ++ str_of_nat n ++ lit " indexes") ;;
       t <- gets idx_tree ;;
       t' <- clear_tree t ;;
       modify (set_idx_tree t') ;;
       entries <- py_iter indexes ;;
       for_each entries load_index_row ;;
       modify (set_status (lit "Loaded " ++ str_of_nat n ++ lit " indexes")))
      (fun e =>
         if is_RequestException e then
           let error_msg := lit "Network error: " ++ exn_str e in
           print error_msg ;;
           report_error (lit "Connection Error") error_msg
         else if is_JSONDecodeError e then
           let error_msg := lit "Invalid JSON response: " ++ exn_str e in
           print error_msg ;;
           report_error (lit "JSON Error") error_msg
         else
           let error_msg := lit "Error loading indexes: " ++ exn_str e in
           print (lit "Exception details: " ++ exn_name e ++ lit ": " ++ exn_str e) ;;
           print (lit "Exception traceback: " ++ format_exc e) ;;
           report_error (lit "Index Loading Error") error_msg).

  (** [add_index]; [name] and [fields] are the two entries of the dialog. *)
Definition add_index (name fields : pystr) : M window unit :=
    if str_eqb name [] || str_eqb fields [] then ret tt
    else
      modify (set_status (lit "Creating index '" ++ name ++ lit "'...")) ;;
      try_except
        (let payload := CouchDBManager.index_payload name fields in
         url <- gets (fun w => base_url w ++ lit "/" ++ db w ++ lit "/_index") ;;
         a <- gets auth ;;
         resp <- requests_post url (Some payload) a ;;
         raise_for_status resp ;;
         load_indexes ;;
         modify (set_status (lit "Created index '" ++ name ++ lit "'")))
        (fun e =>
           modify (set_status (lit "Failed to create index: " ++ upto 50 (exn_str e))) ;;
           showerror (lit "Error") (lit "Failed to create index:" ++ nl ++ exn_str e)).

  (** [ddoc if ddoc.startswith('_design/') else f"_design/{ddoc}"]: the
      design document in the URL of [delete_index]. *)
Definition ddoc_path (ddoc : pystr) : pystr :=
    if startswith ddoc (lit "_design/") then ddoc else lit "_design/" ++ ddoc.

  (** The same on a value read from the tree: only a [str] has [startswith]. *)
Definition py_ddoc_path (ddoc : json) : M window pystr :=
    match ddoc with
    | JStr d => ret (ddoc_path d)
    | _ => raise (AttributeError ddoc (lit "startswith"))
    end.

  (** [delete_index]; [confirm] is the operator's answer to the question. *)
Definition delete_index (confirm : bool) : M window unit :=
    chosen <- gets (fun w => selection (idx_tree w)) ;;
    match chosen with
    | [] => showinfo (lit "Info") (lit "Select an index to delete.")
    | i :: _ =>
        t <- gets idx_tree ;;
        match item_values i t with
        | None => raise TclError
        | Some (ddoc :: name :: _) =>
            yes <- askyesno (lit "Confirm")
                     (lit "Delete index '" ++ format_value name ++ lit "'?") confirm ;;
            if negb yes then ret tt
            else
              modify (set_status (lit "Deleting index '" ++ format_value name ++ lit "'...")) ;;
              try_except
                (path <- py_ddoc_path ddoc ;;
                 url <- gets (fun w => base_url w ++ lit "/" ++ db w ++ lit "/_index/" ++
                                       path ++ lit "/json/" ++ format_value name) ;;
                 a <- gets auth ;;
                 resp <- requests_delete url a ;;
                 raise_for_status resp ;;
                 load_indexes ;;
                 modify (set_status (lit "Deleted index '" ++ format_value name ++ lit "'")))
                (fun e =>
                   modify (set_status (lit "Failed to delete index: " ++ upto 50 (exn_str e))) ;;
                   showerror (lit "Error") (lit "Failed to delete index:" ++ nl ++ exn_str e))
        | Some _ => showerror (lit "Error") (lit "Invalid index selected")
        end
    end.

  (** [self.docs[doc_id] = doc] *)
Definition docs_set (doc_id doc : json) : M window unit :=
    if hashable doc_id
    then modify (fun w => set_docs (dict_set json_eqb doc_id doc (docs w)) w)
    else raise (TypeError doc_id).

  (** The body of the loop of [load_docs] for one row of the reply. *)
Definition load_doc_row (row : json) : M window unit :=
    doc_id <- py_get row (lit "id") (JStr []) ;;
    is_design <- py_startswith doc_id (lit "_design/") ;;
    if is_design then ret tt
    else
      value <- py_get row (lit "value") (JObj []) ;;
      rev <- py_get value (lit "rev") (JStr []) ;;
      doc <- py_get row (lit "doc") (JObj []) ;;
      docs_set doc_id doc ;;
      modify (fun w => set_doc_tree (tree_insert [doc_id; rev] (doc_tree w)) w).

  (** [load_docs] *)
Definition load_docs : M window unit :=
    modify (set_status (lit "Loading documents...")) ;;
    try_except
      (url <- gets (fun w => base_url w ++ lit "/" ++ db w ++ lit "/_all_docs?include_docs=true") ;;
       a <- gets auth ;;
       resp <- requests_get url a ;;
       data <- resp_json resp ;;
       t <- gets doc_tree ;;
       t' <- clear_tree t ;;
       modify (set_doc_tree t') ;;
       modify (set_docs []) ;;
       rows <- py_get data (lit "rows") (JArr []) ;;
       entries <- py_iter rows ;;
       for_each entries load_doc_row ;;
       n <- gets (fun w => length (docs w)) ;;
       modify (set_status (lit "Loaded " ++ str_of_nat n ++ lit " documents")))
      (fun e =>
         modify (set_status (lit "Error loading documents: " ++ upto 50 (exn_str e))) ;;
         showerror (lit "Document Loading Error")
           (lit "Failed to load documents:" ++ nl ++ exn_str e)).

  (** The body of the loop of [filter_docs] for one cached document. *)
Definition filter_doc_row (search_text : pystr) (entry : json * json) : M window unit :=
    let (doc_id, doc) := entry in
    id_lower <- py_lower doc_id ;;
    if contains id_lower search_text || contains (str_lower (dumps doc)) search_text
    then
      rev <- py_get doc (lit "_rev") (JStr []) ;;
      modify (fun w => set_doc_tree (tree_insert [doc_id; rev] (doc_tree w)) w)
    else ret tt.

  (** [filter_docs] *)
Definition filter_docs : M window unit :=
    search_text <- gets (fun w => str_lower (search_var w)) ;;
    t <- gets doc_tree ;;
    t' <- clear_tree t ;;
    modify (set_doc_tree t') ;;
    cached <- gets docs ;;
    for_each cached (filter_doc_row search_text) ;;
    n <- gets (fun w => length (get_children (doc_tree w))) ;;
    modify (set_status (lit "Found " ++ str_of_nat n ++ lit " matching documents")).

  (** [for item in children: if item(item, "values")[0] == new_id: ...; break] *)
Fixpoint update_first_row (new_id new_rev : json) (ids : list nat) (t : treeview)
    : M window treeview :=
    match ids with
    | [] => ret t
    | i :: ids' =>
        match item_values i t with
        | None => raise TclError
        | Some vals =>
            first <- tuple_first vals ;;
            if json_eqb first new_id then ret (tree_set_values i [new_id; new_rev] t)
            else update_first_row new_id new_rev ids' t
        end
    end.

  (** The second half of [save_doc]: the PUT and what follows it. *)
Definition save_doc_put (doc : json) : M window unit :=
    doc_id <- py_get doc (lit "_id") (JStr []) ;;
    modify (set_status (lit "Saving document '" ++ format_value doc_id ++ lit "'...")) ;;
    try_except
      (url <- gets (fun w => base_url w ++ lit "/" ++ db w) ;;
       let url := if truthy doc_id then url ++ lit "/" ++ format_value doc_id else url in
       a <- gets auth ;;
       resp <- requests_put url (Some doc) a ;;
       raise_for_status resp ;;
       result <- resp_json resp ;;
       ok <- py_get result (lit "ok") JNull ;;
       if truthy ok then
         new_id <- py_get result (lit "id") JNull ;;
         new_rev <- py_get result (lit "rev") JNull ;;
         doc <- py_setitem doc (lit "_id") new_id ;;
         doc <- py_setitem doc (lit "_rev") new_rev ;;
         docs_set new_id doc ;;
         current <- gets current_doc ;;
         (if negb (truthy current) || negb (json_eqb current new_id) then
            modify (fun w => set_doc_tree (tree_insert [new_id; new_rev] (doc_tree w)) w) ;;
            modify (set_current_doc new_id)
          else
            t <- gets doc_tree ;;
            t' <- update_first_row new_id new_rev (get_children t) t ;;
            modify (set_doc_tree t')) ;;
         modify (set_text (dumps_indent 2 doc)) ;;
         modify (set_status (lit "Saved document '" ++ format_value new_id ++ lit "'"))
       else
         modify (set_status (lit "Save failed: no confirmation from server")) ;;
         showerror (lit "Save Error") (lit "Failed to save document: No confirmation from server"))
      (fun e =>
         modify (set_status (lit "Failed to save document: " ++ upto 50 (exn_str e))) ;;
         showerror (lit "Save Error") (lit "Failed to save document:" ++ nl ++ exn_str e)).

  (** [save_doc]; [confirm] is the operator's answer should the handler ask
      whether a changed id is meant. *)
Definition save_doc (confirm : bool) : M window unit :=
    doc_text <- gets (fun w => strip (text_get w)) ;;
    match loads doc_text with
    | None =>
        match loads_error doc_text with
        | JSONDecodeError _ as e =>
            showerror (lit "JSON Error") (lit "Invalid JSON:" ++ nl ++ exn_str e)
        | e => raise e
        end
    | Some doc =>
        current <- gets current_doc ;;
        if truthy current then
          has_id <- py_in (lit "_id") doc ;;
          doc_id <- (if has_id then py_getitem doc (lit "_id") else ret JNull) ;;
          if has_id && negb (json_eqb doc_id current) then
            yes <- askyesno (lit "Warning")
                     (lit "Document ID changed from '" ++ format_value current ++ lit "' to '" ++
                      format_value doc_id ++ lit "'." ++ nl ++
                      lit "This will create a new document. Continue?") confirm ;;
            if negb yes then ret tt else save_doc_put doc
          else
            doc <- py_setitem doc (lit "_id") current ;;
            save_doc_put doc
        else save_doc_put doc
    end.

  (** [format_json] *)
Definition format_json : M window unit :=
    doc_text <- gets (fun w => strip (text_get w)) ;;
    match loads doc_text with
    | Some doc =>
        let formatted := dumps_indent 2 doc in
        modify (set_text formatted) ;;
        modify (set_status (lit "JSON formatted"))
    | None =>
        match loads_error doc_text with
        | JSONDecodeError _ as e =>
            showerror (lit "JSON Error") (lit "Invalid JSON:" ++ nl ++ exn_str e)
        | e => raise e
        end
    end.

  (** [self.doc_tree.item(i, "values")] *)
Definition doc_row (i : nat) : M window (list json) :=
    t <- gets doc_tree ;;
    match item_values i t with
    | Some vals => ret vals
    | None => raise TclError
    end.

  (** [self.docs.get(doc_id, default)] *)
Definition docs_get (doc_id default : json) : M window json :=
    if hashable doc_id
    then
      d <- gets docs ;;
      ret (match dict_get json_eqb doc_id d with
           | Some doc => doc
           | None => default
           end)
    else raise (TypeError doc_id).

  (** [show_doc] *)
Definition show_doc : M window unit :=
    chosen <- gets (fun w => selection (doc_tree w)) ;;
    match chosen with
    | [] => ret tt
    | i :: _ =>
        vals <- doc_row i ;;
        doc_id <- tuple_first vals ;;
        doc <- docs_get doc_id (JObj []) ;;
        modify (set_text (dumps_indent 2 doc)) ;;
        modify (set_current_doc doc_id) ;;
        modify (set_status (lit "Loaded document '" ++ format_value doc_id ++ lit "'"))
    end.

  (** [new_doc]; [dialog_result] is what the input dialog returns: [None]
      when it is cancelled, the text of the entry otherwise.  [confirm] is
      passed on to [save_doc]. *)
Definition new_doc (dialog_result : option pystr) (confirm : bool) : M window unit :=
    match dialog_result with
    | None => ret tt
    | Some entry =>
        let doc := match entry with
                   | [] => JObj []
                   | _ :: _ => JObj [(lit "_id", JStr entry)]
                   end in
        modify (set_text (dumps_indent 2 doc)) ;;
        try_except
          (modify (set_current_doc JNull) ;;
           save_doc confirm)
          (fun e =>
             modify (set_status (lit "Failed to create document: " ++ upto 50 (exn_str e))) ;;
             showerror (lit "Error") (lit "Failed to create document:" ++ nl ++ exn_str e))
    end.

  (** [if doc_id in self.docs: del self.docs[doc_id]] *)
Definition docs_discard (doc_id : json) : M window unit :=
    if hashable doc_id
    then modify (fun w => set_docs (dict_del json_eqb doc_id (docs w)) w)
    else raise (TypeError doc_id).

  (** [delete_doc]; [confirm] is the operator's answer to the question. *)
Definition delete_doc (confirm : bool) : M window unit :=
    chosen <- gets (fun w => selection (doc_tree w)) ;;
    match chosen with
    | [] => showinfo (lit "Info") (lit "Select a document to delete.")
    | i :: _ =>
        vals <- doc_row i ;;
        doc_id <- tuple_first vals ;;
        vals <- doc_row i ;;
        rev <- tuple_second vals ;;
        yes <- askyesno (lit "Confirm")
                 (lit "Delete document '" ++ format_value doc_id ++ lit "'?" ++ nl ++
                  lit "This action cannot be undone.") confirm ;;
        if negb yes then ret tt
        else
          modify (set_status (lit "Deleting document '" ++ format_value doc_id ++ lit "'...")) ;;
          try_except
            (url <- gets (fun w => base_url w ++ lit "/" ++ db w ++ lit "/" ++
                                   format_value doc_id ++ lit "?rev=" ++ format_value rev) ;;
             a <- gets auth ;;
             resp <- requests_delete url a ;;
             raise_for_status resp ;;
             t <- gets doc_tree ;;
             match tree_delete i t with
             | Some t' =>
                 modify (set_doc_tree t') ;;
                 docs_discard doc_id ;;
                 modify (set_status (lit "Deleted document '" ++ format_value doc_id ++ lit "'")) ;;
                 current <- gets current_doc ;;
                 if json_eqb current doc_id
                 then modify (set_text []) ;; modify (set_current_doc JNull)
                 else ret tt
             | None => raise TclError
             end)
            (fun e =>
               modify (set_status (lit "Failed to delete document: " ++ upto 50 (exn_str e))) ;;
               showerror (lit "Error") (lit "Failed to delete document:" ++ nl ++ exn_str e))
    end.
End Handlers.

End BrowseWindow.

(* ===================================================================== *)
(** * The application: connecting, and opening a browse window *)
(* ===================================================================== *)

Module Application.

(** The main window with the parts that connecting changes: the flag
    [connected], the text of the connect button and the state of the action
    buttons (by name, [true] for [normal]). *)
Record main_window : Type := {
  main : CouchDBManager.window;
  connected : bool;
  conn_btn : pystr;
  action_buttons : list (pystr * bool)
}.

Definition set_main (f : CouchDBManager.window -> CouchDBManager.window) (a : main_window) : main_window :=
  {| main := f (main a); connected := connected a; conn_btn := conn_btn a;
     action_buttons := action_buttons a |}.

Definition set_connected (b : bool) (a : main_window) : main_window :=
  {| main := main a; connected := b; conn_btn := conn_btn a;
     action_buttons := action_buttons a |}.

Definition set_conn_btn (s : pystr) (a : main_window) : main_window :=
  {| main := main a; connected := connected a; conn_btn := s;
     action_buttons := action_buttons a |}.

(** [for b in self.action_buttons.values(): b.config(state=...)] *)
Definition set_buttons (enabled : bool) (a : main_window) : main_window :=
  {| main := main a; connected := connected a; conn_btn := conn_btn a;
     action_buttons := map (fun b => (fst b, enabled)) (action_buttons a) |}.

Section Handlers.
Context {pf : PyFloat} {lim : PyLimits} {pt : PyText} {net : Network}.

  (** [connect] *)
Definition connect : M main_window unit :=
    url <- gets (fun a => CouchDBManager.base_url (main a)) ;;
    auth <- gets (fun a => CouchDBManager.basic_auth (main a)) ;;
    modify (set_main (CouchDBManager.set_status (lit "Connecting..."))) ;;
    try_except
      (resp <- requests_get (url ++ lit "/_all_dbs") auth ;;
       raise_for_status resp ;;
       dbs <- resp_json resp ;;
       t <- gets (fun a => CouchDBManager.tree (main a)) ;;
       t' <- delete_children t ;;
       modify (set_main (CouchDBManager.set_tree t')) ;;
       names <- py_iter dbs ;;
       for_each names
         (fun db => modify (set_main (fun w =>
                      CouchDBManager.set_tree (tree_insert [db] (CouchDBManager.tree w)) w))) ;;
       modify (set_buttons true) ;;
       modify (set_conn_btn (lit "Disconnect")) ;;
       modify (set_connected true) ;;
       n <- py_len dbs ;;
       modify (set_main (CouchDBManager.set_status
                 (lit "Connected to " ++ url ++ lit " - " ++ str_of_nat n ++
                  lit " databases found"))))
      (fun e =>
         modify (set_main (CouchDBManager.set_status (lit "Connection failed"))) ;;
         showerror (lit "Connection Error")
           (lit "Failed to fetch databases:" ++ nl ++ exn_str e)).

  (** [disconnect] *)
Definition disconnect : M main_window unit :=
    t <- gets (fun a => CouchDBManager.tree (main a)) ;;
    t' <- delete_children t ;;
    modify (set_main (CouchDBManager.set_tree t')) ;;
    modify (set_buttons false) ;;
    modify (set_conn_btn (lit "Connect")) ;;
    modify (set_connected false) ;;
    modify (set_main (CouchDBManager.set_status (lit "Not connected"))).

  (** [toggle_connection] *)
Definition toggle_connection : M main_window unit :=
    c <- gets connected ;;
    if negb c then connect else disconnect.

  (** [BrowseWindow.__init__], up to the two calls of [after]: the fields of
      the new window. *)
Definition new_window (db_name : json) (base_url : pystr) (auth : credentials)
    : BrowseWindow.window :=
    {| BrowseWindow.db := format_value db_name;
       BrowseWindow.base_url := base_url;
       BrowseWindow.auth := auth;
       BrowseWindow.docs := [];
       BrowseWindow.current_doc := JNull;
       BrowseWindow.idx_tree := empty_tree;
       BrowseWindow.doc_tree := empty_tree;
       BrowseWindow.text := [];
       BrowseWindow.search_var := [];
       BrowseWindow.status_var :=
         lit "Loading database '" ++ format_value db_name ++ lit "'..." |}.

  (** [browse_db]: the window it opens, if any. *)
Definition browse_db : M CouchDBManager.window (option BrowseWindow.window) :=
    chosen <- gets (fun w => selection (CouchDBManager.tree w)) ;;
    match chosen with
    | [i] =>
        db_name <- CouchDBManager.tree_first_value i ;;
        w <- gets (fun w => new_window db_name (CouchDBManager.base_url w)
                              (CouchDBManager.basic_auth w)) ;;
        ret (Some w)
    | _ =>
        showinfo (lit "Info") (lit "Please select a single database to browse.") ;;
        ret None
    end.
End Handlers.

End Application.

(* ===================================================================== *)
(** * Reasoning about handlers *)
(* ===================================================================== *)

Import CouchDBManager BrowseWindow.

Unset Implicit Arguments.

(** ** Facts about strings *)

Lemma contains_empty (s : pystr) : contains s [] = true.
Proof. destruct s; reflexivity. Qed.

Lemma startswith_app (p s : pystr) : startswith (p ++ s) p = true.
Proof.
  induction p as [|c p IH]; cbn.
  - destruct s; reflexivity.
  - rewrite N.eqb_refl. exact IH.
Qed.

(** ** Handlers that do not talk to the server *)

Section Offline.
Context {W : Type}.

  (** [m] leaves the record of exchanges as it found it. *)
Definition offline {A} (m : M W A) : Prop :=
    forall g, exchanges (snd (m g)) = exchanges g.

Lemma offline_ret A (a : A) : offline (ret a).
  Proof. intro g. reflexivity. Qed.

Lemma offline_raise A (e : exn) : offline (@raise W A e).
  Proof. intro g. reflexivity. Qed.

Lemma offline_gets A (f : W -> A) : offline (gets f).
  Proof. intro g. reflexivity. Qed.

Lemma offline_modify (f : W -> W) : offline (modify f).
  Proof. intro g. reflexivity. Qed.

Lemma offline_emit (e : ui_event) : offline (@emit W e).
  Proof. intro g. reflexivity. Qed.

Lemma offline_bind A B (m : M W A) (k : A -> M W B) :
    offline m -> (forall a, offline (k a)) -> offline (bind m k).
  Proof.
    intros Hm Hk g. unfold bind. specialize (Hm g).
    destruct (m g) as [[a|e] g1]; cbn in *.
    - rewrite Hk. exact Hm.
    - exact Hm.
  Qed.

Lemma offline_try A (m : M W A) (h : exn -> M W A) :
    offline m -> (forall e, offline (h e)) -> offline (try_except m h).
  Proof.
    intros Hm Hh g. unfold try_except. specialize (Hm g).
    destruct (m g) as [[a|e] g1]; cbn in *.
    - exact Hm.
    - rewrite Hh. exact Hm.
  Qed.

Lemma offline_for_fold X A (xs : list X) (body : A -> X -> M W A) :
    (forall a x, offline (body a x)) -> forall a, offline (for_fold xs body a).
  Proof.
    intros Hbody. induction xs as [|x xs IH]; intro a; cbn.
    - apply offline_ret.
    - apply offline_bind; [apply Hbody | exact IH].
  Qed.

Lemma offline_for_each X (xs : list X) (body : X -> M W unit) :
    (forall x, offline (body x)) -> offline (for_each xs body).
  Proof. intro H. unfold for_each. apply offline_for_fold. intros _ x. apply H. Qed.
End Offline.


(** Breaks a handler into its steps; what is left are the calls of [send]. *)
Ltac offline_step :=
  match goal with
  | |- offline (bind _ _) => apply offline_bind
  | |- offline (try_except _ _) => apply offline_try
  | |- offline (for_each _ _) => apply offline_for_each
  | |- offline (for_fold _ _ _) => apply offline_for_fold
  | |- offline (ret _) => apply offline_ret
  | |- offline (raise _) => apply offline_raise
  | |- offline (gets _) => apply offline_gets
  | |- offline (modify _) => apply offline_modify
  | |- offline (emit _) => apply offline_emit
  | |- offline (match ?x with _ => _ end) => destruct x
  | |- offline (let (_, _) := ?x in _) => destruct x
  | |- forall _, _ => intro
  end.

Ltac offline_tac :=
  repeat (cbv beta zeta; offline_step).


(** ** One step of a handler *)

Section Steps.
Context {W : Type}.

Lemma bind_modify B (f : W -> W) (k : unit -> M W B) g :
    bind (modify f) k g = k tt (with_win f g).
  Proof. reflexivity. Qed.

Lemma bind_gets A B (f : W -> A) (k : A -> M W B) g :
    bind (gets f) k g = k (f (win g)) g.
  Proof. reflexivity. Qed.

Lemma bind_emit B (e : ui_event) (k : unit -> M W B) g :
    bind (emit e) k g = k tt (after_showing e g).
  Proof. reflexivity. Qed.

Lemma bind_ret A B (a : A) (k : A -> M W B) g : bind (ret a) k g = k a g.
  Proof. reflexivity. Qed.

Lemma bind_raise A B (e : exn) (k : A -> M W B) g : bind (raise e) k g = (Raised e, g).
  Proof. reflexivity. Qed.

Lemma bind_run A B (m : M W A) (k : A -> M W B) g a g' :
    m g = (Ok a, g') -> bind m k g = k a g'.
  Proof. intro Hm. unfold bind. rewrite Hm. reflexivity. Qed.

Lemma bind_assoc A B C (m : M W A) (k1 : A -> M W B) (k2 : B -> M W C) g :
    bind (bind m k1) k2 g = bind m (fun a => bind (k1 a) k2) g.
  Proof. unfold bind. destruct (m g) as [[a|e] g1]; reflexivity. Qed.

Lemma bind_send {net : Network} B (r : request) (k : response -> M W B) g :
    bind (send r) k g =
      if payload_refused r then (Raised InvalidJSONError, g)
      else
        match serve (map fst (exchanges g)) r with
        | Responds resp => k resp (after_exchange r (Responds resp) g)
        | Fails detail => (Raised (TransportError detail), after_exchange r (Fails detail) g)
        end.
  Proof.
    unfold bind, send. destruct (payload_refused r); [reflexivity|].
    destruct (serve _ r); reflexivity.
  Qed.

  (** What a handler that stays offline does after a step that does not. *)
Lemma exchanges_try A (m : M W A) (h : exn -> M W A) g log :
    exchanges (snd (m g)) = log -> (forall e, offline (h e)) ->
    exchanges (snd (try_except m h g)) = log.
  Proof.
    intros Hm Hh. unfold try_except.
    destruct (m g) as [[a|e] g1]; cbn in *; [exact Hm | rewrite Hh; exact Hm].
  Qed.
End Steps.


(** ** Trees *)

Lemma filter_other_iids (i : nat) (l : list item) :
  ~ In i (map iid l) -> filter (fun it => negb (Nat.eqb (iid it) i)) l = l.
Proof.
  induction l as [|a l IH]; cbn; intro Hnot; [reflexivity|].
  destruct (Nat.eqb_spec (iid a) i) as [Heq|Hne]; cbn.
  - exfalso. apply Hnot. left. exact Heq.
  - rewrite IH; [reflexivity|]. intro Hin. apply Hnot. right. exact Hin.
Qed.

(** Emptying a tree whose items have distinct identifiers. *)
Lemma clear_tree_run (t : treeview) (g : gui BrowseWindow.window) :
  NoDup (get_children t) ->
  clear_tree t g = (Ok {| items := []; next_iid := next_iid t |}, g).
Proof.
  unfold clear_tree, get_children. destruct t as [l n]. cbn [items next_iid].
  revert g. induction l as [|a l IH]; intros g Hnd; cbn; [reflexivity|].
  inversion Hnd as [|? ? Hnot Hnd']; subst.
  unfold tree_delete. cbn [items next_iid existsb filter].
  rewrite Nat.eqb_refl. cbn [orb negb].
  rewrite (filter_other_iids _ _ Hnot).
  rewrite bind_ret. apply IH. exact Hnd'.
Qed.

Lemma rows_tree_insert vals t : rows (tree_insert vals t) = rows t ++ [vals].
Proof. unfold rows, tree_insert. cbn [items]. rewrite map_app. reflexivity. Qed.

(** ** One step inside a [try] *)

Section TrySteps.
Context {W : Type}.

Lemma try_bind_gets A B (f : W -> A) (k : A -> M W B) h g :
    try_except (bind (gets f) k) h g = try_except (k (f (win g))) h g.
  Proof. reflexivity. Qed.

Lemma try_bind_modify B (f : W -> W) (k : unit -> M W B) h g :
    try_except (bind (modify f) k) h g = try_except (k tt) h (with_win f g).
  Proof. reflexivity. Qed.

Lemma try_bind_ret A B (a : A) (k : A -> M W B) h g :
    try_except (bind (ret a) k) h g = try_except (k a) h g.
  Proof. reflexivity. Qed.

Lemma try_bind_raise A B (e : exn) (k : A -> M W B) h g :
    try_except (bind (raise e) k) h g = h e g.
  Proof. reflexivity. Qed.

Lemma try_bind_assoc A B C (m : M W A) (k1 : A -> M W B) (k2 : B -> M W C) h g :
    try_except (bind (bind m k1) k2) h g = try_except (bind m (fun a => bind (k1 a) k2)) h g.
  Proof. unfold try_except. rewrite bind_assoc. reflexivity. Qed.

Lemma try_bind_emit B (e : ui_event) (k : unit -> M W B) h g :
    try_except (bind (emit e) k) h g = try_except (k tt) h (after_showing e g).
  Proof. reflexivity. Qed.

Lemma try_bind_run A B (m : M W A) (k : A -> M W B) h g a g' :
    m g = (Ok a, g') -> try_except (bind m k) h g = try_except (k a) h g'.
  Proof. intro Hm. unfold try_except, bind. rewrite Hm. reflexivity. Qed.

Lemma try_bind_send {net : Network} B (r : request) (k : response -> M W B) h g :
    try_except (bind (send r) k) h g =
      if payload_refused r then h InvalidJSONError g
      else
        match serve (map fst (exchanges g)) r with
        | Responds resp => try_except (k resp) h (after_exchange r (Responds resp) g)
        | Fails detail => h (TransportError detail) (after_exchange r (Fails detail) g)
        end.
  Proof.
    unfold try_except, bind, send. destruct (payload_refused r); [reflexivity|].
    destruct (serve _ r); reflexivity.
  Qed.
End TrySteps.

(* ===================================================================== *)
(** * Reasoning about JSON text *)
(* ===================================================================== *)


(** ** Decimal numerals *)

Lemma str_eqb_eq (a b : pystr) : str_eqb a b = true <-> a = b.
Proof.
  revert b. induction a as [|x a IH]; intros [|y b]; cbn; split; intro H;
    try discriminate; try reflexivity.
  - apply andb_prop in H. destruct H as [Hx Ha].
    apply N.eqb_eq in Hx. apply IH in Ha. congruence.
  - inversion H; subst. rewrite N.eqb_refl. apply IH. reflexivity.
Qed.

Lemma str_eqb_refl (a : pystr) : str_eqb a a = true.
Proof. apply str_eqb_eq. reflexivity. Qed.

(** A digit character and its value. *)
Lemma is_digit_value (c : N) : is_digit c = true -> (48 <= c <= 57)%N.
Proof. unfold is_digit. intro H. apply andb_prop in H. destruct H as [H1 H2].
  apply N.leb_le in H1. apply N.leb_le in H2. lia. Qed.

Lemma digit_char_is_digit (d : N) : (d < 10)%N -> is_digit (48 + d) = true.
Proof. intro H. unfold is_digit. apply andb_true_intro. split; apply N.leb_le; lia. Qed.

(** The digits of [n], given enough fuel, and the number they denote. *)
Lemma digits_fuel_spec (fuel : nat) :
  forall (n : N) (acc : pystr),
    (N.to_nat (N.log2 n) < fuel)%nat ->
    exists ds,
      digits_fuel fuel n acc = ds ++ acc /\
      Forall (fun c => is_digit c = true) ds /\
      ds <> [] /\
      (forall k, fold_left (fun a d => (a * 10 + (d - 48))%N) ds k =
                 (k * 10 ^ N.of_nat (length ds) + n)%N) /\
      (n <> 0%N -> hd 0%N ds <> 48%N) /\
      (n = 0%N -> ds = [48%N]).
Proof.
  induction fuel as [|fuel IH]; intros n acc Hfuel; [lia|].
  cbn [digits_fuel].
  pose proof (N.div_mod n 10 ltac:(discriminate)) as Hdm.
  assert (Hmod : (n mod 10 < 10)%N) by (apply N.mod_lt; discriminate).
  remember (n / 10)%N as q eqn:Hq. remember (n mod 10)%N as r eqn:Hr.
  destruct (N.ltb_spec n 10) as [Hlt|Hge].
  - assert (q = 0%N) by (clear - Hdm Hmod Hlt; lia).
    assert (r = n) by (clear - Hdm Hmod Hlt H; lia). subst r.
    exists [(48 + n)%N]. rewrite H0.
    repeat split.
    + constructor; [apply digit_char_is_digit; exact Hlt | constructor].
    + discriminate.
    + intro k. cbn [fold_left length]. change (N.of_nat 1) with 1%N.
      rewrite N.pow_1_r. clear. lia.
    + intros Hn. cbn [hd]. clear - Hn. lia.
    + intros ->. reflexivity.
  - assert (Hq0 : (q <> 0)%N) by (clear - Hdm Hmod Hge; lia).
    destruct (IH q ((48 + r)%N :: acc)) as (ds & Heq & Hall & Hne & Hval & Hhd & _).
    { assert (Hlog : (N.log2 q < N.log2 n)%N).
      { apply N.log2_lt_pow2; [clear - Hq0; lia|].
        destruct (N.log2_spec n) as [Hlow Hhigh]; [clear - Hge; lia|].
        rewrite N.pow_succ_r' in Hhigh.
        clear - Hdm Hmod Hhigh. lia. }
      clear - Hlog Hfuel. lia. }
    exists (ds ++ [(48 + r)%N]). rewrite Heq, <- app_assoc. repeat split.
    + apply Forall_app. split; [exact Hall|].
      constructor; [apply digit_char_is_digit; exact Hmod | constructor].
    + destruct ds; discriminate.
    + intro k. rewrite fold_left_app, Hval. cbn [fold_left].
      rewrite length_app. cbn [length]. rewrite Nat.add_1_r, Nat2N.inj_succ, N.pow_succ_r'.
      replace (48 + r - 48)%N with r by (clear; lia).
      clear - Hdm. nia.
    + intros _. destruct ds as [|d ds]; [contradiction|]. cbn [hd app] in *.
      apply Hhd. exact Hq0.
    + intros ->. clear - Hge. lia.
Qed.

Lemma str_of_N_spec (n : N) :
  Forall (fun c => is_digit c = true) (str_of_N n) /\
  str_of_N n <> [] /\
  N_of_digits (str_of_N n) = n /\
  (n <> 0%N -> hd 0%N (str_of_N n) <> 48%N) /\
  (n = 0%N -> str_of_N n = [48%N]).
Proof.
  unfold str_of_N, N_of_digits.
  destruct (digits_fuel_spec (S (N.to_nat (N.log2 n))) n []) as (ds & Heq & Hall & Hne & Hval & Hhd & H0);
    [lia|].
  rewrite Heq, app_nil_r. repeat split; try assumption.
  rewrite Hval. lia.
Qed.

(** ** The number lexer *)

(** Text after which a number ends: nothing, or a character that no part of
    a number starts with. *)
Definition ends_number (rest : pystr) : Prop :=
  match rest with
  | [] => True
  | c :: _ => is_digit c = false /\ c <> chr "." /\ c <> chr "e" /\ c <> chr "E" /\
              c <> chr "+" /\ c <> chr "-"
  end.

Lemma span_digits_app (s rest : pystr) :
  ends_number rest ->
  span_digits (s ++ rest) = (fst (span_digits s), snd (span_digits s) ++ rest).
Proof.
  intro Hend. induction s as [|c s IH]; cbn [app span_digits].
  - destruct rest as [|c rest]; [reflexivity|].
    cbn [span_digits]. destruct Hend as [Hd _]. rewrite Hd. reflexivity.
  - destruct (is_digit c); [|reflexivity].
    rewrite IH. destruct (span_digits s). reflexivity.
Qed.

Lemma span_digits_all (ds : pystr) :
  Forall (fun c => is_digit c = true) ds -> span_digits ds = (ds, []).
Proof.
  induction 1 as [|c ds Hc _ IH]; cbn [span_digits]; [reflexivity|].
  rewrite Hc, IH. reflexivity.
Qed.

Lemma lex_digits1_app (s rest i r : pystr) :
  ends_number rest ->
  lex_digits1 s = Some (i, r) -> lex_digits1 (s ++ rest) = Some (i, r ++ rest).
Proof.
  intros Hend. destruct s as [|c s]; [discriminate|]. cbn [app lex_digits1].
  destruct (c =? 48)%N.
  - intro H. inversion H; subst. reflexivity.
  - destruct (is_digit c); [|discriminate].
    rewrite (span_digits_app s rest Hend). destruct (span_digits s) as [ds r'].
    intro H. inversion H; subst. reflexivity.
Qed.

Lemma lex_int_app (s rest i r : pystr) :
  ends_number rest ->
  lex_int s = Some (i, r) -> lex_int (s ++ rest) = Some (i, r ++ rest).
Proof.
  intros Hend. destruct s as [|c s]; [discriminate|]. cbn [app lex_int].
  destruct (c =? chr "-")%N.
  - destruct (lex_digits1 s) as [[ds r']|] eqn:Hd; [|discriminate].
    rewrite (lex_digits1_app _ _ _ _ Hend Hd).
    intro H. inversion H; subst. reflexivity.
  - intro H. change (c :: s ++ rest) with ((c :: s) ++ rest).
    apply lex_digits1_app; assumption.
Qed.

Lemma lex_frac_app (s rest : pystr) :
  ends_number rest ->
  lex_frac (s ++ rest) = (fst (lex_frac s), snd (lex_frac s) ++ rest).
Proof.
  intro Hend. destruct s as [|c s].
  - cbn [app lex_frac fst snd]. destruct rest as [|c rest]; [reflexivity|].
    cbn [lex_frac]. destruct Hend as (_ & Hdot & _).
    apply N.eqb_neq in Hdot. rewrite Hdot. reflexivity.
  - cbn [app lex_frac]. destruct (c =? chr ".")%N; [|reflexivity].
    rewrite (span_digits_app s rest Hend).
    destruct (span_digits s) as [[|d ds] r]; reflexivity.
Qed.

Lemma lex_exp_app (s rest : pystr) :
  ends_number rest ->
  lex_exp (s ++ rest) = (fst (lex_exp s), snd (lex_exp s) ++ rest).
Proof.
  intro Hend.
  assert (Hrest : span_digits rest = ([], rest)).
  { destruct rest as [|c rest]; [reflexivity|]. cbn [span_digits].
    destruct Hend as [Hd _]. rewrite Hd. reflexivity. }
  destruct s as [|c s].
  - cbn [app lex_exp fst snd]. destruct rest as [|c rest]; [reflexivity|].
    cbn [lex_exp]. destruct Hend as (_ & _ & He & HE & _).
    apply N.eqb_neq in He, HE. rewrite He, HE. reflexivity.
  - cbn [app lex_exp]. destruct ((c =? chr "e") || (c =? chr "E"))%N; [|reflexivity].
    destruct s as [|g s].
    + cbn [app fst snd]. destruct rest as [|g rest]; [reflexivity|].
      destruct Hend as (Hd & _ & _ & _ & Hplus & Hminus).
      apply N.eqb_neq in Hplus, Hminus. rewrite Hplus, Hminus. cbn [orb].
      cbn [span_digits]. rewrite Hd. reflexivity.
    + cbn [app]. destruct ((g =? chr "+") || (g =? chr "-"))%N.
      * rewrite (span_digits_app s rest Hend).
        destruct (span_digits s) as [[|d ds] r]; reflexivity.
      * change (g :: s ++ rest) with ((g :: s) ++ rest).
        rewrite (span_digits_app (g :: s) rest Hend).
        destruct (span_digits (g :: s)) as [[|d ds] r]; reflexivity.
Qed.

Lemma lex_number_app (s rest i t r : pystr) :
  ends_number rest ->
  lex_number s = Some (i, t, r) -> lex_number (s ++ rest) = Some (i, t, r ++ rest).
Proof.
  intros Hend. unfold lex_number.
  destruct (lex_int s) as [[i' r1]|] eqn:Hint; [|discriminate].
  rewrite (lex_int_app _ _ _ _ Hend Hint).
  rewrite (lex_frac_app r1 rest Hend). destruct (lex_frac r1) as [f r2]. cbn [fst snd].
  rewrite (lex_exp_app r2 rest Hend). destruct (lex_exp r2) as [e r3]. cbn [fst snd].
  intro H. inversion H; subst. reflexivity.
Qed.

(** The lexer on the numeral of an integer. *)
Lemma lex_number_int (z : Z) : lex_number (str_of_Z z) = Some (str_of_Z z, [], []).
Proof.
  assert (Hnat : forall n, lex_digits1 (str_of_N n) = Some (str_of_N n, [])).
  { intro n. destruct (str_of_N_spec n) as (Hall & Hne & _ & Hhd & H0).
    destruct (N.eq_dec n 0) as [->|Hn].
    - rewrite (H0 eq_refl). reflexivity.
    - specialize (Hhd Hn). destruct (str_of_N n) as [|c ds]; [contradiction|].
      cbn [hd] in Hhd. cbn [lex_digits1].
      apply N.eqb_neq in Hhd. rewrite Hhd.
      inversion Hall as [|? ? Hc Hds]; subst. rewrite Hc.
      rewrite (span_digits_all ds Hds). reflexivity. }
  assert (Hfirst : forall n, exists c ds, str_of_N n = c :: ds /\ is_digit c = true).
  { intro n. destruct (str_of_N_spec n) as (Hall & Hne & _).
    destruct (str_of_N n) as [|c ds]; [contradiction|].
    inversion Hall; subst. eauto. }
  assert (Hint_nat : forall n, lex_int (str_of_N n) = Some (str_of_N n, [])).
  { intro n. rewrite <- (Hnat n). destruct (Hfirst n) as (c & ds & Heq & Hc). rewrite Heq.
    cbn [lex_int]. apply is_digit_value in Hc.
    destruct (N.eqb_spec c (chr "-")) as [Hm|_]; [|reflexivity].
    exfalso. rewrite Hm in Hc. cbv in Hc. destruct Hc as [Hc _]. apply Hc. reflexivity. }
  unfold lex_number.
  assert (Hint : lex_int (str_of_Z z) = Some (str_of_Z z, [])).
  { unfold str_of_Z. destruct z as [|p|p]; cbn [Z.to_N].
    - apply Hint_nat.
    - apply Hint_nat.
    - cbn [lex_int]. rewrite N.eqb_refl, (Hnat (N.pos p)). reflexivity. }
  rewrite Hint. reflexivity.
Qed.

Lemma int_of_lexeme_str_of_Z (z : Z) : int_of_lexeme (str_of_Z z) = z.
Proof.
  assert (Hnat : forall n, int_of_lexeme (str_of_N n) = Z.of_N n).
  { intro n. destruct (str_of_N_spec n) as (Hall & Hne & Hval & _).
    unfold int_of_lexeme. destruct (str_of_N n) as [|c ds] eqn:Heq; [contradiction|].
    inversion Hall as [|? ? Hc _]. apply is_digit_value in Hc.
    destruct (N.eqb_spec c (chr "-")) as [Hm|_].
    - exfalso. rewrite Hm in Hc. cbv in Hc. destruct Hc as [Hc _]. apply Hc. reflexivity.
    - rewrite Hval. reflexivity. }
  unfold str_of_Z. destruct z as [|p|p]; cbn [Z.to_N].
  - apply (Hnat 0%N).
  - apply (Hnat (N.pos p)).
  - unfold int_of_lexeme. rewrite N.eqb_refl.
    destruct (str_of_N_spec (N.pos p)) as (_ & _ & Hval & _). rewrite Hval. reflexivity.
Qed.
(** ** Escapes *)

Lemma hexval_hexdigit (d : N) : (d < 16)%N -> hexval (hexdigit d) = Some d.
Proof.
  intro Hd. unfold hexdigit, hexval.
  destruct (N.ltb_spec d 10) as [Hlt|Hge].
  - replace ((48 <=? 48 + d) && (48 + d <=? 57))%N with true.
    + f_equal. lia.
    + symmetry. apply andb_true_intro. split; apply N.leb_le; lia.
  - replace ((48 <=? 87 + d) && (87 + d <=? 57))%N with false.
    + replace ((97 <=? 87 + d) && (87 + d <=? 102))%N with true.
      * f_equal. lia.
      * symmetry. apply andb_true_intro. split; apply N.leb_le; lia.
    + symmetry. apply andb_false_intro2. apply N.leb_gt. lia.
Qed.

Lemma hex4_digits (n : N) :
  (n < 65536)%N ->
  exists d3 d2 d1 d0,
    hex4 n = [hexdigit d3; hexdigit d2; hexdigit d1; hexdigit d0] /\
    (d3 < 16 /\ d2 < 16 /\ d1 < 16 /\ d0 < 16)%N /\
    (((d3 * 16 + d2) * 16 + d1) * 16 + d0 = n)%N.
Proof.
  intro Hn. unfold hex4.
  exists (n / 4096 mod 16)%N, (n / 256 mod 16)%N, (n / 16 mod 16)%N, (n mod 16)%N.
  split; [reflexivity|].
  assert (H16 : forall x, (x mod 16 < 16)%N) by (intro x; apply N.mod_lt; discriminate).
  split; [repeat split; apply H16|].
  assert (E2 : (n / 256 = n / 16 / 16)%N) by (rewrite N.Div0.div_div; reflexivity).
  assert (E3 : (n / 4096 = n / 16 / 16 / 16)%N) by (rewrite !N.Div0.div_div; reflexivity).
  assert (Hq3 : (n / 4096 < 16)%N) by (apply N.Div0.div_lt_upper_bound; exact Hn).
  rewrite (N.mod_small (n / 4096) 16 Hq3).
  rewrite E3 in Hq3 |- *. rewrite E2.
  pose proof (N.div_mod n 16 ltac:(discriminate)) as H0.
  pose proof (N.div_mod (n / 16) 16 ltac:(discriminate)) as H1.
  pose proof (N.div_mod (n / 16 / 16) 16 ltac:(discriminate)) as H2.
  pose proof (H16 n) as B0. pose proof (H16 (n / 16)%N) as B1.
  pose proof (H16 (n / 16 / 16)%N) as B2.
  remember (n / 16 / 16 / 16)%N as q3.
  remember ((n / 16 / 16) mod 16)%N as d2. remember (n / 16 / 16)%N as q2.
  remember ((n / 16) mod 16)%N as d1. remember (n / 16)%N as q1.
  remember (n mod 16)%N as d0.
  clear - H0 H1 H2. lia.
Qed.

Lemma decode_hex4_hex4 (n : N) (tail : pystr) :
  (n < 65536)%N -> decode_hex4 (hex4 n ++ tail) = Some (n, tail).
Proof.
  intro Hn. destruct (hex4_digits n Hn) as (d3 & d2 & d1 & d0 & Heq & (B3 & B2 & B1 & B0) & Hval).
  rewrite Heq. cbn [app decode_hex4].
  rewrite !hexval_hexdigit by assumption. rewrite Hval. reflexivity.
Qed.

(** The two halves of the surrogate pair of a code point beyond [0xFFFF]. *)
Lemma surrogate_pair (c : N) :
  (65536 <= c < 1114112)%N ->
  let n := (c - 65536)%N in
  let s1 := N.lor 55296 (N.land (N.shiftr n 10) 1023) in
  let s2 := N.lor 56320 (N.land n 1023) in
  is_high_surrogate s1 = true /\ is_low_surrogate s2 = true /\
  (s1 < 65536)%N /\ (s2 < 65536)%N /\ join_surrogates s1 s2 = c.
Proof.
  intros Hc n s1 s2.
  assert (Hn : (n < 1048576)%N) by (subst n; lia).
  assert (Hlor : forall base x, N.land base 1023 = 0%N -> (x < 1024)%N ->
                                N.lor base x = (base + x)%N).
  { intros base x Hbase Hx.
    assert (Hland : N.land base x = 0%N).
    { replace x with (N.land x 1023).
      - rewrite (N.land_comm x), N.land_assoc, Hbase. reflexivity.
      - change 1023%N with (N.ones 10). rewrite N.land_ones. apply N.mod_small. exact Hx. }
    rewrite <- N.lxor_lor by exact Hland. symmetry. apply N.add_nocarry_lxor. exact Hland. }
  assert (Hhi : N.land (N.shiftr n 10) 1023 = (n / 1024)%N).
  { rewrite N.shiftr_div_pow2. change (2 ^ 10)%N with 1024%N.
    change 1023%N with (N.ones 10). rewrite N.land_ones. apply N.mod_small.
    apply N.Div0.div_lt_upper_bound. exact Hn. }
  assert (Hlo : N.land n 1023 = (n mod 1024)%N).
  { change 1023%N with (N.ones 10). rewrite N.land_ones. reflexivity. }
  assert (Hq : (n / 1024 < 1024)%N) by (apply N.Div0.div_lt_upper_bound; exact Hn).
  assert (Hr : (n mod 1024 < 1024)%N) by (apply N.mod_lt; discriminate).
  pose proof (N.div_mod n 1024 ltac:(discriminate)) as Hdm.
  assert (E1 : s1 = (55296 + n / 1024)%N).
  { subst s1. rewrite Hhi. apply Hlor; [reflexivity | exact Hq]. }
  assert (E2 : s2 = (56320 + n mod 1024)%N).
  { subst s2. rewrite Hlo. apply Hlor; [reflexivity | exact Hr]. }
  rewrite E1, E2. clear E1 E2 s1 s2 Hhi Hlo.
  remember (n / 1024)%N as q. remember (n mod 1024)%N as r.
  unfold is_high_surrogate, is_low_surrogate, join_surrogates.
  repeat split.
  - apply andb_true_intro. split; apply N.leb_le; clear - Hq; lia.
  - apply andb_true_intro. split; apply N.leb_le; clear - Hr; lia.
  - clear - Hq. lia.
  - clear - Hr. lia.
  - replace (55296 + q - 55296)%N with q by (clear; lia).
    replace (56320 + r - 56320)%N with r by (clear; lia).
    rewrite Hlor.
    + rewrite N.shiftl_mul_pow2. change (2 ^ 10)%N with 1024%N.
      subst n. clear - Hdm Hc. lia.
    + rewrite N.shiftl_mul_pow2. change (2 ^ 10)%N with 1024%N.
      change 1023%N with (N.ones 10). rewrite N.land_ones.
      apply N.Div0.mod_mul.
    + exact Hr.
Qed.

(** ** Strings *)

(** A string whose code points are in range and in which no high surrogate
    is followed by a low one: such a pair would be read back as one
    character. *)
Fixpoint str_ok (s : pystr) : bool :=
  match s with
  | [] => true
  | c :: s' =>
      (c <? 1114112)%N &&
      negb (is_high_surrogate c &&
            match s' with c' :: _ => is_low_surrogate c' | [] => false end) &&
      str_ok s'
  end.

(** The text after an escape of a high surrogate does not go on with the
    escape of a low one. *)
Definition no_low_escape (tail : pystr) : Prop :=
  startswith tail [backslash; chr "u"] = false \/
  exists u r, decode_hex4 (skipn 2 tail) = Some (u, r) /\ is_low_surrogate u = false.

(** The classes of characters [encode_char] tells apart. *)
Inductive char_class (c : pychar) : Prop :=
| short_escape (e : pychar) :
    encode_char c = [backslash; e] -> simple_escape e = Some c -> e <> chr "u" -> char_class c
| printable :
    encode_char c = [c] -> c <> dquote -> c <> backslash -> (32 <= c)%N -> char_class c
| bmp_escape :
    encode_char c = u_escape c -> (c < 65536)%N -> char_class c
| pair_escape (s1 s2 : N) :
    encode_char c = u_escape s1 ++ u_escape s2 ->
    is_high_surrogate s1 = true -> is_low_surrogate s2 = true ->
    (s1 < 65536)%N -> (s2 < 65536)%N -> join_surrogates s1 s2 = c -> char_class c.

Lemma encode_char_class (c : pychar) : (c < 1114112)%N -> char_class c.
Proof.
  intro Hc.
  destruct (N.eqb_spec c dquote) as [->|H1];
    [eapply short_escape; [reflexivity | reflexivity | discriminate]|].
  destruct (N.eqb_spec c backslash) as [->|H2];
    [eapply short_escape; [reflexivity | reflexivity | discriminate]|].
  destruct (N.eqb_spec c 10) as [->|H3];
    [eapply short_escape; [reflexivity | reflexivity | discriminate]|].
  destruct (N.eqb_spec c 13) as [->|H4];
    [eapply short_escape; [reflexivity | reflexivity | discriminate]|].
  destruct (N.eqb_spec c 9) as [->|H5];
    [eapply short_escape; [reflexivity | reflexivity | discriminate]|].
  destruct (N.eqb_spec c 8) as [->|H6];
    [eapply short_escape; [reflexivity | reflexivity | discriminate]|].
  destruct (N.eqb_spec c 12) as [->|H7];
    [eapply short_escape; [reflexivity | reflexivity | discriminate]|].
  apply N.eqb_neq in H1, H2, H3, H4, H5, H6, H7.
  assert (Henc : encode_char c =
                 if ((32 <=? c) && (c <=? 126))%N then [c]
                 else if (c <? 65536)%N then u_escape c
                 else u_escape (N.lor 55296 (N.land (N.shiftr (c - 65536) 10) 1023)) ++
                      u_escape (N.lor 56320 (N.land (c - 65536) 1023))).
  { unfold encode_char. rewrite H1, H2, H3, H4, H5, H6, H7. reflexivity. }
  apply N.eqb_neq in H1, H2.
  destruct ((32 <=? c) && (c <=? 126))%N eqn:Hp.
  - apply andb_prop in Hp. destruct Hp as [Hlo _]. apply N.leb_le in Hlo.
    apply printable; assumption.
  - destruct (N.ltb_spec c 65536) as [Hbmp|Hbig].
    + apply bmp_escape; assumption.
    + destruct (surrogate_pair c (conj Hbig Hc)) as (Hh & Hl & B1 & B2 & Hjoin).
      eapply pair_escape; eassumption.
Qed.

(** One character of a string, read back. *)
Lemma scan_encoded_char (f : nat) (c : pychar) (tail : pystr) :
  (c < 1114112)%N ->
  (is_high_surrogate c = true -> no_low_escape tail) ->
  scanstring_fuel (S f) (encode_char c ++ tail) = cons_char c (scanstring_fuel f tail).
Proof.
  intros Hc Hnext. destruct (encode_char_class c Hc) as
      [e Henc Hesc Hu | Henc Hq Hb Hlo | Henc Hbmp | s1 s2 Henc Hh Hl B1 B2 Hjoin];
    rewrite Henc.
  - cbn [app scanstring_fuel]. change (backslash =? dquote)%N with false.
    rewrite N.eqb_refl. apply N.eqb_neq in Hu. rewrite Hu, Hesc. reflexivity.
  - cbn [app scanstring_fuel].
    apply N.eqb_neq in Hq, Hb. rewrite Hq, Hb.
    destruct (N.ltb_spec c 32) as [Hlt|_]; [lia | reflexivity].
  - unfold u_escape. cbn [app scanstring_fuel]. change (backslash =? dquote)%N with false.
    rewrite !N.eqb_refl. rewrite (decode_hex4_hex4 c tail Hbmp).
    destruct (is_high_surrogate c) eqn:Hhigh; cbn [andb]; [|reflexivity].
    destruct (Hnext eq_refl) as [Hno | (u & r & Hdec & Hnot)].
    + rewrite Hno. reflexivity.
    + destruct (startswith tail [backslash; chr "u"]); [|reflexivity].
      rewrite Hdec, Hnot. reflexivity.
  - unfold u_escape. cbn [app scanstring_fuel]. change (backslash =? dquote)%N with false.
    rewrite !N.eqb_refl. rewrite <- app_assoc. rewrite (decode_hex4_hex4 s1 _ B1).
    rewrite Hh. cbn [app startswith andb skipn]. rewrite !N.eqb_refl. cbn [andb].
    rewrite (decode_hex4_hex4 s2 tail B2). rewrite Hl, Hjoin. reflexivity.
Qed.

(** The first character of a string, should it be a low surrogate. *)
Definition starts_low (s : pystr) : bool :=
  match s with
  | c :: _ => is_low_surrogate c
  | [] => false
  end.

Lemma no_low_escape_encoded (s rest : pystr) :
  str_ok s = true -> starts_low s = false ->
  no_low_escape (flat_map encode_char s ++ dquote :: rest).
Proof.
  intros Hok Hlow. destruct s as [|c s].
  - left. reflexivity.
  - cbn [str_ok] in Hok. apply andb_prop in Hok. destruct Hok as [Hok _].
    apply andb_prop in Hok. destruct Hok as [Hc _]. apply N.ltb_lt in Hc.
    cbn [starts_low] in Hlow. cbn [flat_map]. rewrite <- app_assoc.
    destruct (encode_char_class c Hc) as
        [e Henc Hesc Hu | Henc Hq Hb Hlo | Henc Hbmp | s1 s2 Henc Hh Hl B1 B2 Hjoin];
      rewrite Henc.
    + left. cbn [app startswith]. rewrite N.eqb_refl. cbn [andb].
      apply N.eqb_neq in Hu. rewrite Hu. reflexivity.
    + left. cbn [app startswith]. apply N.eqb_neq in Hb. rewrite Hb. reflexivity.
    + right. exists c. eexists. unfold u_escape. cbn [app skipn].
      split; [apply decode_hex4_hex4; exact Hbmp | exact Hlow].
    + right. exists s1. eexists. unfold u_escape. cbn [app skipn]. rewrite <- app_assoc.
      split; [apply decode_hex4_hex4; exact B1|].
      unfold is_high_surrogate in Hh. unfold is_low_surrogate.
      apply andb_prop in Hh. destruct Hh as [_ Hh]. apply N.leb_le in Hh.
      apply andb_false_intro1. apply N.leb_gt. lia.
Qed.

(** A string, read back from its encoding. *)
Lemma scan_encoded_string (s rest : pystr) :
  str_ok s = true ->
  forall fuel, (length s < fuel)%nat ->
    scanstring_fuel fuel (flat_map encode_char s ++ dquote :: rest) = Some (s, rest).
Proof.
  induction s as [|c s IH]; intros Hok fuel Hfuel.
  - destruct fuel as [|f]; [cbn in Hfuel; lia|]. reflexivity.
  - destruct fuel as [|f]; [cbn in Hfuel; lia|].
    cbn [str_ok] in Hok. apply andb_prop in Hok. destruct Hok as [Hok Hrest].
    apply andb_prop in Hok. destruct Hok as [Hc Hpair]. apply N.ltb_lt in Hc.
    cbn [flat_map]. rewrite <- app_assoc.
    rewrite scan_encoded_char.
    + rewrite (IH Hrest f) by (cbn in Hfuel; lia). reflexivity.
    + exact Hc.
    + intro Hhigh. rewrite Hhigh in Hpair. cbn [andb] in Hpair.
      apply no_low_escape_encoded; [exact Hrest|].
      destruct s; [reflexivity|]. cbn [starts_low]. apply negb_true_iff in Hpair. exact Hpair.
Qed.

Lemma scanstring_encoded (s rest : pystr) :
  str_ok s = true ->
  scanstring (flat_map encode_char s ++ dquote :: rest) = Some (s, rest).
Proof.
  intro Hok. unfold scanstring. apply scan_encoded_string; [exact Hok|].
  rewrite length_app. cbn [length].
  assert (Hlen : (length s <= length (flat_map encode_char s))%nat).
  { clear. induction s as [|c s IH]; cbn [flat_map length]; [lia|].
    rewrite length_app.
    assert (1 <= length (encode_char c))%nat.
    { unfold encode_char, u_escape.
      repeat match goal with |- context [if ?b then _ else _] => destruct b end;
        cbn [length app]; rewrite ?length_app; cbn [length]; lia. }
    lia. }
  lia.
Qed.

(** ** Values that are read back as they are *)

(** The lexeme of a float: a match of the number pattern with a fraction or
    an exponent, and nothing left over. *)
Definition is_float_lexeme (l : pystr) : bool :=
  match lex_number l with
  | Some (_, _ :: _, []) => true
  | _ => false
  end.

Section WellFormed.
Context {pf : PyFloat}.

(** The text of a float: one of the three names, or a lexeme that stands
    for itself. *)
Definition float_ok (r : pystr) : bool :=
  is_nonfinite r || (is_float_lexeme r && str_eqb (float_canon r) r).

Fixpoint distinct_keys (members : list (pystr * json)) : bool :=
  match members with
  | [] => true
  | (k, _) :: members' =>
      negb (existsb (fun kv => str_eqb (fst kv) k) members') && distinct_keys members'
  end.

(** The values that the grammar of [json.loads] builds from text without
    stray surrogates. *)
Fixpoint value_ok (v : json) : bool :=
  match v with
  | JFloat r => float_ok r
  | JStr s => str_ok s
  | JArr items => forallb value_ok items
  | JObj members =>
      forallb (fun kv => str_ok (fst kv) && value_ok (snd kv)) members && distinct_keys members
  | _ => true
  end.
End WellFormed.

Section Limits.
Context {pf : PyFloat} {lim : PyLimits}.

(** An integer whose decimal digits [int] converts. *)
Definition digits_ok (z : Z) : bool := negb (too_many_digits (str_of_N (Z.abs_N z))).

(** A value that the scanner reads when it is inside of [depth] lists and
    dicts: not nested too deep, and no integer with too many digits. *)
Fixpoint fits (depth : nat) (v : json) : bool :=
  match v with
  | JInt z => digits_ok z
  | JArr items => (depth <? max_nesting) && forallb (fits (S depth)) items
  | JObj members =>
      (depth <? max_nesting) && forallb (fun kv => fits (S depth) (snd kv)) members
  | _ => true
  end.

(** The values [json.loads] returns for text without stray surrogates. *)
Definition json_ok (v : json) : bool := value_ok v && fits 0 v.
End Limits.

(** Calls of the parsers that reading a value back takes. *)
Fixpoint size (v : json) : nat :=
  match v with
  | JArr items => S (fold_right (fun x n => S (size x + n)) 0 items)
  | JObj members => S (fold_right (fun kv n => S (size (snd kv) + n)) 0 members)
  | _ => 1
  end.

(** The characters a value starts with. *)
Definition value_start (c : pychar) : bool :=
  is_digit c ||
  existsb (N.eqb c) [dquote; chr "{"; chr "["; chr "n"; chr "t"; chr "f"; chr "-"; chr "N"; chr "I"].

Lemma lex_number_consumes (s i t r : pystr) :
  lex_number s = Some (i, t, r) -> s = i ++ t ++ r.
Proof.
  assert (Hspan : forall x, x = fst (span_digits x) ++ snd (span_digits x)).
  { induction x as [|c x IH]; cbn [span_digits]; [reflexivity|].
    destruct (is_digit c); [|reflexivity].
    destruct (span_digits x) as [ds r']. cbn [fst snd app] in *. congruence. }
  assert (Hd1 : forall x i r, lex_digits1 x = Some (i, r) -> x = i ++ r).
  { intros [|c x] i' r'; cbn [lex_digits1]; [discriminate|].
    destruct (c =? 48)%N; [intro H; inversion H; reflexivity|].
    destruct (is_digit c); [|discriminate].
    pose proof (Hspan x) as Hx. destruct (span_digits x) as [ds r2]. cbn [fst snd] in Hx.
    intro H. inversion H; subst. cbn [app]. congruence. }
  assert (Hfrac : forall x, x = fst (lex_frac x) ++ snd (lex_frac x)).
  { intros [|c x]; cbn [lex_frac]; [reflexivity|].
    destruct (c =? chr ".")%N; [|reflexivity].
    pose proof (Hspan x) as Hx. destruct (span_digits x) as [[|d ds] r2]; [reflexivity|].
    cbn [fst snd app] in *. congruence. }
  assert (Hexp : forall x, x = fst (lex_exp x) ++ snd (lex_exp x)).
  { intros [|c x]; cbn [lex_exp]; [reflexivity|].
    destruct ((c =? chr "e") || (c =? chr "E"))%N; [|reflexivity].
    destruct x as [|g x]; [reflexivity|].
    destruct ((g =? chr "+") || (g =? chr "-"))%N.
    - pose proof (Hspan x) as Hx. destruct (span_digits x) as [[|d ds] r2]; [reflexivity|].
      cbn [fst snd app] in *. congruence.
    - pose proof (Hspan (g :: x)) as Hx.
      destruct (span_digits (g :: x)) as [[|d ds] r2]; [reflexivity|].
      cbn [fst snd app] in *. congruence. }
  unfold lex_number, lex_int.
  destruct s as [|c s]; [discriminate|].
  assert (Hint : forall i1 r1,
             (if (c =? chr "-")%N
              then match lex_digits1 s with
                   | Some (ds, rest) => Some (c :: ds, rest)
                   | None => None
                   end
              else lex_digits1 (c :: s)) = Some (i1, r1) -> c :: s = i1 ++ r1).
  { intros i1 r1. destruct (c =? chr "-")%N.
    - destruct (lex_digits1 s) as [[ds rest]|] eqn:Hs; [|discriminate].
      apply Hd1 in Hs. intro H. inversion H; subst. reflexivity.
    - apply Hd1. }
  destruct (if (c =? chr "-")%N then _ else _) as [[i1 r1]|]; [|discriminate].
  specialize (Hint i1 r1 eq_refl).
  pose proof (Hfrac r1) as Hf. destruct (lex_frac r1) as [f r2].
  pose proof (Hexp r2) as He. destruct (lex_exp r2) as [e r3].
  cbn [fst snd] in *. intro H. inversion H; subst.
  rewrite Hint, <- !app_assoc. reflexivity.
Qed.

(** A number lexeme is made of digits, signs, a dot and an exponent mark,
    and starts with a digit or a minus sign. *)
Definition number_char (c : pychar) : bool :=
  is_digit c || existsb (N.eqb c) [chr "-"; chr "+"; chr "."; chr "e"; chr "E"].

Lemma span_digits_chars (s : pystr) : Forall (fun c => is_digit c = true) (fst (span_digits s)).
Proof.
  induction s as [|c s IH]; cbn [span_digits]; [constructor|].
  destruct (is_digit c) eqn:Hc; [|constructor].
  destruct (span_digits s). cbn [fst] in *. constructor; assumption.
Qed.

Lemma digits_number_chars (ds : pystr) :
  Forall (fun c => is_digit c = true) ds -> Forall (fun c => number_char c = true) ds.
Proof.
  apply Forall_impl. intros c Hc. unfold number_char. rewrite Hc. reflexivity.
Qed.

Lemma lex_number_chars (s i t r : pystr) :
  lex_number s = Some (i, t, r) ->
  Forall (fun c => number_char c = true) (i ++ t) /\
  exists c i', i = c :: i' /\ (is_digit c = true \/ c = chr "-").
Proof.
  assert (Hd1 : forall x i r, lex_digits1 x = Some (i, r) ->
             Forall (fun c => is_digit c = true) i /\ exists c i', i = c :: i').
  { intros [|c x] i' r'; cbn [lex_digits1]; [discriminate|].
    destruct (N.eqb_spec c 48) as [->|_].
    - intro H. inversion H; subst. split; [repeat constructor | eauto].
    - destruct (is_digit c) eqn:Hc; [|discriminate].
      pose proof (span_digits_chars x) as Hx. destruct (span_digits x) as [ds r2].
      intro H. inversion H; subst. split; [constructor; assumption | eauto]. }
  unfold lex_number.
  destruct (lex_int s) as [[i1 r1]|] eqn:Hint; [|discriminate].
  assert (Hi : Forall (fun c => number_char c = true) i1 /\
               exists c i', i1 = c :: i' /\ (is_digit c = true \/ c = chr "-")).
  { unfold lex_int in Hint. destruct s as [|c s]; [discriminate|].
    destruct (N.eqb_spec c (chr "-")) as [->|_].
    - destruct (lex_digits1 s) as [[ds rest]|] eqn:Hs; [|discriminate].
      apply Hd1 in Hs. destruct Hs as [Hall _]. inversion Hint; subst.
      split; [|eauto]. constructor; [reflexivity | apply digits_number_chars; exact Hall].
    - apply Hd1 in Hint. destruct Hint as [Hall (c' & i' & ->)].
      split; [apply digits_number_chars; exact Hall|].
      inversion Hall; subst. eauto. }
  assert (Hf : Forall (fun c => number_char c = true) (fst (lex_frac r1))).
  { destruct r1 as [|c x]; cbn [lex_frac]; [constructor|].
    destruct (N.eqb_spec c (chr ".")) as [->|_]; [|constructor].
    pose proof (span_digits_chars x) as Hx. destruct (span_digits x) as [[|d ds] r2];
      [constructor|].
    cbn [fst] in *. constructor; [reflexivity | apply digits_number_chars; exact Hx]. }
  destruct (lex_frac r1) as [f r2]. cbn [fst] in Hf.
  assert (He : Forall (fun c => number_char c = true) (fst (lex_exp r2))).
  { destruct r2 as [|c x]; cbn [lex_exp]; [constructor|].
    destruct ((c =? chr "e") || (c =? chr "E"))%N eqn:Hc; [|constructor].
    assert (Hcn : number_char c = true).
    { apply orb_prop in Hc. destruct Hc as [Hc|Hc]; apply N.eqb_eq in Hc; subst; reflexivity. }
    destruct x as [|g x]; [constructor|].
    destruct ((g =? chr "+") || (g =? chr "-"))%N eqn:Hg.
    - assert (Hgn : number_char g = true).
      { apply orb_prop in Hg. destruct Hg as [Hg|Hg]; apply N.eqb_eq in Hg; subst; reflexivity. }
      pose proof (span_digits_chars x) as Hx. destruct (span_digits x) as [[|d ds] r3];
        [constructor|].
      cbn [fst] in *. repeat (constructor; [assumption|]). apply digits_number_chars. exact Hx.
    - pose proof (span_digits_chars (g :: x)) as Hx.
      destruct (span_digits (g :: x)) as [[|d ds] r3]; [constructor|].
      cbn [fst] in *. constructor; [assumption | apply digits_number_chars; exact Hx]. }
  destruct (lex_exp r2) as [e r3]. cbn [fst] in He.
  intro H. inversion H; subst.
  destruct Hi as [Hi Hfirst]. split; [|exact Hfirst].
  repeat (apply Forall_app; split); assumption.
Qed.

(** ** White space and the first character of a value *)

Lemma skip_ws_app (w x : pystr) :
  Forall (fun c => is_ws c = true) w -> skip_ws (w ++ x) = skip_ws x.
Proof.
  unfold skip_ws. induction 1 as [|c w Hc _ IH]; cbn [app lstrip_by]; [reflexivity|].
  rewrite Hc. exact IH.
Qed.

Lemma skip_ws_cons (c : pychar) (x : pystr) : is_ws c = true -> skip_ws (c :: x) = skip_ws x.
Proof. intro Hc. unfold skip_ws. cbn [lstrip_by]. rewrite Hc. reflexivity. Qed.

Lemma skip_ws_start (c : pychar) (x : pystr) : is_ws c = false -> skip_ws (c :: x) = c :: x.
Proof. intro Hc. unfold skip_ws. cbn [lstrip_by]. rewrite Hc. reflexivity. Qed.

Lemma newline_indent_ws (indent : option nat) (level : nat) :
  Forall (fun c => is_ws c = true) (newline_indent indent level).
Proof.
  destruct indent as [k|]; cbn [newline_indent]; [|constructor].
  constructor; [reflexivity|].
  induction (k * level) as [|n IH]; cbn [repeat]; constructor; [reflexivity | exact IH].
Qed.

Lemma digit_cases (c : pychar) :
  is_digit c = true ->
  In c [48; 49; 50; 51; 52; 53; 54; 55; 56; 57]%N.
Proof.
  intro H. apply is_digit_value in H. cbn [In].
  destruct (N.eq_dec c 48) as [->|]; [tauto|]. destruct (N.eq_dec c 49) as [->|]; [tauto|].
  destruct (N.eq_dec c 50) as [->|]; [tauto|]. destruct (N.eq_dec c 51) as [->|]; [tauto|].
  destruct (N.eq_dec c 52) as [->|]; [tauto|]. destruct (N.eq_dec c 53) as [->|]; [tauto|].
  destruct (N.eq_dec c 54) as [->|]; [tauto|]. destruct (N.eq_dec c 55) as [->|]; [tauto|].
  destruct (N.eq_dec c 56) as [->|]; [tauto|]. destruct (N.eq_dec c 57) as [->|]; [tauto|].
  exfalso. lia.
Qed.

(** What the parsers and [strip] need to know about such a character. *)
Lemma value_start_facts (c : pychar) :
  value_start c = true ->
  is_ws c = false /\ isspace c = false /\
  (c =? chr "]")%N = false /\ (c =? chr "}")%N = false /\ (c =? 65279)%N = false.
Proof.
  unfold value_start. intro H. apply orb_prop in H. destruct H as [H|H].
  - apply digit_cases in H. cbn [In] in H.
    repeat (destruct H as [<-|H]; [repeat split; reflexivity|]). contradiction.
  - apply existsb_exists in H. destruct H as (k & Hin & Hk). apply N.eqb_eq in Hk. subst k.
    cbn [In] in Hin.
    repeat (destruct Hin as [<-|Hin]; [repeat split; reflexivity|]). contradiction.
Qed.

Lemma number_char_not_space (c : pychar) : number_char c = true -> isspace c = false.
Proof.
  unfold number_char. intro H. apply orb_prop in H. destruct H as [H|H].
  - apply digit_cases in H. cbn [In] in H.
    repeat (destruct H as [<-|H]; [reflexivity|]). contradiction.
  - apply existsb_exists in H. destruct H as (k & Hin & Hk). apply N.eqb_eq in Hk. subst k.
    cbn [In] in Hin.
    repeat (destruct Hin as [<-|Hin]; [reflexivity|]). contradiction.
Qed.

Section ReadBack.
Context {pf : PyFloat}.

(** The text of a float, taken apart. *)
Lemma float_ok_cases (r : pystr) :
  float_ok r = true ->
  r = lit "NaN" \/ r = lit "Infinity" \/ r = lit "-Infinity" \/
  exists i c t,
    lex_number r = Some (i, c :: t, []) /\ r = i ++ c :: t /\ float_canon r = r.
Proof.
  unfold float_ok, is_nonfinite. intro H. apply orb_prop in H. destruct H as [H|H].
  - apply orb_prop in H. destruct H as [H|H]; [apply orb_prop in H; destruct H as [H|H]|];
      apply str_eqb_eq in H; [left | right; left | right; right; left]; exact H.
  - apply andb_prop in H. destruct H as [Hlex Hcanon]. apply str_eqb_eq in Hcanon.
    right; right; right. unfold is_float_lexeme in Hlex.
    destruct (lex_number r) as [[[i t] rest]|] eqn:Hnum; [|discriminate].
    destruct t as [|c t]; [discriminate|]. destruct rest; [|discriminate].
    exists i, c, t. repeat split; [|exact Hcanon].
    apply lex_number_consumes in Hnum. rewrite app_nil_r in Hnum. exact Hnum.
Qed.

Lemma encode_start (indent : option nat) (level : nat) (v : json) :
  value_ok v = true ->
  exists c s, encode indent level v = c :: s /\ value_start c = true.
Proof.
  intro Hok. destruct v as [|[|]|z|r|s|[|x items]|[|kv members]];
    try (do 2 eexists; split; [reflexivity | reflexivity]).
  - cbn [encode]. destruct (lex_number_chars _ _ _ _ (lex_number_int z))
      as (_ & c & i' & Heq & Hc).
    exists c, i'. split; [exact Heq|]. unfold value_start.
    destruct Hc as [Hc | ->]; [rewrite Hc|]; reflexivity.
  - cbn [encode value_ok] in *.
    destruct (float_ok_cases r Hok) as [-> | [-> | [-> | (i & c & t & Hlex & Hr & _)]]];
      try (do 2 eexists; split; [reflexivity | reflexivity]).
    destruct (lex_number_chars _ _ _ _ Hlex) as (_ & c' & i' & Heq & Hc).
    exists c', (i' ++ c :: t). split; [rewrite Hr, Heq; reflexivity|]. unfold value_start.
    destruct Hc as [Hc | ->]; [rewrite Hc|]; reflexivity.
Qed.
End ReadBack.

(** ** Reading an encoded value back *)

Lemma ends_number_start (c : pychar) (x : pystr) :
  In c [chr ","; 10%N; chr "]"; chr "}"; chr " "] -> ends_number (c :: x).
Proof.
  cbn [In ends_number]. intro H.
  repeat (destruct H as [<-|H]; [repeat split; (reflexivity || discriminate)|]). contradiction.
Qed.

Lemma ends_number_close (indent : option nat) (level : nat) (c : pychar) (x : pystr) :
  c = chr "]" \/ c = chr "}" -> ends_number (newline_indent indent level ++ c :: x).
Proof.
  intro Hc. destruct indent as [k|]; cbn [newline_indent app].
  - apply ends_number_start. cbn [In]. tauto.
  - apply ends_number_start. cbn [In]. destruct Hc as [-> | ->]; tauto.
Qed.

(** The separator between items: a comma, then white space only. *)
Lemma separator_shape (indent : option nat) (level : nat) :
  exists w, item_separator indent ++ newline_indent indent level = chr "," :: w /\
            Forall (fun c => is_ws c = true) w.
Proof.
  destruct indent as [k|].
  - exists (newline_indent (Some k) level). split; [reflexivity | apply newline_indent_ws].
  - exists [chr " "]. split; [reflexivity | repeat constructor].
Qed.

Lemma join_cons (sep p : pystr) (ps : list pystr) :
  join sep (p :: ps) = p ++ match ps with [] => [] | _ :: _ => sep ++ join sep ps end.
Proof. destruct ps; cbn [join]; [symmetry; apply app_nil_r | reflexivity]. Qed.

Lemma dict_set_fresh (k : pystr) (v : json) (d : list (pystr * json)) :
  existsb (fun kv => str_eqb (fst kv) k) d = false ->
  dict_set str_eqb k v d = d ++ [(k, v)].
Proof.
  induction d as [|[k' v'] d IH]; cbn [existsb dict_set fst app]; [reflexivity|].
  intro H. apply orb_false_elim in H. destruct H as [Hk Hd].
  rewrite Hk, (IH Hd). reflexivity.
Qed.

Lemma str_eqb_sym (a b : pystr) : str_eqb a b = str_eqb b a.
Proof.
  destruct (str_eqb a b) eqn:Hab.
  - apply str_eqb_eq in Hab. subst. symmetry. apply str_eqb_refl.
  - destruct (str_eqb b a) eqn:Hba; [|reflexivity].
    apply str_eqb_eq in Hba. subst. rewrite str_eqb_refl in Hab. discriminate.
Qed.

(** [dict(pairs)] of pairs with distinct keys is the pairs themselves. *)
Lemma dict_of_distinct_pairs (members : list (pystr * json)) :
  distinct_keys members = true -> dict_of_pairs str_eqb members = members.
Proof.
  unfold dict_of_pairs.
  assert (Hgen : forall acc,
             distinct_keys members = true ->
             (forall kv, In kv members ->
                         existsb (fun kv' => str_eqb (fst kv') (fst kv)) acc = false) ->
             fold_left (fun d kv => dict_set str_eqb (fst kv) (snd kv) d) members acc =
             acc ++ members).
  { induction members as [|[k v] members IH]; intros acc Hd Hacc; cbn [fold_left].
    - symmetry. apply app_nil_r.
    - cbn [distinct_keys] in Hd. apply andb_prop in Hd. destruct Hd as [Hk Hd].
      apply negb_true_iff in Hk. cbn [fst snd].
      rewrite dict_set_fresh by (apply (Hacc (k, v)); left; reflexivity).
      rewrite IH; [rewrite <- app_assoc; reflexivity | exact Hd |].
      intros kv Hin. rewrite existsb_app. cbn [existsb fst]. rewrite orb_false_r.
      rewrite (Hacc kv (or_intror Hin)). cbn [orb].
      destruct (str_eqb k (fst kv)) eqn:Hkk; [|reflexivity].
      exfalso. apply str_eqb_eq in Hkk. subst k.
      assert (Hex : existsb (fun kv' => str_eqb (fst kv') (fst kv)) members = true).
      { apply existsb_exists. exists kv. split; [exact Hin | apply str_eqb_refl]. }
      rewrite Hex in Hk. discriminate. }
  intro Hd. apply (Hgen [] Hd). intros kv _. reflexivity.
Qed.

Section ScannerSteps.
Context {pf : PyFloat} {lim : PyLimits}.

(** One call of each scanner. *)
Lemma parse_value_step (f depth : nat) (s : pystr) :
  parse_value (S f) depth s =
  match s with
  | [] => Stops NotJson
  | c :: s1 =>
      if (c =? dquote)%N then
        match scanstring s1 with
        | Some (str, rest) => Parsed (JStr str) rest
        | None => Stops NotJson
        end
      else if (c =? chr "{")%N then
        if max_nesting <=? depth then Stops TooDeep
        else
          match skip_ws s1 with
          | c2 :: s2 =>
              if (c2 =? chr "}")%N then Parsed (JObj []) s2
              else if (c2 =? dquote)%N then
                match parse_members f (S depth) s2 with
                | Parsed pairs rest => Parsed (JObj (dict_of_pairs str_eqb pairs)) rest
                | Stops e => Stops e
                end
              else Stops NotJson
          | [] => Stops NotJson
          end
      else if (c =? chr "[")%N then
        if max_nesting <=? depth then Stops TooDeep
        else
          match skip_ws s1 with
          | c2 :: s2 =>
              if (c2 =? chr "]")%N then Parsed (JArr []) s2
              else
                match parse_elements f (S depth) (c2 :: s2) with
                | Parsed items rest => Parsed (JArr items) rest
                | Stops e => Stops e
                end
          | [] => Stops NotJson
          end
      else if (c =? chr "n")%N then found (keyword (lit "null") JNull s)
      else if (c =? chr "t")%N then found (keyword (lit "true") (JBool true) s)
      else if (c =? chr "f")%N then found (keyword (lit "false") (JBool false) s)
      else
        match scan_number s with
        | Parsed v rest => Parsed v rest
        | Stops NotJson =>
            if (c =? chr "N")%N then found (keyword (lit "NaN") (JFloat (lit "NaN")) s)
            else if (c =? chr "I")%N
            then found (keyword (lit "Infinity") (JFloat (lit "Infinity")) s)
            else if (c =? chr "-")%N
            then found (keyword (lit "-Infinity") (JFloat (lit "-Infinity")) s)
            else Stops NotJson
        | Stops e => Stops e
        end
  end.
Proof. reflexivity. Qed.

Lemma parse_elements_step (f depth : nat) (s : pystr) :
  parse_elements (S f) depth s =
  match parse_value f depth s with
  | Stops e => Stops e
  | Parsed v r1 =>
      match skip_ws r1 with
      | c :: r2 =>
          if (c =? chr "]")%N then Parsed [v] r2
          else if (c =? chr ",")%N then
            match parse_elements f depth (skip_ws r2) with
            | Parsed vs rest => Parsed (v :: vs) rest
            | Stops e => Stops e
            end
          else Stops NotJson
      | [] => Stops NotJson
      end
  end.
Proof. reflexivity. Qed.

Lemma parse_members_step (f depth : nat) (s : pystr) :
  parse_members (S f) depth s =
  match scanstring s with
  | None => Stops NotJson
  | Some (key, r1) =>
      match skip_ws r1 with
      | c :: r2 =>
          if (c =? chr ":")%N then
            match parse_value f depth (skip_ws r2) with
            | Stops e => Stops e
            | Parsed v r3 =>
                match skip_ws r3 with
                | c2 :: r4 =>
                    if (c2 =? chr "}")%N then Parsed [(key, v)] r4
                    else if (c2 =? chr ",")%N then
                      match skip_ws r4 with
                      | c3 :: r5 =>
                          if (c3 =? dquote)%N then
                            match parse_members f depth r5 with
                            | Parsed kvs rest => Parsed ((key, v) :: kvs) rest
                            | Stops e => Stops e
                            end
                          else Stops NotJson
                      | [] => Stops NotJson
                      end
                    else Stops NotJson
                | [] => Stops NotJson
                end
            end
          else Stops NotJson
      | [] => Stops NotJson
      end
  end.
Proof. reflexivity. Qed.
End ScannerSteps.

(** The digits of the text of an integer. *)
Lemma lexeme_digits_str_of_Z (z : Z) : lexeme_digits (str_of_Z z) = str_of_N (Z.abs_N z).
Proof.
  assert (Hnat : forall n, lexeme_digits (str_of_N n) = str_of_N n).
  { intro n. destruct (str_of_N_spec n) as (Hall & Hne & _).
    unfold lexeme_digits. destruct (str_of_N n) as [|c ds]; [reflexivity|].
    inversion Hall as [|? ? Hc _]. apply is_digit_value in Hc.
    destruct (N.eqb_spec c (chr "-")) as [Hm|_]; [|reflexivity].
    exfalso. rewrite Hm in Hc. cbv in Hc. destruct Hc as [Hc _]. apply Hc. reflexivity. }
  unfold str_of_Z. destruct z as [|p|p]; cbn [Z.to_N Z.abs_N].
  - apply (Hnat 0%N).
  - apply (Hnat (N.pos p)).
  - unfold lexeme_digits. rewrite N.eqb_refl. reflexivity.
Qed.

Section ReadValue.
Context {pf : PyFloat} {lim : PyLimits}.

Lemma scan_number_int (z : Z) (rest : pystr) :
  ends_number rest -> digits_ok z = true ->
  scan_number (str_of_Z z ++ rest) = Parsed (JInt z) rest.
Proof.
  intros Hend Hdigits. unfold scan_number.
  rewrite (lex_number_app _ _ _ _ _ Hend (lex_number_int z)).
  cbn [app]. rewrite lexeme_digits_str_of_Z.
  unfold digits_ok in Hdigits. apply negb_true_iff in Hdigits. rewrite Hdigits.
  rewrite int_of_lexeme_str_of_Z. reflexivity.
Qed.

Lemma scan_number_float (r i t : pystr) (c : pychar) (rest : pystr) :
  ends_number rest ->
  lex_number r = Some (i, c :: t, []) -> r = i ++ c :: t -> float_canon r = r ->
  scan_number (r ++ rest) = Parsed (JFloat r) rest.
Proof.
  intros Hend Hlex Hr Hcanon. unfold scan_number.
  rewrite (lex_number_app _ _ _ _ _ Hend Hlex). cbn [app].
  rewrite <- Hr, Hcanon. reflexivity.
Qed.

(** A text that starts like a number and is one. *)
Lemma parse_value_number (fuel depth : nat) (c : pychar) (s : pystr) (v : json)
    (rest : pystr) :
  is_digit c = true \/ c = chr "-" ->
  scan_number (c :: s) = Parsed v rest ->
  parse_value (S fuel) depth (c :: s) = Parsed v rest.
Proof.
  intros Hc Hnum.
  assert (Hcases : In c ([48; 49; 50; 51; 52; 53; 54; 55; 56; 57] ++ [chr "-"])%N).
  { apply in_or_app. destruct Hc as [Hc | ->].
    - left. apply digit_cases. exact Hc.
    - right. left. reflexivity. }
  cbn [app] in Hcases.
  cbn [In] in Hcases.
  change (chr "-") with 45%N in *.
  repeat (destruct Hcases as [<-|Hcases];
          [cbn [parse_value]; cbn -[scan_number max_nesting Nat.leb]; rewrite Hnum;
           reflexivity|]).
  contradiction.
Qed.
End ReadValue.

Section ReadEncoded.
Context {pf : PyFloat} {lim : PyLimits}.
Variable indent : option nat.

(** What reading [v] back comes to: from any text that goes on in a way a
    number cannot, with calls to spare and within the limits. *)
Definition reads_back (v : json) : Prop :=
  value_ok v = true ->
  forall fuel depth level rest,
    fits depth v = true ->
    size v <= fuel -> ends_number rest ->
    parse_value fuel depth (encode indent level v ++ rest) = Parsed v rest.

Lemma read_keyword (fuel depth : nat) (v : json) (rest : pystr) :
  In v [JNull; JBool true; JBool false; JFloat (lit "NaN"); JFloat (lit "Infinity");
        JFloat (lit "-Infinity")] ->
  forall level, parse_value (S fuel) depth (encode indent level v ++ rest) = Parsed v rest.
Proof.
  cbn [In]. intros H level.
  repeat (destruct H as [<-|H]; [reflexivity|]). contradiction.
Qed.

(** The items of a list, from the first item to the closing bracket. *)
Lemma read_elements (level : nat) (rest : pystr) (items : list json) :
  Forall reads_back items -> forallb value_ok items = true -> items <> [] ->
  forall fuel depth,
    forallb (fits depth) items = true ->
    fold_right (fun x n => S (size x + n)) 0 items <= fuel ->
    parse_elements fuel depth
      (join (item_separator indent ++ newline_indent indent (S level))
            (map (encode indent (S level)) items) ++
       newline_indent indent level ++ chr "]" :: rest) = Parsed items rest.
Proof.
  induction 1 as [|x items Hx Hitems IH]; intros Hok Hne fuel depth Hfit Hfuel;
    [contradiction|].
  cbn [forallb] in Hok. apply andb_prop in Hok. destruct Hok as [Hokx Hokrest].
  cbn [forallb] in Hfit. apply andb_prop in Hfit. destruct Hfit as [Hfitx Hfitrest].
  cbn [fold_right] in Hfuel. destruct fuel as [|f]; [lia|].
  cbn [map]. rewrite join_cons, <- app_assoc. cbn [parse_elements].
  destruct items as [|y items].
  - cbn [map app].
    rewrite (Hx Hokx f depth (S level) _ Hfitx)
      by (lia || (apply ends_number_close; tauto)).
    rewrite (skip_ws_app _ _ (newline_indent_ws indent level)).
    rewrite skip_ws_start by reflexivity.
    rewrite N.eqb_refl. reflexivity.
  - destruct (separator_shape indent (S level)) as (w & Hsep & Hw). rewrite Hsep.
    cbn [map app]. rewrite <- app_assoc.
    rewrite (Hx Hokx f depth (S level) _ Hfitx)
      by (lia || (apply ends_number_start; cbn [In]; tauto)).
    rewrite skip_ws_start by reflexivity.
    change (chr "," =? chr "]")%N with false. rewrite N.eqb_refl. cbn [app].
    rewrite (skip_ws_app _ _ Hw).
    change (encode indent (S level) y :: map (encode indent (S level)) items)
      with (map (encode indent (S level)) (y :: items)).
    rewrite <- Hsep.
    assert (Hstart : exists c s,
               join (item_separator indent ++ newline_indent indent (S level))
                    (map (encode indent (S level)) (y :: items)) = c :: s /\
               is_ws c = false).
    { cbn [map]. rewrite join_cons. cbn [forallb] in Hokrest.
      apply andb_prop in Hokrest. destruct Hokrest as [Hoky _].
      destruct (encode_start indent (S level) y Hoky) as (c & s & Heq & Hc).
      rewrite Heq. exists c. eexists. split; [reflexivity|].
      apply value_start_facts in Hc. tauto. }
    destruct Hstart as (c & s & Heq & Hc).
    assert (Hskip : forall tail,
               skip_ws (join (item_separator indent ++ newline_indent indent (S level))
                          (map (encode indent (S level)) (y :: items)) ++ tail) =
               join (item_separator indent ++ newline_indent indent (S level))
                 (map (encode indent (S level)) (y :: items)) ++ tail).
    { intro tail. rewrite Heq. cbn [app]. apply skip_ws_start. exact Hc. }
    rewrite Hskip.
    rewrite IH; [reflexivity | exact Hokrest | discriminate | exact Hfitrest | lia].
Qed.
(** The text of one member of a dict. *)
Definition encode_member (level : nat) (kv : pystr * json) : pystr :=
  encode_basestring_ascii (fst kv) ++ key_separator ++ encode indent level (snd kv).

(** The members of a dict, from the first key (after its opening quote) to
    the closing brace. *)
Lemma read_members (level : nat) (rest : pystr) (members : list (pystr * json)) :
  Forall (fun kv => reads_back (snd kv)) members ->
  forallb (fun kv => str_ok (fst kv) && value_ok (snd kv)) members = true ->
  members <> [] ->
  forall fuel depth text,
    forallb (fun kv => fits depth (snd kv)) members = true ->
    fold_right (fun kv n => S (size (snd kv) + n)) 0 members <= fuel ->
    dquote :: text =
      join (item_separator indent ++ newline_indent indent (S level))
           (map (encode_member (S level)) members) ++
      newline_indent indent level ++ chr "}" :: rest ->
    parse_members fuel depth text = Parsed members rest.
Proof.
  induction 1 as [|[k v] members Hv Hmembers IH];
    intros Hok Hne fuel depth text Hfit Hfuel Htext; [contradiction|].
  cbn [forallb fst snd] in Hok. apply andb_prop in Hok. destruct Hok as [Hokkv Hokrest].
  apply andb_prop in Hokkv. destruct Hokkv as [Hokk Hokv].
  cbn [forallb snd] in Hfit. apply andb_prop in Hfit. destruct Hfit as [Hfitv Hfitrest].
  cbn [fold_right snd] in Hfuel. destruct fuel as [|f]; [lia|].
  cbn [map] in Htext. rewrite join_cons in Htext.
  unfold encode_member at 1 in Htext. cbn [fst snd] in Htext.
  unfold encode_basestring_ascii, key_separator in Htext.
  change (lit ": ") with [chr ":"; chr " "] in Htext.
  cbn [app] in Htext. rewrite <- !app_assoc in Htext. cbn [app] in Htext.
  apply (f_equal (@tl _)) in Htext. cbn [tl] in Htext. subst text.
  cbn [parse_members]. rewrite (scanstring_encoded k _ Hokk).
  rewrite skip_ws_start by reflexivity. rewrite N.eqb_refl.
  cbv beta. rewrite skip_ws_cons by reflexivity.
  destruct (encode_start indent (S level) v Hokv) as (c & s & Heq & Hc).
  assert (Hskip : forall tail, skip_ws (encode indent (S level) v ++ tail) =
                               encode indent (S level) v ++ tail).
  { intro tail. rewrite Heq. cbn [app]. apply skip_ws_start.
    apply value_start_facts in Hc. tauto. }
  rewrite Hskip.
  destruct members as [|kv' members].
  - cbn [map app].
    rewrite (Hv Hokv f depth (S level) _ Hfitv)
      by (cbn [snd]; lia || (apply ends_number_close; tauto)).
    rewrite (skip_ws_app _ _ (newline_indent_ws indent level)).
    rewrite skip_ws_start by reflexivity.
    rewrite N.eqb_refl. reflexivity.
  - destruct (separator_shape indent (S level)) as (w & Hsep & Hw).
    cbn [map].
    rewrite (app_assoc (item_separator indent) (newline_indent indent (S level))).
    rewrite Hsep. cbn [app]. rewrite <- !app_assoc.
    rewrite (Hv Hokv f depth (S level) _ Hfitv)
      by (cbn [snd]; lia || (apply ends_number_start; cbn [In]; tauto)).
    rewrite skip_ws_start by reflexivity.
    change (chr "," =? chr "}")%N with false. rewrite N.eqb_refl.
    rewrite (skip_ws_app _ _ Hw). rewrite join_cons.
    unfold encode_member at 1. unfold encode_basestring_ascii. cbn [app].
    rewrite skip_ws_start by reflexivity. rewrite N.eqb_refl.
    erewrite (IH Hokrest ltac:(discriminate) f depth); [reflexivity | exact Hfitrest | lia |].
    rewrite Hsep. cbn [map]. rewrite join_cons.
    unfold encode_member at 1. unfold encode_basestring_ascii. cbn [app].
    reflexivity.
Qed.

(** The scanner at the opening bracket of a list and of a dict. *)
Lemma parse_value_list (fuel depth : nat) (s1 : pystr) :
  parse_value (S fuel) depth (chr "[" :: s1) =
  if max_nesting <=? depth then Stops TooDeep
  else
    match skip_ws s1 with
    | c2 :: s2 =>
        if (c2 =? chr "]")%N then Parsed (JArr []) s2
        else
          match parse_elements fuel (S depth) (c2 :: s2) with
          | Parsed items rest => Parsed (JArr items) rest
          | Stops e => Stops e
          end
    | [] => Stops NotJson
    end.
Proof. reflexivity. Qed.

Lemma parse_value_dict (fuel depth : nat) (s1 : pystr) :
  parse_value (S fuel) depth (chr "{" :: s1) =
  if max_nesting <=? depth then Stops TooDeep
  else
    match skip_ws s1 with
    | c2 :: s2 =>
        if (c2 =? chr "}")%N then Parsed (JObj []) s2
        else if (c2 =? dquote)%N then
          match parse_members fuel (S depth) s2 with
          | Parsed pairs rest => Parsed (JObj (dict_of_pairs str_eqb pairs)) rest
          | Stops e => Stops e
          end
        else Stops NotJson
    | [] => Stops NotJson
    end.
Proof. reflexivity. Qed.

(** Every well-formed value is read back from its encoding. *)
Lemma read_encoded (v : json) : reads_back v.
Proof.
  induction v as [| b | z | r | s | items IH | members IH] using json_ind;
    intros Hok fuel depth level rest Hfit Hfuel Hend;
    (destruct fuel as [|f]; [cbn [size] in Hfuel; lia|]).
  - apply read_keyword. cbn [In]. tauto.
  - apply read_keyword. destruct b; cbn [In]; tauto.
  - cbn [encode].
    destruct (lex_number_chars _ _ _ _ (lex_number_int z)) as (_ & c & i' & Heq & Hc).
    pose proof (scan_number_int z rest Hend Hfit) as Hnum. rewrite Heq in Hnum |- *.
    cbn [app] in Hnum |- *. apply parse_value_number; assumption.
  - cbn [value_ok] in Hok.
    destruct (float_ok_cases r Hok) as [-> | [-> | [-> | (i & c & t & Hlex & Hr & Hcanon)]]];
      [apply read_keyword; cbn [In]; tauto ..|].
    cbn [encode].
    destruct (lex_number_chars _ _ _ _ Hlex) as (_ & c' & i' & Heq & Hc).
    pose proof (scan_number_float r i t c rest Hend Hlex Hr Hcanon) as Hnum.
    rewrite Hr, Heq in Hnum |- *. cbn [app] in Hnum |- *.
    apply parse_value_number; assumption.
  - cbn [encode value_ok] in *. unfold encode_basestring_ascii.
    cbn [app parse_value]. rewrite N.eqb_refl. rewrite <- app_assoc. cbn [app].
    rewrite (scanstring_encoded s rest Hok). reflexivity.
  - cbn [fits] in Hfit. apply andb_prop in Hfit. destruct Hfit as [Hdepth Hfit].
    assert (Hroom : (max_nesting <=? depth) = false).
    { apply Nat.ltb_lt in Hdepth. apply Nat.leb_gt. exact Hdepth. }
    destruct items as [|x items].
    { cbn [encode]. change (lit "[]") with [chr "["; chr "]"].
      cbn [app]. rewrite parse_value_list, Hroom. reflexivity. }
    cbn [value_ok] in Hok. cbn [size] in Hfuel.
    cbn [encode]. change (lit "[") with [chr "["]. change (lit "]") with [chr "]"].
    cbn [app]. rewrite parse_value_list, Hroom.
    rewrite <- !app_assoc. cbn [app].
    rewrite (skip_ws_app _ _ (newline_indent_ws indent (S level))).
    assert (Hstart : exists c s,
               join (item_separator indent ++ newline_indent indent (S level))
                    (map (encode indent (S level)) (x :: items)) = c :: s /\
               value_start c = true).
    { cbn [map]. rewrite join_cons. cbn [forallb] in Hok.
      apply andb_prop in Hok. destruct Hok as [Hokx _].
      destruct (encode_start indent (S level) x Hokx) as (c & s & Heq & Hc).
      rewrite Heq. exists c. eexists. split; [reflexivity | exact Hc]. }
    destruct Hstart as (c & s & Heq & Hc).
    pose proof (read_elements level rest (x :: items) IH Hok ltac:(discriminate) f
                  (S depth) Hfit ltac:(lia)) as Hread.
    rewrite Heq in Hread |- *. cbn [app] in Hread |- *.
    apply value_start_facts in Hc. destruct Hc as (Hws & _ & Hclose & _).
    rewrite skip_ws_start by exact Hws. rewrite Hclose, Hread. reflexivity.
  - cbn [fits] in Hfit. apply andb_prop in Hfit. destruct Hfit as [Hdepth Hfit].
    assert (Hroom : (max_nesting <=? depth) = false).
    { apply Nat.ltb_lt in Hdepth. apply Nat.leb_gt. exact Hdepth. }
    destruct members as [|kv members].
    { cbn [encode]. change (lit "{}") with [chr "{"; chr "}"].
      cbn [app]. rewrite parse_value_dict, Hroom. reflexivity. }
    cbn [value_ok] in Hok. apply andb_prop in Hok. destruct Hok as [Hok Hdistinct].
    cbn [size] in Hfuel.
    cbn [encode]. change (lit "{") with [chr "{"]. change (lit "}") with [chr "}"].
    cbn [app]. rewrite parse_value_dict, Hroom.
    rewrite <- !app_assoc. cbn [app].
    rewrite (skip_ws_app _ _ (newline_indent_ws indent (S level))).
    assert (Hjoin : exists text,
               join (item_separator indent ++ newline_indent indent (S level))
                    (map (encode_member (S level)) (kv :: members)) = dquote :: text).
    { cbn [map]. rewrite join_cons. unfold encode_member at 1.
      unfold encode_basestring_ascii. cbn [app]. eexists. reflexivity. }
    destruct Hjoin as (text & Hjoin).
    change (map (fun kv0 => encode_basestring_ascii (fst kv0) ++ key_separator ++
                            encode indent (S level) (snd kv0)) (kv :: members))
      with (map (encode_member (S level)) (kv :: members)).
    rewrite Hjoin. cbn [app]. rewrite skip_ws_start by reflexivity.
    change (dquote =? chr "}")%N with false. rewrite N.eqb_refl.
    rewrite (read_members level rest (kv :: members) IH Hok ltac:(discriminate) f
               (S depth) (text ++ newline_indent indent level ++ chr "}" :: rest));
      [| exact Hfit | lia | rewrite Hjoin; reflexivity].
    rewrite (dict_of_distinct_pairs _ Hdistinct). reflexivity.
Qed.
End ReadEncoded.

(** ** What the decoder builds *)

(** The lexeme of a number, lexed on its own, is the whole match. *)
Definition not_digit_start (x : pystr) : Prop :=
  match x with
  | [] => True
  | c :: _ => is_digit c = false
  end.

Lemma span_digits_prefix (ds x : pystr) :
  Forall (fun c => is_digit c = true) ds -> not_digit_start x ->
  span_digits (ds ++ x) = (ds, x).
Proof.
  intros Hds Hx. induction Hds as [|c ds Hc _ IH]; cbn [app span_digits].
  - destruct x as [|c x]; [reflexivity|]. cbn [span_digits].
    cbn [not_digit_start] in Hx. rewrite Hx. reflexivity.
  - rewrite Hc, IH. reflexivity.
Qed.

Lemma lex_digits1_prefix (s i r x : pystr) :
  lex_digits1 s = Some (i, r) -> not_digit_start x ->
  lex_digits1 (i ++ x) = Some (i, x) /\ exists c i', i = c :: i' /\ is_digit c = true.
Proof.
  destruct s as [|c s]; cbn [lex_digits1]; [discriminate|].
  destruct (c =? 48)%N eqn:H0.
  - intros H Hx. inversion H; subst. cbn [app lex_digits1]. rewrite H0.
    split; [reflexivity|]. apply N.eqb_eq in H0. subst.
    do 2 eexists. split; reflexivity.
  - destruct (is_digit c) eqn:Hc; [|discriminate].
    pose proof (span_digits_chars s) as Hds.
    destruct (span_digits s) as [ds r']. cbn [fst] in Hds.
    intros H Hx. inversion H; subst. cbn [app lex_digits1]. rewrite H0, Hc.
    rewrite (span_digits_prefix _ _ Hds Hx).
    split; [reflexivity|]. do 2 eexists. split; [reflexivity | exact Hc].
Qed.

Lemma lex_int_prefix (s i r x : pystr) :
  lex_int s = Some (i, r) -> not_digit_start x -> lex_int (i ++ x) = Some (i, x).
Proof.
  destruct s as [|c s]; cbn [lex_int]; [discriminate|].
  destruct (c =? chr "-")%N eqn:Hm.
  - destruct (lex_digits1 s) as [[ds r']|] eqn:Hd; [|discriminate].
    intros H Hx. inversion H; subst. cbn [app lex_int]. rewrite Hm.
    destruct (lex_digits1_prefix _ _ _ _ Hd Hx) as [-> _]. reflexivity.
  - intros H Hx.
    destruct (lex_digits1_prefix _ _ _ _ H Hx) as (Hp & c' & i' & -> & Hc').
    cbn [app lex_int] in *.
    replace (c' =? chr "-")%N with false; [exact Hp|].
    symmetry. apply N.eqb_neq. intros ->. discriminate.
Qed.

(** What may follow a fraction: nothing, or the mark of an exponent. *)
Definition exponent_start (e : pystr) : Prop :=
  match e with
  | [] => True
  | c :: _ => is_digit c = false /\ c <> chr "."
  end.

Lemma lex_frac_start (s : pystr) : not_digit_start (fst (lex_frac s)).
Proof.
  destruct s as [|c s]; cbn [lex_frac fst]; [exact I|].
  destruct (N.eqb_spec c (chr ".")) as [->|_]; [|exact I].
  destruct (span_digits s) as [[|d ds] r]; [exact I | reflexivity].
Qed.

Lemma lex_frac_prefix (s e : pystr) :
  exponent_start e -> lex_frac (fst (lex_frac s) ++ e) = (fst (lex_frac s), e).
Proof.
  intro He.
  assert (Hnone : lex_frac e = ([], e)).
  { destruct e as [|c e]; [reflexivity|]. cbn [lex_frac].
    destruct He as [_ Hdot]. apply N.eqb_neq in Hdot. rewrite Hdot. reflexivity. }
  assert (Hdigit : not_digit_start e).
  { destruct e as [|c e]; [exact I | apply He]. }
  destruct s as [|c s]; cbn [lex_frac fst app]; [exact Hnone|].
  destruct (c =? chr ".")%N eqn:Hc; [|exact Hnone].
  pose proof (span_digits_chars s) as Hds.
  destruct (span_digits s) as [[|d ds] r]; cbn [fst] in *; [exact Hnone|].
  cbn [lex_frac app]. rewrite Hc.
  change (d :: ds ++ e) with ((d :: ds) ++ e).
  rewrite (span_digits_prefix _ _ Hds Hdigit). reflexivity.
Qed.

Lemma lex_exp_start (s : pystr) : exponent_start (fst (lex_exp s)).
Proof.
  assert (Hmark : forall c, ((c =? chr "e") || (c =? chr "E"))%N = true ->
                            is_digit c = false /\ c <> chr ".").
  { intros c H. apply orb_prop in H.
    destruct H as [H|H]; apply N.eqb_eq in H; subst; (split; [reflexivity | intro E; vm_compute in E; discriminate]). }
  destruct s as [|c s]; cbn [lex_exp fst]; [exact I|].
  destruct ((c =? chr "e") || (c =? chr "E"))%N eqn:Hc; [|exact I].
  destruct s as [|g s]; [exact I|].
  destruct ((g =? chr "+") || (g =? chr "-"))%N.
  - destruct (span_digits s) as [[|d ds] r]; [exact I | apply Hmark; exact Hc].
  - destruct (span_digits (g :: s)) as [[|d ds] r]; [exact I | apply Hmark; exact Hc].
Qed.

Lemma lex_exp_self (s : pystr) : lex_exp (fst (lex_exp s)) = (fst (lex_exp s), []).
Proof.
  destruct s as [|c s]; cbn [lex_exp fst]; [reflexivity|].
  destruct ((c =? chr "e") || (c =? chr "E"))%N eqn:Hc; [|reflexivity].
  destruct s as [|g s]; [reflexivity|].
  destruct ((g =? chr "+") || (g =? chr "-"))%N eqn:Hg.
  - pose proof (span_digits_chars s) as Hds.
    destruct (span_digits s) as [[|d ds] r]; cbn [fst] in *; [reflexivity|].
    cbn [lex_exp]. rewrite Hc, Hg. rewrite (span_digits_all _ Hds). reflexivity.
  - pose proof (span_digits_chars (g :: s)) as Hds.
    destruct (span_digits (g :: s)) as [[|d ds] r]; cbn [fst] in *; [reflexivity|].
    cbn [lex_exp]. rewrite Hc.
    assert (Hd : ((d =? chr "+") || (d =? chr "-"))%N = false).
    { inversion Hds as [|? ? Hdigit _]; subst.
      apply orb_false_intro; apply N.eqb_neq; intros ->; discriminate. }
    rewrite Hd. rewrite (span_digits_all _ Hds). reflexivity.
Qed.

Lemma lex_number_lexeme (s i t r : pystr) :
  lex_number s = Some (i, t, r) -> lex_number (i ++ t) = Some (i, t, []).
Proof.
  unfold lex_number.
  destruct (lex_int s) as [[i' r1]|] eqn:Hint; [|discriminate].
  pose proof (lex_frac_prefix r1) as Hf. pose proof (lex_frac_start r1) as Hfs.
  destruct (lex_frac r1) as [f r2]. cbn [fst] in Hf, Hfs.
  pose proof (lex_exp_self r2) as He. pose proof (lex_exp_start r2) as Hes.
  destruct (lex_exp r2) as [e r3]. cbn [fst] in He, Hes.
  intro H. inversion H; subst.
  rewrite (lex_int_prefix _ _ _ (f ++ e) Hint).
  - rewrite (Hf e Hes), He. reflexivity.
  - destruct f as [|c f]; [|exact Hfs].
    destruct e as [|c e]; [exact I | apply Hes].
Qed.

Lemma float_lexeme (s i t r : pystr) :
  lex_number s = Some (i, t, r) -> t <> [] -> is_float_lexeme (i ++ t) = true.
Proof.
  intros H Ht. unfold is_float_lexeme. rewrite (lex_number_lexeme _ _ _ _ H).
  destruct t; [contradiction | reflexivity].
Qed.

(** Text made of Unicode scalar values: code points in range that are not
    surrogates.  *)
Definition is_scalar (c : pychar) : bool :=
  (c <? 1114112)%N && negb (is_high_surrogate c || is_low_surrogate c).

Definition scalar_text (s : pystr) : bool := forallb is_scalar s.

Lemma scalar_text_app (x y : pystr) :
  scalar_text (x ++ y) = true -> scalar_text y = true.
Proof.
  unfold scalar_text. rewrite forallb_app. intro H. apply andb_prop in H. apply H.
Qed.

Lemma scalar_text_skipn (n : nat) (s : pystr) :
  scalar_text s = true -> scalar_text (skipn n s) = true.
Proof.
  intro H. rewrite <- (firstn_skipn n s) in H. exact (scalar_text_app _ _ H).
Qed.

Lemma scalar_text_lstrip (p : pychar -> bool) (s : pystr) :
  scalar_text s = true -> scalar_text (lstrip_by p s) = true.
Proof.
  induction s as [|c s IH]; cbn [lstrip_by]; [trivial|].
  destruct (p c); [|trivial].
  intro H. apply IH. cbn [scalar_text forallb] in H. apply andb_prop in H. apply H.
Qed.

Lemma is_scalar_facts (c : pychar) :
  is_scalar c = true ->
  (c <? 1114112)%N = true /\ is_high_surrogate c = false /\ is_low_surrogate c = false.
Proof.
  unfold is_scalar. intro H. apply andb_prop in H. destruct H as [Hlt Hs].
  apply negb_true_iff, orb_false_elim in Hs. tauto.
Qed.

(** Characters below the surrogates. *)
Lemma small_char (c : pychar) :
  (c < 55296)%N ->
  (c <? 1114112)%N = true /\ is_high_surrogate c = false /\ is_low_surrogate c = false.
Proof.
  intro H. unfold is_high_surrogate, is_low_surrogate. repeat split.
  - apply N.ltb_lt. lia.
  - apply andb_false_intro1. apply N.leb_gt. exact H.
  - apply andb_false_intro1. apply N.leb_gt. lia.
Qed.

Lemma simple_escape_small (e ch : pychar) : simple_escape e = Some ch -> (ch < 55296)%N.
Proof.
  unfold simple_escape.
  repeat match goal with
         | |- context [if ?b then _ else _] => destruct b
         end; intro H; inversion H; subst; reflexivity.
Qed.

Lemma hexval_below (c : pychar) (x : N) : hexval c = Some x -> (x < 16)%N.
Proof.
  unfold hexval.
  destruct ((48 <=? c) && (c <=? 57))%N eqn:H1;
    [|destruct ((97 <=? c) && (c <=? 102))%N eqn:H2;
      [|destruct ((65 <=? c) && (c <=? 70))%N eqn:H3]];
    intro H; inversion H; subst;
    match goal with
    | Hb : (_ && _)%bool = true |- _ =>
        apply andb_prop in Hb; destruct Hb as [Hlo Hhi];
        apply N.leb_le in Hlo, Hhi; lia
    end.
Qed.

Lemma decode_hex4_spec (s : pystr) (u : N) (r : pystr) :
  decode_hex4 s = Some (u, r) ->
  (u < 65536)%N /\ exists a b c d, s = [a; b; c; d] ++ r.
Proof.
  destruct s as [|a [|b [|c [|d s]]]]; cbn [decode_hex4]; try discriminate.
  destruct (hexval a) as [x3|] eqn:H3; [|discriminate].
  destruct (hexval b) as [x2|] eqn:H2; [|discriminate].
  destruct (hexval c) as [x1|] eqn:H1; [|discriminate].
  destruct (hexval d) as [x0|] eqn:H0; [|discriminate].
  apply hexval_below in H3, H2, H1, H0.
  intro H. inversion H; subst. split; [lia|]. exists a, b, c, d. reflexivity.
Qed.

Lemma lor_below (a b : N) :
  (a < 1048576)%N -> (b < 1048576)%N -> (N.lor a b < 1048576)%N.
Proof.
  intros Ha Hb. change 1048576%N with (2 ^ 20)%N in *.
  assert (Hlog : forall x, (x < 2 ^ 20)%N -> (N.log2 x < 20)%N).
  { intros x Hx. destruct (N.eq_dec x 0) as [->|Hne]; [reflexivity|].
    apply N.log2_lt_pow2; [lia | exact Hx]. }
  destruct (N.eq_dec (N.lor a b) 0) as [->|Hne]; [reflexivity|].
  apply N.log2_lt_pow2; [lia|]. rewrite N.log2_lor.
  apply N.max_lub_lt; apply Hlog; assumption.
Qed.

Lemma join_surrogates_range (u u2 : N) :
  is_high_surrogate u = true -> is_low_surrogate u2 = true ->
  (65536 <= join_surrogates u u2 < 1114112)%N.
Proof.
  unfold is_high_surrogate, is_low_surrogate, join_surrogates. intros Hu Hu2.
  apply andb_prop in Hu, Hu2. destruct Hu as [A1 A2], Hu2 as [B1 B2].
  apply N.leb_le in A1, A2, B1, B2.
  assert (Hlor : (N.lor (N.shiftl (u - 55296) 10) (u2 - 56320) < 1048576)%N).
  { apply lor_below; [|lia]. rewrite N.shiftl_mul_pow2.
    change (2 ^ 10)%N with 1024%N. lia. }
  lia.
Qed.

Lemma large_char (c : pychar) :
  (65536 <= c < 1114112)%N ->
  (c <? 1114112)%N = true /\ is_high_surrogate c = false /\ is_low_surrogate c = false.
Proof.
  intro H. unfold is_high_surrogate, is_low_surrogate. repeat split.
  - apply N.ltb_lt. lia.
  - apply andb_false_intro2. apply N.leb_gt. lia.
  - apply andb_false_intro2. apply N.leb_gt. lia.
Qed.

Lemma cons_char_some (c : pychar) (r : option (pystr * pystr)) (out rest : pystr) :
  cons_char c r = Some (out, rest) -> exists out', out = c :: out' /\ r = Some (out', rest).
Proof.
  destruct r as [[chars rest']|]; cbn [cons_char]; [|discriminate].
  intro H. inversion H; subst. eauto.
Qed.

Lemma str_ok_cons (c : pychar) (s : pystr) :
  (c <? 1114112)%N = true -> (is_high_surrogate c = true -> starts_low s = false) ->
  str_ok s = true -> str_ok (c :: s) = true.
Proof.
  intros Hc Hpair Hs. cbn [str_ok]. rewrite Hc, Hs.
  change (match s with c' :: _ => is_low_surrogate c' | [] => false end) with (starts_low s).
  destruct (is_high_surrogate c); [rewrite Hpair by reflexivity|]; reflexivity.
Qed.

(** The escape of a low surrogate at the head of a text. *)
Definition low_escape (s : pystr) : Prop :=
  exists s2 u r,
    s = backslash :: chr "u" :: s2 /\ decode_hex4 s2 = Some (u, r) /\
    is_low_surrogate u = true.

(** A string read from scalar text: a low surrogate in it was written as
    an escape, and one that follows the escape of a high surrogate has been
    joined with it. *)
Lemma scanstring_fuel_ok (fuel : nat) :
  forall s out rest,
    scalar_text s = true -> scanstring_fuel fuel s = Some (out, rest) ->
    str_ok out = true /\ scalar_text rest = true /\
    (starts_low out = true -> low_escape s).
Proof.
  induction fuel as [|f IH]; intros s out rest Hs; cbn [scanstring_fuel]; [discriminate|].
  destruct s as [|c s1]; [discriminate|].
  assert (Hs1 : scalar_text s1 = true).
  { cbn [scalar_text forallb] in Hs. apply andb_prop in Hs. apply Hs. }
  assert (Hstep : forall ch tail,
             scalar_text tail = true ->
             (ch <? 1114112)%N = true ->
             (is_high_surrogate ch = true -> low_escape tail -> False) ->
             (is_low_surrogate ch = true -> low_escape (c :: s1)) ->
             cons_char ch (scanstring_fuel f tail) = Some (out, rest) ->
             str_ok out = true /\ scalar_text rest = true /\
             (starts_low out = true -> low_escape (c :: s1))).
  { intros ch tail Htail Hch Hhigh Hlow Hcons.
    apply cons_char_some in Hcons. destruct Hcons as (out' & -> & Hscan).
    destruct (IH _ _ _ Htail Hscan) as (Hok & Hrest & Hstart).
    split; [|split; [exact Hrest | exact Hlow]].
    apply str_ok_cons; [exact Hch | | exact Hok].
    intro Hh. destruct (starts_low out') eqn:Hl; [|reflexivity].
    exfalso. exact (Hhigh Hh (Hstart eq_refl)). }
  destruct (c =? dquote)%N eqn:Hq.
  { intro H. inversion H; subst. split; [reflexivity|]. split; [exact Hs1 | discriminate]. }
  destruct (N.eqb_spec c backslash) as [->|Hb].
  - destruct s1 as [|e s2]; [discriminate|].
    assert (Hs2 : scalar_text s2 = true).
    { cbn [scalar_text forallb] in Hs1. apply andb_prop in Hs1. apply Hs1. }
    destruct (N.eqb_spec e (chr "u")) as [->|He].
    + destruct (decode_hex4 s2) as [[uni s3]|] eqn:Huni; [|discriminate].
      destruct (decode_hex4_spec _ _ _ Huni) as (Hbmp & a & b & c & d & Heq).
      assert (Hs3 : scalar_text s3 = true).
      { rewrite Heq in Hs2. exact (scalar_text_app _ _ Hs2). }
      assert (Hlow : is_low_surrogate uni = true ->
                     low_escape (backslash :: chr "u" :: s2)).
      { intro Hl. exists s2, uni, s3. auto. }
      assert (Huni_lt : (uni <? 1114112)%N = true) by (apply N.ltb_lt; lia).
      destruct (is_high_surrogate uni && startswith s3 [backslash; chr "u"]) eqn:Hpair.
      * destruct (decode_hex4 (skipn 2 s3)) as [[uni2 s4]|] eqn:Huni2; [|discriminate].
        destruct (decode_hex4_spec _ _ _ Huni2) as (_ & a' & b' & c' & d' & Heq').
        destruct (is_low_surrogate uni2) eqn:Hl2.
        -- apply andb_prop in Hpair. destruct Hpair as [Hh _].
           destruct (large_char _ (join_surrogates_range _ _ Hh Hl2)) as (B1 & B2 & B3).
           apply Hstep; [| exact B1 | congruence | congruence].
           pose proof (scalar_text_skipn 2 _ Hs3) as Hsk. rewrite Heq' in Hsk.
           exact (scalar_text_app _ _ Hsk).
        -- apply Hstep; [exact Hs3 | exact Huni_lt | | exact Hlow].
           intros _ (s2' & u' & r' & -> & Hdec & Hl').
           cbn [skipn] in Huni2. congruence.
      * apply Hstep; [exact Hs3 | exact Huni_lt | | exact Hlow].
        intros Hh (s2' & u' & r' & -> & _). rewrite Hh in Hpair.
        cbn in Hpair. discriminate.
    + destruct (simple_escape e) as [ch|] eqn:Hesc; [|discriminate].
      destruct (small_char _ (simple_escape_small _ _ Hesc)) as (B1 & B2 & B3).
      apply Hstep; [exact Hs2 | exact B1 | congruence | congruence].
  - destruct (c <? 32)%N; [discriminate|].
    assert (Hc : is_scalar c = true).
    { cbn [scalar_text forallb] in Hs. apply andb_prop in Hs. apply Hs. }
    destruct (is_scalar_facts _ Hc) as (B1 & B2 & B3).
    apply Hstep; [exact Hs1 | exact B1 | congruence | congruence].
Qed.

Lemma scanstring_ok (s out rest : pystr) :
  scalar_text s = true -> scanstring s = Some (out, rest) ->
  str_ok out = true /\ scalar_text rest = true.
Proof.
  intros Hs H. destruct (scanstring_fuel_ok _ _ _ _ Hs H) as (A & B & _). auto.
Qed.

(** A dict built from pairs has distinct keys. *)
Lemma existsb_dict_set (x k : pystr) (v : json) (d : list (pystr * json)) :
  existsb (fun kv => str_eqb (fst kv) x) (dict_set str_eqb k v d) =
  existsb (fun kv => str_eqb (fst kv) x) d || str_eqb k x.
Proof.
  induction d as [|[k' v'] d IH]; cbn [dict_set existsb fst].
  - apply orb_comm.
  - destruct (str_eqb k' k) eqn:Hk; cbn [existsb fst].
    + apply str_eqb_eq in Hk. subst k'.
      destruct (str_eqb k x), (existsb (fun kv => str_eqb (fst kv) x) d); reflexivity.
    + rewrite IH. apply orb_assoc.
Qed.

Section BuildDict.
Context {pf : PyFloat} {lim : PyLimits}.

Definition member_ok (kv : pystr * json) : bool := str_ok (fst kv) && value_ok (snd kv).

Lemma dict_set_ok (k : pystr) (v : json) (d : list (pystr * json)) :
  member_ok (k, v) = true ->
  forallb member_ok d = true -> distinct_keys d = true ->
  forallb member_ok (dict_set str_eqb k v d) = true /\
  distinct_keys (dict_set str_eqb k v d) = true.
Proof.
  intro Hkv. induction d as [|[k' v'] d IH]; cbn [dict_set]; intros Hall Hd.
  - cbn [forallb distinct_keys existsb negb andb]. rewrite Hkv. split; reflexivity.
  - cbn [forallb] in Hall. apply andb_prop in Hall. destruct Hall as [Hkv' Hall].
    cbn [distinct_keys] in Hd. apply andb_prop in Hd. destruct Hd as [Hfresh Hd].
    destruct (str_eqb k' k) eqn:Hk.
    + apply str_eqb_eq in Hk. subst k'.
      cbn [forallb distinct_keys]. rewrite Hkv, Hall, Hfresh, Hd. split; reflexivity.
    + destruct (IH Hall Hd) as [IH1 IH2].
      cbn [forallb distinct_keys]. rewrite Hkv', IH1, IH2.
      rewrite existsb_dict_set. apply negb_true_iff in Hfresh.
      rewrite Hfresh, (str_eqb_sym k k'), Hk. split; reflexivity.
Qed.

Lemma dict_of_pairs_ok (pairs : list (pystr * json)) :
  forallb member_ok pairs = true -> value_ok (JObj (dict_of_pairs str_eqb pairs)) = true.
Proof.
  intro Hpairs. cbn [value_ok].
  change (fun kv : pystr * json => str_ok (fst kv) && value_ok (snd kv)) with member_ok.
  apply andb_true_intro. unfold dict_of_pairs.
  assert (Hgen : forall acc,
             forallb member_ok acc = true -> distinct_keys acc = true ->
             let d := fold_left (fun d kv => dict_set str_eqb (fst kv) (snd kv) d) pairs acc in
             forallb member_ok d = true /\ distinct_keys d = true).
  { induction pairs as [|[k v] pairs IH]; intros acc Hacc Hd; cbn [fold_left].
    - split; assumption.
    - cbn [forallb] in Hpairs. apply andb_prop in Hpairs. destruct Hpairs as [Hkv Hrest].
      cbn [fst snd]. destruct (dict_set_ok k v acc Hkv Hacc Hd) as [A B].
      exact (IH Hrest _ A B). }
  exact (Hgen [] eq_refl eq_refl).
Qed.

(** The floats that [float] and [repr] give: the text of a float read from
    a lexeme is one of the three names or a lexeme that stands for itself. *)
Hypothesis float_canon_ok :
  forall l, is_float_lexeme l = true -> float_ok (float_canon l) = true.

Lemma scan_number_ok (s : pystr) (v : json) (rest : pystr) :
  scalar_text s = true -> scan_number s = Parsed v rest ->
  value_ok v = true /\ scalar_text rest = true.
Proof.
  intros Hs. unfold scan_number.
  destruct (lex_number s) as [[[i t] r]|] eqn:Hlex; [|discriminate].
  assert (Hr : scalar_text r = true).
  { rewrite (lex_number_consumes _ _ _ _ Hlex) in Hs.
    exact (scalar_text_app _ _ (scalar_text_app _ _ Hs)). }
  destruct t as [|c t].
  - destruct (too_many_digits (lexeme_digits i)); [discriminate|].
    intro H. inversion H; subst. split; [reflexivity | exact Hr].
  - intro H. inversion H; subst. split; [|exact Hr].
    cbn [value_ok]. apply float_canon_ok. apply (float_lexeme _ _ _ _ Hlex). discriminate.
Qed.

Lemma keyword_ok (k : pystr) (v0 : json) (s : pystr) (v : json) (rest : pystr) :
  value_ok v0 = true -> scalar_text s = true -> found (keyword k v0 s) = Parsed v rest ->
  value_ok v = true /\ scalar_text rest = true.
Proof.
  intros Hv Hs. unfold keyword. destruct (startswith s k); [|discriminate].
  intro H. inversion H; subst. split; [exact Hv | apply scalar_text_skipn; exact Hs].
Qed.

Lemma scalar_text_skip_ws (s : pystr) (c : pychar) (s' : pystr) :
  scalar_text s = true -> skip_ws s = c :: s' -> scalar_text s' = true.
Proof.
  intros Hs Heq. pose proof (scalar_text_lstrip is_ws s Hs) as H.
  fold (skip_ws s) in H. rewrite Heq in H.
  cbn [scalar_text forallb] in H. apply andb_prop in H. apply H.
Qed.

(** The values read from scalar text are well formed, and so is what is
    left of the text. *)
Lemma parse_ok (fuel : nat) :
  (forall depth s v rest,
      scalar_text s = true -> parse_value fuel depth s = Parsed v rest ->
      value_ok v = true /\ scalar_text rest = true) /\
  (forall depth s vs rest,
      scalar_text s = true -> parse_elements fuel depth s = Parsed vs rest ->
      forallb value_ok vs = true /\ scalar_text rest = true) /\
  (forall depth s ms rest,
      scalar_text s = true -> parse_members fuel depth s = Parsed ms rest ->
      forallb member_ok ms = true /\ scalar_text rest = true).
Proof.
  induction fuel as [|f (IHv & IHe & IHm)];
    [repeat split; intros; discriminate|].
  split; [|split].
  - intros depth s v rest Hs. rewrite parse_value_step.
    destruct s as [|c s1]; [discriminate|].
    assert (Hs1 : scalar_text s1 = true).
    { cbn [scalar_text forallb] in Hs. apply andb_prop in Hs. apply Hs. }
    destruct (c =? dquote)%N.
    { destruct (scanstring s1) as [[str r]|] eqn:Hscan; [|discriminate].
      intro H. inversion H; subst. exact (scanstring_ok _ _ _ Hs1 Hscan). }
    destruct (c =? chr "{")%N.
    { destruct (max_nesting <=? depth); [discriminate|].
      destruct (skip_ws s1) as [|c2 s2] eqn:Hskip; [discriminate|].
      pose proof (scalar_text_skip_ws _ _ _ Hs1 Hskip) as Hs2.
      destruct (c2 =? chr "}")%N.
      { intro H. inversion H; subst. split; [reflexivity | exact Hs2]. }
      destruct (c2 =? dquote)%N; [|discriminate].
      destruct (parse_members f (S depth) s2) as [pairs r|e] eqn:Hm; [|discriminate].
      intro H. inversion H; subst.
      destruct (IHm _ _ _ _ Hs2 Hm) as [Hpairs Hrest].
      split; [apply dict_of_pairs_ok; exact Hpairs | exact Hrest]. }
    destruct (c =? chr "[")%N.
    { destruct (max_nesting <=? depth); [discriminate|].
      destruct (skip_ws s1) as [|c2 s2] eqn:Hskip; [discriminate|].
      pose proof (scalar_text_lstrip is_ws s1 Hs1) as Hs2.
      fold (skip_ws s1) in Hs2. rewrite Hskip in Hs2.
      destruct (c2 =? chr "]")%N.
      { intro H. inversion H; subst. split; [reflexivity|].
        exact (scalar_text_skip_ws _ _ _ Hs1 Hskip). }
      destruct (parse_elements f (S depth) (c2 :: s2)) as [items r|e] eqn:He; [|discriminate].
      intro H. inversion H; subst.
      destruct (IHe _ _ _ _ Hs2 He) as [Hitems Hrest].
      split; [exact Hitems | exact Hrest]. }
    destruct (c =? chr "n")%N; [apply keyword_ok; [reflexivity | exact Hs]|].
    destruct (c =? chr "t")%N; [apply keyword_ok; [reflexivity | exact Hs]|].
    destruct (c =? chr "f")%N; [apply keyword_ok; [reflexivity | exact Hs]|].
    destruct (scan_number (c :: s1)) as [v' r|[| |]] eqn:Hnum; try discriminate.
    { intro H. inversion H; subst. exact (scan_number_ok _ _ _ Hs Hnum). }
    destruct (c =? chr "N")%N; [apply keyword_ok; [reflexivity | exact Hs]|].
    destruct (c =? chr "I")%N; [apply keyword_ok; [reflexivity | exact Hs]|].
    destruct (c =? chr "-")%N; [apply keyword_ok; [reflexivity | exact Hs]|].
    discriminate.
  - intros depth s vs rest Hs. rewrite parse_elements_step.
    destruct (parse_value f depth s) as [v r1|e] eqn:Hv; [|discriminate].
    destruct (IHv _ _ _ _ Hs Hv) as [Hokv Hr1].
    destruct (skip_ws r1) as [|c r2] eqn:Hskip; [discriminate|].
    pose proof (scalar_text_skip_ws _ _ _ Hr1 Hskip) as Hr2.
    destruct (c =? chr "]")%N.
    { intro H. inversion H; subst. cbn [forallb]. rewrite Hokv. split; [reflexivity | exact Hr2]. }
    destruct (c =? chr ",")%N; [|discriminate].
    destruct (parse_elements f depth (skip_ws r2)) as [items r|e] eqn:He; [|discriminate].
    intro H. inversion H; subst.
    destruct (IHe _ _ _ _ (scalar_text_lstrip is_ws _ Hr2) He) as [Hitems Hrest].
    cbn [forallb]. rewrite Hokv, Hitems. split; [reflexivity | exact Hrest].
  - intros depth s ms rest Hs. rewrite parse_members_step.
    destruct (scanstring s) as [[key r1]|] eqn:Hscan; [|discriminate].
    destruct (scanstring_ok _ _ _ Hs Hscan) as [Hkey Hr1].
    destruct (skip_ws r1) as [|c r2] eqn:Hskip; [discriminate|].
    pose proof (scalar_text_skip_ws _ _ _ Hr1 Hskip) as Hr2.
    destruct (c =? chr ":")%N; [|discriminate].
    destruct (parse_value f depth (skip_ws r2)) as [v r3|e] eqn:Hv; [|discriminate].
    destruct (IHv _ _ _ _ (scalar_text_lstrip is_ws _ Hr2) Hv) as [Hokv Hr3].
    assert (Hkv : member_ok (key, v) = true).
    { unfold member_ok. cbn [fst snd]. rewrite Hkey, Hokv. reflexivity. }
    destruct (skip_ws r3) as [|c2 r4] eqn:Hskip3; [discriminate|].
    pose proof (scalar_text_skip_ws _ _ _ Hr3 Hskip3) as Hr4.
    destruct (c2 =? chr "}")%N.
    { intro H. inversion H; subst. cbn [forallb]. rewrite Hkv. split; [reflexivity | exact Hr4]. }
    destruct (c2 =? chr ",")%N; [|discriminate].
    destruct (skip_ws r4) as [|c3 r5] eqn:Hskip4; [discriminate|].
    pose proof (scalar_text_skip_ws _ _ _ Hr4 Hskip4) as Hr5.
    destruct (c3 =? dquote)%N; [|discriminate].
    destruct (parse_members f depth r5) as [kvs r|e] eqn:Hm; [|discriminate].
    intro H. inversion H; subst.
    destruct (IHm _ _ _ _ Hr5 Hm) as [Hkvs Hrest].
    cbn [forallb]. rewrite Hkv, Hkvs. split; [reflexivity | exact Hrest].
Qed.

(** [json.loads] of scalar text gives a well-formed value. *)
Lemma loads_value_ok (s : pystr) (v : json) :
  scalar_text s = true -> loads s = Some v -> value_ok v = true.
Proof.
  intros Hs. unfold loads, loads_outcome. destruct (startswith s [65279%N]); [discriminate|].
  destruct (parse_value (S (2 * length s)) 0 (skip_ws s)) as [v' rest|e] eqn:Hv;
    [|discriminate].
  destruct (proj1 (parse_ok _) _ _ _ _ (scalar_text_lstrip is_ws _ Hs) Hv) as [Hok _].
  destruct (skip_ws rest); intro H; inversion H; subst. exact Hok.
Qed.
End BuildDict.

(** ** What the decoder returns is within the limits *)

(** A run of digits denotes a number below the power of ten of its
    length. *)
Lemma N_of_digits_shift (ds : pystr) (k : N) :
  fold_left (fun acc d => (acc * 10 + (d - 48))%N) ds k =
  (k * 10 ^ N.of_nat (length ds) + N_of_digits ds)%N.
Proof.
  unfold N_of_digits. revert k.
  induction ds as [|d ds IH]; intro k; cbn [fold_left length].
  - cbn. lia.
  - rewrite IH, (IH (0 * 10 + (d - 48))%N).
    rewrite Nat2N.inj_succ, N.pow_succ_r'. lia.
Qed.

Lemma N_of_digits_bound (ds : pystr) :
  Forall (fun c => is_digit c = true) ds ->
  (N_of_digits ds < 10 ^ N.of_nat (length ds))%N.
Proof.
  induction ds as [|d ds IH] using rev_ind; intro Hall.
  - cbn. lia.
  - apply Forall_app in Hall. destruct Hall as [Hds Hd].
    inversion Hd as [|? ? Hdigit _]; subst. apply is_digit_value in Hdigit.
    specialize (IH Hds).
    unfold N_of_digits in *. rewrite fold_left_app. cbn [fold_left].
    rewrite length_app. cbn [length]. rewrite Nat.add_1_r, Nat2N.inj_succ, N.pow_succ_r'.
    lia.
Qed.

(** [str] of the number that a run of digits denotes is not longer than
    the run. *)
Lemma str_of_N_length (ds : pystr) :
  Forall (fun c => is_digit c = true) ds -> ds <> [] ->
  length (str_of_N (N_of_digits ds)) <= length ds.
Proof.
  intros Hall Hne.
  destruct (str_of_N_spec (N_of_digits ds)) as (Hdigits & Hne' & Hval & Hhd & H0).
  destruct (N.eq_dec (N_of_digits ds) 0) as [Hz|Hnz].
  - rewrite (H0 Hz). destruct ds; [contradiction | cbn [length]; lia].
  - specialize (Hhd Hnz).
    destruct (str_of_N (N_of_digits ds)) as [|c t] eqn:Hstr; [contradiction|].
    cbn [hd] in Hhd. inversion Hdigits as [|? ? Hc Ht]; subst.
    apply is_digit_value in Hc.
    pose proof (N_of_digits_bound _ Ht) as Hbound_t.
    pose proof (N_of_digits_bound _ Hall) as Hbound.
    assert (Hhead : N_of_digits (c :: t) =
                    ((0 * 10 + (c - 48)) * 10 ^ N.of_nat (length t) + N_of_digits t)%N).
    { unfold N_of_digits at 1. cbn [fold_left]. apply N_of_digits_shift. }
    rewrite Hhead in Hval.
    assert (Hlow : (10 ^ N.of_nat (length t) <= N_of_digits ds)%N).
    { rewrite <- Hval. clear - Hc Hhd. nia. }
    assert (Hlt : (10 ^ N.of_nat (length t) < 10 ^ N.of_nat (length ds))%N) by lia.
    apply N.pow_lt_mono_r_iff in Hlt; [|lia]. cbn [length]. lia.
Qed.

Lemma lex_int_digits (s i r : pystr) :
  lex_int s = Some (i, r) ->
  Forall (fun c => is_digit c = true) (lexeme_digits i) /\ lexeme_digits i <> [] /\
  Z.abs_N (int_of_lexeme i) = N_of_digits (lexeme_digits i).
Proof.
  assert (Hd1 : forall x i r, lex_digits1 x = Some (i, r) ->
             Forall (fun c => is_digit c = true) i /\ exists c i', i = c :: i').
  { intros [|c x] i' r'; cbn [lex_digits1]; [discriminate|].
    destruct (N.eqb_spec c 48) as [->|_].
    - intro H. inversion H; subst. split; [repeat constructor | eauto].
    - destruct (is_digit c) eqn:Hc; [|discriminate].
      pose proof (span_digits_chars x) as Hx. destruct (span_digits x) as [ds r2].
      intro H. inversion H; subst. split; [constructor; assumption | eauto]. }
  unfold lex_int. destruct s as [|c s]; [discriminate|].
  destruct (N.eqb_spec c (chr "-")) as [->|Hc].
  - destruct (lex_digits1 s) as [[ds rest]|] eqn:Hs; [|discriminate].
    apply Hd1 in Hs. destruct Hs as [Hall (c' & i' & ->)].
    intro H. inversion H; subst. unfold lexeme_digits, int_of_lexeme.
    rewrite N.eqb_refl. split; [exact Hall|]. split; [discriminate|].
    rewrite Zabs2N.inj_opp, Zabs2N.id. reflexivity.
  - intro H. apply Hd1 in H. destruct H as [Hall (c' & i' & ->)].
    inversion Hall as [|? ? Hdigit _]; subst.
    assert (Hminus : (c' =? chr "-")%N = false).
    { apply N.eqb_neq. intros ->. discriminate Hdigit. }
    unfold lexeme_digits, int_of_lexeme. rewrite Hminus.
    split; [exact Hall|]. split; [discriminate|]. apply Zabs2N.id.
Qed.

Section Fits.
Context {pf : PyFloat} {lim : PyLimits}.

Lemma too_many_digits_shorter (a b : pystr) :
  length a <= length b -> too_many_digits b = false -> too_many_digits a = false.
Proof.
  unfold too_many_digits. destruct max_int_digits as [|n]; [reflexivity|].
  intros Hlen Hb. apply Nat.ltb_ge in Hb. apply Nat.ltb_ge. lia.
Qed.

Lemma scan_number_fits (s : pystr) (v : json) (rest : pystr) (depth : nat) :
  scan_number s = Parsed v rest -> fits depth v = true.
Proof.
  unfold scan_number.
  destruct (lex_number s) as [[[i t] r]|] eqn:Hlex; [|discriminate].
  destruct t as [|c t].
  - destruct (too_many_digits (lexeme_digits i)) eqn:Hdigits; [discriminate|].
    intro H. inversion H; subst. cbn [fits]. unfold digits_ok.
    unfold lex_number in Hlex.
    destruct (lex_int s) as [[i1 r1]|] eqn:Hint; [|discriminate].
    destruct (lex_frac r1) as [fr r2]. destruct (lex_exp r2) as [ex r3].
    inversion Hlex; subst.
    destruct (lex_int_digits _ _ _ Hint) as (Hall & Hne & ->).
    rewrite (too_many_digits_shorter _ _ (str_of_N_length _ Hall Hne) Hdigits). reflexivity.
  - intro H. inversion H; subst. reflexivity.
Qed.

Lemma keyword_fits (k : pystr) (v0 : json) (s : pystr) (v : json) (rest : pystr)
    (depth : nat) :
  fits depth v0 = true -> found (keyword k v0 s) = Parsed v rest -> fits depth v = true.
Proof.
  intros Hv. unfold keyword. destruct (startswith s k); [|discriminate].
  intro H. inversion H; subst. exact Hv.
Qed.

Lemma dict_set_fits (depth : nat) (k : pystr) (v : json) (d : list (pystr * json)) :
  fits depth v = true ->
  forallb (fun kv => fits depth (snd kv)) d = true ->
  forallb (fun kv => fits depth (snd kv)) (dict_set str_eqb k v d) = true.
Proof.
  intro Hv. induction d as [|[k' v'] d IH]; cbn [dict_set forallb snd]; intro Hall.
  - rewrite Hv. reflexivity.
  - apply andb_prop in Hall. destruct Hall as [Hv' Hall].
    destruct (str_eqb k' k); cbn [forallb snd].
    + rewrite Hv, Hall. reflexivity.
    + rewrite Hv', (IH Hall). reflexivity.
Qed.

Lemma dict_of_pairs_fits (depth : nat) (pairs : list (pystr * json)) :
  forallb (fun kv => fits depth (snd kv)) pairs = true ->
  forallb (fun kv => fits depth (snd kv)) (dict_of_pairs str_eqb pairs) = true.
Proof.
  unfold dict_of_pairs.
  assert (Hgen : forall acc,
             forallb (fun kv => fits depth (snd kv)) acc = true ->
             forallb (fun kv => fits depth (snd kv)) pairs = true ->
             forallb (fun kv => fits depth (snd kv))
               (fold_left (fun d kv => dict_set str_eqb (fst kv) (snd kv) d) pairs acc) = true).
  { induction pairs as [|[k v] pairs IH]; intros acc Hacc Hpairs; cbn [fold_left].
    - exact Hacc.
    - cbn [forallb snd] in Hpairs. apply andb_prop in Hpairs. destruct Hpairs as [Hv Hrest].
      apply IH; [|exact Hrest]. cbn [fst snd]. apply dict_set_fits; assumption. }
  exact (Hgen [] eq_refl).
Qed.

(** The values that the scanner reads are within the limits. *)
Lemma parse_fits (fuel : nat) :
  (forall depth s v rest,
      parse_value fuel depth s = Parsed v rest -> fits depth v = true) /\
  (forall depth s vs rest,
      parse_elements fuel depth s = Parsed vs rest -> forallb (fits depth) vs = true) /\
  (forall depth s ms rest,
      parse_members fuel depth s = Parsed ms rest ->
      forallb (fun kv => fits depth (snd kv)) ms = true).
Proof.
  induction fuel as [|f (IHv & IHe & IHm)];
    [repeat split; intros; discriminate|].
  split; [|split].
  - intros depth s v rest. rewrite parse_value_step.
    destruct s as [|c s1]; [discriminate|].
    destruct (c =? dquote)%N.
    { destruct (scanstring s1) as [[str r]|]; [|discriminate].
      intro H. inversion H; subst. reflexivity. }
    destruct (c =? chr "{")%N.
    { destruct (max_nesting <=? depth) eqn:Hdeep; [discriminate|].
      apply Nat.leb_gt in Hdeep. apply Nat.ltb_lt in Hdeep.
      destruct (skip_ws s1) as [|c2 s2]; [discriminate|].
      destruct (c2 =? chr "}")%N.
      { intro H. inversion H; subst. cbn [fits forallb]. rewrite Hdeep. reflexivity. }
      destruct (c2 =? dquote)%N; [|discriminate].
      destruct (parse_members f (S depth) s2) as [pairs r|e] eqn:Hm; [|discriminate].
      intro H. inversion H; subst. cbn [fits]. rewrite Hdeep.
      apply (dict_of_pairs_fits (S depth)). exact (IHm _ _ _ _ Hm). }
    destruct (c =? chr "[")%N.
    { destruct (max_nesting <=? depth) eqn:Hdeep; [discriminate|].
      apply Nat.leb_gt in Hdeep. apply Nat.ltb_lt in Hdeep.
      destruct (skip_ws s1) as [|c2 s2]; [discriminate|].
      destruct (c2 =? chr "]")%N.
      { intro H. inversion H; subst. cbn [fits forallb]. rewrite Hdeep. reflexivity. }
      destruct (parse_elements f (S depth) (c2 :: s2)) as [items r|e] eqn:He; [|discriminate].
      intro H. inversion H; subst. cbn [fits]. rewrite Hdeep. exact (IHe _ _ _ _ He). }
    destruct (c =? chr "n")%N; [apply keyword_fits; reflexivity|].
    destruct (c =? chr "t")%N; [apply keyword_fits; reflexivity|].
    destruct (c =? chr "f")%N; [apply keyword_fits; reflexivity|].
    destruct (scan_number (c :: s1)) as [v' r|[| |]] eqn:Hnum; try discriminate.
    { intro H. inversion H; subst. exact (scan_number_fits _ _ _ _ Hnum). }
    destruct (c =? chr "N")%N; [apply keyword_fits; reflexivity|].
    destruct (c =? chr "I")%N; [apply keyword_fits; reflexivity|].
    destruct (c =? chr "-")%N; [apply keyword_fits; reflexivity|].
    discriminate.
  - intros depth s vs rest. rewrite parse_elements_step.
    destruct (parse_value f depth s) as [v r1|e] eqn:Hv; [|discriminate].
    pose proof (IHv _ _ _ _ Hv) as Hfit.
    destruct (skip_ws r1) as [|c r2]; [discriminate|].
    destruct (c =? chr "]")%N.
    { intro H. inversion H; subst. cbn [forallb]. rewrite Hfit. reflexivity. }
    destruct (c =? chr ",")%N; [|discriminate].
    destruct (parse_elements f depth (skip_ws r2)) as [items r|e] eqn:He; [|discriminate].
    intro H. inversion H; subst. cbn [forallb]. rewrite Hfit, (IHe _ _ _ _ He). reflexivity.
  - intros depth s ms rest. rewrite parse_members_step.
    destruct (scanstring s) as [[key r1]|]; [|discriminate].
    destruct (skip_ws r1) as [|c r2]; [discriminate|].
    destruct (c =? chr ":")%N; [|discriminate].
    destruct (parse_value f depth (skip_ws r2)) as [v r3|e] eqn:Hv; [|discriminate].
    pose proof (IHv _ _ _ _ Hv) as Hfit.
    destruct (skip_ws r3) as [|c2 r4]; [discriminate|].
    destruct (c2 =? chr "}")%N.
    { intro H. inversion H; subst. cbn [forallb snd]. rewrite Hfit. reflexivity. }
    destruct (c2 =? chr ",")%N; [|discriminate].
    destruct (skip_ws r4) as [|c3 r5]; [discriminate|].
    destruct (c3 =? dquote)%N; [|discriminate].
    destruct (parse_members f depth r5) as [kvs r|e] eqn:Hm; [|discriminate].
    intro H. inversion H; subst. cbn [forallb snd]. rewrite Hfit, (IHm _ _ _ _ Hm). reflexivity.
Qed.

(** The floats that [float] and [repr] give. *)
Hypothesis float_canon_ok :
  forall l, is_float_lexeme l = true -> float_ok (float_canon l) = true.

(** [json.loads] of scalar text gives a value that is well formed and
    within the limits. *)
Lemma loads_ok (s : pystr) (v : json) :
  scalar_text s = true -> loads s = Some v -> json_ok v = true.
Proof.
  intros Hs Hv. unfold json_ok. rewrite (loads_value_ok float_canon_ok _ _ Hs Hv).
  unfold loads, loads_outcome in Hv. destruct (startswith s [65279%N]); [discriminate|].
  destruct (parse_value (S (2 * length s)) 0 (skip_ws s)) as [v' rest|e] eqn:Hparse;
    [|discriminate].
  destruct (skip_ws rest); inversion Hv; subst.
  exact (proj1 (parse_fits _) _ _ _ _ Hparse).
Qed.
End Fits.

(** ** The text of a value, read again *)

Lemma join_calls {A : Type} (sep : pystr) (f : A -> pystr) (g : A -> nat) (xs : list A) :
  sep <> [] -> Forall (fun x => g x <= length (f x)) xs ->
  fold_right (fun x n => S (g x + n)) 0 xs <= S (length (join sep (map f xs))).
Proof.
  intros Hsep H. induction H as [|x xs Hx _ IH]; cbn [fold_right map]; [lia|].
  rewrite join_cons. destruct xs as [|y xs].
  - cbn [fold_right map]. rewrite app_nil_r. lia.
  - cbn [map] in IH |- *. rewrite !length_app.
    destruct sep as [|c sep]; [contradiction|]. cbn [length]. lia.
Qed.

Lemma last_char (P : pychar -> Prop) (l : pystr) :
  l <> [] -> Forall P l -> exists s c, l = s ++ [c] /\ P c.
Proof.
  intros Hne Hall. destruct (exists_last Hne) as (s & c & ->).
  exists s, c. split; [reflexivity|].
  apply Forall_app in Hall. destruct Hall as [_ Hc]. inversion Hc; assumption.
Qed.

Lemma scalar_text_rev (s : pystr) : scalar_text s = true -> scalar_text (rev s) = true.
Proof.
  unfold scalar_text. rewrite !forallb_forall. intros H c Hin. apply H, in_rev, Hin.
Qed.

Lemma scalar_text_strip (s : pystr) :
  scalar_text s = true -> scalar_text (strip (s ++ nl)) = true.
Proof.
  intro H. unfold strip, rstrip_by.
  apply scalar_text_rev, scalar_text_lstrip, scalar_text_rev, scalar_text_lstrip.
  unfold scalar_text in *. rewrite forallb_app, H. reflexivity.
Qed.

Section ReadText.
Context {pf : PyFloat} {lim : PyLimits}.
Variable indent : option nat.

(** The parsers are called no more often than the text is long. *)
Lemma size_le_length (v : json) :
  forall level, value_ok v = true -> size v <= length (encode indent level v).
Proof.
  assert (Hsep : forall level, item_separator indent ++ newline_indent indent level <> []).
  { intro level. destruct (separator_shape indent level) as (w & -> & _). discriminate. }
  induction v as [| b | z | r | s | items IH | members IH] using json_ind;
    intros level Hok;
    try (destruct (encode_start indent level _ Hok) as (c & s' & -> & _);
         cbn [size length]; lia).
  - destruct items as [|x items]; [cbv; lia|].
    cbn [value_ok] in Hok. cbn [size encode].
    assert (Hall : Forall (fun y => size y <= length (encode indent (S level) y)) (x :: items)).
    { rewrite Forall_forall in IH |- *. intros y Hy. apply IH; [exact Hy|].
      rewrite forallb_forall in Hok. exact (Hok y Hy). }
    pose proof (join_calls _ _ _ _ (Hsep (S level)) Hall) as Hjoin.
    change (lit "[") with [chr "["]. change (lit "]") with [chr "]"].
    rewrite !length_app. cbn [length]. lia.
  - destruct members as [|kv members]; [cbv; lia|].
    cbn [value_ok] in Hok. apply andb_prop in Hok. destruct Hok as [Hok _].
    cbn [size encode].
    assert (Hall : Forall (fun kv' => size (snd kv') <=
                             length (encode_basestring_ascii (fst kv') ++ key_separator ++
                                     encode indent (S level) (snd kv'))) (kv :: members)).
    { rewrite Forall_forall in IH |- *. intros y Hy. rewrite !length_app.
      rewrite forallb_forall in Hok. specialize (Hok y Hy).
      apply andb_prop in Hok. destruct Hok as [_ Hoky].
      specialize (IH y Hy (S level) Hoky). lia. }
    pose proof (join_calls _ _ _ _ (Hsep (S level)) Hall) as Hjoin.
    change (lit "{") with [chr "{"]. change (lit "}") with [chr "}"].
    rewrite !length_app. cbn [length]. lia.
Qed.

(** The text of a value ends with a character that [strip] keeps. *)
Lemma encode_end (level : nat) (v : json) :
  value_ok v = true -> exists s c, encode indent level v = s ++ [c] /\ isspace c = false.
Proof.
  intro Hok. destruct v as [|[|]|z|r|s|[|x items]|[|kv members]].
  - exists (lit "nul"), (chr "l"). split; reflexivity.
  - exists (lit "tru"), (chr "e"). split; reflexivity.
  - exists (lit "fals"), (chr "e"). split; reflexivity.
  - cbn [encode].
    destruct (lex_number_chars _ _ _ _ (lex_number_int z)) as (Hall & c & i' & Heq & _).
    rewrite app_nil_r in Hall.
    assert (Hne : str_of_Z z <> []) by (rewrite Heq; discriminate).
    destruct (last_char _ _ Hne Hall) as (s & c' & Heq' & Hc'). rewrite Heq'.
    exists s, c'. split; [reflexivity | apply number_char_not_space; exact Hc'].
  - cbn [encode value_ok] in *.
    destruct (float_ok_cases r Hok) as [-> | [-> | [-> | (i & c & t & Hlex & Hr & _)]]].
    + exists (lit "Na"), (chr "N"). split; reflexivity.
    + exists (lit "Infinit"), (chr "y"). split; reflexivity.
    + exists (lit "-Infinit"), (chr "y"). split; reflexivity.
    + destruct (lex_number_chars _ _ _ _ Hlex) as (Hall & _). rewrite <- Hr in Hall.
      assert (Hne : r <> []) by (rewrite Hr; destruct i; discriminate).
      destruct (last_char _ _ Hne Hall) as (s & c' & -> & Hc').
      exists s, c'. split; [reflexivity | apply number_char_not_space; exact Hc'].
  - exists (dquote :: flat_map encode_char s), dquote. split; reflexivity.
  - exists [chr "["], (chr "]"). split; reflexivity.
  - eexists _, (chr "]"). split; [|reflexivity]. cbn [encode].
    change (lit "]") with [chr "]"]. rewrite !app_assoc. reflexivity.
  - exists [chr "{"], (chr "}"). split; reflexivity.
  - eexists _, (chr "}"). split; [|reflexivity]. cbn [encode].
    change (lit "}") with [chr "}"]. rewrite !app_assoc. reflexivity.
Qed.

(** [strip] takes the newline of the editor off the text of a value, and
    nothing else. *)
Lemma strip_encoded (level : nat) (v : json) :
  value_ok v = true -> strip (encode indent level v ++ nl) = encode indent level v.
Proof.
  intro Hok.
  destruct (encode_start indent level v Hok) as (c & s & Heq & Hc).
  destruct (encode_end level v Hok) as (s' & c' & Heq' & Hc').
  apply value_start_facts in Hc. destruct Hc as (_ & Hc & _).
  unfold strip, rstrip_by.
  replace (lstrip_by isspace (encode indent level v ++ nl))
    with (encode indent level v ++ nl)
    by (rewrite Heq; cbn [app lstrip_by]; rewrite Hc; reflexivity).
  rewrite Heq'. unfold nl. rewrite !rev_app_distr. cbn [rev app lstrip_by].
  change (isspace 10) with true. cbv iota. rewrite Hc'.
  cbn [rev]. rewrite rev_involutive. reflexivity.
Qed.

Lemma json_ok_value (v : json) : json_ok v = true -> value_ok v = true.
Proof. unfold json_ok. intro H. apply andb_prop in H. apply H. Qed.

Lemma json_ok_fits (v : json) : json_ok v = true -> fits 0 v = true.
Proof. unfold json_ok. intro H. apply andb_prop in H. apply H. Qed.

(** [json.loads] reads the text of a value back. *)
Lemma loads_encoded (v : json) :
  json_ok v = true -> loads (encode indent 0 v) = Some v.
Proof.
  intro Hjson. pose proof (json_ok_value v Hjson) as Hok.
  destruct (encode_start indent 0 v Hok) as (c & s & Heq & Hc).
  apply value_start_facts in Hc. destruct Hc as (Hws & _ & _ & _ & Hbom).
  pose proof (read_encoded indent v Hok (S (2 * length (encode indent 0 v))) 0 0 []
                (json_ok_fits v Hjson)) as Hread.
  rewrite app_nil_r in Hread.
  unfold loads, loads_outcome.
  replace (startswith (encode indent 0 v) [65279%N]) with false
    by (rewrite Heq; cbn [startswith]; rewrite Hbom; reflexivity).
  replace (skip_ws (encode indent 0 v)) with (encode indent 0 v)
    by (rewrite Heq; symmetry; apply skip_ws_start; exact Hws).
  rewrite Hread; [reflexivity | | exact I].
  pose proof (size_le_length v 0 Hok). lia.
Qed.
End ReadText.

(** ** Fuel *)

(** The fuel of the decoders only bounds their recursion: a string that
    is read with some amount of fuel is read with any amount that covers
    the characters it takes up, and the scanners give the same outcome with
    any amount above twice the length of the text. *)
Lemma skip_ws_length (s : pystr) : length (skip_ws s) <= length s.
Proof.
  unfold skip_ws. induction s as [|c s IH]; cbn [lstrip_by]; [lia|].
  destruct (is_ws c); cbn [length]; lia.
Qed.

Lemma skip_ws_rest (s : pystr) (c : pychar) (r : pystr) :
  skip_ws s = c :: r -> S (length r) <= length s.
Proof.
  intro H. pose proof (skip_ws_length s) as Hlen. rewrite H in Hlen. exact Hlen.
Qed.

Lemma decode_hex4_length (s : pystr) (u : N) (r : pystr) :
  decode_hex4 s = Some (u, r) -> length s = 4 + length r.
Proof.
  intro H. destruct (decode_hex4_spec _ _ _ H) as (_ & a & b & c & d & ->). reflexivity.
Qed.

Lemma scanstring_fuel_enough (n : nat) :
  forall s out rest,
    scanstring_fuel n s = Some (out, rest) ->
    length rest < length s /\
    forall m, length s - length rest <= S m -> scanstring_fuel (S m) s = Some (out, rest).
Proof.
  induction n as [|f IH]; intros s out rest; [discriminate|].
  destruct s as [|c s1]; [discriminate|].
  assert (Hstep : forall ch tail,
             length tail < length (c :: s1) ->
             cons_char ch (scanstring_fuel f tail) = Some (out, rest) ->
             length rest < length (c :: s1) /\
             forall m, length (c :: s1) - length rest <= S m ->
                       cons_char ch (scanstring_fuel m tail) = Some (out, rest)).
  { intros ch tail Htail Hcons.
    apply cons_char_some in Hcons. destruct Hcons as (out' & -> & Hscan).
    destruct (IH _ _ _ Hscan) as [Hlen Hfuel].
    split; [lia|]. intros m Hm. destruct m as [|m]; [lia|].
    rewrite Hfuel by lia. reflexivity. }
  cbn [scanstring_fuel].
  destruct (c =? dquote)%N.
  { intro H. inversion H; subst. cbn [length]. split; [lia | reflexivity]. }
  destruct (c =? backslash)%N.
  - destruct s1 as [|e s2]; [discriminate|].
    destruct (e =? chr "u")%N.
    + destruct (decode_hex4 s2) as [[uni s3]|] eqn:Huni; [|discriminate].
      pose proof (decode_hex4_length _ _ _ Huni) as Hlen3.
      destruct (is_high_surrogate uni && startswith s3 [backslash; chr "u"]).
      * destruct (decode_hex4 (skipn 2 s3)) as [[uni2 s4]|] eqn:Huni2; [|discriminate].
        pose proof (decode_hex4_length _ _ _ Huni2) as Hlen4.
        rewrite length_skipn in Hlen4.
        destruct (is_low_surrogate uni2); apply Hstep; cbn [length]; lia.
      * apply Hstep. cbn [length]. lia.
    + destruct (simple_escape e); [|discriminate].
      apply Hstep. cbn [length]. lia.
  - destruct (c <? 32)%N; [discriminate|].
    apply Hstep. cbn [length]. lia.
Qed.

(** [scanstring] does not run out of fuel. *)
Lemma scanstring_any_fuel (n : nat) (s out rest : pystr) :
  scanstring_fuel n s = Some (out, rest) -> scanstring s = Some (out, rest).
Proof.
  intro H. destruct (scanstring_fuel_enough _ _ _ _ H) as [_ Hfuel].
  apply Hfuel. lia.
Qed.

Lemma scanstring_consumes (s out rest : pystr) :
  scanstring s = Some (out, rest) -> length rest < length s.
Proof. intro H. apply (scanstring_fuel_enough _ _ _ _ H). Qed.

Section Fuel.
Context {pf : PyFloat} {lim : PyLimits}.

Lemma keyword_consumes (k : pystr) (v0 : json) (s : pystr) (v : json) (rest : pystr) :
  k <> [] -> found (keyword k v0 s) = Parsed v rest -> length rest < length s.
Proof.
  intros Hk. unfold keyword. destruct (startswith s k) eqn:Hstart; [|discriminate].
  intro H. inversion H; subst. rewrite length_skipn.
  destruct k as [|c k]; [contradiction|]. destruct s as [|c' s]; [discriminate|].
  cbn [length]. lia.
Qed.

Lemma scan_number_consumes (s : pystr) (v : json) (rest : pystr) :
  scan_number s = Parsed v rest -> length rest < length s.
Proof.
  unfold scan_number.
  destruct (lex_number s) as [[[i t] r]|] eqn:Hlex; [|discriminate].
  pose proof (lex_number_consumes _ _ _ _ Hlex) as Hs.
  destruct (lex_number_chars _ _ _ _ Hlex) as (_ & c & i' & -> & _).
  intro H. assert (rest = r).
  { destruct t; [destruct (too_many_digits _); [discriminate|]|]; inversion H; reflexivity. }
  subst r. rewrite Hs, !length_app. cbn [length]. lia.
Qed.

(** A value takes up at least one character of the text. *)
Lemma parse_consumes (fuel : nat) :
  (forall depth s v rest,
      parse_value fuel depth s = Parsed v rest -> length rest < length s) /\
  (forall depth s vs rest,
      parse_elements fuel depth s = Parsed vs rest -> length rest < length s) /\
  (forall depth s ms rest,
      parse_members fuel depth s = Parsed ms rest -> length rest < length s).
Proof.
  induction fuel as [|f (IHv & IHe & IHm)];
    [repeat split; intros; discriminate|].
  split; [|split].
  - intros depth s v rest. rewrite parse_value_step.
    destruct s as [|c s1]; [discriminate|].
    destruct (c =? dquote)%N.
    { destruct (scanstring s1) as [[str r]|] eqn:Hscan; [|discriminate].
      intro H. inversion H; subst. apply scanstring_consumes in Hscan. cbn [length]. lia. }
    destruct (c =? chr "{")%N.
    { destruct (max_nesting <=? depth); [discriminate|].
      destruct (skip_ws s1) as [|c2 s2] eqn:Hskip; [discriminate|].
      apply skip_ws_rest in Hskip.
      destruct (c2 =? chr "}")%N.
      { intro H. inversion H; subst. cbn [length]. lia. }
      destruct (c2 =? dquote)%N; [|discriminate].
      destruct (parse_members f (S depth) s2) as [pairs r|e] eqn:Hm; [|discriminate].
      intro H. inversion H; subst. apply IHm in Hm. cbn [length]. lia. }
    destruct (c =? chr "[")%N.
    { destruct (max_nesting <=? depth); [discriminate|].
      destruct (skip_ws s1) as [|c2 s2] eqn:Hskip; [discriminate|].
      apply skip_ws_rest in Hskip.
      destruct (c2 =? chr "]")%N.
      { intro H. inversion H; subst. cbn [length]. lia. }
      destruct (parse_elements f (S depth) (c2 :: s2)) as [items r|e] eqn:He; [|discriminate].
      intro H. inversion H; subst. apply IHe in He. cbn [length] in *. lia. }
    destruct (c =? chr "n")%N; [apply keyword_consumes; discriminate|].
    destruct (c =? chr "t")%N; [apply keyword_consumes; discriminate|].
    destruct (c =? chr "f")%N; [apply keyword_consumes; discriminate|].
    destruct (scan_number (c :: s1)) as [v' r|[| |]] eqn:Hnum; try discriminate.
    { intro H. inversion H; subst. exact (scan_number_consumes _ _ _ Hnum). }
    destruct (c =? chr "N")%N; [apply keyword_consumes; discriminate|].
    destruct (c =? chr "I")%N; [apply keyword_consumes; discriminate|].
    destruct (c =? chr "-")%N; [apply keyword_consumes; discriminate|].
    discriminate.
  - intros depth s vs rest. rewrite parse_elements_step.
    destruct (parse_value f depth s) as [v r1|e] eqn:Hv; [|discriminate].
    apply IHv in Hv.
    destruct (skip_ws r1) as [|c r2] eqn:Hskip; [discriminate|].
    apply skip_ws_rest in Hskip.
    destruct (c =? chr "]")%N.
    { intro H. inversion H; subst. lia. }
    destruct (c =? chr ",")%N; [|discriminate].
    destruct (parse_elements f depth (skip_ws r2)) as [items r|e] eqn:He; [|discriminate].
    intro H. inversion H; subst. apply IHe in He.
    pose proof (skip_ws_length r2). lia.
  - intros depth s ms rest. rewrite parse_members_step.
    destruct (scanstring s) as [[key r1]|] eqn:Hscan; [|discriminate].
    apply scanstring_consumes in Hscan.
    destruct (skip_ws r1) as [|c r2] eqn:Hskip; [discriminate|].
    apply skip_ws_rest in Hskip.
    destruct (c =? chr ":")%N; [|discriminate].
    destruct (parse_value f depth (skip_ws r2)) as [v r3|e] eqn:Hv; [|discriminate].
    apply IHv in Hv. pose proof (skip_ws_length r2).
    destruct (skip_ws r3) as [|c2 r4] eqn:Hskip3; [discriminate|].
    apply skip_ws_rest in Hskip3.
    destruct (c2 =? chr "}")%N.
    { intro H'. inversion H'; subst. lia. }
    destruct (c2 =? chr ",")%N; [|discriminate].
    destruct (skip_ws r4) as [|c3 r5] eqn:Hskip4; [discriminate|].
    apply skip_ws_rest in Hskip4.
    destruct (c3 =? dquote)%N; [|discriminate].
    destruct (parse_members f depth r5) as [kvs r|e] eqn:Hm; [|discriminate].
    intro H'. inversion H'; subst. apply IHm in Hm. lia.
Qed.

(** The fuel only bounds the recursion of the scanners: with twice the
    length of the text and a little more, any two amounts of fuel give the
    same outcome. *)
Lemma parse_fuel (n : nat) :
  (forall depth s m,
      2 * length s + 1 <= n -> 2 * length s + 1 <= m ->
      parse_value n depth s = parse_value m depth s) /\
  (forall depth s m,
      2 * length s + 2 <= n -> 2 * length s + 2 <= m ->
      parse_elements n depth s = parse_elements m depth s) /\
  (forall depth s m,
      2 * length s + 1 <= n -> 2 * length s + 1 <= m ->
      parse_members n depth s = parse_members m depth s).
Proof.
  induction n as [|f (IHv & IHe & IHm)]; [repeat split; intros; lia|].
  split; [|split].
  - intros depth s [|f'] Hn Hm; [lia|]. rewrite !parse_value_step.
    destruct s as [|c s1]; [reflexivity|]. cbn [length] in Hn, Hm.
    destruct (c =? dquote)%N; [reflexivity|].
    destruct (c =? chr "{")%N.
    { destruct (max_nesting <=? depth); [reflexivity|].
      destruct (skip_ws s1) as [|c2 s2] eqn:Hskip; [reflexivity|].
      apply skip_ws_rest in Hskip.
      destruct (c2 =? chr "}")%N; [reflexivity|].
      destruct (c2 =? dquote)%N; [|reflexivity].
      rewrite (IHm (S depth) s2 f') by lia. reflexivity. }
    destruct (c =? chr "[")%N; [|reflexivity].
    destruct (max_nesting <=? depth); [reflexivity|].
    destruct (skip_ws s1) as [|c2 s2] eqn:Hskip; [reflexivity|].
    apply skip_ws_rest in Hskip.
    destruct (c2 =? chr "]")%N; [reflexivity|].
    rewrite (IHe (S depth) (c2 :: s2) f') by (cbn [length]; lia). reflexivity.
  - intros depth s [|f'] Hn Hm; [lia|]. rewrite !parse_elements_step.
    rewrite (IHv depth s f') by lia.
    destruct (parse_value f' depth s) as [v r1|e] eqn:Hv; [|reflexivity].
    apply (proj1 (parse_consumes f')) in Hv.
    destruct (skip_ws r1) as [|c r2] eqn:Hskip; [reflexivity|].
    apply skip_ws_rest in Hskip.
    destruct (c =? chr "]")%N; [reflexivity|].
    destruct (c =? chr ",")%N; [|reflexivity].
    pose proof (skip_ws_length r2).
    rewrite (IHe depth (skip_ws r2) f') by lia. reflexivity.
  - intros depth s [|f'] Hn Hm; [lia|]. rewrite !parse_members_step.
    destruct (scanstring s) as [[key r1]|] eqn:Hscan; [|reflexivity].
    apply scanstring_consumes in Hscan.
    destruct (skip_ws r1) as [|c r2] eqn:Hskip; [reflexivity|].
    apply skip_ws_rest in Hskip.
    destruct (c =? chr ":")%N; [|reflexivity].
    pose proof (skip_ws_length r2).
    rewrite (IHv depth (skip_ws r2) f') by lia.
    destruct (parse_value f' depth (skip_ws r2)) as [v r3|e] eqn:Hv; [|reflexivity].
    apply (proj1 (parse_consumes f')) in Hv.
    destruct (skip_ws r3) as [|c2 r4] eqn:Hskip3; [reflexivity|].
    apply skip_ws_rest in Hskip3.
    destruct (c2 =? chr "}")%N; [reflexivity|].
    destruct (c2 =? chr ",")%N; [|reflexivity].
    destruct (skip_ws r4) as [|c3 r5] eqn:Hskip4; [reflexivity|].
    apply skip_ws_rest in Hskip4.
    destruct (c3 =? dquote)%N; [|reflexivity].
    rewrite (IHm depth r5 f') by lia. reflexivity.
Qed.

(** [loads_outcome] does not run out of fuel: more fuel than it gives the
    scanner changes nothing. *)
Lemma loads_outcome_fuel (s : pystr) (n : nat) :
  S (2 * length s) <= n ->
  parse_value n 0 (skip_ws s) = parse_value (S (2 * length s)) 0 (skip_ws s).
Proof.
  intro Hn. pose proof (skip_ws_length s).
  apply (proj1 (parse_fuel n)); lia.
Qed.

(** Where [json.loads] raises [JSONDecodeError], the text starts with a
    byte-order mark, or the scanner finds no value at its head however much
    fuel it has, or something other than white space follows the value. *)
Lemma loads_rejects (s : pystr) :
  loads_outcome s = inr NotJson ->
  startswith s [65279%N] = true \/
  forall n, S (2 * length s) <= n ->
    match parse_value n 0 (skip_ws s) with
    | Parsed v rest => skip_ws rest <> []
    | Stops e => e = NotJson
    end.
Proof.
  unfold loads_outcome. destruct (startswith s [65279%N]); [left; reflexivity|].
  intro Hbad. right. intros n Hn. rewrite (loads_outcome_fuel s n Hn).
  destruct (parse_value (S (2 * length s)) 0 (skip_ws s)) as [v rest|e].
  - destruct (skip_ws rest); [discriminate Hbad | discriminate].
  - inversion Hbad. reflexivity.
Qed.
End Fuel.

(* ===================================================================== *)
(** * Properties *)
(* ===================================================================== *)

(** ** Editor text that is not JSON *)

Section MalformedJson.
Context {pf : PyFloat} {lim : PyLimits} {pt : PyText} {net : Network}.

Definition json_error_box (doc_text : pystr) : ui_event :=
    ShowError (lit "JSON Error") (lit "Invalid JSON:" ++ nl ++ exn_str (JSONDecodeError doc_text)).

End MalformedJson.

(** ** Index creation without fields *)

Section EmptyFields.
Context {pf : PyFloat} {lim : PyLimits} {pt : PyText} {net : Network}.

  (** C4. An index with an empty field list is rejected before any network
      call.  With an empty fields entry, [add_index] returns at once and
      changes nothing at all; [create_index] issues no request and leaves
      every field of the main window as it was, and it returns normally
      whenever the rows of the database list carry their name. *)
Theorem empty_fields_no_request :
    forall (name : pystr) (gm : gui CouchDBManager.window) (gb : gui BrowseWindow.window),
      exchanges (snd (create_index name [] gm)) = exchanges gm /\
      win (snd (create_index name [] gm)) = win gm /\
      (Forall (fun it => values it <> []) (items (CouchDBManager.tree (win gm))) ->
       fst (create_index name [] gm) = Ok tt) /\
      add_index name [] gb = (Ok tt, gb).
  Proof.
    intros name gm gb.
    unfold add_index. cbn [str_eqb]. rewrite orb_true_r.
    unfold create_index, bind, gets, tree_first_value.
    destruct (selection (CouchDBManager.tree (win gm))) as [|i [|j rest]] eqn:Hsel;
      cbn; try (repeat split; reflexivity).
    unfold bind, gets.
    destruct (item_values i (CouchDBManager.tree (win gm))) as [vals|] eqn:Hvals; cbn.
    - destruct vals as [|v vals']; cbn.
      + repeat split; try reflexivity.
        intros Hall. exfalso.
        unfold item_values in Hvals.
        destruct (find _ _) as [it|] eqn:Hfind; [|discriminate].
        apply find_some in Hfind. destruct Hfind as [Hin _].
        rewrite Forall_forall in Hall. apply (Hall it Hin).
        now inversion Hvals.
      + rewrite orb_true_r. repeat split; reflexivity.
    - repeat split; try reflexivity.
      intros _. exfalso.
      unfold item_values in Hvals.
      destruct (find _ _) as [it|] eqn:Hfind; [discriminate|].
      assert (Hin : In i (selection (CouchDBManager.tree (win gm))))
        by (rewrite Hsel; left; reflexivity).
      unfold selection in Hin. apply in_map_iff in Hin.
      destruct Hin as [it [Hid Hin]]. apply filter_In in Hin. destruct Hin as [Hin _].
      apply (find_none _ _ Hfind) in Hin. rewrite Hid, Nat.eqb_refl in Hin. discriminate.
  Qed.
End EmptyFields.

(** ** Reloading the index list *)

Section LoadIndexes.
Context {pf : PyFloat} {lim : PyLimits} {pt : PyText} {net : Network}.

Lemma offline_clear_tree t : offline (clear_tree t).
  Proof. unfold clear_tree. offline_tac. Qed.

Lemma offline_load_index_row idx : offline (load_index_row idx).
  Proof. unfold load_index_row, print, py_get. offline_tac. Qed.

  (** The request of [load_indexes]. *)
Definition indexes_request (w : BrowseWindow.window) : request :=
    {| req_method := GET;
       req_url := BrowseWindow.base_url w ++ lit "/" ++ db w ++ lit "/_index";
       req_json := None;
       req_auth := auth w |}.

  (** [load_indexes] makes that one request, whatever comes of it. *)
Lemma load_indexes_exchanges (g : gui BrowseWindow.window) :
    exchanges (snd (load_indexes g)) =
    exchanges g ++ [(indexes_request (win g),
                     serve (map fst (exchanges g)) (indexes_request (win g)))].
  Proof.
    unfold load_indexes. rewrite bind_modify.
    apply exchanges_try.
    - rewrite bind_gets, bind_modify, bind_gets.
      unfold requests_get. rewrite bind_send.
      cbn [payload_refused req_json win with_win exchanges BrowseWindow.base_url db auth
           BrowseWindow.set_status].
      fold (indexes_request (win g)).
      destruct (serve _ _) as [resp|detail]; [|reflexivity].
      match goal with
      | |- exchanges (snd (?m ?g1)) = _ =>
          assert (Hoff : offline m); [|rewrite Hoff; reflexivity]
      end.
      unfold raise_for_status, print, resp_json, py_get, py_len, py_iter.
      offline_tac; try apply offline_clear_tree; try apply offline_load_index_row.
    - intro e. unfold report_error, print, showerror. offline_tac.
  Qed.
End LoadIndexes.

(** ** The default index of a new database *)

Section AddDb.
Context {pf : PyFloat} {lim : PyLimits} {pt : PyText} {net : Network}.

  (** C9. After every successful database creation via Add Database (the
      PUT is answered, with a status that is not an error status), the client
      also POSTs the default index [{"index": {"fields": ["_id"]}, "name":
      "{db}_idx"}] to [{db}/_index].  Whatever comes of that second request
      (any answer, any status, or an exception of the transport) the handler
      returns normally, the database is in the list, the status bar reports
      the creation, and no message box is shown: an exception is printed,
      an error status is not even looked at. *)
Theorem add_db_posts_default_index :
    forall (g : gui CouchDBManager.window) (c : pychar) (cs : pystr) (resp : response),
      let name := c :: cs in
      let url := CouchDBManager.base_url (win g) in
      let put := {| req_method := PUT; req_url := url ++ lit "/" ++ name;
                    req_json := None; req_auth := basic_auth (win g) |} in
      let post := {| req_method := POST; req_url := url ++ lit "/" ++ name ++ lit "/_index";
                     req_json :=
                       Some (JObj [(lit "index", JObj [(lit "fields", JArr [JStr (lit "_id")])]);
                                   (lit "name", JStr (name ++ lit "_idx"))]);
                     req_auth := basic_auth (win g) |} in
      let answer := serve (map fst (exchanges g) ++ [put]) post in
      serve (map fst (exchanges g)) put = Responds resp ->
      is_error_status (status_code resp) = false ->
      add_db (Some name) g =
        (Ok tt,
         {| exchanges := exchanges g ++ [(put, Responds resp); (post, answer)];
            shown := shown g ++
                     match answer with
                     | Responds _ => []
                     | Fails detail =>
                         [Printed (lit "Failed to create default index for '" ++ name ++
                                 lit "': " ++ exn_str (TransportError detail))]
                     end;
            win := CouchDBManager.set_status
                     (lit "Created database '" ++ name ++ lit "' with default index")
                     (set_tree (tree_insert [JStr name] (CouchDBManager.tree (win g))) (win g)) |}).
  Proof.
    intros g c cs resp name url put post answer Hput Hok.
    subst answer post put url name.
    unfold add_db, _create_index, default_index_payload.
    unfold bind, gets, modify, try_except, requests_put, requests_post, send, raise_for_status,
      ret, payload_refused.
    unfold CouchDBManager.base_url, basic_auth in *.
    cbn. rewrite Hput. cbn. rewrite Hok. cbn.
    rewrite map_app. cbn.
    match goal with
    | |- context [match ?o with Responds _ => _ | Fails _ => _ end] => destruct o
    end; cbn; unfold after_showing, after_exchange, with_win; cbn;
    rewrite <- ?app_assoc, ?app_nil_r; reflexivity.
  Qed.
End AddDb.

(** ** Deleting an index *)

Section DeleteIndex.
Context {pf : PyFloat} {lim : PyLimits} {pt : PyText} {net : Network}.

  (** C6. For a selected index row with design-document value [d] and name
      [n], [delete_index] (once the operator has confirmed) sends its DELETE
      to [{base_url}/{db}/_index/{ddoc}/json/{n}], where [ddoc] is [d] when
      [d] starts with [_design/] and [_design/] followed by [d] otherwise;
      so [ddoc] always starts with [_design/].  It is the first request of
      the handler and the only DELETE: what may follow is the GET that
      reloads the list. *)
Theorem delete_index_targets_design_document :
    forall (g : gui BrowseWindow.window) (i : nat) (others : list nat)
           (d : pystr) (n : json) (more : list json),
      selection (idx_tree (win g)) = i :: others ->
      item_values i (idx_tree (win g)) = Some (JStr d :: n :: more) ->
      let ddoc := if startswith d (lit "_design/") then d else lit "_design/" ++ d in
      let req := {| req_method := DELETE;
                    req_url := BrowseWindow.base_url (win g) ++ lit "/" ++ db (win g) ++
                               lit "/_index/" ++ ddoc ++ lit "/json/" ++ format_value n;
                    req_json := None;
                    req_auth := auth (win g) |} in
      startswith ddoc (lit "_design/") = true /\
      exists later,
        exchanges (snd (delete_index true g)) =
          exchanges g ++ (req, serve (map fst (exchanges g)) req) :: later /\
        Forall (fun x => req_method (fst x) = GET) later.
  Proof.
    intros g i others d n more Hsel Hrow ddoc req.
    split.
    - subst ddoc. destruct (startswith d (lit "_design/")) eqn:Hd;
        [exact Hd | apply startswith_app].
    - unfold delete_index. rewrite bind_gets, Hsel, bind_gets, Hrow.
      unfold askyesno. unfold bind at 1. rewrite bind_emit. unfold ret at 1.
      cbn [negb]. rewrite bind_modify. unfold try_except.
      cbn [py_ddoc_path]. rewrite bind_ret, bind_gets, bind_gets.
      unfold requests_delete. rewrite bind_send.
      cbn [payload_refused req_json win with_win after_showing exchanges
           BrowseWindow.base_url db auth BrowseWindow.set_status].
      change (ddoc_path d) with ddoc. fold req.
      destruct (serve (map fst (exchanges g)) req) as [resp|detail] eqn:Hserve.
      + cbv beta. unfold raise_for_status.
        destruct (is_error_status (status_code resp)).
        * rewrite bind_raise. exists []. split; [reflexivity | constructor].
        * rewrite bind_ret.
          match goal with
          | |- context [bind load_indexes ?k ?g1] =>
              pose proof (load_indexes_exchanges g1) as Hload;
              unfold bind; destruct (load_indexes g1) as [[[]|e] g2]
          end; cbn in Hload |- *; rewrite Hload, <- app_assoc;
            eexists [_]; (split; [reflexivity | repeat constructor]).
      + exists []. split; [reflexivity | constructor].
  Qed.
End DeleteIndex.

(** ** Saving a document that the server rejects *)

Section SaveDoc.
Context {pf : PyFloat} {lim : PyLimits} {pt : PyText} {net : Network}.

Lemma offline_update_first_row new_id new_rev ids t :
    offline (update_first_row new_id new_rev ids t).
  Proof.
    induction ids as [|i ids IH]; cbn.
    - apply offline_ret.
    - unfold tuple_first. offline_tac; exact IH.
  Qed.

  (** The state in which [save_doc] leaves the window when the PUT was
      answered with an error status. *)
Definition save_rejected (status : Z) (g : gui BrowseWindow.window) : gui BrowseWindow.window :=
    after_showing
      (ShowError (lit "Save Error")
         (lit "Failed to save document:" ++ nl ++ exn_str (HTTPError status)))
      (with_win
         (BrowseWindow.set_status
            (lit "Failed to save document: " ++ upto 50 (exn_str (HTTPError status)))) g).

  (** The second half of [save_doc] makes no request, or one PUT; when that
      is answered with an error status, all that follows is the report. *)
Lemma save_doc_put_run (doc : json) (g : gui BrowseWindow.window) :
    exchanges (snd (save_doc_put doc g)) = exchanges g \/
    exists req o,
      req_method req = PUT /\
      exchanges (snd (save_doc_put doc g)) = exchanges g ++ [(req, o)] /\
      forall resp, o = Responds resp -> is_error_status (status_code resp) = true ->
        save_doc_put doc g =
          (Ok tt, save_rejected (status_code resp) (after_exchange req o g)).
  Proof.
    unfold save_doc_put.
    destruct doc as [| | | | |items|members]; try (left; reflexivity).
    cbn [py_get]. rewrite bind_ret, bind_modify.
    rewrite try_bind_gets. cbv zeta. rewrite try_bind_gets.
    unfold requests_put. rewrite try_bind_send.
    match goal with
    | |- context [payload_refused ?r] => set (req := r)
    end.
    destruct (payload_refused req); [left; reflexivity|].
    right. exists req, (serve (map fst (exchanges g)) req).
    split; [reflexivity|].
    cbn [exchanges with_win].
    destruct (serve (map fst (exchanges g)) req) as [resp|detail].
    - unfold raise_for_status.
      destruct (is_error_status (status_code resp)) eqn:Hst.
      + rewrite try_bind_raise. split; [reflexivity|].
        intros resp' Heq _. inversion Heq; subst resp'. reflexivity.
      + rewrite try_bind_ret. split.
        * apply exchanges_try.
          -- match goal with
             | |- exchanges (snd (?m ?g1)) = _ =>
                 assert (Hoff : offline m); [|rewrite Hoff; reflexivity]
             end.
             unfold resp_json, py_get, py_setitem, docs_set, showerror.
             offline_tac. apply offline_update_first_row.
          -- intro e. unfold showerror. offline_tac.
        * intros resp' Heq Herr. inversion Heq; subst resp'. congruence.
    - split; [reflexivity|]. intros resp' Heq. discriminate.
  Qed.

  (** C1. When the server rejects the PUT of [save_doc] (it answers with an
      error status, 409 Conflict for a stale [_rev] among them), nothing else
      happens to the local state: the handler returns normally, the document
      cache [docs], the rows of the document list, the text of the editor and
      the current document are as before, and the failure is surfaced as
      the error box (after the question about a changed id, if that was
      asked) and the line put in [status_var]. *)
Theorem save_doc_rejected_keeps_local_state :
    forall (g : gui BrowseWindow.window) (confirm : bool) (req : request) (resp : response),
      exchanges (snd (save_doc confirm g)) = exchanges g ++ [(req, Responds resp)] ->
      is_error_status (status_code resp) = true ->
      let g' := snd (save_doc confirm g) in
      fst (save_doc confirm g) = Ok tt /\
      req_method req = PUT /\
      docs (win g') = docs (win g) /\
      doc_tree (win g') = doc_tree (win g) /\
      text (win g') = text (win g) /\
      current_doc (win g') = current_doc (win g) /\
      BrowseWindow.status_var (win g') =
        lit "Failed to save document: " ++ upto 50 (exn_str (HTTPError (status_code resp))) /\
      exists asked,
        shown g' = shown g ++ asked ++
                   [ShowError (lit "Save Error")
                      (lit "Failed to save document:" ++ nl ++
                       exn_str (HTTPError (status_code resp)))] /\
        Forall (fun e => exists title msg answer, e = AskYesNo title msg answer) asked.
  Proof.
    intros g confirm req resp Hlog Herr g'. subst g'.
    set (asks := Forall (fun e => exists title msg answer, e = AskYesNo title msg answer)).
    set (Q := fun rg : result unit * gui BrowseWindow.window =>
                exchanges (snd rg) = exchanges g ++ [(req, Responds resp)] ->
                fst rg = Ok tt /\
                req_method req = PUT /\
                docs (win (snd rg)) = docs (win g) /\
                doc_tree (win (snd rg)) = doc_tree (win g) /\
                text (win (snd rg)) = text (win g) /\
                current_doc (win (snd rg)) = current_doc (win g) /\
                BrowseWindow.status_var (win (snd rg)) =
                  lit "Failed to save document: " ++
                  upto 50 (exn_str (HTTPError (status_code resp))) /\
                exists asked,
                  shown (snd rg) = shown g ++ asked ++
                    [ShowError (lit "Save Error")
                       (lit "Failed to save document:" ++ nl ++
                        exn_str (HTTPError (status_code resp)))] /\
                  asks asked).
    enough (HQ : Q (save_doc confirm g)) by (apply HQ; exact Hlog).
    clear Hlog.
    assert (Hvac : forall r g1, exchanges g1 = exchanges g -> Q (r, g1)).
    { intros r g1 Hsame Hlog. exfalso. cbn in Hlog. rewrite Hsame in Hlog.
      apply (f_equal (@length _)) in Hlog. rewrite length_app in Hlog. cbn in Hlog. lia. }
    assert (Hput : forall doc g1 asked,
               exchanges g1 = exchanges g -> win g1 = win g ->
               shown g1 = shown g ++ asked -> asks asked ->
               Q (save_doc_put doc g1)).
    { intros doc g1 asked Hex1 Hwin1 Hshown1 Hasked Hlog1.
      destruct (save_doc_put_run doc g1) as [Hsame | (req1 & o & Hm & Hex & Hrej)].
      - exfalso. rewrite Hsame, Hex1 in Hlog1.
        apply (f_equal (@length _)) in Hlog1. rewrite length_app in Hlog1. cbn in Hlog1. lia.
      - rewrite Hex, Hex1 in Hlog1. apply app_inv_head in Hlog1.
        inversion Hlog1; subst req1 o.
        rewrite (Hrej resp eq_refl Herr). cbn. rewrite Hwin1, Hshown1.
        repeat split; try assumption; try reflexivity.
        exists asked. split; [rewrite app_assoc; reflexivity | assumption]. }
    assert (Hput0 : forall doc, Q (save_doc_put doc g)).
    { intro doc. apply (Hput doc g []); try reflexivity.
      - symmetry. apply app_nil_r.
      - constructor. }
    unfold save_doc. rewrite bind_gets.
    destruct (loads _) as [doc|]; [|destruct (loads_error _); apply Hvac; reflexivity].
    rewrite bind_gets.
    destruct (truthy (current_doc (win g))); [|apply Hput0].
    destruct doc as [| | | | s |items|members]; cbn [py_in];
      rewrite ?bind_raise, ?bind_ret; try (apply Hvac; reflexivity).
    - (* a string *)
      destruct (contains s (lit "_id")); cbn [py_getitem py_setitem andb];
        rewrite ?bind_raise, ?bind_ret; cbn [py_setitem andb];
        rewrite ?bind_raise; apply Hvac; reflexivity.
    - (* a list *)
      destruct (existsb _ items); cbn [py_getitem py_setitem andb];
        rewrite ?bind_raise, ?bind_ret; cbn [py_setitem andb];
        rewrite ?bind_raise; apply Hvac; reflexivity.
    - (* a dict *)
      destruct (dict_get str_eqb (lit "_id") members) as [v|];
        cbn [py_getitem py_setitem andb]; rewrite bind_ret.
      + destruct (negb (json_eqb _ _)).
        * unfold askyesno. unfold bind at 1. rewrite bind_emit. unfold ret at 1.
          destruct confirm; cbn [negb].
          -- eapply Hput; try reflexivity. repeat constructor. do 3 eexists. reflexivity.
          -- apply Hvac. reflexivity.
        * cbn [py_setitem]. rewrite bind_ret. apply Hput0.
      + cbn [py_setitem]. rewrite bind_ret. apply Hput0.
  Qed.
End SaveDoc.

(** ** The index list for one reply *)

Section Example.
Context {pf : PyFloat} {lim : PyLimits} {pt : PyText} {net : Network}.

  (** C5. For the server response [{"indexes":[{"ddoc":"_design/foo",
      "name":"bar","def":{"fields":[{"x":"asc"}]}}]}] (with a status that is
      not an error status), [load_indexes] leaves exactly one row in the
      index list: design document [foo], name [bar], fields [x:asc]. *)
Theorem load_indexes_example_row :
    forall (g : gui BrowseWindow.window) (status : Z),
      NoDup (get_children (idx_tree (win g))) ->
      is_error_status status = false ->
      serve (map fst (exchanges g)) (indexes_request (win g)) =
        Responds {| status_code := status;
                    Py.text := lit_dq "{'indexes':[{'ddoc':'_design/foo','name':'bar','def':{'fields':[{'x':'asc'}]}}]}" |} ->
      rows (idx_tree (win (snd (load_indexes g)))) =
        [[JStr (lit "foo"); JStr (lit "bar"); JStr (lit "x:asc")]].
  Proof.
    intros g status Hnd Hok Hserve.
    unfold load_indexes. rewrite bind_modify.
    rewrite try_bind_gets, try_bind_modify, try_bind_gets.
    unfold requests_get. rewrite try_bind_send.
    cbn [payload_refused req_json win with_win exchanges BrowseWindow.base_url db auth
         BrowseWindow.set_status].
    fold (indexes_request (win g)). rewrite Hserve.
    unfold raise_for_status. cbn [status_code]. rewrite Hok.
    rewrite try_bind_ret. unfold print. rewrite !try_bind_emit.
    unfold resp_json. cbn [Py.text].
    match goal with
    | |- context [loads ?s] =>
        let v := eval vm_compute in (loads s) in
        replace (loads s) with v by (vm_compute; reflexivity)
    end.
    rewrite try_bind_ret. cbn [py_get].
    rewrite try_bind_ret. 
    match goal with
    | |- context [obj_get ?k ?d ?m] =>
        let v := eval vm_compute in (obj_get k d m) in
        change (obj_get k d m) with v
    end.
    cbn [py_len length]. rewrite try_bind_ret, try_bind_emit, try_bind_gets.
    erewrite try_bind_run by (apply clear_tree_run; exact Hnd).
    rewrite try_bind_modify. cbn [py_iter]. rewrite try_bind_ret.
    vm_compute. reflexivity.
  Qed.
End Example.

(** ** Loading the documents *)

(** An id of a design document. *)
Definition is_design_id (v : json) : bool :=
  match v with
  | JStr s => startswith s (lit "_design/")
  | _ => false
  end.

(** No design document in the list or in the cache. *)
Definition no_design_documents (w : BrowseWindow.window) : Prop :=
  Forall (fun row => match row with
                     | doc_id :: _ => is_design_id doc_id = false
                     | [] => True
                     end) (rows (doc_tree w)) /\
  Forall (fun kv => is_design_id (fst kv) = false) (docs w).

(** What [load_docs] reads in a row of the reply: [row.get('id', '')],
    [row.get('value', {}).get('rev', '')] and [row.get('doc', {})]. *)
Definition row_id (row : json) : json :=
  match row with
  | JObj members => obj_get (lit "id") (JStr []) members
  | _ => JNull
  end.

Definition row_rev (row : json) : json :=
  match row with
  | JObj members =>
      match obj_get (lit "value") (JObj []) members with
      | JObj value => obj_get (lit "rev") (JStr []) value
      | _ => JNull
      end
  | _ => JNull
  end.

Definition row_doc (row : json) : json :=
  match row with
  | JObj members => obj_get (lit "doc") (JObj []) members
  | _ => JNull
  end.

(** A row as CouchDB sends it: a dict whose [id], if any, is a string and
    whose [value], if any, is a dict. *)
Definition row_ok (row : json) : bool :=
  match row with
  | JObj members =>
      match obj_get (lit "id") (JStr []) members, obj_get (lit "value") (JObj []) members with
      | JStr _, JObj _ => true
      | _, _ => false
      end
  | _ => false
  end.

(** The rows that [load_docs] keeps. *)
Definition kept_rows (entries : list json) : list json :=
  filter (fun row => negb (is_design_id (row_id row))) entries.

Section LoadDocs.
Context {pf : PyFloat} {lim : PyLimits} {pt : PyText} {net : Network}.

Definition docs_request (w : BrowseWindow.window) : request :=
    {| req_method := GET;
       req_url := BrowseWindow.base_url w ++ lit "/" ++ db w ++ lit "/_all_docs?include_docs=true";
       req_json := None;
       req_auth := auth w |}.

Lemma dict_set_keys (P : json -> Prop) k v (d : list (json * json)) :
    P k -> Forall (fun kv => P (fst kv)) d ->
    Forall (fun kv => P (fst kv)) (dict_set json_eqb k v d).
  Proof.
    intros Hk Hd. induction Hd as [|[k' v'] d Hkv Hd IH]; cbn.
    - constructor; [exact Hk | constructor].
    - destruct (json_eqb k' k); constructor; assumption.
  Qed.

Lemma load_doc_row_no_design row g :
    no_design_documents (win g) -> no_design_documents (win (snd (load_doc_row row g))).
  Proof.
    intros [Hrows Hdocs]. unfold load_doc_row.
    destruct row as [| | | | | |members]; try (split; assumption).
    cbn [py_get]. rewrite bind_ret.
    destruct (obj_get (lit "id") (JStr []) members) as [| | | |s| |] eqn:Hid;
      try (split; assumption).
    cbn [py_startswith]. rewrite bind_ret.
    destruct (startswith s (lit "_design/")) eqn:Hs; [split; assumption|].
    rewrite bind_ret.
    destruct (obj_get (lit "value") (JObj []) members) as [| | | | | |value];
      try (split; assumption).
    cbn [py_get]. rewrite !bind_ret.
    unfold docs_set. cbn [hashable]. rewrite bind_modify.
    cbn. split.
    - cbn [doc_tree set_doc_tree]. rewrite rows_tree_insert.
      apply Forall_app. split; [exact Hrows|]. constructor; [exact Hs | constructor].
    - cbn [docs set_doc_tree set_docs].
      apply (dict_set_keys (fun k => is_design_id k = false)); [exact Hs | exact Hdocs].
  Qed.

Lemma for_each_no_design entries g :
    no_design_documents (win g) ->
    no_design_documents (win (snd (for_each entries load_doc_row g))).
  Proof.
    revert g. unfold for_each.
    induction entries as [|row entries IH]; intros g Hg; cbn; [exact Hg|].
    pose proof (load_doc_row_no_design row g Hg) as Hrow.
    unfold bind. destruct (load_doc_row row g) as [[[]|e] g1]; cbn in *.
    - apply IH. exact Hrow.
    - exact Hrow.
  Qed.

  (** One round of the loop on a row that is as CouchDB sends it. *)
Definition keep_row (w : BrowseWindow.window) (row : json) : BrowseWindow.window :=
    if is_design_id (row_id row) then w
    else set_doc_tree (tree_insert [row_id row; row_rev row] (doc_tree w))
           (set_docs (dict_set json_eqb (row_id row) (row_doc row) (docs w)) w).

Lemma load_doc_row_ok row g :
    row_ok row = true -> load_doc_row row g = (Ok tt, with_win (fun w => keep_row w row) g).
  Proof.
    unfold row_ok, load_doc_row, keep_row, row_id, row_rev, row_doc.
    destruct row as [| | | | | |members]; try discriminate.
    cbn [py_get]. rewrite bind_ret.
    destruct (obj_get (lit "id") (JStr []) members) as [| | | |s| |]; try discriminate.
    destruct (obj_get (lit "value") (JObj []) members) as [| | | | | |value]; try discriminate.
    intros _. cbn [py_startswith is_design_id]. rewrite bind_ret.
    destruct (startswith s (lit "_design/")).
    - destruct g; reflexivity.
    - rewrite bind_ret. cbn [py_get]. rewrite !bind_ret. reflexivity.
  Qed.

Lemma for_each_rows_ok entries g :
    forallb row_ok entries = true ->
    for_each entries load_doc_row g = (Ok tt, with_win (fun w => fold_left keep_row entries w) g).
  Proof.
    revert g. unfold for_each.
    induction entries as [|row entries IH]; intros g Hok; cbn.
    - destruct g; reflexivity.
    - cbn in Hok. apply andb_prop in Hok. destruct Hok as [Hrow Hrest].
      unfold bind. rewrite (load_doc_row_ok _ g Hrow).
      rewrite (IH _ Hrest). reflexivity.
  Qed.

Lemma kept_rows_tree entries w :
    rows (doc_tree (fold_left keep_row entries w)) =
    rows (doc_tree w) ++ map (fun row => [row_id row; row_rev row]) (kept_rows entries).
  Proof.
    revert w. induction entries as [|row entries IH]; intro w; cbn.
    - symmetry. apply app_nil_r.
    - rewrite IH. unfold keep_row.
      destruct (is_design_id (row_id row)); cbn [doc_tree set_doc_tree]; [reflexivity|].
      rewrite rows_tree_insert, <- app_assoc. reflexivity.
  Qed.

Lemma kept_rows_docs entries w :
    docs (fold_left keep_row entries w) =
    fold_left (fun d kv => dict_set json_eqb (fst kv) (snd kv) d)
      (map (fun row => (row_id row, row_doc row)) (kept_rows entries)) (docs w).
  Proof.
    revert w. induction entries as [|row entries IH]; intro w; cbn; [reflexivity|].
    rewrite IH. unfold keep_row.
    destruct (is_design_id (row_id row)); reflexivity.
  Qed.

  (** C2. For every [_all_docs] reply that [load_docs] processes (the GET
      is answered and the body is JSON), no row whose id starts with
      [_design/] is in the document list or in the cache [docs] afterwards;
      and when the reply is as CouchDB sends it (a dict whose [rows] are
      dicts with a string [id] and a dict [value]), every other row is in
      the list with its id and revision, in the order of the reply, and in
      the cache with its document. *)
Theorem load_docs_excludes_design_documents :
    forall (g : gui BrowseWindow.window) (resp : response) (data : json),
      NoDup (get_children (doc_tree (win g))) ->
      serve (map fst (exchanges g)) (docs_request (win g)) = Responds resp ->
      loads (Py.text resp) = Some data ->
      let w' := win (snd (load_docs g)) in
      no_design_documents w' /\
      forall members entries,
        data = JObj members ->
        obj_get (lit "rows") (JArr []) members = JArr entries ->
        forallb row_ok entries = true ->
        rows (doc_tree w') = map (fun row => [row_id row; row_rev row]) (kept_rows entries) /\
        docs w' = dict_of_pairs json_eqb
                    (map (fun row => (row_id row, row_doc row)) (kept_rows entries)).
  Proof.
    intros g resp data Hnd Hserve Hdata w'. subst w'.
    unfold load_docs. rewrite bind_modify.
    rewrite try_bind_gets, try_bind_gets.
    unfold requests_get. rewrite try_bind_send.
    cbn [payload_refused req_json win with_win exchanges BrowseWindow.base_url db auth
         BrowseWindow.set_status].
    fold (docs_request (win g)). rewrite Hserve.
    unfold resp_json. rewrite Hdata. rewrite try_bind_ret, try_bind_gets.
    erewrite try_bind_run by (apply clear_tree_run; exact Hnd).
    rewrite !try_bind_modify.
    match goal with
    | |- context [try_except ?b ?h ?g0] => set (body := b); set (handler := h); set (g1 := g0)
    end.
    assert (Hclean : no_design_documents (win g1)) by (split; constructor).
    assert (Hhandler : forall e g2, no_design_documents (win g2) ->
                                    no_design_documents (win (snd (handler e g2))))
      by (intros e g2 Hg2; exact Hg2).
    assert (Hloop : forall entries,
               no_design_documents
                 (win (snd (try_except
                              (for_each entries load_doc_row ;;
                               n <- gets (fun w => length (docs w)) ;;
                               modify (BrowseWindow.set_status
                                         (lit "Loaded " ++ str_of_nat n ++ lit " documents")))
                              handler g1)))).
    { intro entries. pose proof (for_each_no_design entries g1 Hclean) as Hafter.
      unfold try_except, bind at 1.
      destruct (for_each entries load_doc_row g1) as [[[]|e] g2]; cbn in Hafter |- *.
      - exact Hafter.
      - exact Hafter. }
    split.
    - subst body. destruct data as [| | | | | |members]; cbn [py_get];
        rewrite ?try_bind_raise, ?try_bind_ret; try (apply Hhandler; exact Hclean).
      destruct (obj_get (lit "rows") (JArr []) members); cbn [py_iter];
        rewrite ?try_bind_raise, ?try_bind_ret;
        try (apply Hhandler; exact Hclean); apply Hloop.
    - intros members entries Hmembers Hrows Hok. subst body data.
      cbn [py_get]. rewrite try_bind_ret, Hrows. cbn [py_iter]. rewrite try_bind_ret.
      erewrite try_bind_run by (apply for_each_rows_ok; exact Hok).
      rewrite try_bind_gets. unfold try_except, modify.
      cbn [snd win with_win doc_tree docs BrowseWindow.set_status].
      rewrite kept_rows_tree, kept_rows_docs.
      split; reflexivity.
  Qed.
End LoadDocs.

(** ** Filtering with an empty search string *)

(** An entry of the cache as [load_docs] and [save_doc] store it for a
    CouchDB server: the id is a string and the document a dict. *)
Definition cached_ok (entry : json * json) : bool :=
  match entry with
  | (JStr _, JObj _) => true
  | _ => false
  end.

(** [doc.get('_rev', '')] *)
Definition doc_rev (doc : json) : json :=
  match doc with
  | JObj members => obj_get (lit "_rev") (JStr []) members
  | _ => JNull
  end.

Section FilterDocs.
Context {pf : PyFloat} {lim : PyLimits} {pt : PyText} {net : Network}.

Definition show_entry (w : BrowseWindow.window) (entry : json * json) : BrowseWindow.window :=
    set_doc_tree (tree_insert [fst entry; doc_rev (snd entry)] (doc_tree w)) w.

Lemma filter_doc_row_empty entry g :
    str_lower [] = [] -> cached_ok entry = true ->
    filter_doc_row [] entry g = (Ok tt, with_win (fun w => show_entry w entry) g).
  Proof.
    intros Hlower Hok. destruct entry as [doc_id doc].
    destruct doc_id as [| | | |s| |]; try discriminate.
    destruct doc as [| | | | | |members]; try discriminate.
    unfold filter_doc_row. cbn [py_lower]. rewrite bind_ret.
    rewrite contains_empty. cbn [orb py_get]. rewrite bind_ret. reflexivity.
  Qed.

Lemma for_each_filter_empty entries g :
    str_lower [] = [] -> forallb cached_ok entries = true ->
    for_each entries (filter_doc_row []) g =
      (Ok tt, with_win (fun w => fold_left show_entry entries w) g).
  Proof.
    intros Hlower. revert g. unfold for_each.
    induction entries as [|entry entries IH]; intros g Hok; cbn.
    - destruct g; reflexivity.
    - cbn in Hok. apply andb_prop in Hok. destruct Hok as [Hentry Hrest].
      unfold bind. rewrite (filter_doc_row_empty _ g Hlower Hentry).
      rewrite (IH _ Hrest). reflexivity.
  Qed.

Lemma shown_entries_rows entries w :
    rows (doc_tree (fold_left show_entry entries w)) =
    rows (doc_tree w) ++ map (fun entry => [fst entry; doc_rev (snd entry)]) entries.
  Proof.
    revert w. induction entries as [|entry entries IH]; intro w; cbn.
    - symmetry. apply app_nil_r.
    - rewrite IH. unfold show_entry. cbn [doc_tree set_doc_tree].
      rewrite rows_tree_insert, <- app_assoc. reflexivity.
  Qed.

Lemma shown_entries_docs entries w : docs (fold_left show_entry entries w) = docs w.
  Proof.
    revert w. induction entries as [|entry entries IH]; intro w; cbn; [reflexivity|].
    rewrite IH. reflexivity.
  Qed.

  (** C10. Filtering with the empty search string shows the whole cache:
      when every cached entry is a document under a string id,
      [filter_docs] returns normally with exactly one row for each cached
      document, in the order of the cache, holding its id and its [_rev];
      so the ids shown are the ids cached.  The cache is not touched.
      ([str_lower] of the empty string is the empty string.)  It does not
      hold of every cache that [load_docs] can leave: a row that gives
      [null] as its document is cached as it is. *)
Theorem filter_docs_empty_search_shows_all :
    forall (g : gui BrowseWindow.window),
      str_lower [] = [] ->
      search_var (win g) = [] ->
      NoDup (get_children (doc_tree (win g))) ->
      forallb cached_ok (docs (win g)) = true ->
      let g' := snd (filter_docs g) in
      fst (filter_docs g) = Ok tt /\
      rows (doc_tree (win g')) =
        map (fun entry => [fst entry; doc_rev (snd entry)]) (docs (win g)) /\
      map (hd JNull) (rows (doc_tree (win g'))) = map fst (docs (win g)) /\
      docs (win g') = docs (win g).
  Proof.
    intros g Hlower Hsearch Hnd Hok g'. subst g'.
    unfold filter_docs. rewrite bind_gets, Hsearch, Hlower, bind_gets.
    erewrite bind_run by (apply clear_tree_run; exact Hnd).
    rewrite bind_modify, bind_gets.
    erewrite bind_run by (apply for_each_filter_empty; [exact Hlower | exact Hok]).
    rewrite bind_gets. unfold modify.
    cbn [fst snd win with_win doc_tree docs BrowseWindow.set_status set_doc_tree].
    rewrite shown_entries_rows, shown_entries_docs. cbn [rows items map app doc_tree set_doc_tree docs].
    repeat split; try reflexivity.
    rewrite map_map. apply map_ext. intros [k v]. reflexivity.
  Qed.
End FilterDocs.

(** ** Deleting several databases *)

(** A request that was answered with a status that is not an error status. *)
Definition succeeded (o : outcome) : bool :=
  match o with
  | Responds resp => negb (is_error_status (status_code resp))
  | Fails _ => false
  end.

(** The name in the row of item [i]. *)
Definition db_name {pt : PyText} (t : treeview) (i : nat) : pystr :=
  match item_values i t with
  | Some (v :: _) => format_value v
  | _ => []
  end.

Definition delete_request {pt : PyText} (w : CouchDBManager.window) (i : nat) : request :=
  {| req_method := DELETE;
     req_url := CouchDBManager.base_url w ++ lit "/" ++ db_name (CouchDBManager.tree w) i;
     req_json := None;
     req_auth := basic_auth w |}.

(** Whether item [i] is one of [chosen] whose request, the one at the same
    place in [log], succeeded. *)
Definition was_deleted (chosen : list nat) (log : list (request * outcome)) (i : nat) : bool :=
  existsb (fun p => Nat.eqb (fst p) i && succeeded (snd (snd p))) (combine chosen log).

Lemma item_values_delete_other i j t t' :
  tree_delete j t = Some t' -> i <> j -> item_values i t' = item_values i t.
Proof.
  unfold tree_delete, item_values. destruct (existsb _ _); [|discriminate].
  intros Heq Hne. inversion Heq; subst t'; clear Heq. cbn [items].
  induction (items t) as [|a l IH]; cbn; [reflexivity|].
  destruct (Nat.eqb_spec (iid a) j) as [Hj|Hj]; cbn.
  - destruct (Nat.eqb_spec (iid a) i) as [Hi|Hi]; [congruence | exact IH].
  - destruct (Nat.eqb (iid a) i); [reflexivity | exact IH].
Qed.

Lemma item_values_present i t vals :
  item_values i t = Some vals -> existsb (fun it => Nat.eqb (iid it) i) (items t) = true.
Proof.
  unfold item_values. destruct (find _ _) as [it|] eqn:Hfind; [|discriminate].
  intros _. apply find_some in Hfind. apply existsb_exists. exists it. exact Hfind.
Qed.

Section DeleteLoop.
Context {pf : PyFloat} {lim : PyLimits} {pt : PyText} {net : Network}.

  (** What the loop of [delete_selected] and [delete_all] does from the
      state [g], as seen in the state [g'] it ends in, with [counts] the
      counters it returns. *)
Definition loop_report (url : pystr) (auth : credentials) (chosen : list nat)
      (g g' : gui CouchDBManager.window) (start counts : nat * nat)
      (log : list (request * outcome)) : Prop :=
    exchanges g' = exchanges g ++ log /\
    map fst log =
      map (fun i => {| req_method := DELETE;
                       req_url := url ++ lit "/" ++ db_name (CouchDBManager.tree (win g)) i;
                       req_json := None; req_auth := auth |}) chosen /\
    items (CouchDBManager.tree (win g')) =
      filter (fun it => negb (was_deleted chosen log (iid it))) (items (CouchDBManager.tree (win g))) /\
    fst counts = fst start + length (filter (fun x => succeeded (snd x)) log) /\
    snd counts = snd start + length (filter (fun x => negb (succeeded (snd x))) log) /\
    CouchDBManager.status_var (win g') = CouchDBManager.status_var (win g).

Lemma delete_one_run url auth start i g v vals :
    item_values i (CouchDBManager.tree (win g)) = Some (v :: vals) ->
    let req := {| req_method := DELETE; req_url := url ++ lit "/" ++ format_value v;
                  req_json := None; req_auth := auth |} in
    let o := serve (map fst (exchanges g)) req in
    exists counts g',
      delete_one url auth start i g = (Ok counts, g') /\
      exchanges g' = exchanges g ++ [(req, o)] /\
      CouchDBManager.status_var (win g') = CouchDBManager.status_var (win g) /\
      (if succeeded o
       then counts = (S (fst start), snd start) /\
            tree_delete i (CouchDBManager.tree (win g)) = Some (CouchDBManager.tree (win g'))
       else counts = (fst start, S (snd start)) /\
            CouchDBManager.tree (win g') = CouchDBManager.tree (win g)).
  Proof.
    intros Hi req o. unfold delete_one, tree_first_value.
    rewrite bind_assoc, bind_gets, Hi. cbn [tuple_first]. rewrite bind_ret.
    unfold requests_delete. rewrite try_bind_send.
    cbn [payload_refused req_json]. fold req. fold o.
    destruct o as [resp|detail] eqn:Ho; cbn [succeeded].
    - unfold raise_for_status.
      destruct (is_error_status (status_code resp)); cbn [negb].
      + rewrite try_bind_raise. do 2 eexists. split; [reflexivity|].
        cbn. repeat split; reflexivity.
      + rewrite try_bind_ret. unfold tree_delete_item.
        rewrite try_bind_assoc, try_bind_gets. cbn [win after_exchange].
        destruct (tree_delete i (CouchDBManager.tree (win g))) as [t'|] eqn:Hdel.
        * rewrite try_bind_modify. do 2 eexists. split; [reflexivity|].
          cbn. repeat split; reflexivity.
        * exfalso. unfold tree_delete in Hdel.
          rewrite (item_values_present _ _ _ Hi) in Hdel. discriminate.
    - do 2 eexists. split; [reflexivity|]. cbn. repeat split; reflexivity.
  Qed.

Lemma delete_loop_run url auth chosen :
    forall g start,
      NoDup chosen ->
      Forall (fun i => exists v vals, item_values i (CouchDBManager.tree (win g)) = Some (v :: vals))
             chosen ->
      exists counts g' log,
        for_fold chosen (delete_one url auth) start g = (Ok counts, g') /\
        loop_report url auth chosen g g' start counts log.
  Proof.
    induction chosen as [|i chosen IH]; intros g start Hnd Hin.
    - exists start, g, []. split; [reflexivity|].
      unfold loop_report, was_deleted. cbn. rewrite app_nil_r, !Nat.add_0_r.
      repeat split; try reflexivity.
      symmetry. induction (items _) as [|a l IHl]; cbn; [reflexivity | f_equal; exact IHl].
    - inversion Hnd as [|? ? Hnot Hnd']; subst.
      inversion Hin as [|? ? (v & vals & Hi) Hin']; subst.
      cbn [for_fold].
      destruct (delete_one_run url auth start i g v vals Hi) as (counts1 & g1 & Hrun & Hex & Hst & Hcase).
      rewrite (bind_run _ _ _ _ _ _ _ Hrun).
      set (req := {| req_method := DELETE; req_url := url ++ lit "/" ++ format_value v;
                     req_json := None; req_auth := auth |}) in *.
      set (o := serve (map fst (exchanges g)) req) in *.
      assert (Hsame : forall j, In j chosen ->
                item_values j (CouchDBManager.tree (win g1)) =
                item_values j (CouchDBManager.tree (win g))).
      { intros j Hj. destruct (succeeded o).
        - destruct Hcase as [_ Hdel].
          apply (item_values_delete_other _ _ _ _ Hdel). intro Heq. subst j. contradiction.
        - destruct Hcase as [_ Htree]. rewrite Htree. reflexivity. }
      assert (Hin1 : Forall (fun j => exists v vals,
                        item_values j (CouchDBManager.tree (win g1)) = Some (v :: vals)) chosen).
      { rewrite Forall_forall in *. intros j Hj. rewrite (Hsame j Hj). apply Hin'. exact Hj. }
      destruct (IH g1 counts1 Hnd' Hin1)
        as (counts & g' & log & Hloop & Hlog & Hreqs & Hitems & Hok & Hbad & Hstatus).
      exists counts, g', ((req, o) :: log). split; [exact Hloop|].
      unfold loop_report. repeat split.
      + rewrite Hlog, Hex, <- app_assoc. reflexivity.
      + cbn [map fst]. f_equal.
        * unfold db_name. rewrite Hi. reflexivity.
        * rewrite Hreqs. apply map_ext_in. intros j Hj.
          unfold db_name. rewrite (Hsame j Hj). reflexivity.
      + rewrite Hitems. unfold was_deleted. cbn [combine existsb fst snd].
        destruct (succeeded o).
        * destruct Hcase as [_ Hdel]. unfold tree_delete in Hdel.
          destruct (existsb _ _); [|discriminate]. inversion Hdel as [Ht]. clear Hdel.
          cbn [items]. generalize (items (CouchDBManager.tree (win g))). intro l.
          induction l as [|a l IHl]; cbn; [reflexivity|].
          rewrite (Nat.eqb_sym i (iid a)).
          destruct (Nat.eqb (iid a) i); cbn; [exact IHl | now rewrite IHl].
        * destruct Hcase as [_ Htree]. rewrite Htree.
          apply filter_ext. intro a. rewrite andb_false_r. reflexivity.
      + rewrite Hok. cbn [filter snd]. destruct (succeeded o); cbn [length].
        * destruct Hcase as [-> _]. cbn. lia.
        * destruct Hcase as [-> _]. cbn. lia.
      + rewrite Hbad. cbn [filter snd]. destruct (succeeded o); cbn [length negb].
        * destruct Hcase as [-> _]. cbn. lia.
        * destruct Hcase as [-> _]. cbn. lia.
      + rewrite Hstatus. exact Hst.
  Qed.

  (** What a run [r] of [delete_selected] or [delete_all] from the state [g]
      did with the databases [chosen]. *)
Definition deletion_report (chosen : list nat) (g : gui CouchDBManager.window)
      (r : result unit * gui CouchDBManager.window) : Prop :=
    exists log,
      fst r = Ok tt /\
      exchanges (snd r) = exchanges g ++ log /\
      map fst log = map (delete_request (win g)) chosen /\
      items (CouchDBManager.tree (win (snd r))) =
        filter (fun it => negb (was_deleted chosen log (iid it)))
               (items (CouchDBManager.tree (win g))) /\
      let success_count := length (filter (fun x => succeeded (snd x)) log) in
      let fail_count := length (filter (fun x => negb (succeeded (snd x))) log) in
      success_count + fail_count = length chosen /\
      CouchDBManager.status_var (win (snd r)) =
        lit "Deleted " ++ str_of_nat success_count ++
        lit " database(s). Failed: " ++ str_of_nat fail_count.

Lemma count_partition {A} (f : A -> bool) (l : list A) :
    length (filter f l) + length (filter (fun x => negb (f x)) l) = length l.
  Proof.
    induction l as [|a l IH]; cbn; [reflexivity|].
    destruct (f a); cbn; lia.
  Qed.

Lemma chosen_present (t : treeview) (chosen : list nat) :
    Forall (fun it => values it <> []) (items t) ->
    incl chosen (get_children t) ->
    Forall (fun i => exists v vals, item_values i t = Some (v :: vals)) chosen.
  Proof.
    intros Hvals Hincl. rewrite Forall_forall. intros i Hi.
    apply Hincl in Hi. unfold get_children in Hi. apply in_map_iff in Hi.
    destruct Hi as (it & Hid & Hit).
    unfold item_values.
    destruct (find (fun it0 => Nat.eqb (iid it0) i) (items t)) as [it'|] eqn:Hfind.
    - apply find_some in Hfind. destruct Hfind as [Hin' _].
      rewrite Forall_forall in Hvals. specialize (Hvals it' Hin').
      destruct (values it') as [|v vals]; [contradiction|]. exists v, vals. reflexivity.
    - exfalso. apply (find_none _ _ Hfind) in Hit. rewrite Hid, Nat.eqb_refl in Hit. discriminate.
  Qed.

Lemma selection_incl (t : treeview) : incl (selection t) (get_children t).
  Proof.
    unfold selection, get_children. intros i Hi. apply in_map_iff in Hi.
    destruct Hi as (it & Hid & Hit). apply filter_In in Hit.
    apply in_map_iff. exists it. tauto.
  Qed.

Lemma selection_NoDup (t : treeview) : NoDup (get_children t) -> NoDup (selection t).
  Proof.
    unfold selection, get_children. induction (items t) as [|a l IH]; cbn; intro Hnd.
    - constructor.
    - inversion Hnd as [|? ? Hnot Hnd']; subst.
      destruct (selected a); cbn; [|apply IH; exact Hnd'].
      constructor; [|apply IH; exact Hnd'].
      intro Hin. apply Hnot. apply in_map_iff in Hin. destruct Hin as (it & Hid & Hit).
      apply filter_In in Hit. apply in_map_iff. exists it. tauto.
  Qed.

  (** The loop and the report, for either handler. *)
Lemma delete_and_report (chosen : list nat) (g g0 : gui CouchDBManager.window) :
    NoDup chosen ->
    Forall (fun it => values it <> []) (items (CouchDBManager.tree (win g))) ->
    incl chosen (get_children (CouchDBManager.tree (win g))) ->
    exchanges g0 = exchanges g ->
    CouchDBManager.tree (win g0) = CouchDBManager.tree (win g) ->
    deletion_report chosen g
      ((counts <- delete_loop (CouchDBManager.base_url (win g)) (basic_auth (win g)) chosen ;;
        report_deleted counts) g0).
  Proof.
    intros Hnd Hvals Hincl Hex0 Htree0.
    unfold delete_loop.
    destruct (delete_loop_run (CouchDBManager.base_url (win g)) (basic_auth (win g)) chosen
                g0 (0, 0) Hnd)
      as (counts & g' & log & Hloop & Hlog & Hreqs & Hitems & Hok & Hbad & Hstatus).
    { rewrite Htree0. apply chosen_present; assumption. }
    rewrite (bind_run _ _ _ _ _ _ _ Hloop).
    exists log. destruct counts as [success_count fail_count]. cbn [fst snd] in Hok, Hbad.
    subst success_count fail_count.
    unfold report_deleted. rewrite bind_modify.
    assert (Hlen : length log = length chosen).
    { rewrite <- (length_map fst log), Hreqs. apply length_map. }
    destruct (Nat.ltb 0 _); cbn [fst snd showwarning emit ret win with_win after_showing exchanges
                                 CouchDBManager.tree CouchDBManager.set_status
                                 CouchDBManager.status_var];
      (repeat split;
       [ rewrite Hlog, Hex0; reflexivity
       | rewrite Hreqs, Htree0; reflexivity
       | rewrite Hitems, Htree0; reflexivity
       | rewrite count_partition; exact Hlen ]).
  Qed.

  (** C8. [delete_selected] and [delete_all] (once the operator has
      confirmed) attempt every database of the chosen set exactly once and in
      order, with no retry: the requests they add are one DELETE for each
      chosen item.  A failure stops nothing: the handler returns normally
      and every item has its request.  The items removed from the list are
      exactly those whose DELETE succeeded, and the two counts in the status
      bar are the numbers of successes and failures, which add up to the
      number of databases attempted. *)
Theorem delete_attempts_each_database_once :
    forall (g : gui CouchDBManager.window),
      NoDup (get_children (CouchDBManager.tree (win g))) ->
      Forall (fun it => values it <> []) (items (CouchDBManager.tree (win g))) ->
      (selection (CouchDBManager.tree (win g)) <> [] ->
       deletion_report (selection (CouchDBManager.tree (win g))) g (delete_selected true g)) /\
      (get_children (CouchDBManager.tree (win g)) <> [] ->
       deletion_report (get_children (CouchDBManager.tree (win g))) g (delete_all true g)).
  Proof.
    intros g Hnd Hvals. split; intro Hsome.
    - unfold delete_selected. rewrite bind_gets.
      destruct (selection (CouchDBManager.tree (win g))) as [|i chosen] eqn:Hsel;
        [contradiction|].
      unfold askyesno. rewrite bind_assoc, bind_emit, bind_ret. cbn [negb].
      rewrite bind_gets, bind_gets, bind_modify.
      cbn [win after_showing with_win].
      rewrite <- Hsel.
      apply delete_and_report; try reflexivity; try assumption.
      + apply selection_NoDup. exact Hnd.
      + apply selection_incl.
    - unfold delete_all. rewrite bind_gets.
      destruct (get_children (CouchDBManager.tree (win g))) as [|i chosen] eqn:Hall;
        [contradiction|].
      unfold askyesno. cbv zeta. rewrite bind_assoc, bind_emit, bind_ret. cbn [negb].
      rewrite bind_gets, bind_gets, bind_modify.
      cbn [win after_showing with_win].
      rewrite <- Hall in Hnd |- *.
      apply delete_and_report; try reflexivity; try assumption.
      apply incl_refl.
  Qed.
End DeleteLoop.

(** ** Formatting the editor text *)

Section FormatJson.
Context {pf : PyFloat} {lim : PyLimits} {pt : PyText} {net : Network}.

Hypothesis float_canon_ok :
  forall l, is_float_lexeme l = true -> float_ok (float_canon l) = true.

(** The window after [format_json] has put the text of [doc] in the editor. *)
Definition formatted (doc : json) (g : gui BrowseWindow.window) : gui BrowseWindow.window :=
  with_win (fun w => set_status (lit "JSON formatted") (set_text (dumps_indent 2 doc) w)) g.

Lemma format_json_run (g : gui BrowseWindow.window) (doc : json) :
  loads (strip (text_get (win g))) = Some doc ->
  format_json g = (Ok tt, formatted doc g).
Proof.
  intro Hdoc. unfold format_json, bind, gets. rewrite Hdoc. reflexivity.
Qed.

End FormatJson.

(* ===================================================================== *)
(** * Further properties of the handlers *)
(* ===================================================================== *)

(** The handlers of the main window that connect, select, rename and
    browse, and those of the browse window that show, create, save and
    delete documents and list and create indexes.

    A row of a list is read back with the values that were put in it: the
    conversion that Tk applies to a value that looks like a number is not
    part of the model, so what is said of an id read from a row holds for
    the ids that Tk hands back as they were inserted.

    What is said of [BrowseWindow.status_var] is said of the attribute
    [self.status_var] of the browse window, which its handlers set and
    which the label of its status bar does not display. *)

Import Application.

(** The exception that a call of [requests] followed by
    [raise_for_status] raises for an outcome, if it raises one. *)
Definition request_failure (o : outcome) : option exn :=
  match o with
  | Fails detail => Some (TransportError detail)
  | Responds resp =>
      if is_error_status (status_code resp) then Some (HTTPError (status_code resp))
      else None
  end.

(** ** Connecting and disconnecting *)

Lemma delete_children_run {W : Type} (t : treeview) (g : gui W) :
  NoDup (get_children t) ->
  delete_children t g = (Ok {| items := []; next_iid := next_iid t |}, g).
Proof.
  unfold delete_children, get_children. destruct t as [l n]. cbn [items next_iid].
  revert g. induction l as [|a l IH]; intros g Hnd; cbn; [reflexivity|].
  inversion Hnd as [|? ? Hnot Hnd']; subst.
  unfold tree_delete. cbn [items next_iid existsb filter].
  rewrite Nat.eqb_refl. cbn [orb negb].
  rewrite (filter_other_iids _ _ Hnot).
  rewrite bind_ret. apply IH. exact Hnd'.
Qed.

(** A tree filled with one row for each of [names], from the empty tree
    that keeps counting item identifiers from [n]. *)
Definition listed (names : list json) (n : nat) : treeview :=
  fold_left (fun t db => tree_insert [db] t) names {| items := []; next_iid := n |}.

Lemma rows_fold_insert (names : list json) (t : treeview) :
  rows (fold_left (fun t db => tree_insert [db] t) names t) =
  rows t ++ map (fun db => [db]) names.
Proof.
  revert t. induction names as [|db names IH]; intro t; cbn [fold_left map].
  - symmetry. apply app_nil_r.
  - rewrite IH, rows_tree_insert, <- app_assoc. reflexivity.
Qed.

Lemma selection_fold_insert (names : list json) (t : treeview) :
  selection (fold_left (fun t db => tree_insert [db] t) names t) = selection t.
Proof.
  revert t. induction names as [|db names IH]; intro t; cbn [fold_left]; [reflexivity|].
  rewrite IH. unfold selection, tree_insert. cbn [items].
  rewrite filter_app, map_app. cbn. apply app_nil_r.
Qed.

Section Connect.
Context {pf : PyFloat} {lim : PyLimits} {pt : PyText} {net : Network}.

(** The request of [connect]. *)
Definition all_dbs_request (a : main_window) : request :=
  {| req_method := GET;
     req_url := CouchDBManager.base_url (main a) ++ lit "/_all_dbs";
     req_json := None;
     req_auth := basic_auth (main a) |}.

Lemma insert_names_run (names : list json) (g : gui main_window) :
  for_each names
    (fun db => modify (set_main (fun w =>
                 CouchDBManager.set_tree (tree_insert [db] (CouchDBManager.tree w)) w))) g =
  (Ok tt,
   with_win (set_main (fun w =>
     CouchDBManager.set_tree
       (fold_left (fun t db => tree_insert [db] t) names (CouchDBManager.tree w)) w)) g).
Proof.
  unfold for_each. revert g. induction names as [|db names IH]; intro g; cbn [for_fold fold_left].
  - destruct g as [ex sh [[u us pw t st] c b bs]]. reflexivity.
  - rewrite bind_modify, IH.
    destruct g as [ex sh [[u us pw t st] c b bs]]. reflexivity.
Qed.

(** The state in which a failed [connect] leaves the application. *)
Definition connection_failed (e : exn) (g : gui main_window) : gui main_window :=
  after_showing
    (ShowError (lit "Connection Error") (lit "Failed to fetch databases:" ++ nl ++ exn_str e))
    (with_win (set_main (CouchDBManager.set_status (lit "Connection failed"))) g).

(** What [for db in dbs] runs through, if [dbs] can be iterated. *)
Definition iterated (dbs : json) : option (list json) :=
  match dbs with
  | JArr items => Some items
  | JObj members => Some (map (fun kv => JStr (fst kv)) members)
  | JStr s => Some (map (fun c => JStr [c]) s)
  | _ => None
  end.

(** The state in which a successful [connect] leaves the application. *)
Definition connection_made (names : list json) (g : gui main_window) : gui main_window :=
  with_win (fun a =>
    {| main := CouchDBManager.set_status
                 (lit "Connected to " ++ CouchDBManager.base_url (main a) ++
                  lit " - " ++ str_of_nat (length names) ++ lit " databases found")
                 (CouchDBManager.set_tree
                    (listed names (next_iid (CouchDBManager.tree (main a)))) (main a));
       connected := true;
       conn_btn := lit "Disconnect";
       action_buttons := map (fun b => (fst b, true)) (action_buttons a) |}) g.

(** The list emptied. *)
Definition list_emptied (g : gui main_window) : gui main_window :=
  with_win (set_main (fun w =>
    CouchDBManager.set_tree {| items := []; next_iid := next_iid (CouchDBManager.tree w) |} w)) g.

(** [connect], case by case on what comes of its request. *)
Lemma connect_run (g : gui main_window) :
  let req := all_dbs_request (win g) in
  let o := serve (map fst (exchanges g)) req in
  let g1 := after_exchange req o
              (with_win (set_main (CouchDBManager.set_status (lit "Connecting..."))) g) in
  match o with
  | Fails detail => connect g = (Ok tt, connection_failed (TransportError detail) g1)
  | Responds resp =>
      if is_error_status (status_code resp)
      then connect g = (Ok tt, connection_failed (HTTPError (status_code resp)) g1)
      else
        match loads (Py.text resp) with
        | None => connect g = (Ok tt, connection_failed (resp_json_error (Py.text resp)) g1)
        | Some dbs =>
            NoDup (get_children (CouchDBManager.tree (main (win g)))) ->
            match iterated dbs with
            | None => connect g = (Ok tt, connection_failed (TypeError dbs) (list_emptied g1))
            | Some names => connect g = (Ok tt, connection_made names g1)
            end
        end
  end.
Proof.
  intros req o g1. unfold connect.
  rewrite bind_gets, bind_gets, bind_modify.
  unfold requests_get. rewrite try_bind_send. cbn [payload_refused req_json].
  change (serve _ _) with o. subst g1.
  destruct o as [resp|detail]; [|reflexivity].
  unfold raise_for_status.
  destruct (is_error_status (status_code resp)) eqn:Hst; [reflexivity|].
  rewrite try_bind_ret. unfold resp_json.
  destruct (loads (Py.text resp)) as [dbs|] eqn:Hjson; [|reflexivity].
  intros Hnd. rewrite try_bind_ret, try_bind_gets.
  rewrite (try_bind_run _ _ _ _ _ _ _ _ (delete_children_run _ _ Hnd)).
  rewrite try_bind_modify.
  assert (Hlen : forall names,
             @py_len main_window dbs = ret (length names) ->
             iterated dbs = Some names ->
             try_except
               (names0 <- py_iter dbs ;;
                for_each names0
                  (fun db => modify (set_main (fun w =>
                     CouchDBManager.set_tree (tree_insert [db] (CouchDBManager.tree w)) w))) ;;
                modify (set_buttons true) ;;
                modify (set_conn_btn (lit "Disconnect")) ;;
                modify (set_connected true) ;;
                n <- py_len dbs ;;
                modify (set_main (CouchDBManager.set_status
                          (lit "Connected to " ++ CouchDBManager.base_url (main (win g)) ++
                           lit " - " ++ str_of_nat n ++ lit " databases found"))))
               (fun e =>
                  modify (set_main (CouchDBManager.set_status (lit "Connection failed"))) ;;
                  showerror (lit "Connection Error")
                    (lit "Failed to fetch databases:" ++ nl ++ exn_str e))
               (list_emptied
                  (after_exchange req (Responds resp)
                     (with_win (set_main (CouchDBManager.set_status (lit "Connecting..."))) g))) =
             (Ok tt,
              connection_made names
                (after_exchange req (Responds resp)
                   (with_win (set_main (CouchDBManager.set_status (lit "Connecting..."))) g)))).
  { intros names Hpylen Hiter.
    assert (Hit : @py_iter main_window dbs = ret names).
    { destruct dbs; try discriminate; cbn [iterated] in Hiter; inversion Hiter; reflexivity. }
    rewrite Hit, Hpylen.
    rewrite try_bind_ret.
    rewrite (try_bind_run _ _ _ _ _ _ _ _ (insert_names_run _ _)).
    rewrite !try_bind_modify, try_bind_ret.
    destruct g as [ex sh [[u us pw t st] c bt bs]]. reflexivity. }
  destruct dbs as [|b|z|r|s|items|members]; cbn [iterated];
    [reflexivity | reflexivity | reflexivity | reflexivity | | | ];
    apply Hlen; try reflexivity; cbn [py_len]; rewrite length_map; reflexivity.
Qed.

(** [connect] makes its one request, whatever comes of it. *)
Lemma offline_delete_children {W : Type} (t : treeview) : offline (@delete_children W t).
Proof. unfold delete_children. offline_tac. Qed.

(** X1. [connect] sends exactly one request, whatever the state of the
    window and whatever comes of the request: the GET of [{url}/_all_dbs],
    where [url] is the URL entry without its trailing slashes, with the user
    name and the password stripped of white space. *)
Theorem connect_one_request :
  forall g : gui main_window,
    exchanges (snd (connect g)) =
    exchanges g ++
      [({| req_method := GET;
           req_url := rstrip_slash (url_var (main (win g))) ++ lit "/_all_dbs";
           req_json := None;
           req_auth := (strip (user_var (main (win g))), strip (pass_var (main (win g)))) |},
        serve (map fst (exchanges g))
          {| req_method := GET;
             req_url := rstrip_slash (url_var (main (win g))) ++ lit "/_all_dbs";
             req_json := None;
             req_auth := (strip (user_var (main (win g))),
                          strip (pass_var (main (win g)))) |})].
Proof.
  intro g. unfold connect.
  rewrite bind_gets, bind_gets, bind_modify.
  unfold requests_get. rewrite try_bind_send. cbn [payload_refused req_json].
  destruct (serve _ _) as [resp|detail] eqn:Ho; [|reflexivity].
  apply exchanges_try.
  - match goal with
    | |- exchanges (snd (?m ?g1)) = _ =>
        assert (Hoff : offline m); [|rewrite Hoff; reflexivity]
    end.
    unfold raise_for_status, resp_json, py_iter, py_len.
    offline_tac; apply offline_delete_children.
  - intro e. unfold showerror. offline_tac.
Qed.

(** X2. When the GET of [connect] is answered with a status that is not an
    error status and a JSON list, the database list holds exactly one row
    for each entry of the list, in its order and with nothing selected; the
    application is connected, every action button is enabled, the connect
    button reads [Disconnect], the status bar gives the URL and the number
    of databases, and no message box is shown. *)
Theorem connect_lists_databases :
  forall (g : gui main_window) (resp : response) (names : list json),
    NoDup (get_children (CouchDBManager.tree (main (win g)))) ->
    serve (map fst (exchanges g)) (all_dbs_request (win g)) = Responds resp ->
    is_error_status (status_code resp) = false ->
    loads (Py.text resp) = Some (JArr names) ->
    let a := win (snd (connect g)) in
    fst (connect g) = Ok tt /\
    rows (CouchDBManager.tree (main a)) = map (fun db => [db]) names /\
    selection (CouchDBManager.tree (main a)) = [] /\
    connected a = true /\
    action_buttons a = map (fun b => (fst b, true)) (action_buttons (win g)) /\
    conn_btn a = lit "Disconnect" /\
    CouchDBManager.status_var (main a) =
      lit "Connected to " ++ CouchDBManager.base_url (main (win g)) ++ lit " - " ++
      str_of_nat (length names) ++ lit " databases found" /\
    shown (snd (connect g)) = shown g.
Proof.
  intros g resp names Hnd Hserve Hst Hjson a.
  pose proof (connect_run g) as Hrun. cbv zeta in Hrun.
  rewrite Hserve, Hst, Hjson in Hrun. specialize (Hrun Hnd). cbn [iterated] in Hrun.
  subst a. rewrite Hrun. cbn [fst snd win connection_made with_win after_exchange].
  cbn [main connected conn_btn action_buttons set_main CouchDBManager.tree
       CouchDBManager.set_status CouchDBManager.set_tree CouchDBManager.status_var].
  unfold listed. rewrite rows_fold_insert, selection_fold_insert.
  repeat split; reflexivity.
Qed.

(** X3. When the GET of [connect] fails in transit, is answered with an
    error status or is answered with a body that is not JSON, [connect]
    returns normally and leaves the database list, the connection flag and
    the buttons as they were: the status bar reads [Connection failed] and
    one error box is shown.  The error in the box is the one that was
    raised: one of [requests], or the [RecursionError] or [ValueError] of a
    body that [json.loads] gives up on, as [connect] catches every
    [Exception]. *)
Theorem connect_failure_keeps_list :
  forall (g : gui main_window),
    match serve (map fst (exchanges g)) (all_dbs_request (win g)) with
    | Fails _ => True
    | Responds resp =>
        is_error_status (status_code resp) = true \/ loads (Py.text resp) = None
    end ->
    let g' := snd (connect g) in
    fst (connect g) = Ok tt /\
    CouchDBManager.tree (main (win g')) = CouchDBManager.tree (main (win g)) /\
    connected (win g') = connected (win g) /\
    conn_btn (win g') = conn_btn (win g) /\
    action_buttons (win g') = action_buttons (win g) /\
    CouchDBManager.status_var (main (win g')) = lit "Connection failed" /\
    exists e, shown g' = shown g ++
                [ShowError (lit "Connection Error")
                   (lit "Failed to fetch databases:" ++ nl ++ exn_str e)] /\
              e = match serve (map fst (exchanges g)) (all_dbs_request (win g)) with
                  | Fails detail => TransportError detail
                  | Responds resp =>
                      if is_error_status (status_code resp) then HTTPError (status_code resp)
                      else resp_json_error (Py.text resp)
                  end /\
              (is_RequestException e = true \/ e = RecursionError \/ e = ValueError).
Proof.
  intros g Hfail g'. pose proof (connect_run g) as Hrun. cbv zeta in Hrun.
  destruct (serve (map fst (exchanges g)) (all_dbs_request (win g))) as [resp|detail].
  - destruct (is_error_status (status_code resp)) eqn:Hst.
    + subst g'. rewrite Hrun. repeat split; try reflexivity.
      eexists. split; [reflexivity|]. split; [reflexivity | left; reflexivity].
    + destruct Hfail as [Hfail|Hfail]; [discriminate|]. rewrite Hfail in Hrun.
      subst g'. rewrite Hrun. repeat split; try reflexivity.
      eexists. split; [reflexivity|]. split; [reflexivity|].
      unfold resp_json_error, loads_error.
      destruct (loads_outcome (Py.text resp)) as [v|[| |]]; auto.
  - subst g'. rewrite Hrun. repeat split; try reflexivity.
    eexists. split; [reflexivity|]. split; [reflexivity | left; reflexivity].
Qed.

(** X4. When the GET of [connect] is answered with a JSON body that cannot
    be iterated ([null], a number or a boolean), the database list has been
    emptied by the time the [for] loop raises: [connect] reports [Connection
    failed] with an error box, and the flag and the buttons are as before,
    but the rows that were listed are gone. *)
Theorem connect_clears_before_it_fails :
  forall (g : gui main_window) (resp : response) (dbs : json),
    NoDup (get_children (CouchDBManager.tree (main (win g)))) ->
    serve (map fst (exchanges g)) (all_dbs_request (win g)) = Responds resp ->
    is_error_status (status_code resp) = false ->
    loads (Py.text resp) = Some dbs ->
    iterated dbs = None ->
    let g' := snd (connect g) in
    fst (connect g) = Ok tt /\
    rows (CouchDBManager.tree (main (win g'))) = [] /\
    connected (win g') = connected (win g) /\
    action_buttons (win g') = action_buttons (win g) /\
    CouchDBManager.status_var (main (win g')) = lit "Connection failed" /\
    shown g' = shown g ++
      [ShowError (lit "Connection Error")
         (lit "Failed to fetch databases:" ++ nl ++ exn_str (TypeError dbs))].
Proof.
  intros g resp dbs Hnd Hserve Hst Hjson Hiter g'.
  pose proof (connect_run g) as Hrun. cbv zeta in Hrun.
  rewrite Hserve, Hst, Hjson in Hrun. specialize (Hrun Hnd). rewrite Hiter in Hrun.
  subst g'. rewrite Hrun. repeat split; reflexivity.
Qed.

(** [disconnect] on a list whose items have distinct identifiers. *)
Definition disconnected (g : gui main_window) : gui main_window :=
  with_win (fun a =>
    {| main := CouchDBManager.set_status (lit "Not connected")
                 (CouchDBManager.set_tree
                    {| items := []; next_iid := next_iid (CouchDBManager.tree (main a)) |}
                    (main a));
       connected := false;
       conn_btn := lit "Connect";
       action_buttons := map (fun b => (fst b, false)) (action_buttons a) |}) g.

Lemma disconnect_run (g : gui main_window) :
  NoDup (get_children (CouchDBManager.tree (main (win g)))) ->
  disconnect g = (Ok tt, disconnected g).
Proof.
  intro Hnd. unfold disconnect. rewrite bind_gets.
  rewrite (bind_run _ _ _ _ _ _ _ (delete_children_run _ _ Hnd)).
  destruct g as [ex sh [[u us pw t st] c bt bs]]. reflexivity.
Qed.

Lemma get_children_fold_insert (names : list json) (t : treeview) :
  get_children (fold_left (fun t db => tree_insert [db] t) names t) =
  get_children t ++ seq (next_iid t) (length names).
Proof.
  revert t. induction names as [|db names IH]; intro t; cbn [fold_left length seq].
  - symmetry. apply app_nil_r.
  - rewrite IH. unfold get_children, tree_insert. cbn [items next_iid].
    rewrite map_app, <- app_assoc. reflexivity.
Qed.

(** X5. Pressing the connect button twice, when the first press finds the
    application disconnected and its GET is answered with a list of
    databases: the second press sends nothing, and it leaves the list empty,
    the application disconnected, every action button disabled, the button
    reading [Connect], the status bar reading [Not connected] and no message
    box shown. *)
Theorem toggle_connection_twice :
  forall (g : gui main_window) (resp : response) (names : list json),
    connected (win g) = false ->
    NoDup (get_children (CouchDBManager.tree (main (win g)))) ->
    serve (map fst (exchanges g)) (all_dbs_request (win g)) = Responds resp ->
    is_error_status (status_code resp) = false ->
    loads (Py.text resp) = Some (JArr names) ->
    let g1 := snd (toggle_connection g) in
    let g2 := snd (toggle_connection g1) in
    connected (win g1) = true /\
    fst (toggle_connection g1) = Ok tt /\
    exchanges g2 = exchanges g1 /\
    exchanges g1 = exchanges g ++ [(all_dbs_request (win g), Responds resp)] /\
    rows (CouchDBManager.tree (main (win g2))) = [] /\
    connected (win g2) = false /\
    action_buttons (win g2) = map (fun b => (fst b, false)) (action_buttons (win g)) /\
    conn_btn (win g2) = lit "Connect" /\
    CouchDBManager.status_var (main (win g2)) = lit "Not connected" /\
    shown g2 = shown g.
Proof.
  intros g resp names Hoff Hnd Hserve Hst Hjson g1 g2.
  pose proof (connect_run g) as Hrun. cbv zeta in Hrun.
  rewrite Hserve, Hst, Hjson in Hrun. specialize (Hrun Hnd). cbn [iterated] in Hrun.
  assert (H1 : toggle_connection g = connect g).
  { unfold toggle_connection. rewrite bind_gets, Hoff. reflexivity. }
  assert (Hg1 : g1 = connection_made names
                       (after_exchange (all_dbs_request (win g)) (Responds resp)
                          (with_win (set_main (CouchDBManager.set_status (lit "Connecting...")))
                             g))).
  { subst g1. rewrite H1, Hrun. reflexivity. }
  assert (Hnd1 : NoDup (get_children (CouchDBManager.tree (main (win g1))))).
  { rewrite Hg1. cbn [win connection_made with_win main CouchDBManager.tree
                      CouchDBManager.set_status CouchDBManager.set_tree].
    unfold listed. rewrite get_children_fold_insert. cbn [get_children items map app next_iid].
    apply seq_NoDup. }
  assert (H2 : toggle_connection g1 = (Ok tt, disconnected g1)).
  { assert (Hc1 : connected (win g1) = true) by (rewrite Hg1; reflexivity).
    unfold toggle_connection. rewrite bind_gets, Hc1. apply disconnect_run. exact Hnd1. }
  subst g2. rewrite H2. cbn [fst snd]. rewrite Hg1.
  destruct g as [ex sh [[u us pw t st] c bt bs]].
  unfold disconnected, connection_made, with_win, after_exchange.
  cbn [win exchanges shown main connected conn_btn action_buttons CouchDBManager.tree
       CouchDBManager.set_status CouchDBManager.set_tree next_iid url_var user_var pass_var
       CouchDBManager.status_var set_main rows items map].
  rewrite map_map. repeat split; reflexivity.
Qed.

Lemma disconnected_twice (g : gui main_window) : disconnected (disconnected g) = disconnected g.
Proof.
  destruct g as [ex sh [[u us pw t st] c bt bs]].
  unfold disconnected, with_win.
  cbn [win exchanges shown main connected conn_btn action_buttons CouchDBManager.tree
       CouchDBManager.set_status CouchDBManager.set_tree next_iid url_var user_var pass_var].
  rewrite map_map. reflexivity.
Qed.

(** X6. [disconnect] never sends a request and shows no message; on a
    database list whose items have distinct identifiers it returns normally
    and leaves the list empty, the application disconnected, every action
    button disabled, the connect button reading [Connect] and the status bar
    reading [Not connected]; the entries of the connection form are not
    touched.  Doing it twice is the same as doing it once. *)
Theorem disconnect_resets :
  forall (g : gui main_window),
    NoDup (get_children (CouchDBManager.tree (main (win g)))) ->
    let g' := snd (disconnect g) in
    fst (disconnect g) = Ok tt /\
    exchanges g' = exchanges g /\
    shown g' = shown g /\
    rows (CouchDBManager.tree (main (win g'))) = [] /\
    connected (win g') = false /\
    action_buttons (win g') = map (fun b => (fst b, false)) (action_buttons (win g)) /\
    conn_btn (win g') = lit "Connect" /\
    CouchDBManager.status_var (main (win g')) = lit "Not connected" /\
    url_var (main (win g')) = url_var (main (win g)) /\
    user_var (main (win g')) = user_var (main (win g)) /\
    pass_var (main (win g')) = pass_var (main (win g)) /\
    disconnect g' = (Ok tt, g').
Proof.
  intros g Hnd g'. subst g'. rewrite (disconnect_run g Hnd). cbn [fst snd].
  repeat split; try reflexivity.
  rewrite disconnect_run; [rewrite disconnected_twice; reflexivity|].
  cbn. constructor.
Qed.
End Connect.

(** ** Selecting every database *)

(** The tree with every item selected. *)
Definition select_item (it : item) : item :=
  {| iid := iid it; values := values it; selected := true |}.

Definition select_every (t : treeview) : treeview :=
  {| items := map select_item (items t); next_iid := next_iid t |}.

(** The tree with the items of [ids] selected besides those that are. *)
Definition select_items (ids : list nat) (t : treeview) : treeview :=
  {| items := map (fun it => if existsb (Nat.eqb (iid it)) ids then select_item it else it)
                  (items t);
     next_iid := next_iid t |}.

Lemma get_children_select_items ids t : get_children (select_items ids t) = get_children t.
Proof.
  unfold get_children, select_items. cbn [items]. rewrite map_map.
  apply map_ext. intro it. destruct (existsb _ ids); reflexivity.
Qed.

Lemma select_items_all (t : treeview) : select_items (get_children t) t = select_every t.
Proof.
  unfold select_items, select_every, get_children. f_equal.
  apply map_ext_in. intros it Hin.
  assert (Hex : existsb (Nat.eqb (iid it)) (map iid (items t)) = true).
  { apply existsb_exists. exists (iid it). split; [|apply Nat.eqb_refl].
    apply in_map. exact Hin. }
  rewrite Hex. reflexivity.
Qed.

Lemma tree_selection_add_present (i : nat) (t : treeview) :
  In i (get_children t) -> tree_selection_add i t = Some (select_items [i] t).
Proof.
  intro Hin. unfold tree_selection_add.
  assert (Hex : existsb (fun it => Nat.eqb (iid it) i) (items t) = true).
  { unfold get_children in Hin. apply in_map_iff in Hin. destruct Hin as (it & Hid & Hit).
    apply existsb_exists. exists it. split; [exact Hit|]. rewrite Hid. apply Nat.eqb_refl. }
  rewrite Hex. unfold select_items. do 2 f_equal.
  apply map_ext. intro it. cbn [existsb]. rewrite orb_false_r. reflexivity.
Qed.

Lemma select_items_cons (i : nat) (ids : list nat) (t : treeview) :
  select_items ids (select_items [i] t) = select_items (i :: ids) t.
Proof.
  unfold select_items. cbn [items next_iid]. f_equal. rewrite map_map.
  apply map_ext. intro it. cbn [existsb]. rewrite orb_false_r.
  destruct (Nat.eqb (iid it) i); cbn [orb iid select_item];
    destruct (existsb (Nat.eqb (iid it)) ids); reflexivity.
Qed.

Section SelectAll.
Context {pf : PyFloat} {lim : PyLimits} {pt : PyText} {net : Network}.

Lemma select_loop_run (ids : list nat) :
  forall g : gui CouchDBManager.window,
    incl ids (get_children (CouchDBManager.tree (win g))) ->
    for_each ids
      (fun i =>
         t <- gets CouchDBManager.tree ;;
         match tree_selection_add i t with
         | Some t' => modify (CouchDBManager.set_tree t')
         | None => raise TclError
         end) g =
    (Ok tt, with_win (fun w => CouchDBManager.set_tree
                                 (select_items ids (CouchDBManager.tree w)) w) g).
Proof.
  unfold for_each. induction ids as [|i ids IH]; intros g Hincl; cbn [for_fold].
  - destruct g as [ex sh [u us pw [l n] st]]. unfold ret, with_win, select_items.
    cbn [win CouchDBManager.tree CouchDBManager.set_tree items next_iid existsb].
    rewrite map_id. reflexivity.
  - rewrite bind_assoc, bind_gets.
    rewrite (tree_selection_add_present i _ (Hincl i (or_introl eq_refl))).
    rewrite bind_modify. rewrite IH.
    + destruct g as [ex sh [u us pw t st]]. unfold with_win.
      cbn [win exchanges shown CouchDBManager.tree CouchDBManager.set_tree].
      rewrite select_items_cons. reflexivity.
    + cbn [win with_win CouchDBManager.tree CouchDBManager.set_tree].
      rewrite get_children_select_items. intros j Hj. apply Hincl. right. exact Hj.
Qed.

Lemma select_all_run (g : gui CouchDBManager.window) :
  select_all g =
  (Ok tt, with_win (fun w => CouchDBManager.set_tree (select_every (CouchDBManager.tree w)) w) g).
Proof.
  unfold select_all. rewrite bind_gets. rewrite select_loop_run by apply incl_refl.
  unfold with_win. rewrite select_items_all. reflexivity.
Qed.

Lemma selection_select_every (t : treeview) : selection (select_every t) = get_children t.
Proof.
  unfold selection, select_every, get_children. cbn [items].
  induction (items t) as [|it l IH]; cbn; [reflexivity|]. f_equal. exact IH.
Qed.

Lemma rows_select_every (t : treeview) : rows (select_every t) = rows t.
Proof. unfold rows, select_every. cbn [items]. rewrite map_map. reflexivity. Qed.

(** X7. [select_all] returns normally in every state; afterwards the
    selection is the whole list, in the order of the list; the rows
    themselves, the entries of the form and the status bar are as before; no
    request is sent and no message shown. *)
Theorem select_all_selects_every_row :
  forall g : gui CouchDBManager.window,
    let g' := snd (select_all g) in
    fst (select_all g) = Ok tt /\
    selection (CouchDBManager.tree (win g')) = get_children (CouchDBManager.tree (win g)) /\
    get_children (CouchDBManager.tree (win g')) = get_children (CouchDBManager.tree (win g)) /\
    rows (CouchDBManager.tree (win g')) = rows (CouchDBManager.tree (win g)) /\
    url_var (win g') = url_var (win g) /\
    user_var (win g') = user_var (win g) /\
    pass_var (win g') = pass_var (win g) /\
    CouchDBManager.status_var (win g') = CouchDBManager.status_var (win g) /\
    exchanges g' = exchanges g /\
    shown g' = shown g.
Proof.
  intros g g'. subst g'. rewrite select_all_run.
  cbn [fst snd win with_win exchanges shown CouchDBManager.tree CouchDBManager.set_tree
       url_var user_var pass_var CouchDBManager.status_var].
  rewrite selection_select_every, rows_select_every.
  repeat split; try reflexivity.
  unfold get_children, select_every. cbn [items]. rewrite map_map. reflexivity.
Qed.
End SelectAll.

(** ** Select All and Delete Selected, against Delete All *)

Lemma item_values_select_every (i : nat) (t : treeview) :
  item_values i (select_every t) = item_values i t.
Proof.
  unfold item_values, select_every. cbn [items].
  induction (items t) as [|it l IH]; cbn [map find]; [reflexivity|].
  cbn [select_item iid]. destruct (Nat.eqb (iid it) i); [reflexivity | exact IH].
Qed.

Lemma tree_delete_select_every (i : nat) (t : treeview) :
  tree_delete i (select_every t) =
  match tree_delete i t with
  | Some t' => Some (select_every t')
  | None => None
  end.
Proof.
  unfold tree_delete, select_every. cbn [items next_iid].
  replace (existsb (fun it => Nat.eqb (iid it) i) (map select_item (items t)))
    with (existsb (fun it => Nat.eqb (iid it) i) (items t))
    by (induction (items t) as [|it l IH]; cbn; [reflexivity | rewrite IH; reflexivity]).
  destruct (existsb (fun it => Nat.eqb (iid it) i) (items t)); [|reflexivity].
  do 2 f_equal. induction (items t) as [|it l IH]; cbn [map filter]; [reflexivity|].
  cbn [select_item iid]. destruct (Nat.eqb (iid it) i); cbn [negb map]; rewrite IH; reflexivity.
Qed.

(** Two states of the main window that differ in what is selected, in the
    status bar and in the messages shown so far, the first with every row
    selected. *)
Definition all_selected_version (g1 g2 : gui CouchDBManager.window) : Prop :=
  exchanges g1 = exchanges g2 /\
  url_var (win g1) = url_var (win g2) /\
  user_var (win g1) = user_var (win g2) /\
  pass_var (win g1) = pass_var (win g2) /\
  CouchDBManager.tree (win g1) = select_every (CouchDBManager.tree (win g2)).

Section SelectAllDelete.
Context {pf : PyFloat} {lim : PyLimits} {pt : PyText} {net : Network}.

Lemma delete_one_versions url auth counts i (g1 g2 : gui CouchDBManager.window) :
  all_selected_version g1 g2 ->
  fst (delete_one url auth counts i g1) = fst (delete_one url auth counts i g2) /\
  all_selected_version (snd (delete_one url auth counts i g1))
                       (snd (delete_one url auth counts i g2)).
Proof.
  destruct g1 as [ex1 sh1 [u1 us1 pw1 t1 st1]], g2 as [ex2 sh2 [u2 us2 pw2 t2 st2]].
  unfold all_selected_version. cbn [exchanges win url_var user_var pass_var CouchDBManager.tree].
  intros (-> & -> & -> & -> & ->).
  unfold delete_one, tree_first_value.
  rewrite !bind_assoc, !bind_gets. cbn [win CouchDBManager.tree].
  rewrite item_values_select_every.
  destruct (item_values i t2) as [[|v vals]|]; [cbn; tauto | | cbn; tauto].
  cbn [tuple_first]. rewrite !bind_ret.
  unfold requests_delete. rewrite !try_bind_send. cbn [payload_refused req_json exchanges].
  destruct (serve (map fst ex2) _) as [resp|detail]; [|cbn; tauto].
  unfold raise_for_status.
  destruct (is_error_status (status_code resp)); [cbn; tauto|].
  rewrite !try_bind_ret. unfold tree_delete_item.
  rewrite !try_bind_assoc, !try_bind_gets. cbn [win after_exchange CouchDBManager.tree].
  rewrite tree_delete_select_every.
  destruct (tree_delete i t2) as [t'|]; cbn; tauto.
Qed.

Lemma delete_loop_versions url auth (chosen : list nat) :
  forall counts (g1 g2 : gui CouchDBManager.window),
    all_selected_version g1 g2 ->
    fst (for_fold chosen (delete_one url auth) counts g1) =
    fst (for_fold chosen (delete_one url auth) counts g2) /\
    all_selected_version (snd (for_fold chosen (delete_one url auth) counts g1))
                         (snd (for_fold chosen (delete_one url auth) counts g2)).
Proof.
  induction chosen as [|i chosen IH]; intros counts g1 g2 HR; cbn [for_fold].
  - split; [reflexivity | exact HR].
  - destruct (delete_one_versions url auth counts i g1 g2 HR) as [Hres HR'].
    unfold bind.
    destruct (delete_one url auth counts i g1) as [[c1|e1] g1'],
             (delete_one url auth counts i g2) as [[c2|e2] g2'];
      cbn [fst snd] in Hres, HR'; try discriminate.
    + inversion Hres; subst. apply IH. exact HR'.
    + split; [exact Hres | exact HR'].
Qed.

Lemma report_deleted_versions counts (g1 g2 : gui CouchDBManager.window) :
  all_selected_version g1 g2 ->
  fst (report_deleted counts g1) = fst (report_deleted counts g2) /\
  all_selected_version (snd (report_deleted counts g1)) (snd (report_deleted counts g2)) /\
  CouchDBManager.status_var (win (snd (report_deleted counts g1))) =
  CouchDBManager.status_var (win (snd (report_deleted counts g2))).
Proof.
  intro HR. unfold report_deleted. destruct counts as [ok bad].
  rewrite !bind_modify. destruct (Nat.ltb 0 bad); cbn; unfold all_selected_version in *; tauto.
Qed.

(** X8. [Select All] followed by [Delete Selected] does to the server and to
    the list what [Delete All] does (the operator confirming either), in
    every state: the same requests with the same outcomes, the same rows
    left in the list and the same result; and the same line in the status
    bar when the handlers return normally.  Only the wording of the question
    differs, and the rows that are left are selected. *)
Theorem select_all_then_delete_selected :
  forall g : gui CouchDBManager.window,
    let g1 := snd (delete_selected true (snd (select_all g))) in
    let g2 := snd (delete_all true g) in
    fst (delete_selected true (snd (select_all g))) = fst (delete_all true g) /\
    exchanges g1 = exchanges g2 /\
    rows (CouchDBManager.tree (win g1)) = rows (CouchDBManager.tree (win g2)) /\
    get_children (CouchDBManager.tree (win g1)) = get_children (CouchDBManager.tree (win g2)) /\
    (fst (delete_all true g) = Ok tt ->
     CouchDBManager.status_var (win g1) = CouchDBManager.status_var (win g2)).
Proof.
  intros g g1 g2.
  assert (Hgoal : fst (delete_selected true (snd (select_all g))) = fst (delete_all true g) /\
                  all_selected_version g1 g2 /\
                  (fst (delete_all true g) = Ok tt ->
                   CouchDBManager.status_var (win g1) = CouchDBManager.status_var (win g2))).
  { subst g1 g2. rewrite select_all_run. cbn [snd].
    unfold delete_selected, delete_all. rewrite !bind_gets.
    cbn [win with_win CouchDBManager.tree CouchDBManager.set_tree].
    rewrite selection_select_every.
    destruct (get_children (CouchDBManager.tree (win g))) as [|i chosen] eqn:Hch.
    - destruct g as [ex sh [u us pw t st]]. cbn. unfold all_selected_version. cbn. tauto.
    - cbv zeta. unfold askyesno.
      rewrite !bind_assoc, !bind_emit, !bind_ret. cbn [negb].
      rewrite !bind_gets, !bind_modify.
      match goal with
      | |- fst (bind _ _ ?a) = fst (bind _ _ ?b) /\ _ => set (ga := a); set (gb := b)
      end.
      assert (HR : all_selected_version ga gb).
      { subst ga gb. destruct g as [ex sh [u us pw t st]].
        unfold all_selected_version. cbn. tauto. }
      cbn [win after_showing with_win CouchDBManager.base_url basic_auth url_var user_var
           pass_var CouchDBManager.set_tree].
      unfold delete_loop.
      destruct (delete_loop_versions
                  (CouchDBManager.base_url (win g)) (basic_auth (win g)) (i :: chosen)
                  (0, 0) ga gb HR) as [Hres HR'].
      unfold CouchDBManager.base_url, basic_auth in Hres, HR'.
      unfold bind.
      destruct (for_fold (i :: chosen) _ (0, 0) ga) as [[c1|e1] ga'],
               (for_fold (i :: chosen) _ (0, 0) gb) as [[c2|e2] gb'];
        cbn [fst snd] in Hres, HR' |- *; try discriminate.
      + inversion Hres; subst.
        destruct (report_deleted_versions c2 ga' gb' HR') as (A & B & C). tauto.
      + inversion Hres; subst. split; [reflexivity|]. split; [exact HR' | discriminate]. }
  destruct Hgoal as (Hres & (Hex & _ & _ & _ & Htree) & Hst).
  repeat split; try assumption.
  - rewrite Htree. apply rows_select_every.
  - rewrite Htree. unfold get_children, select_every. cbn [items]. rewrite map_map. reflexivity.
Qed.
End SelectAllDelete.

(** ** Renaming a database *)

Section RenameDb.
Context {pf : PyFloat} {lim : PyLimits} {pt : PyText} {net : Network}.

(** X9. [rename_db] never sends a request, whatever is selected and whatever
    name is entered, and it never changes the database list or the entries
    of the form; the status bar is as before or reads [Rename operation not
    implemented]. *)
Theorem rename_db_renames_nothing :
  forall (dialog_result : option pystr) (g : gui CouchDBManager.window),
    let g' := snd (rename_db dialog_result g) in
    exchanges g' = exchanges g /\
    CouchDBManager.tree (win g') = CouchDBManager.tree (win g) /\
    url_var (win g') = url_var (win g) /\
    user_var (win g') = user_var (win g) /\
    pass_var (win g') = pass_var (win g) /\
    (CouchDBManager.status_var (win g') = CouchDBManager.status_var (win g) \/
     CouchDBManager.status_var (win g') = lit "Rename operation not implemented").
Proof.
  intros r g g'. subst g'. unfold rename_db, tree_first_value.
  rewrite bind_gets.
  destruct (selection (CouchDBManager.tree (win g))) as [|i [|j rest]];
    try (cbn; tauto).
  rewrite bind_assoc, bind_gets.
  destruct (item_values i (CouchDBManager.tree (win g))) as [[|v vals]|]; try (cbn; tauto).
  cbn [tuple_first]. rewrite bind_ret.
  destruct r as [[|c new_name]|]; try (cbn; tauto).
  destruct (json_eqb (JStr (c :: new_name)) v); cbn; tauto.
Qed.
End RenameDb.

(** ** Opening a browse window *)

Lemma rstrip_slash_end (u : pystr) :
  forall s c, rstrip_slash u = s ++ [c] -> c <> chr "/".
Proof.
  intros s c H. unfold rstrip_slash, rstrip_by in H.
  assert (Hrev : lstrip_by (N.eqb (chr "/")) (rev u) = c :: rev s).
  { apply (f_equal (@rev _)) in H. rewrite rev_involutive, rev_app_distr in H. exact H. }
  clear H. induction (rev u) as [|x l IH]; cbn [lstrip_by] in Hrev; [discriminate|].
  destruct (N.eqb_spec (chr "/") x) as [Heq|Hne]; [exact (IH Hrev)|].
  inversion Hrev; subst. congruence.
Qed.

Section BrowseDb.
Context {pf : PyFloat} {lim : PyLimits} {pt : PyText} {net : Network}.

(** The request of [load_docs] and its one exchange. *)
Lemma offline_load_doc_row (row : json) : offline (load_doc_row row).
Proof. unfold load_doc_row, py_get, py_startswith, docs_set. offline_tac. Qed.

Lemma load_docs_exchanges (g : gui BrowseWindow.window) :
  exchanges (snd (load_docs g)) =
  exchanges g ++ [(docs_request (win g), serve (map fst (exchanges g)) (docs_request (win g)))].
Proof.
  unfold load_docs. rewrite bind_modify.
  apply exchanges_try.
  - rewrite bind_gets, bind_gets.
    unfold requests_get. rewrite bind_send.
    cbn [payload_refused req_json win with_win exchanges BrowseWindow.base_url db auth
         BrowseWindow.set_status].
    fold (docs_request (win g)).
    destruct (serve _ _) as [resp|detail]; [|reflexivity].
    match goal with
    | |- exchanges (snd (?m ?g1)) = _ =>
        assert (Hoff : offline m); [|rewrite Hoff; reflexivity]
    end.
    unfold resp_json, py_get, py_iter.
    offline_tac; try apply offline_clear_tree; try apply offline_load_doc_row.
  - intro e. unfold showerror. offline_tac.
Qed.

(** The browse window as a window of the application: it shares the
    server and the screen with the main window. *)
Definition opened (g : gui CouchDBManager.window) (w : BrowseWindow.window)
    : gui BrowseWindow.window :=
  {| exchanges := exchanges g; shown := shown g; win := w |}.

(** X10. [browse_db] sends no request and leaves the main window as it is.
    It opens a window when exactly one row is selected (and holds a value),
    and only then, for the database of that row: the window starts with an
    empty cache, empty lists, an empty editor and no current document, and
    what it loads it requests with the credentials of the form from
    [{url}/{db}/_index] and [{url}/{db}/_all_docs?include_docs=true], where
    [url] is the URL entry without its trailing slashes, so that no slash of
    the entry comes before the one that the window adds. *)
Theorem browse_db_opens_window :
  forall (g : gui CouchDBManager.window),
    exchanges (snd (browse_db g)) = exchanges g /\
    win (snd (browse_db g)) = win g /\
    (forall i v vals,
       selection (CouchDBManager.tree (win g)) = [i] ->
       item_values i (CouchDBManager.tree (win g)) = Some (v :: vals) ->
       exists w, fst (browse_db g) = Ok (Some w)) /\
    forall w, fst (browse_db g) = Ok (Some w) ->
      exists i v vals,
        selection (CouchDBManager.tree (win g)) = [i] /\
        item_values i (CouchDBManager.tree (win g)) = Some (v :: vals) /\
        let url := rstrip_slash (url_var (win g)) in
        let cred := (strip (user_var (win g)), strip (pass_var (win g))) in
        (forall s c, url = s ++ [c] -> c <> chr "/") /\
        docs w = [] /\ current_doc w = JNull /\ BrowseWindow.text w = [] /\
        rows (idx_tree w) = [] /\ rows (doc_tree w) = [] /\
        map fst (exchanges (snd (load_indexes (opened g w)))) =
          map fst (exchanges g) ++
          [{| req_method := GET; req_url := url ++ lit "/" ++ format_value v ++ lit "/_index";
              req_json := None; req_auth := cred |}] /\
        map fst (exchanges (snd (load_docs (opened g w)))) =
          map fst (exchanges g) ++
          [{| req_method := GET;
              req_url := url ++ lit "/" ++ format_value v ++ lit "/_all_docs?include_docs=true";
              req_json := None; req_auth := cred |}].
Proof.
  intro g. unfold browse_db, tree_first_value. rewrite bind_gets.
  destruct (selection (CouchDBManager.tree (win g))) as [|i [|j rest]] eqn:Hsel;
    try (cbn; repeat split; intros; discriminate).
  rewrite bind_assoc, bind_gets.
  destruct (item_values i (CouchDBManager.tree (win g))) as [[|v vals]|] eqn:Hvals;
    try (cbn; repeat split; intros; try discriminate;
         match goal with H : [_] = [_] |- _ => inversion H; subst; congruence end).
  cbn [tuple_first]. rewrite bind_ret, bind_gets. cbn [ret fst snd].
  split; [reflexivity|]. split; [reflexivity|].
  split; [intros; eexists; reflexivity|].
  intros w Hw. inversion Hw; subst w. exists i, v, vals.
  split; [reflexivity|]. split; [exact Hvals|]. cbv zeta.
  split; [apply rstrip_slash_end|].
  rewrite load_indexes_exchanges, load_docs_exchanges, !map_app.
  repeat split; reflexivity.
Qed.
End BrowseDb.

(** ** Showing a document *)

Section ShowDoc.
Context {pf : PyFloat} {lim : PyLimits} {pt : PyText} {net : Network}.

(** [self.docs.get(doc_id, {})] *)
Definition cached (doc_id : json) (w : BrowseWindow.window) : json :=
  match dict_get json_eqb doc_id (docs w) with
  | Some doc => doc
  | None => JObj []
  end.

(** The window with [doc] in the editor as the current document. *)
Definition showing (doc_id doc : json) (w : BrowseWindow.window) : BrowseWindow.window :=
  BrowseWindow.set_status (lit "Loaded document '" ++ format_value doc_id ++ lit "'")
    (set_current_doc doc_id (set_text (dumps_indent 2 doc) w)).

Lemma show_doc_run (g : gui BrowseWindow.window) (i : nat) (others : list nat)
    (doc_id : json) (more : list json) :
  selection (doc_tree (win g)) = i :: others ->
  item_values i (doc_tree (win g)) = Some (doc_id :: more) ->
  hashable doc_id = true ->
  show_doc g = (Ok tt, with_win (showing doc_id (cached doc_id (win g))) g).
Proof.
  intros Hsel Hrow Hhash. unfold show_doc, doc_row, docs_get.
  rewrite bind_gets, Hsel. rewrite bind_assoc, bind_gets, Hrow, bind_ret.
  cbn [tuple_first]. rewrite bind_ret, Hhash.
  rewrite bind_assoc, bind_gets, bind_ret.
  destruct g as [ex sh w]. reflexivity.
Qed.

(** X11. With a row selected in the document list, [show_doc] puts
    [json.dumps(doc, indent=2)] of the document cached under the id of the
    first selected row in the editor ([{}] when the cache has no such id)
    and makes that id the current document; the cache and the list are not
    changed, nothing is sent and no message is shown.  When the cached
    document is a well-formed JSON value, what [save_doc] and [format_json]
    read from the editor afterwards is that document. *)
Theorem show_doc_shows_cached_document :
  forall (g : gui BrowseWindow.window) (i : nat) (others : list nat)
         (doc_id : json) (more : list json),
    selection (doc_tree (win g)) = i :: others ->
    item_values i (doc_tree (win g)) = Some (doc_id :: more) ->
    hashable doc_id = true ->
    let doc := match dict_get json_eqb doc_id (docs (win g)) with
               | Some doc => doc
               | None => JObj []
               end in
    let g' := snd (show_doc g) in
    fst (show_doc g) = Ok tt /\
    BrowseWindow.text (win g') = dumps_indent 2 doc /\
    current_doc (win g') = doc_id /\
    docs (win g') = docs (win g) /\
    doc_tree (win g') = doc_tree (win g) /\
    exchanges g' = exchanges g /\
    shown g' = shown g /\
    (json_ok doc = true -> loads (strip (text_get (win g'))) = Some doc).
Proof.
  intros g i others doc_id more Hsel Hrow Hhash doc g'.
  subst g'. rewrite (show_doc_run g i others doc_id more Hsel Hrow Hhash).
  cbn [fst snd win with_win exchanges shown].
  repeat split; try reflexivity.
  intro Hok. unfold text_get, showing.
  cbn [BrowseWindow.text BrowseWindow.set_status set_current_doc set_text].
  unfold dumps_indent. fold doc. change (cached doc_id (win g)) with doc.
  rewrite (strip_encoded (Some 2) 0 doc (json_ok_value doc Hok)). exact (loads_encoded (Some 2) doc Hok).
Qed.

(** Without a selected row [show_doc] does nothing at all. *)
Lemma show_doc_nothing_selected (g : gui BrowseWindow.window) :
  selection (doc_tree (win g)) = [] -> show_doc g = (Ok tt, g).
Proof. intro Hsel. unfold show_doc. rewrite bind_gets, Hsel. reflexivity. Qed.
End ShowDoc.

(** ** The request of [save_doc] *)

Lemma scalar_str_ok (s : pystr) : scalar_text s = true -> str_ok s = true.
Proof.
  induction s as [|c s IH]; [reflexivity|].
  cbn [scalar_text forallb]. intro H. apply andb_prop in H. destruct H as [Hc Hs].
  destruct (is_scalar_facts c Hc) as (Hlt & Hhigh & _).
  apply str_ok_cons; [exact Hlt | rewrite Hhigh; discriminate | apply IH; exact Hs].
Qed.

Lemma dict_set_same (k : pystr) (v : json) (d : list (pystr * json)) :
  dict_get str_eqb k d = Some v -> dict_set str_eqb k v d = d.
Proof.
  induction d as [|[k' v'] d IH]; cbn [dict_get dict_set]; [discriminate|].
  destruct (str_eqb k' k); intro H.
  - inversion H; subst. reflexivity.
  - rewrite (IH H). reflexivity.
Qed.

Section SaveRequest.
Context {pf : PyFloat} {lim : PyLimits} {pt : PyText} {net : Network}.

(** The URL that [save_doc] puts a document to: the database when the
    document has no [_id] or a false one, the document otherwise. *)
Definition save_url (w : BrowseWindow.window) (members : list (pystr * json)) : pystr :=
  let doc_id := obj_get (lit "_id") (JStr []) members in
  if truthy doc_id
  then (BrowseWindow.base_url w ++ lit "/" ++ db w) ++ lit "/" ++ format_value doc_id
  else BrowseWindow.base_url w ++ lit "/" ++ db w.

Definition save_request (w : BrowseWindow.window) (members : list (pystr * json)) : request :=
  {| req_method := PUT; req_url := save_url w members;
     req_json := Some (JObj members); req_auth := auth w |}.

Lemma save_doc_put_request (members : list (pystr * json)) (g : gui BrowseWindow.window) :
  has_nonfinite (JObj members) = false ->
  exchanges (snd (save_doc_put (JObj members) g)) =
  exchanges g ++ [(save_request (win g) members,
                   serve (map fst (exchanges g)) (save_request (win g) members))].
Proof.
  intro Hfinite. unfold save_doc_put. cbn [py_get]. rewrite bind_ret, bind_modify.
  apply exchanges_try.
  - rewrite bind_gets. cbv zeta. rewrite bind_gets.
    unfold requests_put. rewrite bind_send.
    unfold payload_refused. cbn [req_json]. rewrite Hfinite.
    cbn [win with_win exchanges BrowseWindow.base_url db auth BrowseWindow.set_status].
    change {| req_method := PUT;
              req_url := if truthy (obj_get (lit "_id") (JStr []) members)
                         then (BrowseWindow.base_url (win g) ++ lit "/" ++ db (win g)) ++ lit "/" ++
                              format_value (obj_get (lit "_id") (JStr []) members)
                         else BrowseWindow.base_url (win g) ++ lit "/" ++ db (win g);
              req_json := Some (JObj members);
              req_auth := auth (win g) |}
      with (save_request (win g) members).
    destruct (serve _ _) as [resp|detail]; [|reflexivity].
    match goal with
    | |- exchanges (snd (?m ?g1)) = _ =>
        assert (Hoff : offline m); [|rewrite Hoff; reflexivity]
    end.
    unfold raise_for_status, resp_json, py_get, py_setitem, docs_set, showerror.
    offline_tac. apply offline_update_first_row.
  - intro e. unfold showerror. offline_tac.
Qed.

(** [save_doc] on the text of a document, when no document is current. *)
Lemma save_doc_of_text (confirm : bool) (doc : json) (g : gui BrowseWindow.window) :
  json_ok doc = true ->
  BrowseWindow.text (win g) = dumps_indent 2 doc ->
  truthy (current_doc (win g)) = false ->
  save_doc confirm g = save_doc_put doc g.
Proof.
  intros Hok Htext Hcur. unfold save_doc. rewrite bind_gets.
  unfold text_get. rewrite Htext. unfold dumps_indent.
  rewrite (strip_encoded (Some 2) 0 doc (json_ok_value doc Hok)), (loads_encoded (Some 2) doc Hok).
  rewrite bind_gets, Hcur. reflexivity.
Qed.
End SaveRequest.

(** ** New documents *)

Section NewDoc.
Context {pf : PyFloat} {lim : PyLimits} {pt : PyText} {net : Network}.

Lemma new_doc_exchanges (confirm : bool) (entry : pystr) (members : list (pystr * json))
    (g : gui BrowseWindow.window) :
  members = match entry with [] => [] | _ :: _ => [(lit "_id", JStr entry)] end ->
  json_ok (JObj members) = true ->
  has_nonfinite (JObj members) = false ->
  exchanges (snd (new_doc (Some entry) confirm g)) =
  exchanges g ++ [(save_request (win g) members,
                   serve (map fst (exchanges g)) (save_request (win g) members))].
Proof.
  intros Hmembers Hok Hfinite. unfold new_doc.
  replace (match entry with [] => JObj [] | _ :: _ => JObj [(lit "_id", JStr entry)] end)
    with (JObj members) by (subst members; destruct entry; reflexivity).
  cbv zeta. rewrite bind_modify.
  apply exchanges_try; [|intro e; unfold showerror; offline_tac].
  rewrite bind_modify.
  rewrite (save_doc_of_text confirm (JObj members)); [| exact Hok | reflexivity | reflexivity].
  rewrite (save_doc_put_request members _ Hfinite). reflexivity.
Qed.

Lemma new_doc_any_answer (entry : pystr) (members : list (pystr * json))
    (g : gui BrowseWindow.window) :
  members = match entry with [] => [] | _ :: _ => [(lit "_id", JStr entry)] end ->
  json_ok (JObj members) = true ->
  new_doc (Some entry) true g = new_doc (Some entry) false g.
Proof.
  intros Hmembers Hok. unfold new_doc.
  replace (match entry with [] => JObj [] | _ :: _ => JObj [(lit "_id", JStr entry)] end)
    with (JObj members) by (subst members; destruct entry; reflexivity).
  cbv zeta. rewrite !bind_modify. unfold try_except. rewrite !bind_modify.
  rewrite !(save_doc_of_text _ (JObj members)); try reflexivity; exact Hok.
Qed.

(** X12. [new_doc] with an id entered (Unicode text) sends exactly one
    request, whatever document was current: the PUT of the document [{"_id":
    id}] to [{base_url}/{db}/{id}], the id as it was typed.  It asks
    nothing: the answer the operator would give makes no difference to what
    happens. *)
Theorem new_doc_puts_the_id :
  forall (g : gui BrowseWindow.window) (confirm : bool) (c : pychar) (cs : pystr),
    scalar_text (c :: cs) = true ->
    let req := {| req_method := PUT;
                  req_url := (BrowseWindow.base_url (win g) ++ lit "/" ++ db (win g)) ++
                             lit "/" ++ c :: cs;
                  req_json := Some (JObj [(lit "_id", JStr (c :: cs))]);
                  req_auth := auth (win g) |} in
    exchanges (snd (new_doc (Some (c :: cs)) confirm g)) =
      exchanges g ++ [(req, serve (map fst (exchanges g)) req)] /\
    new_doc (Some (c :: cs)) true g = new_doc (Some (c :: cs)) false g.
Proof.
  intros g confirm c cs Hscalar req.
  assert (Hok : json_ok (JObj [(lit "_id", JStr (c :: cs))]) = true).
  { unfold json_ok. cbn [value_ok fits forallb fst snd distinct_keys existsb negb andb].
    rewrite (scalar_str_ok _ Hscalar). reflexivity. }
  split.
  - rewrite (new_doc_exchanges confirm (c :: cs) [(lit "_id", JStr (c :: cs))] g
               eq_refl Hok eq_refl).
    reflexivity.
  - exact (new_doc_any_answer (c :: cs) _ g eq_refl Hok).
Qed.

(** X13. [new_doc] with the entry left blank (the dialog promises an id
    generated by the server) sends exactly one request: the PUT of the empty
    document [{}] to [{base_url}/{db}], the URL of the database itself; it
    sends no POST. Cancelled, [new_doc] does nothing at all. *)
Theorem new_doc_blank_id :
  forall (g : gui BrowseWindow.window) (confirm : bool),
    let req := {| req_method := PUT;
                  req_url := BrowseWindow.base_url (win g) ++ lit "/" ++ db (win g);
                  req_json := Some (JObj []);
                  req_auth := auth (win g) |} in
    exchanges (snd (new_doc (Some []) confirm g)) =
      exchanges g ++ [(req, serve (map fst (exchanges g)) req)] /\
    new_doc None confirm g = (Ok tt, g).
Proof.
  intros g confirm req. split; [|reflexivity].
  rewrite (new_doc_exchanges confirm [] [] g eq_refl eq_refl eq_refl). reflexivity.
Qed.
End NewDoc.

(** ** Showing a document and saving it *)

Section ShowAndSave.
Context {pf : PyFloat} {lim : PyLimits} {pt : PyText} {net : Network}.

End ShowAndSave.

(** ** Deleting a document *)

Section DeleteDoc.
Context {pf : PyFloat} {lim : PyLimits} {pt : PyText} {net : Network}.

(** The request of [delete_doc] for a row with id [doc_id] and revision
    [rev]. *)
Definition delete_doc_request (w : BrowseWindow.window) (doc_id rev : json) : request :=
  {| req_method := DELETE;
     req_url := BrowseWindow.base_url w ++ lit "/" ++ db w ++ lit "/" ++
                format_value doc_id ++ lit "?rev=" ++ format_value rev;
     req_json := None;
     req_auth := auth w |}.

(** The question of [delete_doc]. *)
Definition delete_doc_question (doc_id : json) (answer : bool) : ui_event :=
  AskYesNo (lit "Confirm")
    (lit "Delete document '" ++ format_value doc_id ++ lit "'?" ++ nl ++
     lit "This action cannot be undone.") answer.

(** The window after the document of item [i] has been deleted. *)
Definition doc_deleted (i : nat) (doc_id : json) (w : BrowseWindow.window)
    : BrowseWindow.window :=
  let w1 := BrowseWindow.set_status
              (lit "Deleted document '" ++ format_value doc_id ++ lit "'")
              (set_docs (dict_del json_eqb doc_id (docs w))
                 (set_doc_tree
                    {| items := filter (fun it => negb (Nat.eqb (iid it) i)) (items (doc_tree w));
                       next_iid := next_iid (doc_tree w) |} w)) in
  if json_eqb (current_doc w) doc_id
  then set_current_doc JNull (set_text [] w1)
  else w1.

(** The window after a DELETE that failed with [e]. *)
Definition delete_doc_failed (e : exn) (g : gui BrowseWindow.window) : gui BrowseWindow.window :=
  after_showing
    (ShowError (lit "Error") (lit "Failed to delete document:" ++ nl ++ exn_str e))
    (with_win (BrowseWindow.set_status
                 (lit "Failed to delete document: " ++ upto 50 (exn_str e))) g).

Lemma delete_doc_run (g : gui BrowseWindow.window) (i : nat) (others : list nat)
    (doc_id rev : json) (more : list json) :
  selection (doc_tree (win g)) = i :: others ->
  item_values i (doc_tree (win g)) = Some (doc_id :: rev :: more) ->
  let req := delete_doc_request (win g) doc_id rev in
  let o := serve (map fst (exchanges g)) req in
  let g1 := after_exchange req o
              (with_win (BrowseWindow.set_status
                           (lit "Deleting document '" ++ format_value doc_id ++ lit "'..."))
                 (after_showing (delete_doc_question doc_id true) g)) in
  delete_doc false g = (Ok tt, after_showing (delete_doc_question doc_id false) g) /\
  match o with
  | Fails detail => delete_doc true g = (Ok tt, delete_doc_failed (TransportError detail) g1)
  | Responds resp =>
      if is_error_status (status_code resp)
      then delete_doc true g = (Ok tt, delete_doc_failed (HTTPError (status_code resp)) g1)
      else
        hashable doc_id = true ->
        delete_doc true g = (Ok tt, with_win (doc_deleted i doc_id) g1)
  end.
Proof.
  intros Hsel Hrow req o g1.
  assert (Hstart : forall confirm,
             delete_doc confirm g =
             (if negb confirm then ret tt
              else
                modify (BrowseWindow.set_status
                          (lit "Deleting document '" ++ format_value doc_id ++ lit "'...")) ;;
                try_except
                  (url <- gets (fun w => BrowseWindow.base_url w ++ lit "/" ++ db w ++ lit "/" ++
                                         format_value doc_id ++ lit "?rev=" ++ format_value rev) ;;
                   a <- gets auth ;;
                   resp <- requests_delete url a ;;
                   raise_for_status resp ;;
                   t <- gets doc_tree ;;
                   match tree_delete i t with
                   | Some t' =>
                       modify (set_doc_tree t') ;;
                       docs_discard doc_id ;;
                       modify (BrowseWindow.set_status
                                 (lit "Deleted document '" ++ format_value doc_id ++ lit "'")) ;;
                       current <- gets current_doc ;;
                       if json_eqb current doc_id
                       then modify (set_text []) ;; modify (set_current_doc JNull)
                       else ret tt
                   | None => raise TclError
                   end)
                  (fun e =>
                     modify (BrowseWindow.set_status
                               (lit "Failed to delete document: " ++ upto 50 (exn_str e))) ;;
                     showerror (lit "Error")
                       (lit "Failed to delete document:" ++ nl ++ exn_str e)))
               (after_showing (delete_doc_question doc_id confirm) g)).
  { intro confirm. unfold delete_doc, doc_row.
    rewrite !bind_gets, Hsel.
    rewrite bind_assoc, bind_gets, Hrow, bind_ret. cbn [tuple_first]. rewrite bind_ret.
    rewrite bind_assoc, bind_gets, Hrow, bind_ret. cbn [tuple_second]. rewrite bind_ret.
    unfold askyesno. rewrite !bind_assoc, !bind_emit, !bind_ret. reflexivity. }
  rewrite !Hstart. cbn [negb]. split; [reflexivity|].
  rewrite bind_modify, try_bind_gets, try_bind_gets.
  unfold requests_delete. rewrite try_bind_send. cbn [payload_refused req_json].
  cbn [win with_win after_showing exchanges BrowseWindow.base_url db auth
       BrowseWindow.set_status].
  change {| req_method := DELETE;
            req_url := BrowseWindow.base_url (win g) ++ lit "/" ++ db (win g) ++ lit "/" ++
                       format_value doc_id ++ lit "?rev=" ++ format_value rev;
            req_json := None; req_auth := auth (win g) |} with req.
  change (serve (map fst (exchanges g)) req) with o.
  destruct o as [resp|detail]; [|reflexivity].
  unfold raise_for_status.
  destruct (is_error_status (status_code resp)); [reflexivity|].
  intro Hhash. rewrite try_bind_ret, try_bind_gets.
  cbn [win with_win after_exchange after_showing doc_tree BrowseWindow.set_status].
  unfold tree_delete. rewrite (item_values_present _ _ _ Hrow).
  rewrite try_bind_modify. unfold docs_discard. rewrite Hhash.
  rewrite try_bind_modify, try_bind_modify, try_bind_gets.
  subst g1. destruct g as [ex sh w]. destruct w as [d b a ds cur it dt tx sv st].
  unfold doc_deleted, with_win, after_exchange, after_showing.
  cbn [win exchanges shown current_doc docs doc_tree
       BrowseWindow.set_status set_docs set_doc_tree].
  destruct (json_eqb cur doc_id); reflexivity.
Qed.

(** X15. When the operator confirms and the DELETE is answered with a status
    that is not an error status, [delete_doc] returns normally having sent
    that one request, to [{base_url}/{db}/{id}?rev={rev}] with the id and
    the revision of the first selected row.  That row is removed from the
    list and the id from the cache; the other rows (other selected rows
    among them) and the other cache entries stay.  The editor is emptied and
    no document is current if the deleted document was the current one;
    otherwise editor and current document are as before.  No error is shown. *)
Theorem delete_doc_removes_document :
  forall (g : gui BrowseWindow.window) (i : nat) (others : list nat)
         (doc_id rev : json) (more : list json) (resp : response),
    selection (doc_tree (win g)) = i :: others ->
    item_values i (doc_tree (win g)) = Some (doc_id :: rev :: more) ->
    hashable doc_id = true ->
    serve (map fst (exchanges g)) (delete_doc_request (win g) doc_id rev) = Responds resp ->
    is_error_status (status_code resp) = false ->
    let g' := snd (delete_doc true g) in
    fst (delete_doc true g) = Ok tt /\
    exchanges g' = exchanges g ++ [(delete_doc_request (win g) doc_id rev, Responds resp)] /\
    items (doc_tree (win g')) =
      filter (fun it => negb (Nat.eqb (iid it) i)) (items (doc_tree (win g))) /\
    docs (win g') = dict_del json_eqb doc_id (docs (win g)) /\
    (if json_eqb (current_doc (win g)) doc_id
     then BrowseWindow.text (win g') = [] /\ current_doc (win g') = JNull
     else BrowseWindow.text (win g') = BrowseWindow.text (win g) /\
          current_doc (win g') = current_doc (win g)) /\
    BrowseWindow.status_var (win g') =
      lit "Deleted document '" ++ format_value doc_id ++ lit "'" /\
    shown g' = shown g ++ [delete_doc_question doc_id true].
Proof.
  intros g i others doc_id rev more resp Hsel Hrow Hhash Hserve Hst g'.
  destruct (delete_doc_run g i others doc_id rev more Hsel Hrow) as [_ Hrun].
  cbv zeta in Hrun. rewrite Hserve, Hst in Hrun. specialize (Hrun Hhash).
  subst g'. rewrite Hrun. cbn [fst snd].
  destruct g as [ex sh w]. destruct w as [d b a ds cur it dt tx sv st].
  unfold doc_deleted, with_win, after_exchange, after_showing.
  cbn [win exchanges shown current_doc docs doc_tree BrowseWindow.text items
       BrowseWindow.set_status set_docs set_doc_tree BrowseWindow.status_var].
  destruct (json_eqb cur doc_id); repeat split; reflexivity.
Qed.

(** X16. When the operator confirms and the DELETE fails in transit or is
    answered with an error status, [delete_doc] returns normally and the
    document stays where it was: the list, the cache, the editor and the
    current document are unchanged; the failure is put in [status_var]
    (the attribute, which the label of the status bar does not display) and
    shown in one error box. *)
Theorem delete_doc_failure_keeps_document :
  forall (g : gui BrowseWindow.window) (i : nat) (others : list nat)
         (doc_id rev : json) (more : list json) (e : exn),
    selection (doc_tree (win g)) = i :: others ->
    item_values i (doc_tree (win g)) = Some (doc_id :: rev :: more) ->
    request_failure
      (serve (map fst (exchanges g)) (delete_doc_request (win g) doc_id rev)) = Some e ->
    let g' := snd (delete_doc true g) in
    fst (delete_doc true g) = Ok tt /\
    doc_tree (win g') = doc_tree (win g) /\
    docs (win g') = docs (win g) /\
    BrowseWindow.text (win g') = BrowseWindow.text (win g) /\
    current_doc (win g') = current_doc (win g) /\
    BrowseWindow.status_var (win g') =
      lit "Failed to delete document: " ++ upto 50 (exn_str e) /\
    shown g' = shown g ++
      [delete_doc_question doc_id true;
       ShowError (lit "Error") (lit "Failed to delete document:" ++ nl ++ exn_str e)].
Proof.
  intros g i others doc_id rev more e Hsel Hrow Hfail g'.
  destruct (delete_doc_run g i others doc_id rev more Hsel Hrow) as [_ Hrun].
  cbv zeta in Hrun. unfold request_failure in Hfail.
  destruct (serve (map fst (exchanges g)) (delete_doc_request (win g) doc_id rev))
    as [resp|detail].
  - destruct (is_error_status (status_code resp)); [|discriminate].
    inversion Hfail; subst e. subst g'. rewrite Hrun.
    repeat split; try reflexivity.
    cbn [snd shown delete_doc_failed after_showing with_win after_exchange].
    rewrite <- app_assoc. reflexivity.
  - inversion Hfail; subst e. subst g'. rewrite Hrun.
    repeat split; try reflexivity.
    cbn [snd shown delete_doc_failed after_showing with_win after_exchange].
    rewrite <- app_assoc. reflexivity.
Qed.

(** X17. Without the operator's confirmation [delete_doc] sends nothing and
    changes nothing in the window, whatever is selected. *)
Theorem delete_doc_needs_confirmation :
  forall g : gui BrowseWindow.window,
    exchanges (snd (delete_doc false g)) = exchanges g /\
    win (snd (delete_doc false g)) = win g.
Proof.
  intro g. unfold delete_doc, doc_row. rewrite bind_gets.
  destruct (selection (doc_tree (win g))) as [|i others]; [split; reflexivity|].
  rewrite bind_assoc, bind_gets.
  destruct (item_values i (doc_tree (win g))) as [vals|] eqn:Hrow; [|split; reflexivity].
  rewrite bind_ret.
  destruct vals as [|doc_id rest]; [split; reflexivity|].
  cbn [tuple_first]. rewrite bind_ret, bind_assoc, bind_gets, Hrow, bind_ret.
  destruct rest as [|rev more]; split; reflexivity.
Qed.
End DeleteDoc.

(** ** Filtering the documents *)

Section FilterMatches.
Context {pf : PyFloat} {lim : PyLimits} {pt : PyText} {net : Network}.

(** The test of [filter_docs]: the search text occurs in the id or in
    [json.dumps(doc)], both in lower case. *)
Definition doc_matches (search_text : pystr) (entry : json * json) : bool :=
  match fst entry with
  | JStr doc_id =>
      contains (str_lower doc_id) search_text ||
      contains (str_lower (dumps (snd entry))) search_text
  | _ => false
  end.

Lemma filter_doc_row_run (search_text : pystr) (entry : json * json)
    (g : gui BrowseWindow.window) :
  cached_ok entry = true ->
  filter_doc_row search_text entry g =
  (Ok tt, if doc_matches search_text entry
          then with_win (fun w => show_entry w entry) g else g).
Proof.
  intros Hok. destruct entry as [doc_id doc].
  destruct doc_id as [| | | |s| |]; try discriminate.
  destruct doc as [| | | | | |members]; try discriminate.
  unfold filter_doc_row, doc_matches. cbn [py_lower fst snd]. rewrite bind_ret.
  destruct (contains (str_lower s) search_text ||
            contains (str_lower (dumps (JObj members))) search_text); [|reflexivity].
  cbn [py_get]. rewrite bind_ret. reflexivity.
Qed.

Lemma for_each_filter_run (search_text : pystr) (entries : list (json * json)) :
  forall g : gui BrowseWindow.window,
    forallb cached_ok entries = true ->
    for_each entries (filter_doc_row search_text) g =
    (Ok tt, with_win (fun w => fold_left show_entry
                                 (filter (doc_matches search_text) entries) w) g).
Proof.
  unfold for_each.
  induction entries as [|entry entries IH]; intros g Hok; cbn [for_fold filter fold_left].
  - destruct g; reflexivity.
  - cbn [forallb] in Hok. apply andb_prop in Hok. destruct Hok as [Hentry Hrest].
    unfold bind. rewrite (filter_doc_row_run _ _ g Hentry).
    destruct (doc_matches search_text entry); rewrite (IH _ Hrest); [|reflexivity].
    destruct g; reflexivity.
Qed.

(** X18. When the cache holds documents (dicts) under string ids,
    [filter_docs] returns normally and the document list then shows exactly
    the cached documents in whose id, or in whose [json.dumps] text, the
    search text occurs (all three in lower case): one row each with id and
    [_rev], in the order of the cache.  Their number is put in
    [status_var] (the attribute, which the label of the status bar does not
    display).  The cache, the editor and the current document are not
    changed, nothing is sent and no message is shown.  ([load_docs] caches
    what a row gives as its document without looking at it, so the cache
    can hold other things than dicts, and the condition is needed.) *)
Theorem filter_docs_shows_matches :
  forall (g : gui BrowseWindow.window),
    NoDup (get_children (doc_tree (win g))) ->
    forallb cached_ok (docs (win g)) = true ->
    let found := filter (doc_matches (str_lower (search_var (win g)))) (docs (win g)) in
    let g' := snd (filter_docs g) in
    fst (filter_docs g) = Ok tt /\
    rows (doc_tree (win g')) = map (fun entry => [fst entry; doc_rev (snd entry)]) found /\
    BrowseWindow.status_var (win g') =
      lit "Found " ++ str_of_nat (length found) ++ lit " matching documents" /\
    docs (win g') = docs (win g) /\
    BrowseWindow.text (win g') = BrowseWindow.text (win g) /\
    current_doc (win g') = current_doc (win g) /\
    exchanges g' = exchanges g /\
    shown g' = shown g.
Proof.
  intros g Hnd Hok found g'. subst g'.
  unfold filter_docs. rewrite bind_gets, bind_gets.
  erewrite bind_run by (apply clear_tree_run; exact Hnd).
  rewrite bind_modify, bind_gets.
  erewrite bind_run by (apply for_each_filter_run; exact Hok).
  rewrite bind_gets. unfold modify.
  cbn [fst snd win with_win doc_tree docs BrowseWindow.set_status set_doc_tree exchanges shown
       BrowseWindow.status_var].
  fold found.
  assert (Hrows : rows (doc_tree (fold_left show_entry found
                     (set_doc_tree {| items := []; next_iid := next_iid (doc_tree (win g)) |}
                        (win g)))) =
                  map (fun entry => [fst entry; doc_rev (snd entry)]) found).
  { rewrite shown_entries_rows. reflexivity. }
  assert (Hframe : forall entries w,
             docs (fold_left show_entry entries w) = docs w /\
             BrowseWindow.text (fold_left show_entry entries w) = BrowseWindow.text w /\
             current_doc (fold_left show_entry entries w) = current_doc w).
  { induction entries as [|e entries IH]; intro w; cbn [fold_left]; [tauto|].
    destruct (IH (show_entry w e)) as (A & B & C). rewrite A, B, C. tauto. }
  destruct (Hframe found (set_doc_tree {| items := []; next_iid := next_iid (doc_tree (win g)) |}
                            (win g))) as (A & B & C).
  split; [reflexivity|]. split; [exact Hrows|].
  split.
  - unfold get_children. rewrite length_map.
    apply (f_equal (@length _)) in Hrows. unfold rows in Hrows.
    rewrite !length_map in Hrows. rewrite Hrows. reflexivity.
  - unfold BrowseWindow.set_status.
    cbn [BrowseWindow.text current_doc docs]. rewrite A, B, C.
    repeat split; reflexivity.
Qed.
End FilterMatches.

(** ** Saving a document that the server accepts *)

(** A row of the document list that is not the row of [doc_id]. *)
Definition other_row (doc_id : json) (row : list json) : bool :=
  match row with
  | first :: _ => negb (json_eqb first doc_id)
  | [] => false
  end.

Lemma item_values_app (i : nat) (before : list item) (it : item) (after : list item) (n : nat) :
  ~ In i (map iid before) -> iid it = i ->
  item_values i {| items := before ++ it :: after; next_iid := n |} = Some (values it).
Proof.
  intros Hnot Hi. unfold item_values. cbn [items].
  induction before as [|b before IH]; cbn [app find].
  - rewrite Hi, Nat.eqb_refl. reflexivity.
  - destruct (Nat.eqb_spec (iid b) i) as [Heq|Hne].
    + exfalso. apply Hnot. left. exact Heq.
    + apply IH. intro Hin. apply Hnot. right. exact Hin.
Qed.

Lemma set_values_other (i : nat) (vals : list json) (l : list item) :
  ~ In i (map iid l) ->
  map (fun it => if Nat.eqb (iid it) i
                 then {| iid := iid it; values := vals; selected := selected it |}
                 else it) l = l.
Proof.
  induction l as [|b l IH]; intro Hnot; cbn [map]; [reflexivity|].
  destruct (Nat.eqb_spec (iid b) i) as [Heq|Hne].
  - exfalso. apply Hnot. left. exact Heq.
  - rewrite IH; [reflexivity|]. intro Hin. apply Hnot. right. exact Hin.
Qed.

Section SaveAccepted.
Context {pf : PyFloat} {lim : PyLimits} {pt : PyText} {net : Network}.

(** The loop over the rows stops at the first row of [new_id] and writes
    the new revision there. *)
Lemma update_first_row_run (new_id new_rev : json) (t : treeview)
    (before : list item) (it : item) (after : list item) (more : list json)
    (g : gui BrowseWindow.window) :
  NoDup (get_children t) ->
  items t = before ++ it :: after ->
  forallb (other_row new_id) (map values before) = true ->
  values it = new_id :: more ->
  json_eqb new_id new_id = true ->
  update_first_row new_id new_rev (get_children t) t g =
  (Ok {| items := before ++ {| iid := iid it; values := [new_id; new_rev];
                                selected := selected it |} :: after;
         next_iid := next_iid t |}, g).
Proof.
  intros Hnd Hitems Hbefore Hit Hrefl.
  unfold get_children in *. rewrite Hitems in Hnd. rewrite Hitems.
  assert (Hloop : forall done todo,
             before = done ++ todo ->
             update_first_row new_id new_rev (map iid (todo ++ it :: after)) t g =
             (Ok (tree_set_values (iid it) [new_id; new_rev] t), g)).
  { intros done todo. revert done.
    induction todo as [|b todo IH]; intros done Hsplit; cbn [app map update_first_row].
    - destruct t as [its n]. cbn [items] in Hitems. subst its.
      rewrite item_values_app; [|
        rewrite map_app in Hnd; cbn [map] in Hnd; apply NoDup_remove_2 in Hnd;
        intro Hin; apply Hnd; apply in_or_app; left; exact Hin | reflexivity].
      rewrite Hit. cbn [tuple_first]. rewrite bind_ret, Hrefl. reflexivity.
    - assert (Hb : item_values (iid b) t = Some (values b)).
      { destruct t as [its n]. cbn [items] in Hitems. subst its before.
        rewrite <- app_assoc. cbn [app].
        apply item_values_app; [|reflexivity].
        rewrite <- app_assoc in Hnd. cbn [app] in Hnd.
        rewrite map_app in Hnd. cbn [map] in Hnd. apply NoDup_remove_2 in Hnd.
        intro Hin. apply Hnd. apply in_or_app. left. exact Hin. }
      rewrite Hb.
      assert (Hother : other_row new_id (values b) = true).
      { rewrite forallb_forall in Hbefore. apply Hbefore. subst before.
        rewrite map_app. apply in_or_app. right. left. reflexivity. }
      unfold other_row in Hother. destruct (values b) as [|first rest]; [discriminate|].
      cbn [tuple_first]. rewrite bind_ret.
      destruct (json_eqb first new_id); [discriminate|].
      apply (IH (done ++ [b])). rewrite <- app_assoc. exact Hsplit. }
  rewrite (Hloop [] before eq_refl). unfold tree_set_values. rewrite Hitems.
  rewrite map_app. cbn [map]. rewrite Nat.eqb_refl.
  rewrite map_app in Hnd. cbn [map] in Hnd.
  pose proof (NoDup_remove_2 _ _ _ Hnd) as Hnot.
  rewrite !set_values_other; [reflexivity | |];
    intro Hin; apply Hnot; apply in_or_app; [right|left]; exact Hin.
Qed.

(** What the reply of the server says of the saved document. *)
Definition saved_doc (members result : list (pystr * json)) : json :=
  JObj (dict_set str_eqb (lit "_rev") (obj_get (lit "rev") JNull result)
          (dict_set str_eqb (lit "_id") (obj_get (lit "id") JNull result) members)).

(** The window after an accepted save, but for the document list. *)
Definition save_accepted (members result : list (pystr * json)) (t : treeview) (current : json)
    (w : BrowseWindow.window) : BrowseWindow.window :=
  let new_id := obj_get (lit "id") JNull result in
  BrowseWindow.set_status (lit "Saved document '" ++ format_value new_id ++ lit "'")
    (set_text (dumps_indent 2 (saved_doc members result))
       (set_current_doc current
          (set_doc_tree t
             (set_docs (dict_set json_eqb new_id (saved_doc members result) (docs w)) w)))).

Lemma save_doc_put_accepted (members result : list (pystr * json)) (resp : response)
    (g : gui BrowseWindow.window) :
  has_nonfinite (JObj members) = false ->
  serve (map fst (exchanges g)) (save_request (win g) members) = Responds resp ->
  is_error_status (status_code resp) = false ->
  loads (Py.text resp) = Some (JObj result) ->
  truthy (obj_get (lit "ok") JNull result) = true ->
  hashable (obj_get (lit "id") JNull result) = true ->
  let new_id := obj_get (lit "id") JNull result in
  let new_rev := obj_get (lit "rev") JNull result in
  let g1 := after_exchange (save_request (win g) members) (Responds resp) g in
  (negb (truthy (current_doc (win g))) || negb (json_eqb (current_doc (win g)) new_id) = true ->
   save_doc_put (JObj members) g =
   (Ok tt, with_win (save_accepted members result
                       (tree_insert [new_id; new_rev] (doc_tree (win g))) new_id) g1)) /\
  (forall t,
     negb (truthy (current_doc (win g))) || negb (json_eqb (current_doc (win g)) new_id) = false ->
     (forall g2 : gui BrowseWindow.window,
        update_first_row new_id new_rev (get_children (doc_tree (win g))) (doc_tree (win g)) g2 =
        (Ok t, g2)) ->
     save_doc_put (JObj members) g =
     (Ok tt, with_win (save_accepted members result t (current_doc (win g))) g1)).
Proof.
  intros Hfinite Hserve Hstatus Hloads Hok Hhash new_id new_rev g1.
  subst new_id new_rev g1.
  unfold save_doc_put. cbn [py_get]. rewrite bind_ret, bind_modify.
  rewrite try_bind_gets. cbv zeta. rewrite try_bind_gets.
  unfold requests_put. rewrite try_bind_send.
  unfold payload_refused. cbn [req_json]. rewrite Hfinite.
  cbn [win with_win exchanges BrowseWindow.base_url db auth BrowseWindow.set_status].
  change {| req_method := PUT;
            req_url := if truthy (obj_get (lit "_id") (JStr []) members)
                       then (BrowseWindow.base_url (win g) ++ lit "/" ++ db (win g)) ++ lit "/" ++
                            format_value (obj_get (lit "_id") (JStr []) members)
                       else BrowseWindow.base_url (win g) ++ lit "/" ++ db (win g);
            req_json := Some (JObj members);
            req_auth := auth (win g) |}
    with (save_request (win g) members).
  rewrite Hserve.
  unfold raise_for_status. rewrite Hstatus, try_bind_ret.
  unfold resp_json. rewrite Hloads, try_bind_ret.
  cbn [py_get]. rewrite try_bind_ret, Hok.
  rewrite try_bind_ret, try_bind_ret. cbn [py_setitem]. rewrite try_bind_ret.
  cbn [py_setitem]. rewrite try_bind_ret.
  unfold docs_set. rewrite Hhash.
  rewrite try_bind_modify, try_bind_gets.
  unfold after_exchange, with_win.
  cbn [win exchanges shown current_doc set_docs BrowseWindow.set_status].
  split.
  - intro Hnew. rewrite Hnew.
    rewrite try_bind_assoc, try_bind_modify, try_bind_modify.
    rewrite try_bind_modify. unfold try_except, modify, with_win.
    cbn [win exchanges shown]. reflexivity.
  - intros t Hsame Hupd. rewrite Hsame.
    rewrite try_bind_assoc, try_bind_gets.
    unfold with_win. cbn [win doc_tree set_docs BrowseWindow.set_status].
    rewrite try_bind_assoc.
    erewrite try_bind_run by apply Hupd.
    rewrite try_bind_modify, try_bind_modify.
    unfold try_except, modify, with_win.
    cbn [win exchanges shown]. reflexivity.
Qed.
End SaveAccepted.

Lemma rows_split (t : treeview) (before : list (list json)) (row : list json)
    (after : list (list json)) :
  rows t = before ++ row :: after ->
  exists ib it ia,
    items t = ib ++ it :: ia /\ map values ib = before /\ values it = row /\
    map values ia = after.
Proof.
  unfold rows. intro H.
  apply map_eq_app in H. destruct H as (ib & rest & Hitems & Hib & Hrest).
  apply map_eq_cons in Hrest. destruct Hrest as (it & ia & Hrest & Hit & Hia).
  exists ib, it, ia. subst rest. repeat split; assumption.
Qed.

Lemma dict_get_set (k : pystr) (v : json) (d : list (pystr * json)) :
  dict_get str_eqb k (dict_set str_eqb k v d) = Some v.
Proof.
  induction d as [|[k' v'] d IH].
  - cbn [dict_set dict_get]. rewrite str_eqb_refl. reflexivity.
  - cbn [dict_set]. destruct (str_eqb k' k) eqn:Hk; cbn [dict_get]; rewrite Hk.
    + reflexivity.
    + exact IH.
Qed.

Section SaveCurrent.
Context {pf : PyFloat} {lim : PyLimits} {pt : PyText} {net : Network}.


End SaveCurrent.

Section NewDocAccepted.
Context {pf : PyFloat} {lim : PyLimits} {pt : PyText} {net : Network}.

(** X21. A new document that the server accepts: for an id entered (Unicode
    text), when the PUT of [{"_id": id}] is answered with a success status
    and a body [{"ok": true, "id": new_id, "rev": new_rev}] ([new_id] a
    value that can be the key of a dict), [new_doc] returns normally; a row
    [(new_id, new_rev)] is added at the end of the document list, whatever
    the list showed, and the rows there before stay; the cache holds
    [{"_id": new_id, "_rev": new_rev}] under [new_id]; the editor shows that
    document; it is the current document; [status_var] is set to [Saved
    document '<new_id>'] and no message is shown. *)
Theorem new_doc_adds_row :
  forall (g : gui BrowseWindow.window) (confirm : bool) (c : pychar) (cs : pystr)
         (resp : response) (result : list (pystr * json)),
    let req := {| req_method := PUT;
                  req_url := (BrowseWindow.base_url (win g) ++ lit "/" ++ db (win g)) ++
                             lit "/" ++ c :: cs;
                  req_json := Some (JObj [(lit "_id", JStr (c :: cs))]);
                  req_auth := auth (win g) |} in
    let new_id := obj_get (lit "id") JNull result in
    let new_rev := obj_get (lit "rev") JNull result in
    let saved := JObj [(lit "_id", new_id); (lit "_rev", new_rev)] in
    scalar_text (c :: cs) = true ->
    serve (map fst (exchanges g)) req = Responds resp ->
    is_error_status (status_code resp) = false ->
    loads (Py.text resp) = Some (JObj result) ->
    truthy (obj_get (lit "ok") JNull result) = true ->
    hashable new_id = true ->
    let g' := snd (new_doc (Some (c :: cs)) confirm g) in
    fst (new_doc (Some (c :: cs)) confirm g) = Ok tt /\
    exchanges g' = exchanges g ++ [(req, Responds resp)] /\
    rows (doc_tree (win g')) = rows (doc_tree (win g)) ++ [[new_id; new_rev]] /\
    docs (win g') = dict_set json_eqb new_id saved (docs (win g)) /\
    BrowseWindow.text (win g') = dumps_indent 2 saved /\
    current_doc (win g') = new_id /\
    BrowseWindow.status_var (win g') =
      lit "Saved document '" ++ format_value new_id ++ lit "'" /\
    shown g' = shown g.
Proof.
  intros g confirm c cs resp result req new_id new_rev saved
         Hscalar Hserve Hstatus Hloads Hok Hhash g'.
  subst g'.
  assert (Hjson : json_ok (JObj [(lit "_id", JStr (c :: cs))]) = true).
  { unfold json_ok. cbn [value_ok fits forallb fst snd distinct_keys existsb negb andb].
    rewrite (scalar_str_ok _ Hscalar). reflexivity. }
  unfold new_doc. cbv zeta. rewrite bind_modify.
  unfold try_except. rewrite bind_modify.
  rewrite (save_doc_of_text confirm (JObj [(lit "_id", JStr (c :: cs))]));
    [| exact Hjson | reflexivity | reflexivity].
  match goal with
  | |- context [save_doc_put _ ?g0] => set (g1 := g0)
  end.
  pose proof (save_doc_put_accepted [(lit "_id", JStr (c :: cs))] result resp g1 eq_refl)
    as Haccepted.
  change (save_request (win g1) [(lit "_id", JStr (c :: cs))]) with req in Haccepted.
  specialize (Haccepted Hserve Hstatus Hloads Hok Hhash).
  cbv zeta in Haccepted. destruct Haccepted as [Hadd _].
  rewrite (Hadd eq_refl).
  unfold save_accepted, saved_doc, after_exchange, with_win, g1.
  cbn [fst snd win exchanges shown doc_tree docs current_doc BrowseWindow.text
       BrowseWindow.status_var BrowseWindow.set_status set_text set_current_doc
       set_doc_tree set_docs with_win].
  rewrite rows_tree_insert.
  cbn [dict_set]. rewrite str_eqb_refl.
  change (str_eqb (lit "_id") (lit "_rev")) with false. cbv iota.
  repeat split; reflexivity.
Qed.
End NewDocAccepted.

(** ** The index list *)

Definition is_dict (v : json) : bool :=
  match v with
  | JObj _ => true
  | _ => false
  end.

Section IndexList.
Context {pf : PyFloat} {lim : PyLimits} {pt : PyText} {net : Network}.

(** The row of one entry of [indexes]. *)
Definition index_row (idx : json) : list json :=
  match idx with
  | JObj members =>
      [JStr match obj_get (lit "ddoc") (JStr []) members with
            | JNull => []
            | ddoc => replace (format_value ddoc) (lit "_design/") []
            end;
       obj_get (lit "name") (JStr []) members;
       JStr (join (lit ", ") (index_fields_list members))]
  | _ => []
  end.

Lemma load_index_row_run (idx : json) (g : gui BrowseWindow.window) :
  is_dict idx = true ->
  exists printed,
    load_index_row idx g =
    (Ok tt, {| exchanges := exchanges g;
               shown := shown g ++ printed;
               win := set_idx_tree (tree_insert (index_row idx) (idx_tree (win g))) (win g) |}) /\
    forallb is_Printed printed = true.
Proof.
  destruct idx as [| | | | | |members]; try discriminate. intros _.
  unfold load_index_row, print. cbn [py_get].
  rewrite bind_emit, bind_ret, bind_ret. cbv zeta. rewrite bind_emit.
  unfold modify, with_win, after_showing. cbn [exchanges shown win index_row].
  rewrite <- app_assoc. cbn [app].
  destruct (obj_get (lit "ddoc") (JStr []) members);
    (eexists [_; _]; split; [reflexivity|]); reflexivity.
Qed.

Lemma load_index_rows_run (entries : list json) :
  forall g : gui BrowseWindow.window,
    forallb is_dict entries = true ->
    exists printed,
      for_each entries load_index_row g =
      (Ok tt, {| exchanges := exchanges g;
                 shown := shown g ++ printed;
                 win := fold_left (fun w idx =>
                                     set_idx_tree (tree_insert (index_row idx) (idx_tree w)) w)
                          entries (win g) |}) /\
      forallb is_Printed printed = true.
Proof.
  unfold for_each.
  induction entries as [|idx entries IH]; intros g Hok; cbn [for_fold fold_left].
  - exists []. rewrite app_nil_r. destruct g; split; reflexivity.
  - cbn [forallb] in Hok. apply andb_prop in Hok. destruct Hok as [Hidx Hrest].
    destruct (load_index_row_run idx g Hidx) as (p1 & Hrun & Hp1).
    erewrite bind_run by exact Hrun.
    match goal with
    | |- context [for_fold entries _ tt ?g1] =>
        destruct (IH g1 Hrest) as (p2 & Hrest_run & Hp2)
    end.
    exists (p1 ++ p2). rewrite Hrest_run. cbn [exchanges shown win].
    rewrite app_assoc, forallb_app, Hp1, Hp2. split; reflexivity.
Qed.

Lemma index_rows_tree (entries : list json) (w : BrowseWindow.window) :
  rows (idx_tree (fold_left (fun w idx =>
                               set_idx_tree (tree_insert (index_row idx) (idx_tree w)) w)
                    entries w)) =
  rows (idx_tree w) ++ map index_row entries /\
  docs (fold_left (fun w idx => set_idx_tree (tree_insert (index_row idx) (idx_tree w)) w)
          entries w) = docs w /\
  doc_tree (fold_left (fun w idx => set_idx_tree (tree_insert (index_row idx) (idx_tree w)) w)
              entries w) = doc_tree w.
Proof.
  revert w. induction entries as [|idx entries IH]; intro w; cbn [fold_left map].
  - rewrite app_nil_r. repeat split; reflexivity.
  - destruct (IH (set_idx_tree (tree_insert (index_row idx) (idx_tree w)) w)) as (A & B & C).
    rewrite A, B, C. cbn [idx_tree set_idx_tree docs doc_tree].
    rewrite rows_tree_insert, <- app_assoc. repeat split; reflexivity.
Qed.

(** X22. When the GET of [load_indexes] is answered with a success status
    and a JSON dict whose [indexes] are dicts, [load_indexes] returns
    normally and the index list shows these indexes and nothing else, one
    row each in the order of the reply: the design document without
    [_design/] (empty for [null]), the name, and the fields joined with a
    comma and a space.  Their number is put in [status_var] (the
    attribute, which the label of the status bar does not display); the
    document list and the cache are not touched; all that is shown is
    printed lines, no message box. *)
Theorem load_indexes_lists_every_index :
  forall (g : gui BrowseWindow.window) (resp : response) (members : list (pystr * json))
         (entries : list json),
    NoDup (get_children (idx_tree (win g))) ->
    serve (map fst (exchanges g)) (indexes_request (win g)) = Responds resp ->
    is_error_status (status_code resp) = false ->
    loads (Py.text resp) = Some (JObj members) ->
    obj_get (lit "indexes") (JArr []) members = JArr entries ->
    forallb is_dict entries = true ->
    let g' := snd (load_indexes g) in
    fst (load_indexes g) = Ok tt /\
    rows (idx_tree (win g')) = map index_row entries /\
    BrowseWindow.status_var (win g') =
      lit "Loaded " ++ str_of_nat (length entries) ++ lit " indexes" /\
    doc_tree (win g') = doc_tree (win g) /\
    docs (win g') = docs (win g) /\
    exists printed, shown g' = shown g ++ printed /\ forallb is_Printed printed = true.
Proof.
  intros g resp members entries Hnd Hserve Hstatus Hloads Hindexes Hdicts g'. subst g'.
  unfold load_indexes. rewrite bind_modify.
  rewrite try_bind_gets, try_bind_modify, try_bind_gets.
  unfold requests_get. rewrite try_bind_send.
  cbn [payload_refused req_json win with_win exchanges BrowseWindow.base_url db auth
       BrowseWindow.set_status].
  fold (indexes_request (win g)). rewrite Hserve.
  unfold raise_for_status. rewrite Hstatus.
  rewrite try_bind_ret. unfold print. rewrite !try_bind_emit.
  unfold resp_json. rewrite Hloads, try_bind_ret. cbn [py_get].
  rewrite try_bind_ret, Hindexes. cbn [py_len]. rewrite try_bind_ret, try_bind_emit.
  rewrite try_bind_gets.
  unfold after_showing, after_exchange, with_win.
  cbn [win exchanges shown idx_tree BrowseWindow.set_status].
  erewrite try_bind_run by (apply clear_tree_run; exact Hnd).
  rewrite try_bind_modify. cbn [py_iter]. rewrite try_bind_ret.
  match goal with
  | |- context [try_except (bind (for_each entries load_index_row) ?k) ?h ?g0] =>
      destruct (load_index_rows_run entries g0 Hdicts) as (printed & Hrun & Hprinted);
      rewrite (try_bind_run _ _ _ k h g0 _ _ Hrun)
  end.
  unfold try_except, modify, with_win.
  cbn [fst snd win exchanges shown BrowseWindow.set_status idx_tree doc_tree docs
       BrowseWindow.status_var set_idx_tree].
  match goal with
  | |- context [fold_left _ entries ?w0] =>
      destruct (index_rows_tree entries w0) as (A & B & C)
  end.
  rewrite A, B, C. cbn [idx_tree set_idx_tree doc_tree docs rows items map app].
  repeat split; try reflexivity.
  eexists. split.
  - rewrite <- !app_assoc. reflexivity.
  - cbn [app forallb is_Printed andb]. exact Hprinted.
Qed.

(** X23. When the GET of [load_indexes] fails (the transport raises, or the
    answer has an error status), [load_indexes] returns normally and leaves
    the index list as it was: the rows are cleared only once a reply has
    been read.  The error is printed and shown in a box titled [Connection
    Error]; its first 50 characters followed by three dots are put in
    [status_var] (the attribute, which the label of the status bar does not
    display). *)
Theorem load_indexes_failure_keeps_list :
  forall (g : gui BrowseWindow.window) (e : exn),
    request_failure (serve (map fst (exchanges g)) (indexes_request (win g))) = Some e ->
    let g' := snd (load_indexes g) in
    let error_msg := lit "Network error: " ++ exn_str e in
    fst (load_indexes g) = Ok tt /\
    idx_tree (win g') = idx_tree (win g) /\
    doc_tree (win g') = doc_tree (win g) /\
    docs (win g') = docs (win g) /\
    BrowseWindow.status_var (win g') = upto 50 error_msg ++ lit "..." /\
    shown g' = shown g ++ [Printed error_msg; ShowError (lit "Connection Error") error_msg].
Proof.
  intros g e Hfail g' error_msg. subst g' error_msg.
  unfold load_indexes. rewrite bind_modify.
  rewrite try_bind_gets, try_bind_modify, try_bind_gets.
  unfold requests_get. rewrite try_bind_send.
  cbn [payload_refused req_json win with_win exchanges BrowseWindow.base_url db auth
       BrowseWindow.set_status].
  fold (indexes_request (win g)).
  unfold request_failure in Hfail.
  destruct (serve (map fst (exchanges g)) (indexes_request (win g))) as [resp|detail].
  - unfold raise_for_status.
    destruct (is_error_status (status_code resp)); [|discriminate].
    inversion Hfail; subst e. rewrite try_bind_raise.
    cbn [is_RequestException]. unfold print, report_error, showerror.
    rewrite bind_emit, bind_modify. unfold emit, after_showing, after_exchange, with_win.
    cbn [fst snd win exchanges shown BrowseWindow.set_status idx_tree doc_tree docs
         BrowseWindow.status_var].
    rewrite <- app_assoc. repeat split; reflexivity.
  - inversion Hfail; subst e.
    cbn [is_RequestException]. unfold print, report_error, showerror.
    rewrite bind_emit, bind_modify. unfold emit, after_showing, after_exchange, with_win.
    cbn [fst snd win exchanges shown BrowseWindow.set_status idx_tree doc_tree docs
         BrowseWindow.status_var].
    rewrite <- app_assoc. repeat split; reflexivity.
Qed.
End IndexList.

(** ** Creating an index *)

Lemma index_payload_finite (name fields : pystr) :
  has_nonfinite (index_payload name fields) = false.
Proof.
  unfold index_payload. cbn [has_nonfinite existsb snd orb].
  rewrite !orb_false_r.
  induction (split (chr ",") fields) as [|f fs IH]; [reflexivity|].
  cbn [map existsb has_nonfinite orb]. exact IH.
Qed.

Section AddIndex.
Context {pf : PyFloat} {lim : PyLimits} {pt : PyText} {net : Network}.

(** [load_indexes] handles every exception itself. *)
Lemma load_indexes_returns (g : gui BrowseWindow.window) : fst (load_indexes g) = Ok tt.
Proof.
  unfold load_indexes. rewrite bind_modify. unfold try_except.
  match goal with
  | |- fst (match ?body ?g0 with _ => _ end) = _ =>
      destruct (body g0) as [[[]|e] g1]; [reflexivity|]
  end.
  destruct (is_RequestException e); [reflexivity|].
  destruct (is_JSONDecodeError e); reflexivity.
Qed.

(** The request of [add_index]. *)
Definition add_index_request (w : BrowseWindow.window) (name fields : pystr) : request :=
  {| req_method := POST;
     req_url := BrowseWindow.base_url w ++ lit "/" ++ db w ++ lit "/_index";
     req_json := Some (index_payload name fields);
     req_auth := auth w |}.

(** X24. [add_index] with a name and fields entered first sends the POST of
    the index to [{base_url}/{db}/_index].  When the POST is accepted it
    reloads the index list with one GET and then sets [status_var] (the
    attribute, which the label of the status bar does not display) to
    [Created index '<name>'], whatever came of the reload: a failure to
    reload is shown in its own box, but the last line put in [status_var]
    is the success of the creation.  When the POST fails, there is no
    reload: the index list is as before, the error is shown in a box and
    put in [status_var].  Either way [add_index] returns normally. *)
Theorem add_index_posts_then_reloads :
  forall (g : gui BrowseWindow.window) (c d : pychar) (cs ds : pystr),
    let name := c :: cs in
    let fields := d :: ds in
    let post := add_index_request (win g) name fields in
    let get := indexes_request (win g) in
    let g' := snd (add_index name fields g) in
    fst (add_index name fields g) = Ok tt /\
    match request_failure (serve (map fst (exchanges g)) post) with
    | None =>
        exchanges g' =
          exchanges g ++ [(post, serve (map fst (exchanges g)) post);
                          (get, serve (map fst (exchanges g) ++ [post]) get)] /\
        BrowseWindow.status_var (win g') = lit "Created index '" ++ name ++ lit "'"
    | Some e =>
        exchanges g' = exchanges g ++ [(post, serve (map fst (exchanges g)) post)] /\
        idx_tree (win g') = idx_tree (win g) /\
        BrowseWindow.status_var (win g') =
          lit "Failed to create index: " ++ upto 50 (exn_str e) /\
        shown g' = shown g ++
          [ShowError (lit "Error") (lit "Failed to create index:" ++ nl ++ exn_str e)]
    end.
Proof.
  intros g c d cs ds name fields post get g'. subst g'.
  unfold add_index. cbn [str_eqb orb].
  change (str_eqb name []) with false. change (str_eqb fields []) with false.
  cbn [orb]. rewrite bind_modify. cbv zeta.
  rewrite try_bind_gets, try_bind_gets.
  unfold requests_post. rewrite try_bind_send.
  unfold payload_refused. cbn [req_json]. rewrite index_payload_finite.
  cbn [win with_win exchanges BrowseWindow.base_url db auth BrowseWindow.set_status].
  fold (add_index_request (win g) name fields). fold post.
  unfold request_failure.
  destruct (serve (map fst (exchanges g)) post) as [resp|detail].
  - unfold raise_for_status.
    destruct (is_error_status (status_code resp)).
    + rewrite try_bind_raise. unfold showerror. rewrite bind_modify.
      unfold emit, after_showing, after_exchange, with_win.
      cbn [fst snd win exchanges shown BrowseWindow.set_status idx_tree BrowseWindow.status_var].
      repeat split; reflexivity.
    + rewrite try_bind_ret.
      match goal with
      | |- context [try_except (bind load_indexes ?k) ?h ?g1] =>
          pose proof (load_indexes_returns g1) as Hret;
          pose proof (load_indexes_exchanges g1) as Hlog;
          unfold try_except, bind;
          destruct (load_indexes g1) as [[[]|e] g2]; [|discriminate]
      end.
      cbn [snd fst] in Hlog |- *. unfold modify, with_win.
      cbn [fst snd win exchanges BrowseWindow.set_status BrowseWindow.status_var].
      rewrite Hlog. unfold after_exchange, with_win.
      cbn [exchanges win]. rewrite map_app. cbn [map fst].
      change (indexes_request (BrowseWindow.set_status
                (lit "Creating index '" ++ name ++ lit "'...") (win g))) with get.
      rewrite <- app_assoc. repeat split; reflexivity.
  - unfold showerror. rewrite bind_modify.
    unfold emit, after_showing, after_exchange, with_win.
    cbn [fst snd win exchanges shown BrowseWindow.set_status idx_tree BrowseWindow.status_var].
    repeat split; reflexivity.
Qed.
End AddIndex.

Section CreateIndex.
Context {pf : PyFloat} {lim : PyLimits} {pt : PyText} {net : Network}.

(** X25. [create_index] with one database selected (its row holding the
    name, a string) and a name and fields entered sends exactly one request:
    the POST to [{url}/{db}/_index], the URL entered without its trailing
    slashes, of [{"index": {"fields": [...]}, "name": name}], the fields
    being the parts of the entry between commas, each stripped, with the
    credentials stripped.  It returns normally and leaves the list as it
    was.  When the POST is accepted, an info box and the status bar report
    the creation; when it fails, an error box shows the error and the status
    bar reads [Failed to create index '<name>']. *)
Theorem create_index_posts_fields :
  forall (g : gui CouchDBManager.window) (i : nat) (database : pystr) (more : list json)
         (c d : pychar) (cs ds : pystr),
    selection (tree (win g)) = [i] ->
    item_values i (tree (win g)) = Some (JStr database :: more) ->
    let name := c :: cs in
    let fields := d :: ds in
    let req := {| req_method := POST;
                  req_url := rstrip_slash (url_var (win g)) ++ lit "/" ++ database ++
                             lit "/_index";
                  req_json :=
                    Some (JObj [(lit "index",
                                 JObj [(lit "fields",
                                        JArr (map (fun f => JStr (strip f))
                                                (split (chr ",") fields)))]);
                                (lit "name", JStr name)]);
                  req_auth := (strip (user_var (win g)), strip (pass_var (win g))) |} in
    let g' := snd (create_index name fields g) in
    fst (create_index name fields g) = Ok tt /\
    exchanges g' = exchanges g ++ [(req, serve (map fst (exchanges g)) req)] /\
    tree (win g') = tree (win g) /\
    match request_failure (serve (map fst (exchanges g)) req) with
    | None =>
        shown g' = shown g ++
          [ShowInfo (lit "Index Created")
             (lit "Index '" ++ name ++ lit "' created in '" ++ database ++ lit "'.")] /\
        CouchDBManager.status_var (win g') =
          lit "Created index '" ++ name ++ lit "' in '" ++ database ++ lit "'"
    | Some e =>
        shown g' = shown g ++
          [ShowError (lit "Error") (lit "Failed to create index:" ++ nl ++ exn_str e)] /\
        CouchDBManager.status_var (win g') = lit "Failed to create index '" ++ name ++ lit "'"
    end.
Proof.
  intros g i database more c d cs ds Hsel Hrow name fields req g'. subst g'.
  unfold create_index. rewrite bind_gets, Hsel.
  unfold tree_first_value. rewrite bind_assoc, bind_gets, Hrow.
  cbn [tuple_first]. rewrite bind_ret, bind_gets.
  change (str_eqb name []) with false. change (str_eqb fields []) with false.
  cbn [orb]. rewrite bind_modify. cbv zeta.
  rewrite try_bind_gets.
  unfold requests_post. rewrite try_bind_send.
  unfold payload_refused. cbn [req_json]. rewrite index_payload_finite.
  cbn [win with_win exchanges CouchDBManager.set_status format_value].
  unfold CouchDBManager.base_url, basic_auth, index_payload.
  cbn [url_var user_var pass_var CouchDBManager.set_status].
  fold name fields. fold req.
  unfold request_failure.
  destruct (serve (map fst (exchanges g)) req) as [resp|detail].
  - unfold raise_for_status.
    destruct (is_error_status (status_code resp)).
    + rewrite try_bind_raise. unfold showerror. rewrite bind_modify.
      unfold emit, after_showing, after_exchange, with_win.
      cbn [fst snd win exchanges shown CouchDBManager.set_status tree
           CouchDBManager.status_var].
      repeat split; reflexivity.
    + rewrite try_bind_ret. unfold showinfo. rewrite try_bind_emit.
      unfold try_except, modify, after_showing, after_exchange, with_win.
      cbn [fst snd win exchanges shown CouchDBManager.set_status tree
           CouchDBManager.status_var].
      repeat split; reflexivity.
  - unfold showerror. rewrite bind_modify.
    unfold emit, after_showing, after_exchange, with_win.
    cbn [fst snd win exchanges shown CouchDBManager.set_status tree
         CouchDBManager.status_var].
    repeat split; reflexivity.
Qed.
End CreateIndex.

Section LoadDocsStatus.
Context {pf : PyFloat} {lim : PyLimits} {pt : PyText} {net : Network}.

(** X26. [load_docs] does not look at the status of the reply: whatever the
    status, an error status such as 404 or 500 included, a reply whose body
    is a JSON dict without [rows] (the body of a CouchDB error is one) is
    taken as an empty database.  The handler returns normally, the document
    list and the cache are emptied, [status_var] (the attribute, which the
    label of the status bar does not display) is set to [Loaded 0
    documents], and no message is shown. *)
Theorem load_docs_ignores_status :
  forall (g : gui BrowseWindow.window) (resp : response) (members : list (pystr * json)),
    NoDup (get_children (doc_tree (win g))) ->
    serve (map fst (exchanges g)) (docs_request (win g)) = Responds resp ->
    loads (Py.text resp) = Some (JObj members) ->
    dict_get str_eqb (lit "rows") members = None ->
    let g' := snd (load_docs g) in
    fst (load_docs g) = Ok tt /\
    rows (doc_tree (win g')) = [] /\
    docs (win g') = [] /\
    BrowseWindow.status_var (win g') = lit "Loaded 0 documents" /\
    shown g' = shown g.
Proof.
  intros g resp members Hnd Hserve Hloads Hrows g'. subst g'.
  unfold load_docs. rewrite bind_modify.
  rewrite try_bind_gets, try_bind_gets.
  unfold requests_get. rewrite try_bind_send.
  cbn [payload_refused req_json win with_win exchanges BrowseWindow.base_url db auth
       BrowseWindow.set_status].
  fold (docs_request (win g)). rewrite Hserve.
  unfold resp_json. rewrite Hloads. rewrite try_bind_ret, try_bind_gets.
  erewrite try_bind_run by (apply clear_tree_run; exact Hnd).
  rewrite !try_bind_modify. cbn [py_get]. unfold obj_get. rewrite Hrows.
  rewrite try_bind_ret. cbn [py_iter]. rewrite try_bind_ret.
  unfold for_each. cbn [for_fold]. rewrite try_bind_ret, try_bind_gets.
  unfold try_except, modify, after_exchange, with_win.
  cbn [fst snd win exchanges shown BrowseWindow.set_status doc_tree docs set_doc_tree set_docs
       BrowseWindow.status_var rows items map length].
  repeat split; reflexivity.
Qed.
End LoadDocsStatus.

(* ===================================================================== *)
(** * A session with a small server *)
(* ===================================================================== *)

(** Floats that are written the way [repr] prints them. *)
#[local] Instance float_as_written : PyFloat := {| float_canon := fun l => l |}.

Lemma float_as_written_ok :
  forall l, is_float_lexeme l = true -> float_ok (float_canon l) = true.
Proof.
  intros l Hl. unfold float_ok. cbn [float_canon float_as_written].
  rewrite Hl, str_eqb_refl. apply orb_true_r.
Qed.

(** The limits of CPython as it is set up when the program starts: a
    thousand frames, of which the handler and [json.loads] have taken some
    when the scanner starts, and 4300 digits. *)
#[local] Instance cpython_limits : PyLimits :=
  {| spare_nesting := 890; max_int_digits := 4300 |}.

(** The text of exceptions and values, in short. *)
Definition exn_text (e : exn) : pystr :=
  match e with
  | HTTPError status => str_of_Z status ++ lit " Error"
  | TransportError detail => detail
  | _ => exn_name e
  end.

Definition ascii_lower (s : pystr) : pystr :=
  map (fun c => if ((65 <=? c) && (c <=? 90))%N then (c + 32)%N else c) s.

#[local] Instance runtime_text : PyText :=
  {| exn_str := exn_text;
     value_str := dumps;
     str_lower := ascii_lower;
     format_exc := exn_text |}.

Definition ends_with (s suffix : pystr) : bool := startswith (rev s) (rev suffix).

Definition index_list : pystr :=
  lit_dq "{'indexes':[{'ddoc':'_design/foo','name':'bar','def':{'fields':[{'x':'asc'}]}}]}".

Definition all_docs : pystr :=
  lit_dq "{'rows':[{'id':'_design/foo','value':{'rev':'1-a'},'doc':{'_id':'_design/foo'}},{'id':'a','value':{'rev':'1-x'},'doc':{'_id':'a','_rev':'1-x','n':1.5}}]}".

(** A server with the database [shop]: it lists one index and two
    documents, refuses every document that is put with 409 Conflict, creates
    databases and indexes, and deletes every database but [orders], for
    which the connection fails. *)
#[local] Instance small_server : Network :=
  {| serve := fun _ r =>
       match req_method r, req_json r with
       | GET, _ =>
           if ends_with (req_url r) (lit "/_index")
           then Responds {| status_code := 200; Py.text := index_list |}
           else if ends_with (req_url r) (lit "/_all_docs?include_docs=true")
           then Responds {| status_code := 200; Py.text := all_docs |}
           else Responds {| status_code := 404; Py.text := lit_dq "{'error':'not_found'}" |}
       | PUT, Some _ => Responds {| status_code := 409; Py.text := lit_dq "{'error':'conflict'}" |}
       | PUT, None => Responds {| status_code := 201; Py.text := lit_dq "{'ok':true}" |}
       | POST, _ => Responds {| status_code := 200; Py.text := lit_dq "{'result':'created'}" |}
       | DELETE, _ =>
           if ends_with (req_url r) (lit "/orders") then Fails (lit "timed out")
           else Responds {| status_code := 200; Py.text := lit_dq "{'ok':true}" |}
       end |}.

Definition tree_row (i : nat) (vals : list json) (sel : bool) : item :=
  {| iid := i; values := vals; selected := sel |}.

(** The main window with three databases, the first two selected. *)
Definition managing : gui CouchDBManager.window :=
  {| exchanges := []; shown := [];
     win := {| url_var := lit "http://localhost:5984/";
               user_var := lit "admin"; pass_var := lit "secret";
               tree := {| items := [tree_row 0 [JStr (lit "shop")] true;
                                    tree_row 1 [JStr (lit "orders")] true;
                                    tree_row 2 [JStr (lit "users")] false];
                          next_iid := 3 |};
               CouchDBManager.status_var := [] |} |}.

Definition doc_a : json :=
  JObj [(lit "_id", JStr (lit "a")); (lit "_rev", JStr (lit "1-x")); (lit "n", JFloat (lit "1.5"))].

(** The window of the database [shop], with document [a] in the editor and
    the index [bar] selected. *)
Definition browsing (editor : pystr) : gui BrowseWindow.window :=
  {| exchanges := []; shown := [];
     win := {| db := lit "shop"; BrowseWindow.base_url := lit "http://localhost:5984";
               auth := (lit "admin", lit "secret");
               docs := [(JStr (lit "a"), doc_a)];
               current_doc := JStr (lit "a");
               idx_tree := {| items := [tree_row 0 [JStr (lit "foo"); JStr (lit "bar");
                                               JStr (lit "x:asc")] true];
                              next_iid := 1 |};
               doc_tree := {| items := [tree_row 0 [JStr (lit "a"); JStr (lit "1-x")] true];
                              next_iid := 1 |};
               BrowseWindow.text := editor;
               search_var := [];
               BrowseWindow.status_var := [] |} |}.

Definition editing : gui BrowseWindow.window :=
  browsing (lit_dq "{'_id': 'a', '_rev': '1-x', 'n': 1.5}").


(** The same window with an editor text that breaks off. *)
Definition broken : gui BrowseWindow.window := browsing (lit_dq "{'_id': 'a', ").

Definition put_a : request :=
  {| req_method := PUT; req_url := lit "http://localhost:5984/shop/a";
     req_json := Some doc_a; req_auth := (lit "admin", lit "secret") |}.

Definition conflict : response :=
  {| status_code := 409; Py.text := lit_dq "{'error':'conflict'}" |}.

Definition all_docs_data : json :=
  JObj [(lit "rows",
         JArr [JObj [(lit "id", JStr (lit "_design/foo"));
                     (lit "value", JObj [(lit "rev", JStr (lit "1-a"))]);
                     (lit "doc", JObj [(lit "_id", JStr (lit "_design/foo"))])];
               JObj [(lit "id", JStr (lit "a"));
                     (lit "value", JObj [(lit "rev", JStr (lit "1-x"))]);
                     (lit "doc", doc_a)]])].

Definition delete_bar : request :=
  {| req_method := DELETE;
     req_url := lit "http://localhost:5984/shop/_index/_design/foo/json/bar";
     req_json := None; req_auth := (lit "admin", lit "secret") |}.

Definition deleted : response := {| status_code := 200; Py.text := lit_dq "{'ok':true}" |}.

Lemma editing_rows_distinct : NoDup (get_children (doc_tree (win editing))).
Proof. repeat constructor. intros []. Qed.

Lemma editing_indexes_distinct : NoDup (get_children (idx_tree (win editing))).
Proof. repeat constructor. intros []. Qed.

(** C1 on the small server: the PUT of document [a] is refused with 409. *)
Lemma save_doc_conflict_example :
  exchanges (snd (save_doc true editing)) = [(put_a, Responds conflict)] /\
  fst (save_doc true editing) = Ok tt /\
  docs (win (snd (save_doc true editing))) = docs (win editing) /\
  doc_tree (win (snd (save_doc true editing))) = doc_tree (win editing) /\
  BrowseWindow.text (win (snd (save_doc true editing))) = BrowseWindow.text (win editing) /\
  BrowseWindow.status_var (win (snd (save_doc true editing))) =
    lit "Failed to save document: 409 Error".
Proof.
  assert (Hput : exchanges (snd (save_doc true editing)) =
                 exchanges editing ++ [(put_a, Responds conflict)])
    by (vm_compute; reflexivity).
  destruct (save_doc_rejected_keeps_local_state editing true put_a conflict Hput eq_refl)
    as (H1 & _ & H2 & H3 & H4 & _ & H5 & _).
  repeat split; assumption.
Defined.

(** C2 on the small server: the design document of the reply is left out. *)
Lemma load_docs_example :
  loads all_docs = Some all_docs_data /\
  no_design_documents (win (snd (load_docs editing))) /\
  rows (doc_tree (win (snd (load_docs editing)))) = [[JStr (lit "a"); JStr (lit "1-x")]] /\
  docs (win (snd (load_docs editing))) = [(JStr (lit "a"), doc_a)].
Proof.
  assert (Hdata : loads all_docs = Some all_docs_data) by (vm_compute; reflexivity).
  assert (Hreply : serve (map fst (exchanges editing)) (docs_request (win editing)) =
                   Responds {| status_code := 200; Py.text := all_docs |})
    by (vm_compute; reflexivity).
  destruct (load_docs_excludes_design_documents editing _ all_docs_data
              editing_rows_distinct Hreply Hdata) as [Hnone Hrows].
  destruct (Hrows _ _ eq_refl eq_refl eq_refl) as [Hr Hd].
  repeat split; solve [assumption | apply Hnone].
Defined.


(** C5 on the small server, which lists that one index. *)
Lemma load_indexes_example :
  rows (idx_tree (win (snd (load_indexes editing)))) =
    [[JStr (lit "foo"); JStr (lit "bar"); JStr (lit "x:asc")]].
Proof.
  assert (Hreply : serve (map fst (exchanges editing)) (indexes_request (win editing)) =
                   Responds {| status_code := 200; Py.text := index_list |})
    by (vm_compute; reflexivity).
  exact (load_indexes_example_row editing 200 editing_indexes_distinct eq_refl Hreply).
Defined.

(** C6 for the selected index [bar] of design document [foo]. *)
Lemma delete_index_example :
  exists later,
    exchanges (snd (delete_index true editing)) = (delete_bar, Responds deleted) :: later /\
    Forall (fun x => req_method (fst x) = GET) later.
Proof.
  destruct (delete_index_targets_design_document (net := small_server) editing 0 []
              (lit "foo") (JStr (lit "bar")) [JStr (lit "x:asc")] eq_refl eq_refl) as [_ H].
  exact H.
Defined.


(** The same window with two thousand opening brackets in the editor. *)
Definition nested : gui BrowseWindow.window := browsing (repeat (chr "[") 2000).


(** C8 on the small server: [orders] fails, the others are deleted. *)
Lemma delete_databases_example :
  deletion_report [0; 1] managing (delete_selected true managing) /\
  deletion_report [0; 1; 2] managing (delete_all true managing).
Proof.
  assert (Hnodup : NoDup (get_children (CouchDBManager.tree (win managing)))).
  { repeat constructor; cbn; intuition discriminate. }
  assert (Hvalues : Forall (fun it => values it <> [])
                      (items (CouchDBManager.tree (win managing)))).
  { repeat constructor; discriminate. }
  destruct (delete_attempts_each_database_once managing Hnodup Hvalues) as [H1 H2].
  split; [apply H1 | apply H2]; discriminate.
Defined.

(** C9 on the small server: the database [stock] is created and indexed. *)
Lemma add_db_example :
  fst (add_db (Some (lit "stock")) managing) = Ok tt /\
  map (fun x => (req_method (fst x), req_url (fst x), req_json (fst x)))
      (exchanges (snd (add_db (Some (lit "stock")) managing))) =
    [(PUT, lit "http://localhost:5984/stock", None);
     (POST, lit "http://localhost:5984/stock/_index",
      Some (JObj [(lit "index", JObj [(lit "fields", JArr [JStr (lit "_id")])]);
                  (lit "name", JStr (lit "stock_idx"))]))].
Proof.
  assert (Hput : serve (map fst (exchanges managing))
                   {| req_method := PUT;
                      req_url := CouchDBManager.base_url (win managing) ++ lit "/" ++
                                 chr "s" :: lit "tock";
                      req_json := None; req_auth := basic_auth (win managing) |} =
                 Responds {| status_code := 201; Py.text := lit_dq "{'ok':true}" |})
    by (vm_compute; reflexivity).
  pose proof (add_db_posts_default_index managing (chr "s") (lit "tock") _ Hput eq_refl) as H.
  cbv zeta in H.
  change (chr "s" :: lit "tock") with (lit "stock") in H.
  rewrite H. split; reflexivity.
Defined.

(** C10 on the cache with document [a]. *)
Lemma filter_docs_example :
  fst (filter_docs editing) = Ok tt /\
  rows (doc_tree (win (snd (filter_docs editing)))) = [[JStr (lit "a"); JStr (lit "1-x")]] /\
  docs (win (snd (filter_docs editing))) = docs (win editing).
Proof.
  destruct (filter_docs_empty_search_shows_all (pt := runtime_text) editing eq_refl eq_refl
              editing_rows_distinct eq_refl) as (H0 & H1 & _ & H2).
  repeat split; assumption.
Defined.

(** ** Other servers and windows *)

(** A server that answers every request alike. *)
Definition answering (status : Z) (body : pystr) : Network :=
  {| serve := fun _ _ => Responds {| status_code := status; Py.text := body |} |}.

(** No server at all. *)
Definition unreachable : Network :=
  {| serve := fun _ _ => Fails (lit "connection refused") |}.

Definition two_databases : Network := answering 200 (lit_dq "['shop', 'orders']").

Definition saved_a : Network := answering 201 (lit_dq "{'ok':true,'id':'a','rev':'2-y'}").

Definition saved_b : Network := answering 201 (lit_dq "{'ok':true,'id':'b','rev':'1-z'}").

(** The application before it is connected, with the databases of
    [managing] left in the list. *)
Definition session : gui main_window :=
  {| exchanges := []; shown := [];
     win := {| main := win managing; connected := false; conn_btn := lit "Connect";
               action_buttons := [(lit "Add Database", false); (lit "Browse Database", false);
                                  (lit "Rename Database", false); (lit "Select All", false);
                                  (lit "Delete Selected", false); (lit "Delete All", false);
                                  (lit "Create Index", false)] |} |}.

Lemma session_rows_distinct : NoDup (get_children (CouchDBManager.tree (main (win session)))).
Proof. repeat constructor; cbn; intuition discriminate. Qed.

(** The main window with the database [users] selected. *)
Definition choosing : gui CouchDBManager.window :=
  {| exchanges := []; shown := [];
     win := {| url_var := lit "http://localhost:5984/";
               user_var := lit " admin"; pass_var := lit "secret ";
               tree := {| items := [tree_row 0 [JStr (lit "shop")] false;
                                    tree_row 1 [JStr (lit "users")] true];
                          next_iid := 2 |};
               CouchDBManager.status_var := [] |} |}.

Definition doc_b : json := JObj [(lit "_id", JStr (lit "Bolt")); (lit "_rev", JStr (lit "3-b"))].

(** The window of [shop] with two documents cached, the list filtered
    down to the first, and [bolt] in the search entry. *)
Definition searching : gui BrowseWindow.window :=
  {| exchanges := []; shown := [];
     win := {| db := lit "shop"; BrowseWindow.base_url := lit "http://localhost:5984";
               auth := (lit "admin", lit "secret");
               docs := [(JStr (lit "a"), doc_a); (JStr (lit "Bolt"), doc_b)];
               current_doc := JNull;
               idx_tree := empty_tree;
               doc_tree := {| items := [tree_row 4 [JStr (lit "a"); JStr (lit "1-x")] false];
                              next_iid := 5 |};
               BrowseWindow.text := [];
               search_var := lit "bolt";
               BrowseWindow.status_var := [] |} |}.

(** The window of [editing] with another id typed into the editor. *)
Definition retyped : gui BrowseWindow.window := browsing (lit_dq "{'_id': 'b', 'n': 2}").

(** A server whose one row comes without its document. *)
Definition null_document : Network :=
  answering 200 (lit_dq "{'rows':[{'id':'a','value':{'rev':'1-x'},'doc':null}]}").

(** The window of [shop] once [load_docs] has read that reply. *)
Definition reloaded : gui BrowseWindow.window := snd (load_docs (net := null_document) editing).

(** C10 does not hold of every state of the cache.  [load_docs] caches
    [row.get('doc')] as it comes: from a reply whose row has [null] for its
    document it returns normally, lists the row and caches [None] under the
    id.  With the search entry empty, [filter_docs] then clears the list
    and raises [AttributeError] at [doc.get]: one document is cached and no
    row is shown. *)
Lemma filter_docs_null_document :
  fst (load_docs (net := null_document) editing) = Ok tt /\
  docs (win reloaded) = [(JStr (lit "a"), JNull)] /\
  rows (doc_tree (win reloaded)) = [[JStr (lit "a"); JStr (lit "1-x")]] /\
  search_var (win reloaded) = [] /\
  fst (filter_docs reloaded) = Raised (AttributeError JNull (lit "get")) /\
  rows (doc_tree (win (snd (filter_docs reloaded)))) = [] /\
  docs (win (snd (filter_docs reloaded))) = [(JStr (lit "a"), JNull)].
Proof. repeat split; vm_compute; reflexivity. Qed.

(** X2 with two databases listed in place of the three shown. *)
Lemma connect_example :
  rows (CouchDBManager.tree (main (win (snd (connect (net := two_databases) session))))) =
    [[JStr (lit "shop")]; [JStr (lit "orders")]] /\
  connected (win (snd (connect (net := two_databases) session))) = true /\
  CouchDBManager.status_var (main (win (snd (connect (net := two_databases) session)))) =
    lit "Connected to http://localhost:5984 - 2 databases found".
Proof.
  assert (Hjson : loads (lit_dq "['shop', 'orders']") =
                  Some (JArr [JStr (lit "shop"); JStr (lit "orders")]))
    by (vm_compute; reflexivity).
  pose proof (connect_lists_databases (net := two_databases) session _ _
                session_rows_distinct eq_refl eq_refl Hjson) as H.
  cbv zeta in H. destruct H as (_ & H1 & _ & H2 & _ & _ & H3 & _).
  rewrite H1, H2, H3. repeat split; vm_compute; reflexivity.
Defined.

(** X3 on the small server, which has no [_all_dbs]. *)
Lemma connect_failure_example :
  fst (connect session) = Ok tt /\
  CouchDBManager.tree (main (win (snd (connect session)))) =
    CouchDBManager.tree (main (win session)) /\
  connected (win (snd (connect session))) = false.
Proof.
  assert (Hfail : match serve (map fst (exchanges session)) (all_dbs_request (win session)) with
                  | Fails _ => True
                  | Responds resp =>
                      is_error_status (status_code resp) = true \/ loads (Py.text resp) = None
                  end) by (left; vm_compute; reflexivity).
  pose proof (connect_failure_keeps_list session Hfail) as H.
  cbv zeta in H. destruct H as (H0 & H1 & H2 & _).
  rewrite H0, H1, H2. repeat split; reflexivity.
Defined.

(** X4 on a server that answers [null]. *)
Lemma connect_null_example :
  rows (CouchDBManager.tree
          (main (win (snd (connect (net := answering 200 (lit "null")) session))))) = [] /\
  connected (win (snd (connect (net := answering 200 (lit "null")) session))) = false.
Proof.
  assert (Hjson : loads (lit "null") = Some JNull) by (vm_compute; reflexivity).
  pose proof (connect_clears_before_it_fails (net := answering 200 (lit "null")) session _ _
                session_rows_distinct eq_refl eq_refl Hjson eq_refl) as H.
  cbv zeta in H. destruct H as (_ & H1 & H2 & _).
  rewrite H1, H2. split; reflexivity.
Defined.

(** X5: connecting and disconnecting. *)
Lemma toggle_connection_example :
  connected (win (snd (toggle_connection (net := two_databases) session))) = true /\
  exchanges (snd (toggle_connection (net := two_databases)
                    (snd (toggle_connection (net := two_databases) session)))) =
    exchanges (snd (toggle_connection (net := two_databases) session)) /\
  rows (CouchDBManager.tree
          (main (win (snd (toggle_connection (net := two_databases)
                             (snd (toggle_connection (net := two_databases) session))))))) = [].
Proof.
  assert (Hjson : loads (lit_dq "['shop', 'orders']") =
                  Some (JArr [JStr (lit "shop"); JStr (lit "orders")]))
    by (vm_compute; reflexivity).
  pose proof (toggle_connection_twice (net := two_databases) session _ _ eq_refl
                session_rows_distinct eq_refl eq_refl Hjson) as H.
  cbv zeta in H. destruct H as (H1 & _ & H2 & _ & H3 & _).
  repeat split; assumption.
Defined.

(** X6 on the list of three databases. *)
Lemma disconnect_example :
  fst (disconnect session) = Ok tt /\
  rows (CouchDBManager.tree (main (win (snd (disconnect session))))) = [] /\
  url_var (main (win (snd (disconnect session)))) = lit "http://localhost:5984/".
Proof.
  pose proof (disconnect_resets session session_rows_distinct) as H.
  cbv zeta in H. destruct H as (H0 & _ & _ & H1 & _ & _ & _ & _ & H2 & _).
  rewrite H0, H1, H2. repeat split; reflexivity.
Defined.

(** X11: selecting document [a]. *)
Lemma show_doc_example :
  BrowseWindow.text (win (snd (show_doc editing))) = dumps_indent 2 doc_a /\
  current_doc (win (snd (show_doc editing))) = JStr (lit "a") /\
  loads (strip (text_get (win (snd (show_doc editing))))) = Some doc_a.
Proof.
  pose proof (show_doc_shows_cached_document editing 0 [] (JStr (lit "a")) [JStr (lit "1-x")]
                eq_refl eq_refl eq_refl) as H.
  cbv zeta in H. destruct H as (_ & H1 & H2 & _ & _ & _ & _ & H3).
  split; [exact H1|]. split; [exact H2|]. apply H3. vm_compute. reflexivity.
Defined.

(** X12: a new document [b] on the small server. *)
Lemma new_doc_example :
  map (fun x => (req_method (fst x), req_url (fst x), req_json (fst x)))
      (exchanges (snd (new_doc (Some (lit "b")) true editing))) =
    [(PUT, lit "http://localhost:5984/shop/b", Some (JObj [(lit "_id", JStr (lit "b"))]))].
Proof.
  pose proof (new_doc_puts_the_id editing true (chr "b") [] eq_refl) as H.
  cbv zeta in H. destruct H as [H _].
  change (chr "b" :: []) with (lit "b") in H.
  rewrite H. reflexivity.
Defined.


(** X15: document [a] deleted on the small server. *)
Lemma delete_doc_example :
  fst (delete_doc true editing) = Ok tt /\
  items (doc_tree (win (snd (delete_doc true editing)))) = [] /\
  docs (win (snd (delete_doc true editing))) = [] /\
  BrowseWindow.text (win (snd (delete_doc true editing))) = [] /\
  current_doc (win (snd (delete_doc true editing))) = JNull.
Proof.
  assert (Hreply : serve (map fst (exchanges editing))
                     (delete_doc_request (win editing) (JStr (lit "a")) (JStr (lit "1-x"))) =
                   Responds deleted) by (vm_compute; reflexivity).
  pose proof (delete_doc_removes_document editing 0 [] (JStr (lit "a")) (JStr (lit "1-x")) []
                deleted eq_refl eq_refl eq_refl Hreply eq_refl) as H.
  cbv zeta in H. destruct H as (H0 & _ & H1 & H2 & H3 & _).
  change (json_eqb (current_doc (win editing)) (JStr (lit "a"))) with true in H3.
  destruct H3 as [H3 H4].
  rewrite H0, H1, H2, H3, H4. repeat split; reflexivity.
Defined.

(** X16: the same without a server. *)
Lemma delete_doc_failure_example :
  fst (delete_doc (net := unreachable) true editing) = Ok tt /\
  doc_tree (win (snd (delete_doc (net := unreachable) true editing))) =
    doc_tree (win editing) /\
  docs (win (snd (delete_doc (net := unreachable) true editing))) = docs (win editing) /\
  BrowseWindow.status_var (win (snd (delete_doc (net := unreachable) true editing))) =
    lit "Failed to delete document: connection refused".
Proof.
  pose proof (delete_doc_failure_keeps_document (net := unreachable) editing 0 []
                (JStr (lit "a")) (JStr (lit "1-x")) []
                (TransportError (lit "connection refused")) eq_refl eq_refl eq_refl) as H.
  cbv zeta in H. destruct H as (H0 & H1 & H2 & _ & _ & H3 & _).
  rewrite H0, H1, H2, H3. repeat split; reflexivity.
Defined.

Lemma searching_rows_distinct : NoDup (get_children (doc_tree (win searching))).
Proof. repeat constructor. intros []. Qed.

(** X18: the search for [bolt] finds the document [Bolt]. *)
Lemma filter_docs_search_example :
  fst (filter_docs searching) = Ok tt /\
  rows (doc_tree (win (snd (filter_docs searching)))) =
    [[JStr (lit "Bolt"); JStr (lit "3-b")]] /\
  BrowseWindow.status_var (win (snd (filter_docs searching))) =
    lit "Found 1 matching documents".
Proof.
  pose proof (filter_docs_shows_matches searching searching_rows_distinct eq_refl) as H.
  cbv zeta in H. destruct H as (H0 & H1 & H2 & _).
  rewrite H0, H1, H2. repeat split; vm_compute; reflexivity.
Defined.



(** X21: a new document [b] on a server that accepts it. *)
Lemma new_doc_accepted_example :
  fst (new_doc (net := saved_b) (Some (lit "b")) true editing) = Ok tt /\
  rows (doc_tree (win (snd (new_doc (net := saved_b) (Some (lit "b")) true editing)))) =
    [[JStr (lit "a"); JStr (lit "1-x")]; [JStr (lit "b"); JStr (lit "1-z")]] /\
  current_doc (win (snd (new_doc (net := saved_b) (Some (lit "b")) true editing))) =
    JStr (lit "b").
Proof.
  assert (Hreply : loads (lit_dq "{'ok':true,'id':'b','rev':'1-z'}") =
                   Some (JObj [(lit "ok", JBool true); (lit "id", JStr (lit "b"));
                               (lit "rev", JStr (lit "1-z"))]))
    by (vm_compute; reflexivity).
  pose proof (new_doc_adds_row (net := saved_b) editing true (chr "b") [] _ _
                eq_refl eq_refl eq_refl Hreply eq_refl eq_refl) as H.
  cbv zeta in H. destruct H as (H0 & _ & H1 & _ & _ & H2 & _).
  change (chr "b" :: []) with (lit "b") in H0, H1, H2.
  rewrite H0, H1, H2. repeat split; reflexivity.
Defined.

(** X22 on the small server, which lists the index [bar]. *)
Lemma load_indexes_rows_example :
  fst (load_indexes editing) = Ok tt /\
  rows (idx_tree (win (snd (load_indexes editing)))) =
    [[JStr (lit "foo"); JStr (lit "bar"); JStr (lit "x:asc")]] /\
  BrowseWindow.status_var (win (snd (load_indexes editing))) = lit "Loaded 1 indexes".
Proof.
  assert (Hreply : serve (map fst (exchanges editing)) (indexes_request (win editing)) =
                   Responds {| status_code := 200; Py.text := index_list |})
    by (vm_compute; reflexivity).
  assert (Hjson : loads index_list =
                  Some (JObj [(lit "indexes",
                               JArr [JObj [(lit "ddoc", JStr (lit "_design/foo"));
                                           (lit "name", JStr (lit "bar"));
                                           (lit "def",
                                            JObj [(lit "fields",
                                                   JArr [JObj [(lit "x", JStr (lit "asc"))]])])]])]))
    by (vm_compute; reflexivity).
  pose proof (load_indexes_lists_every_index editing _ _ _ editing_indexes_distinct Hreply
                eq_refl Hjson eq_refl eq_refl) as H.
  cbv zeta in H. destruct H as (H0 & H1 & H2 & _).
  rewrite H0, H1, H2. repeat split; vm_compute; reflexivity.
Defined.

(** X23 without a server. *)
Lemma load_indexes_failure_example :
  fst (load_indexes (net := unreachable) editing) = Ok tt /\
  idx_tree (win (snd (load_indexes (net := unreachable) editing))) = idx_tree (win editing) /\
  BrowseWindow.status_var (win (snd (load_indexes (net := unreachable) editing))) =
    lit "Network error: connection refused...".
Proof.
  pose proof (load_indexes_failure_keeps_list (net := unreachable) editing
                (TransportError (lit "connection refused")) eq_refl) as H.
  cbv zeta in H. destruct H as (H0 & H1 & _ & _ & H2 & _).
  rewrite H0, H1, H2. repeat split; reflexivity.
Defined.

(** X25: an index on two fields of the database [users]. *)
Lemma create_index_example :
  map (fun x => (req_method (fst x), req_url (fst x), req_json (fst x), req_auth (fst x)))
      (exchanges (snd (create_index (lit "by_name") (lit "last, first") choosing))) =
    [(POST, lit "http://localhost:5984/users/_index",
      Some (JObj [(lit "index",
                   JObj [(lit "fields", JArr [JStr (lit "last"); JStr (lit "first")])]);
                  (lit "name", JStr (lit "by_name"))]),
      (lit "admin", lit "secret"))] /\
  CouchDBManager.status_var (win (snd (create_index (lit "by_name") (lit "last, first")
                                         choosing))) =
    lit "Created index 'by_name' in 'users'".
Proof.
  pose proof (create_index_posts_fields choosing 1 (lit "users") [] (chr "b") (chr "l")
                (lit "y_name") (lit "ast, first") eq_refl eq_refl) as H.
  cbv zeta in H. destruct H as (_ & H1 & _ & H2).
  change (chr "b" :: lit "y_name") with (lit "by_name") in H1, H2.
  change (chr "l" :: lit "ast, first") with (lit "last, first") in H1, H2.
  split.
  - rewrite H1. vm_compute. reflexivity.
  - assert (Hnone : request_failure
                      (serve (map fst (exchanges choosing))
                         {| req_method := POST;
                            req_url := rstrip_slash (url_var (win choosing)) ++ lit "/" ++
                                       lit "users" ++ lit "/_index";
                            req_json :=
                              Some (JObj [(lit "index",
                                           JObj [(lit "fields",
                                                  JArr (map (fun f => JStr (strip f))
                                                          (split (chr ",") (lit "last, first"))))]);
                                          (lit "name", JStr (lit "by_name"))]);
                            req_auth := (strip (user_var (win choosing)),
                                         strip (pass_var (win choosing))) |}) = None)
      by (vm_compute; reflexivity).
    rewrite Hnone in H2. destruct H2 as [_ H2]. rewrite H2. reflexivity.
Defined.

(** X26 on a server that answers 404 with the body of a CouchDB error. *)
Lemma load_docs_not_found_example :
  fst (load_docs (net := answering 404 (lit_dq "{'error':'not_found'}")) editing) = Ok tt /\
  rows (doc_tree (win (snd (load_docs (net := answering 404 (lit_dq "{'error':'not_found'}"))
                             editing)))) = [] /\
  BrowseWindow.status_var
    (win (snd (load_docs (net := answering 404 (lit_dq "{'error':'not_found'}")) editing))) =
    lit "Loaded 0 documents" /\
  shown (snd (load_docs (net := answering 404 (lit_dq "{'error':'not_found'}")) editing)) = [].
Proof.
  assert (Hjson : loads (lit_dq "{'error':'not_found'}") =
                  Some (JObj [(lit "error", JStr (lit "not_found"))]))
    by (vm_compute; reflexivity).
  pose proof (load_docs_ignores_status (net := answering 404 (lit_dq "{'error':'not_found'}"))
                editing _ _ editing_rows_distinct eq_refl Hjson eq_refl) as H.
  cbv zeta in H. destruct H as (H0 & H1 & _ & H2 & H3).
  rewrite H0, H1, H2, H3. repeat split; reflexivity.
Defined.
